(** * oledmanager: the PICASO serial display driver (core/oled.cpp, core/comport.cpp)

    A shallow embedding of the controller class [PGD] and of the serial
    port class [COMPORT] it owns.  C++ member functions become functions
    that take the object and the outside world and return the result
    together with the updated object and world.

    Conventions
    - a [char]/[uchar] is its 8-bit pattern, a [Z] in 0..255; [ushort]
      and [unsigned int] values are [Z] as well, the code's own masks
      ([& 0xff], [>> 8]) are written out;
    - a [const char *] is [option (list Z)]: [None] is the NULL pointer,
      [Some l] points at the bytes [l] (read up to the first 0 byte);
    - the operating system (the tty behind the file descriptor, the
      clock) is the record [World]; what the device answers is a script
      consumed by the read calls, each answer with the time select(2)
      waits for it;
    - the worker thread that Connect starts runs beside the caller:
      [Threads] interleaves the two, one statement at a time. *)

From Stdlib Require Import ZArith List Ascii String Bool Lia.
Import ListNotations.
Open Scope Z_scope.

(** ** Protocol constants *)

Definition ACK : Z := 6.      (* '\x06' *)
Definition NACK : Z := 21.    (* '\x15' *)
Definition LF : Z := 10.      (* '\x0a' *)

(** Character literals used as opcodes. *)
Definition ch (c : Ascii.ascii) : Z := Z.of_N (Ascii.N_of_ascii c).

(** ** Machine integers *)

Definition INT_MAX : Z := 2147483647.

(** The value an [int] expression is left with when it overflows: the
    result wrapped to 32 bits, two's complement, which is what the
    compilers the code is built with produce. *)
Definition wrap_int (z : Z) : Z := (z + 2147483648) mod 4294967296 - 2147483648.

(** ** Enumerations of oled.h *)

(** Modelled from the spec: the header oled.h is not part of the sources;
    the readiness state is one of Inactive, Idle, Busy. *)
Inductive LCDSTATE := LCD_INACTIVE | LCD_IDLE | LCD_BUSY.

(** Modelled from the spec: the deferred-command tag of oled.h, one of
    None, Sleep, TouchWait, TouchData.  [PG_OTHER] stands for any further
    enumerator the header may declare, so that the [default:] branches of
    the code stay reachable. *)
Inductive PGDCMD := PG_NONE | PG_SLEEP | PG_TOUCH_WAIT | PG_TOUCH_DATA | PG_OTHER (code : Z).

(** Modelled from the spec: the bit-rate codes of oled.h, for 9600, 57600,
    115200, 128000 and 256000 baud.  Their numeric values are a parameter
    of the development (see [Section Controller]). *)
Inductive DBAUD := DB_9600 | DB_57600 | DB_115200 | DB_128000 | DB_256000.

Definition LCDSTATE_eqb (a b : LCDSTATE) : bool :=
  match a, b with
  | LCD_INACTIVE, LCD_INACTIVE | LCD_IDLE, LCD_IDLE | LCD_BUSY, LCD_BUSY => true
  | _, _ => false
  end.

Definition DBAUD_eqb (a b : DBAUD) : bool :=
  match a, b with
  | DB_9600, DB_9600 | DB_57600, DB_57600 | DB_115200, DB_115200
  | DB_128000, DB_128000 | DB_256000, DB_256000 => true
  | _, _ => false
  end.

(** termios speed constants of <termios.h> (Linux values). *)
Definition B9600 : Z := 13.
Definition B57600 : Z := 4097.
Definition B115200 : Z := 4098.

(** ** The outside world *)

Record timeval := { tv_sec : Z; tv_usec : Z }.

(** What the descriptor delivers, in order.  [wait_us] is how long
    select(2) has to wait for the event once the one before it has been
    taken; a wait that times out first is taken off it.  An exhausted
    script is a line that stays silent. *)
Inductive RxEvent :=
| RxData (wait_us : N) (bs : list Z)     (* these bytes arrive *)
| RxFault (wait_us : N).                 (* select/read fails with a hard error *)

(** What the successive write(2) calls do; an exhausted script accepts
    everything it is handed. *)
Inductive WrEvent :=
| WrAccept (n : positive)   (* at most n bytes are taken *)
| WrZero                    (* write returns 0 *)
| WrFault.                  (* write returns -1 *)

(** Observable events, in the order they happen. *)
Inductive Event :=
| EvTx (bs : list Z)                     (* bytes accepted by one write(2) *)
| EvCloseFd                              (* close(fd) *)
| EvStore (addr : Z) (p0 p1 : Z)         (* the two ushort stored through curdata *)
| EvCallback (cb : Z) (cmd : PGDCMD) (ok : bool) (usr : Z)
             (st : LCDSTATE) (cur : PGDCMD).
  (* callback(this, cmd, ok, usr); st and cur are this->state and
     this->curcmd at the moment of the call *)

Record World := {
  now_us : Z;                 (* wall clock, microseconds *)
  rx : list RxEvent;
  wr : list WrEvent;
  tty_speed : Z;              (* speed the line is currently set to *)
  tty_speeds : list Z;        (* speeds the hardware supports *)
  trace : list Event
}.

Definition set_now (t : Z) (w : World) : World :=
  {| now_us := t; rx := rx w; wr := wr w; tty_speed := tty_speed w;
     tty_speeds := tty_speeds w; trace := trace w |}.
Definition set_rx (r : list RxEvent) (w : World) : World :=
  {| now_us := now_us w; rx := r; wr := wr w; tty_speed := tty_speed w;
     tty_speeds := tty_speeds w; trace := trace w |}.
Definition set_wr (r : list WrEvent) (w : World) : World :=
  {| now_us := now_us w; rx := rx w; wr := r; tty_speed := tty_speed w;
     tty_speeds := tty_speeds w; trace := trace w |}.
Definition set_tty_speed (v : Z) (w : World) : World :=
  {| now_us := now_us w; rx := rx w; wr := wr w; tty_speed := v;
     tty_speeds := tty_speeds w; trace := trace w |}.
Definition emit (e : Event) (w : World) : World :=
  {| now_us := now_us w; rx := rx w; wr := wr w; tty_speed := tty_speed w;
     tty_speeds := tty_speeds w; trace := trace w ++ [e] |}.

Definition gettimeofday (w : World) : timeval :=
  {| tv_sec := now_us w / 1000000; tv_usec := now_us w mod 1000000 |}.

Definition usleep (us : Z) (w : World) : World := set_now (now_us w + us) w.

(** The bytes put on the wire so far. *)
Fixpoint tx_bytes (l : list Event) : list Z :=
  match l with
  | [] => []
  | EvTx bs :: r => bs ++ tx_bytes r
  | _ :: r => tx_bytes r
  end.

Definition sent (w : World) : list Z := tx_bytes (trace w).

Definition is_tx (e : Event) : bool :=
  match e with EvTx _ => true | _ => false end.

Definition is_close (e : Event) : bool :=
  match e with EvCloseFd => true | _ => false end.

Definition is_callback (e : Event) : bool :=
  match e with EvCallback _ _ _ _ _ _ => true | _ => false end.

(** ** comport.cpp *)

Module COMPORT.

(** The members of the class the controller relies on.  The ring buffer
    is left out: it only serves reads with a delimiter, and the controller
    never passes one. *)
Record t := {
  fd : Z;                  (* -1 when closed *)
  errmsg : string;
  params_speed : Z;
  params_data : Z;
  params_parity : bool;
  params_odd : bool;
  params_stop : Z;
  hasterm : bool;
  oldterm : Z              (* line speed saved for Close *)
}.

Definition set_fd (v : Z) (p : t) : t :=
  {| fd := v; errmsg := errmsg p; params_speed := params_speed p;
     params_data := params_data p; params_parity := params_parity p;
     params_odd := params_odd p; params_stop := params_stop p;
     hasterm := hasterm p; oldterm := oldterm p |}.
Definition set_errmsg (v : string) (p : t) : t :=
  {| fd := fd p; errmsg := v; params_speed := params_speed p;
     params_data := params_data p; params_parity := params_parity p;
     params_odd := params_odd p; params_stop := params_stop p;
     hasterm := hasterm p; oldterm := oldterm p |}.
Definition set_speed (v : Z) (p : t) : t :=
  {| fd := fd p; errmsg := errmsg p; params_speed := v;
     params_data := params_data p; params_parity := params_parity p;
     params_odd := params_odd p; params_stop := params_stop p;
     hasterm := hasterm p; oldterm := oldterm p |}.
Definition set_term (h : bool) (o : Z) (p : t) : t :=
  {| fd := fd p; errmsg := errmsg p; params_speed := params_speed p;
     params_data := params_data p; params_parity := params_parity p;
     params_odd := params_odd p; params_stop := params_stop p;
     hasterm := h; oldterm := o |}.

(** COMPORT::COMPORT().  Modelled from the spec: the defaults of
    COMPARAMS are declared in comport.h only; the serial configuration is
    8N1 at the default. *)
Definition init : t :=
  {| fd := -1; errmsg := EmptyString; params_speed := B9600; params_data := 8;
     params_parity := false; params_odd := false; params_stop := 1;
     hasterm := false; oldterm := 0 |}.

(** Modelled from the spec: IsOpen() is declared in comport.h only; the
    channel is open when it holds a handle to an opened device. *)
Definition IsOpen (p : t) : bool := 0 <=? fd p.

(** COMPORT::Close *)
Definition Close (p : t) (w : World) : Z * t * World :=
  if fd p =? -1 then (-1, p, w)
  else
    (* tcsetattr(fd, TCSADRAIN, &oldterm); close(fd); *)
    let w := set_tty_speed (oldterm p) w in
    let w := emit EvCloseFd w in
    (0, set_term false (oldterm p) (set_fd (-1) p), w).

(** One write(2) on the descriptor: how many bytes were taken, or -1. *)
Definition sys_write (buf : list Z) (w : World) : Z * World :=
  match wr w with
  | [] => (Z.of_nat (List.length buf), emit (EvTx buf) w)
  | WrAccept n :: r =>
      let k := Nat.min (Pos.to_nat n) (List.length buf) in
      (Z.of_nat k, emit (EvTx (firstn k buf)) (set_wr r w))
  | WrZero :: r => (0, set_wr r w)
  | WrFault :: r => (-1, set_wr r w)
  end.

(** The loop
    [while ((rtx) && ((bsent = write(fd, &data[ntx], rtx)) > 0))]
    of COMPORT::Write; [buf] is [data[ntx..len)], the result is
    [(ntx, bsent)].  Every turn takes at least one byte, so [length buf]
    turns are enough. *)
Fixpoint write_loop (turns : nat) (buf : list Z) (ntx bsent : Z) (w : World)
  : Z * Z * World :=
  match turns with
  | O => (ntx, bsent, w)
  | S turns' =>
      match buf with
      | [] => (ntx, bsent, w)
      | _ =>
          let '(bsent', w') := sys_write buf w in
          if 0 <? bsent'
          then write_loop turns' (skipn (Z.to_nat bsent') buf) (ntx + bsent') bsent' w'
          else (ntx, bsent', w')
      end
  end.

(** COMPORT::Write(data, len); a non-NULL [data] holding at least [len]
    bytes. *)
Definition Write (p : t) (w : World) (data : list Z) (len : Z) : Z * t * World :=
  if len <=? 0 then (-1, set_errmsg "Write(): data length < 0" p, w)
  else if fd p =? -1 then (-1, set_errmsg "Write(): port not open" p, w)
  else
    let buf := firstn (Z.to_nat len) data in
    let '(ntx, bsent, w') := write_loop (List.length buf) buf 0 0 w in
    if bsent =? -1 then
      let p' := set_errmsg "Write(): write incomplete" p in
      if 0 <? ntx then (ntx, p', w') else (-1, p', w')
    else if negb (ntx =? len) then
      (ntx, set_errmsg "Write(): info: write incomplete" p, w')
    else (ntx, p, w').

(** The script after select has waited [us] microseconds in vain. *)
Definition rx_waited (us : Z) (r : list RxEvent) : list RxEvent :=
  match r with
  | [] => []
  | RxData dt bs :: r' => RxData (dt - Z.to_N us) bs :: r'
  | RxFault dt :: r' => RxFault (dt - Z.to_N us) :: r'
  end.

(** Whether an event [dt] microseconds away comes while
    [Select(timeout)] waits.  With [timeout == 0] COMPORT::Read does not
    call Select, and only what is there already can be read. *)
Definition in_window (dt : N) (timeout : Z) : bool :=
  if timeout =? 0 then (dt =? 0)%N else Z.of_N dt <? timeout * 1000.

(** [tov] of COMPORT::Read: the present time plus [timeout] milliseconds.
    With [timeout == 0] the source leaves [tov] uninitialised; it is the
    present time here, which ends the loop after one pass.  The controller
    always passes a positive timeout. *)
Definition Read_tov (now : timeval) (timeout : Z) : timeval :=
  let sec := if 1000 <=? timeout then tv_sec now + Z.quot timeout 1000 else tv_sec now in
  let usec := tv_usec now + Z.rem timeout 1000 * 1000 in
  if 1000000 <=? usec
  then {| tv_sec := sec + 1; tv_usec := Z.rem usec 1000000 |}
  else {| tv_sec := sec; tv_usec := usec |}.

(** The foot of the loop of COMPORT::Read:
    [if (now.tv_sec > tov.tv_sec) return idx;
     if ((now.tv_sec == tov.tv_sec) && (now.tv_usec >= tov.tv_usec)) return idx;
     timeout = (tov.tv_sec - now.tv_sec)*1000 + ((tov.tv_usec - now.tv_usec)/1000);
     } while (timeout);]
    [None] when the function returns, else the budget of the next pass. *)
Definition Read_budget (now tov : timeval) : option Z :=
  if tv_sec tov <? tv_sec now then None
  else if (tv_sec now =? tv_sec tov) && (tv_usec tov <=? tv_usec now) then None
  else
    let timeout := (tv_sec tov - tv_sec now) * 1000
                   + Z.quot (tv_usec tov - tv_usec now) 1000 in
    if timeout =? 0 then None else Some timeout.

(** The do-while loop of COMPORT::Read, without delimiter: select with
    the budget left, FIONREAD, read(2) of at most [len - idx] bytes, until
    [len] bytes are in [data] or the budget is spent.  [r] is what the
    descriptor still has to deliver; every pass that does not return takes
    a whole event off it.  The result is [idx] or -1, the bytes stored in
    the caller's buffer so far, and what is left of the script. *)
Fixpoint Read_loop (r : list RxEvent) (len timeout : Z) (tov : timeval)
         (data : list Z) (w : World) : Z * list Z * list RxEvent * World :=
  let idx := Z.of_nat (List.length data) in
  match r with
  | [] =>
      (* Select() == 0: timed out *)
      (idx, data, [], usleep (timeout * 1000) w)
  | RxFault dt :: r' =>
      if in_window dt timeout then (-1, data, r', usleep (Z.of_N dt) w)
      else (idx, data, rx_waited (timeout * 1000) r, usleep (timeout * 1000) w)
  | RxData dt bs :: r' =>
      if in_window dt timeout then
        let w := usleep (Z.of_N dt) w in
        (* if (nb > (len - idx)) nb = (len - idx); val = read(fd, &data[idx], nb); *)
        let nb := Nat.min (List.length bs) (Z.to_nat (len - idx)) in
        let data := data ++ firstn nb bs in
        match skipn nb bs with
        | [] =>
            if Z.of_nat (List.length data) =? len then (len, data, r', w)
            else
              match Read_budget (gettimeofday w) tov with
              | None => (Z.of_nat (List.length data), data, r', w)
              | Some timeout => Read_loop r' len timeout tov data w
              end
        | rest =>
            (* the buffer is full: idx == len; the rest stays queued *)
            (Z.of_nat (List.length data), data, RxData 0 rest :: r', w)
        end
      else (idx, data, rx_waited (timeout * 1000) r, usleep (timeout * 1000) w)
  end.

(** COMPORT::Read(data, len, timeout) without delimiter: the byte count
    or -1, with the bytes stored in [data]. *)
Definition Read (p : t) (w : World) (len timeout : Z) : Z * list Z * t * World :=
  if fd p =? -1 then (-1, [], set_errmsg "Read(): port not open" p, w)
  else if len <=? 0 then (-1, [], set_errmsg "Read(): invalid buffer length" p, w)
  else
    let timeout := if timeout <? 0 then 0 else timeout in
    let tov := Read_tov (gettimeofday w) timeout in
    let '(n, data, r, w') := Read_loop (rx w) len timeout tov [] w in
    (n, data, (if n =? -1 then set_errmsg "Read(): failed" p else p), set_rx r w').

(** COMPORT::Flush: tcdrain, tcflush(TCIFLUSH), bufclr.  The read script
    describes what arrives after the flush, so the world is unchanged. *)
Definition Flush (p : t) (w : World) : Z * t * World :=
  if fd p <? 0 then (-1, p, w) else (0, p, w).

(** COMPORT::SetBaud(speed). *)
Definition SetBaud (p : t) (w : World) (speed : Z) : Z * t * World :=
  (* tcgetattr(fd, &newterm); if (!hasterm) { oldterm = newterm; hasterm = true; } *)
  let p := if hasterm p then p else set_term true (tty_speed w) p in
  if negb ((params_data p =? 7) || (params_data p =? 8)) then
    (-1, set_errmsg "SetBaud(): unsupported # of data bits" p, w)
  else if fd p <? 0 then
    (* tcsetattr on a closed descriptor *)
    (-1, set_errmsg "SetBaud(): could not set comm parameters" p, w)
  else
    (* cfsetospeed/cfsetispeed, tcsetattr, then read the speed back *)
    let w := if existsb (Z.eqb speed) (tty_speeds w) then set_tty_speed speed w else w in
    let NEWSPEED := tty_speed w in
    let p := set_speed NEWSPEED p in
    if negb (NEWSPEED =? speed) then
      (-1, set_errmsg "SetBaud(): speed not supported by hardware" p, w)
    else (0, p, w).   (* tcflush(fd, TCIOFLUSH) *)

Definition GetError (p : t) : string := errmsg p.

(** COMPORT::Drain: tcdrain. *)
Definition Drain (p : t) (w : World) : Z * t * World :=
  if fd p <? 0 then (-1, p, w) else (0, p, w).

End COMPORT.

(** ** oled.cpp: the controller object *)

Module PGD.

Record t := {
  halt : bool;
  state : LCDSTATE;
  procloop : Z;            (* pthread_t of the worker thread, 0 when there is none *)
  errmsg : string;
  baud : DBAUD;
  portspeed : Z;
  curcmd : PGDCMD;
  curdata : option Z;      (* address of the caller's ushort[2], or NULL *)
  brcv : Z;
  datain : list Z;         (* char datain[4] *)
  callback : option Z;     (* function pointer, or NULL *)
  usrobj : Z;
  port : COMPORT.t
}.

Definition set_halt (v : bool) (s : t) : t :=
  {| halt := v; state := state s; procloop := procloop s; errmsg := errmsg s;
     baud := baud s;
     portspeed := portspeed s; curcmd := curcmd s; curdata := curdata s;
     brcv := brcv s; datain := datain s; callback := callback s;
     usrobj := usrobj s; port := port s |}.
Definition set_state (v : LCDSTATE) (s : t) : t :=
  {| halt := halt s; state := v; procloop := procloop s; errmsg := errmsg s;
     baud := baud s;
     portspeed := portspeed s; curcmd := curcmd s; curdata := curdata s;
     brcv := brcv s; datain := datain s; callback := callback s;
     usrobj := usrobj s; port := port s |}.
Definition set_errmsg (v : string) (s : t) : t :=
  {| halt := halt s; state := state s; procloop := procloop s; errmsg := v;
     baud := baud s;
     portspeed := portspeed s; curcmd := curcmd s; curdata := curdata s;
     brcv := brcv s; datain := datain s; callback := callback s;
     usrobj := usrobj s; port := port s |}.
Definition set_baud (b : DBAUD) (ps : Z) (s : t) : t :=
  {| halt := halt s; state := state s; procloop := procloop s; errmsg := errmsg s;
     baud := b;
     portspeed := ps; curcmd := curcmd s; curdata := curdata s;
     brcv := brcv s; datain := datain s; callback := callback s;
     usrobj := usrobj s; port := port s |}.
Definition set_curcmd (v : PGDCMD) (s : t) : t :=
  {| halt := halt s; state := state s; procloop := procloop s; errmsg := errmsg s;
     baud := baud s;
     portspeed := portspeed s; curcmd := v; curdata := curdata s;
     brcv := brcv s; datain := datain s; callback := callback s;
     usrobj := usrobj s; port := port s |}.
Definition set_curdata (v : option Z) (s : t) : t :=
  {| halt := halt s; state := state s; procloop := procloop s; errmsg := errmsg s;
     baud := baud s;
     portspeed := portspeed s; curcmd := curcmd s; curdata := v;
     brcv := brcv s; datain := datain s; callback := callback s;
     usrobj := usrobj s; port := port s |}.
Definition set_brcv (v : Z) (s : t) : t :=
  {| halt := halt s; state := state s; procloop := procloop s; errmsg := errmsg s;
     baud := baud s;
     portspeed := portspeed s; curcmd := curcmd s; curdata := curdata s;
     brcv := v; datain := datain s; callback := callback s;
     usrobj := usrobj s; port := port s |}.
Definition set_datain (v : list Z) (s : t) : t :=
  {| halt := halt s; state := state s; procloop := procloop s; errmsg := errmsg s;
     baud := baud s;
     portspeed := portspeed s; curcmd := curcmd s; curdata := curdata s;
     brcv := brcv s; datain := v; callback := callback s;
     usrobj := usrobj s; port := port s |}.
Definition set_callback (cb : option Z) (obj : Z) (s : t) : t :=
  {| halt := halt s; state := state s; procloop := procloop s; errmsg := errmsg s;
     baud := baud s;
     portspeed := portspeed s; curcmd := curcmd s; curdata := curdata s;
     brcv := brcv s; datain := datain s; callback := cb;
     usrobj := obj; port := port s |}.
Definition set_procloop (v : Z) (s : t) : t :=
  {| halt := halt s; state := state s; procloop := v; errmsg := errmsg s;
     baud := baud s;
     portspeed := portspeed s; curcmd := curcmd s; curdata := curdata s;
     brcv := brcv s; datain := datain s; callback := callback s;
     usrobj := usrobj s; port := port s |}.
Definition set_port (p : COMPORT.t) (s : t) : t :=
  {| halt := halt s; state := state s; procloop := procloop s; errmsg := errmsg s;
     baud := baud s;
     portspeed := portspeed s; curcmd := curcmd s; curdata := curdata s;
     brcv := brcv s; datain := datain s; callback := callback s;
     usrobj := usrobj s; port := p |}.

(** PGD::PGD() *)
Definition init : t :=
  {| halt := false; state := LCD_INACTIVE; procloop := 0; errmsg := EmptyString;
     baud := DB_9600;
     portspeed := B9600; curcmd := PG_NONE; curdata := None; brcv := 0;
     datain := [0; 0; 0; 0]; callback := None; usrobj := 0;
     port := COMPORT.init |}.

(** The macro ERRMSG: the message text, prefixed with the function name
    (the file and line prefix and the printf arguments are left out). *)
Definition ERRMSG (fn text : string) (s : t) : t :=
  set_errmsg (fn ++ "(): " ++ text)%string s.

(** [if (callback) callback(this, cmd, ok, usrobj);]  The handler is user
    code; its call is recorded together with what it can see through
    [this] at that moment. *)
Definition invoke_callback (s : t) (w : World) (cmd : PGDCMD) (ok : bool) : World :=
  match callback s with
  | Some cb => emit (EvCallback cb cmd ok (usrobj s) (state s) (curcmd s)) w
  | None => w
  end.

(** C strings and buffers. *)
Fixpoint cstr (l : list Z) : list Z :=
  match l with
  | [] => []
  | b :: r => if b =? 0 then [] else b :: cstr r
  end.

Definition strlen (l : list Z) : Z := Z.of_nat (List.length (cstr l)).

Definition chars (s : string) : list Z :=
  map (fun c => Z.of_N (Ascii.N_of_ascii c)) (list_ascii_of_string s).

(** [buf[i] = v] *)
Definition poke (i : Z) (v : Z) (buf : list Z) : list Z :=
  firstn (Z.to_nat i) buf ++ v :: skipn (S (Z.to_nat i)) buf.

(** the bytes [bs] stored at [&buf[off]] *)
Definition store_at (buf : list Z) (off : Z) (bs : list Z) : list Z :=
  firstn (Z.to_nat off) buf ++ bs ++ skipn (Z.to_nat off + List.length bs) buf.

(** PGD::SetCallback *)
Definition SetCallback (s : t) (cb : option Z) (obj : Z) : Z * t :=
  (* CHECK_BUSY *)
  if LCDSTATE_eqb (state s) LCD_BUSY then (-1, ERRMSG "SetCallback" "display busy" s)
  else (0, set_callback cb obj s).

(** *** Waiting for the acknowledgement *)

(** [tov = now] plus [timeout] milliseconds, as the wait routines compute it. *)
Definition deadline (now : timeval) (timeout : Z) : timeval :=
  let sec := if 1000 <=? timeout then tv_sec now + Z.quot timeout 1000 else tv_sec now in
  let usec := tv_usec now + Z.rem timeout 1000 * 1000 in
  if 1000000 <=? usec
  then {| tv_sec := sec + 1; tv_usec := Z.rem usec 1000000 |}
  else {| tv_sec := sec; tv_usec := usec |}.

(** The loop condition of waitACKNACK, as written:
    [(now.tv_sec < tov.tv_sec) || ((now.tv_sec == tov.tv_sec) && (now.tv_usec <= tov.tv_sec))]. *)
Definition before_deadline (now tov : timeval) : bool :=
  (tv_sec now <? tv_sec tov)
  || ((tv_sec now =? tv_sec tov) && (tv_usec now <=? tv_sec tov)).

(** [for (i = 0; i < nb; ++i) { if (msg[i] == '\x06') return 0; if (msg[i] == '\x15') return 1; }] *)
Fixpoint scan_acknack (msg : list Z) : option Z :=
  match msg with
  | [] => None
  | b :: r => if b =? ACK then Some 0 else if b =? NACK then Some 1 else scan_acknack r
  end.

(** The while loop of waitACKNACK; [None] when [turns] runs out. *)
Fixpoint waitACKNACK_loop (turns : nat) (tov now : timeval) (s : t) (w : World)
  : option (Z * t * World) :=
  match turns with
  | O => None
  | S turns' =>
      if before_deadline now tov then
        let '(nb, msg, p, w) := COMPORT.Read (port s) w 4 10 in
        let s := set_port p s in
        if nb =? -1 then
          Some (-1, ERRMSG "waitACKNACK" "failed (see message below)" s, w)
        else
          match scan_acknack msg with
          | Some r => Some (r, s, w)
          | None => waitACKNACK_loop turns' tov (gettimeofday w) s w
          end
      else Some (2, ERRMSG "waitACKNACK" "timeout" s, w)
  end.

(** A measure of the pending input: every read of at least one byte
    lowers it while the script lasts. *)
Fixpoint rx_size (l : list RxEvent) : nat :=
  match l with
  | [] => O
  | RxData _ bs :: r => S (List.length bs + rx_size r)
  | _ :: r => S (rx_size r)
  end.

(** Turns that are always enough: the pending input, then one 10 ms read
    per turn on a silent line until the second of [tov] is over. *)
Definition waitACKNACK_turns (tov : timeval) (w : World) : nat :=
  S (rx_size (rx w)
     + Z.to_nat (((tv_sec tov + 1) * 1000000 - now_us w + 9999) / 10000)).

(** PGD::waitACKNACK: -1 for comms fault, 0 for ACK, +1 for NACK, +2 for timeout *)
Definition waitACKNACK (timeout : Z) (s : t) (w : World) : Z * t * World :=
  let now := gettimeofday w in
  let tov := deadline now timeout in
  match waitACKNACK_loop (waitACKNACK_turns tov w) tov now s w with
  | Some r => r
  | None => (2, s, w)   (* not reached, see waitACKNACK_loop_total *)
  end.

(** *** The worker routine *)

(** [sp[0] = ((datain[0] << 8) & 0xff00) | (datain[1] & 0xff)] *)
Definition be16_of (hi lo : Z) : Z :=
  Z.lor (Z.land (Z.shiftl hi 8) 65280) (Z.land lo 255).

(** The common tail of the completion paths:
    [curcmd = PG_NONE; state = LCD_IDLE; if (callback) callback(this, cmd, ok, usrobj); return 0;] *)
Definition complete (s : t) (w : World) (cmd : PGDCMD) (ok : bool) : Z * t * World :=
  let s := set_curcmd PG_NONE s in
  let s := set_state LCD_IDLE s in
  (0, s, invoke_callback s w cmd ok).

(** PGD::Process, one iteration of the worker thread *)
Definition Process (s : t) (w : World) : Z * t * World :=
  if halt s then (-1, s, w)
  else if negb (LCDSTATE_eqb (state s) LCD_BUSY) then (0, s, usleep 100000 w)
  else
    let tmpcmd := curcmd s in
    match curcmd s with
    | PG_NONE =>
        let s := ERRMSG "Process" "unexpected case: cmd = PG_NONE while state = LCD_BUSY" s in
        let s := set_state LCD_IDLE s in
        (0, s, invoke_callback s w PG_NONE false)
    | PG_SLEEP | PG_TOUCH_WAIT =>
        let '(r, s, w) := waitACKNACK 200 s w in
        if r =? 0 then complete s w tmpcmd true
        else if r =? 1 then complete (set_errmsg "NACK" s) w tmpcmd false
        else if r =? -1 then complete s w tmpcmd false
        else if r =? 2 then (0, s, w)
        else
          complete
            (ERRMSG "Process" "unexpected return from waitACKNACK (only 0,1,2,-1 accepted)" s)
            w tmpcmd false
    | PG_TOUCH_DATA =>
        let '(nb, got, p, w) := COMPORT.Read (port s) w (4 - brcv s) 100 in
        let s := set_port p (set_datain (store_at (datain s) (brcv s) got) s) in
        if nb <? 0 then
          complete
            (ERRMSG "Process" "PG_TOUCH_DATA: communications fault, see message below" s)
            w tmpcmd false
        else if negb (nb =? 0) then
          let s := set_brcv (brcv s + nb) s in
          if brcv s =? 4 then
            match curdata s with
            | None => complete (ERRMSG "Process" "data pointer is NULL" s) w tmpcmd false
            | Some sp =>
                let d := datain s in
                let w := emit (EvStore sp (be16_of (nth 0 d 0) (nth 1 d 0))
                                          (be16_of (nth 2 d 0) (nth 3 d 0))) w in
                complete s w tmpcmd true
            end
          else (0, s, w)
        else (0, s, w)
    | PG_OTHER _ =>
        complete (ERRMSG "Process" "unsupported command" s) w PG_NONE false
    end.

(** *** Bit rate and teardown *)

Section Controller.

(** The numeric value of each bit-rate code (oled.h). *)
Variable DBAUD_code : DBAUD -> Z.

(** PGD::SetBaud (the POSIX branch of the switch) *)
Definition SetBaud (speed : DBAUD) (s : t) (w : World) : Z * t * World :=
  if LCDSTATE_eqb (state s) LCD_INACTIVE then (-1, ERRMSG "SetBaud" "display inactive" s, w)
  else if LCDSTATE_eqb (state s) LCD_BUSY then (-1, ERRMSG "SetBaud" "display busy" s, w)
  else if DBAUD_eqb speed (baud s) then (0, s, w)
  else
    match (match speed with
           | DB_9600 => Some B9600
           | DB_57600 => Some B57600
           | DB_115200 => Some B115200
           | DB_128000 | DB_256000 => None
           end) with
    | None => (-1, ERRMSG "SetBaud" "bitrate not supported in Linux" s, w)
    | Some tspeed =>
        let '(r, p, w) := COMPORT.SetBaud (port s) w tspeed in
        let s := set_port p s in
        if negb (r =? 0) then
          (-1, ERRMSG "SetBaud" "bitrate not supported on system/hardware (see below)" s, w)
        else
          let w := usleep 50 w in
          let '(r, p, w) := COMPORT.SetBaud (port s) w (portspeed s) in
          let s := set_port p s in
          if r <? 0 then (-1, ERRMSG "SetBaud" "cannot revert to original bitrate" s, w)
          else
            let w := usleep 50 w in
            let cmd := poke 1 (Z.land (DBAUD_code speed) 255) (chars "Q      " ++ [0]) in
            let '(_, p, w) := COMPORT.Flush (port s) w in
            let s := set_port p s in
            let '(res, p, w) := COMPORT.Write (port s) w cmd 2 in
            let s := set_port p s in
            if negb (res =? 2) then
              let s := ERRMSG "SetBaud" "failed to send SetBaud command (see below)" s in
              if 0 <? res then (-2, s, w) else (-1, s, w)
            else
              let '(a, s, w) := waitACKNACK 100 s w in
              if a =? 1 then (1, ERRMSG "SetBaud" "NACK on SetBaud() request" s, w)
              else
                let '(r, p, w) := COMPORT.SetBaud (port s) w tspeed in
                let s := set_port p s in
                if negb (r =? 0) then
                  (-2, ERRMSG "SetBaud"
                         "could not switch host bitrate after switching display bitrate" s, w)
                else (0, set_baud speed tspeed s, w)
    end.

(** PGD::Close as the calling thread runs it on its own: its statements
    in order, up to [if (procloop) pthread_join(procloop, NULL);], which
    does nothing when [procloop] is 0.  With a worker thread the
    statements interleave with the worker's and the join waits for it:
    see [Threads], where [Threads.Close_step] has these statements one
    by one. *)
Definition Close (s : t) (w : World) : t * World :=
  if negb (COMPORT.IsOpen (port s)) then (s, w)
  else
    let s := set_errmsg EmptyString s in
    let s := set_halt true s in
    let '(s, w) :=
      if LCDSTATE_eqb (state s) LCD_BUSY then
        let s := ERRMSG "Close" "port is closing" s in
        let tmpcmd := curcmd s in
        let s := set_curcmd PG_NONE s in
        let s := set_curdata None s in
        let s := set_state LCD_IDLE s in
        (s, invoke_callback s w tmpcmd false)
      else (s, w) in
    let '(s, w) :=
      if negb (LCDSTATE_eqb (state s) LCD_INACTIVE) then
        let '(_, s, w) := SetBaud DB_9600 s w in (s, w)
      else (s, w) in
    let '(_, p, w) := COMPORT.Close (port s) w in
    let s := set_port p s in
    let s := set_state LCD_INACTIVE s in
    (s, w).

End Controller.

(** *** Commands *)

(** PGD::convertRes; the [char] argument is its bit pattern. *)
Definition convertRes (rescode : Z) : Z :=
  if rescode =? 34 (* '\x22' *) then 220
  else if rescode =? 36 (* '\x24' *) then 240
  else if rescode =? 40 (* '\x28' *) then 128
  else if rescode =? 50 (* '\x32' *) then 320
  else if rescode =? 96 (* '\x60' *) then 160
  else if rescode =? 100 (* '\x64' *) then 64
  else if rescode =? 118 (* '\x76' *) then 176
  else if rescode =? 150 (* '\x96' *) then 96
  else 0.

(** PGD::Rectangle *)
Definition Rectangle (x1 y1 x2 y2 color : Z) (s : t) (w : World) : Z * t * World :=
  if LCDSTATE_eqb (state s) LCD_INACTIVE then (-1, ERRMSG "Rectangle" "display inactive" s, w)
  else if LCDSTATE_eqb (state s) LCD_BUSY then (-1, ERRMSG "Rectangle" "display busy" s, w)
  else
    (* char cmd[12]; cmd[0] .. cmd[10] are assigned *)
    let cmd :=
      [ ch "r"%char;
        Z.land (Z.shiftr x1 8) 255; Z.land x1 255;
        Z.land (Z.shiftr y1 8) 255; Z.land y1 255;
        Z.land (Z.shiftr x2 8) 255; Z.land x2 255;
        Z.land (Z.shiftr y2 8) 255; Z.land y2 255;
        Z.land (Z.shiftr color 8) 255; Z.land color 255;
        0 ] in
    let '(_, p, w) := COMPORT.Flush (port s) w in
    let s := set_port p s in
    let '(res, p, w) := COMPORT.Write (port s) w cmd 11 in
    let s := set_port p s in
    if negb (res =? 11) then
      let s := ERRMSG "Rectangle" "failed; see message below" s in
      if 0 <? res then (-2, s, w) else (-1, s, w)
    else waitACKNACK 100 s w.

(** PGD::SetVolume; [value] is a uchar. *)
Definition SetVolume (value : Z) (s : t) (w : World) : Z * t * World :=
  if LCDSTATE_eqb (state s) LCD_INACTIVE then (-1, ERRMSG "SetVolume" "display inactive" s, w)
  else if LCDSTATE_eqb (state s) LCD_BUSY then (-1, ERRMSG "SetVolume" "display busy" s, w)
  else
    if (value <? 0) || (255 <? value)
       || ((3 <? value) && (value <? 8))
       || ((127 <? value) && (value <? 253))
    then
      (-1, ERRMSG "SetVolume"
             "invalid value for Volume Control; valid values are 0..3, 8..127, 253..255" s, w)
    else
      let cmd := poke 1 value (chars "v      " ++ [0]) in
      let '(_, p, w) := COMPORT.Flush (port s) w in
      let s := set_port p s in
      let '(res, p, w) := COMPORT.Write (port s) w cmd 2 in
      let s := set_port p s in
      if negb (res =? 2) then
        let s := ERRMSG "SetVolume" "failed; see message below" s in
        if 0 <? res then (-2, s, w) else (-1, s, w)
      else waitACKNACK 100 s w.

(** PGD::Suspend; [options] and [duration] are uchar. *)
Definition Suspend (options duration : Z) (s : t) (w : World) : Z * t * World :=
  if LCDSTATE_eqb (state s) LCD_INACTIVE then (-1, ERRMSG "Suspend" "display inactive" s, w)
  else if LCDSTATE_eqb (state s) LCD_BUSY then (-1, ERRMSG "Suspend" "display busy" s, w)
  else
    if negb (Z.land options 16 =? 0) then
      (-1, ERRMSG "Suspend"
             "invalid value for Suspend (Sleep); bit 4 (0x10) must not be set" s, w)
    else if Z.land options 47 =? 34 then
      (* incompatible: Wake-Up on touch + Touch Off *)
      (-1, ERRMSG "Suspend" "Wake on Touch was specified with Touch OFF" s, w)
    else
      let cmd := poke 2 duration (poke 1 options (chars "Z      " ++ [0])) in
      let '(_, p, w) := COMPORT.Flush (port s) w in
      let s := set_port p s in
      let '(res, p, w) := COMPORT.Write (port s) w cmd 3 in
      let s := set_port p s in
      if negb (res =? 3) then
        let s := ERRMSG "Suspend" "failed; see message below" s in
        if 0 <? res then (-2, s, w) else (-1, s, w)
      else
        let '(a, s, w) := waitACKNACK 100 s w in
        if a =? 0 then (0, s, w)
        else if a =? 1 then (1, s, w)
        else if a =? 2 then
          if negb (Z.land options 15 =? 0)
          then (2, set_state LCD_BUSY (set_curdata None (set_curcmd PG_SLEEP s)), w)
          else (2, s, w)
        else (-1, s, w).

(** PGD::ShowString *)
Definition ShowString (col row font color : Z) (data : option (list Z))
           (s : t) (w : World) : Z * t * World :=
  if LCDSTATE_eqb (state s) LCD_INACTIVE then (-1, ERRMSG "ShowString" "display inactive" s, w)
  else if LCDSTATE_eqb (state s) LCD_BUSY then (-1, ERRMSG "ShowString" "display busy" s, w)
  else
    match data with
    | None => (-1, ERRMSG "ShowString" "invalid string pointer (NULL)" s, w)
    | Some data =>
        let dlen := strlen data in
        if dlen =? 0 then (0, s, w)   (* nothing to do *)
        else
          let dlen := if 256 <? dlen then 256 else dlen in
          let cmd :=
            [ ch "s"%char; col; row; font; Z.land (Z.shiftr color 8) 255; Z.land color 255 ]
            ++ firstn (Z.to_nat dlen) data ++ [0] in
          let dlen := dlen + 7 in
          let '(_, p, w) := COMPORT.Flush (port s) w in
          let s := set_port p s in
          let '(res, p, w) := COMPORT.Write (port s) w cmd dlen in
          let s := set_port p s in
          if negb (res =? dlen) then
            let s := ERRMSG "ShowString" "failed; see message below" s in
            if 0 <? res then (-2, s, w) else (-1, s, w)
          else waitACKNACK 400 s w
    end.

(** PGD::ScaleString *)
Definition ScaleString (x y font color width height : Z) (data : option (list Z))
           (s : t) (w : World) : Z * t * World :=
  if LCDSTATE_eqb (state s) LCD_INACTIVE then (-1, ERRMSG "ScaleString" "display inactive" s, w)
  else if LCDSTATE_eqb (state s) LCD_BUSY then (-1, ERRMSG "ScaleString" "display busy" s, w)
  else
    match data with
    | None => (-1, ERRMSG "ScaleString" "invalid string pointer (NULL)" s, w)
    | Some data =>
        let dlen := strlen data in
        if dlen =? 0 then (0, s, w)   (* nothing to do *)
        else
          let dlen := if 256 <? dlen then 256 else dlen in
          let cmd :=
            [ ch "S"%char;
              Z.land (Z.shiftr x 8) 255; Z.land x 255;
              Z.land (Z.shiftr y 8) 255; Z.land y 255;
              font;
              Z.land (Z.shiftr color 8) 255; Z.land color 255;
              width; height ]
            ++ firstn (Z.to_nat dlen) data ++ [0] in
          let dlen := dlen + 11 in
          let '(_, p, w) := COMPORT.Flush (port s) w in
          let s := set_port p s in
          let '(res, p, w) := COMPORT.Write (port s) w cmd dlen in
          let s := set_port p s in
          if negb (res =? dlen) then
            let s := ERRMSG "ScaleString" "failed; see message below" s in
            if 0 <? res then (-2, s, w) else (-1, s, w)
          else waitACKNACK 5000 s w
    end.

(** PGD::Button *)
Definition Button (pressed : bool) (x y bcolor font tcolor xmul ymul : Z)
           (text : option (list Z)) (s : t) (w : World) : Z * t * World :=
  if LCDSTATE_eqb (state s) LCD_INACTIVE then (-1, ERRMSG "Button" "display inactive" s, w)
  else if LCDSTATE_eqb (state s) LCD_BUSY then (-1, ERRMSG "Button" "display busy" s, w)
  else
    match text with
    | None => (-1, ERRMSG "Button" "invalid string pointer (NULL)" s, w)
    | Some text =>
        let dlen := strlen text in
        if dlen =? 0 then (0, s, w)   (* nothing to do *)
        else
          let dlen := if 256 <? dlen then 256 else dlen in
          let cmd :=
            [ ch "b"%char;
              (if pressed then 1 else 0);
              Z.land (Z.shiftr x 8) 255; Z.land x 255;
              Z.land (Z.shiftr y 8) 255; Z.land y 255;
              Z.land (Z.shiftr bcolor 8) 255; Z.land bcolor 255;
              font;
              Z.land (Z.shiftr tcolor 8) 255; Z.land tcolor 255;
              xmul; ymul ]
            ++ firstn (Z.to_nat dlen) text ++ [0] in
          let dlen := dlen + 14 in
          let '(_, p, w) := COMPORT.Flush (port s) w in
          let s := set_port p s in
          let '(res, p, w) := COMPORT.Write (port s) w cmd dlen in
          let s := set_port p s in
          if negb (res =? dlen) then
            let s := ERRMSG "Button" "failed; see message below" s in
            if 0 <? res then (-2, s, w) else (-1, s, w)
          else waitACKNACK 2000 s w
    end.

(** *** SD card, FAT files *)

(** The for loop of SDWriteFileFAT over the blocks [i .. nblk-1]; the
    first component is [Some r] when the loop body returned [r]. *)
Fixpoint write_blocks (todo : nat) (i nblk nresid : Z) (dp : list Z)
         (s : t) (w : World) : option Z * t * World :=
  match todo with
  | O => (None, s, w)
  | S todo' =>
      let bs := if (i =? nblk - 1) && negb (nresid =? 0) then nresid else 50 in
      let '(a, s, w) := waitACKNACK 1000 s w in
      if a =? 0 then
        let idx := i * 50 in
        let '(res, p, w) := COMPORT.Write (port s) w (skipn (Z.to_nat idx) dp) bs in
        let s := set_port p s in
        if negb (res =? bs) then
          (Some (-2), ERRMSG "SDWriteFileFAT" "failed; see message below" s, w)
        else write_blocks todo' (i + 1) nblk nresid dp s w
      else if a =? 1 then
        if i =? 0 then (Some 1, s, w)   (* NACK on the first packet *)
        else (Some (-2), ERRMSG "SDWriteFileFAT" "NACK after packet" s, w)
      else (Some (-1), ERRMSG "SDWriteFileFAT" "write problems after packet" s, w)
  end.

(** The command buffer SDWriteFileFAT fills in: [char cmd[24]] with
    cmd[0], cmd[1], the file name from cmd[3], the size after it, and
    cmd[2] last. *)
Definition SDWriteFileFAT_cmd (size : Z) (filename : list Z) (append : bool) : list Z :=
  let len := strlen filename in
  let cmd := repeat 0 24 in
  let cmd := poke 0 (ch "@"%char) cmd in
  let cmd := poke 1 (ch "t"%char) cmd in
  let cmd := store_at cmd 3 (cstr filename ++ [0]) in
  let cmd := poke (len + 4) (Z.land (Z.shiftr size 24) 255) cmd in
  let cmd := poke (len + 5) (Z.land (Z.shiftr size 16) 255) cmd in
  let cmd := poke (len + 6) (Z.land (Z.shiftr size 8) 255) cmd in
  let cmd := poke (len + 7) (Z.land size 255) cmd in
  let cmd := poke 2 (if size <=? 100 then 0 else 50) cmd in
  if append then poke 2 (Z.lor (nth 2 cmd 0) 128) cmd else cmd.

(** PGD::SDWriteFileFAT; [size] is an unsigned int. *)
Definition SDWriteFileFAT (data : option (list Z)) (size : Z)
           (filename : option (list Z)) (append : bool)
           (s : t) (w : World) : Z * t * World :=
  if LCDSTATE_eqb (state s) LCD_INACTIVE then
    (-1, ERRMSG "SDWriteFileFAT" "display inactive" s, w)
  else if LCDSTATE_eqb (state s) LCD_BUSY then
    (-1, ERRMSG "SDWriteFileFAT" "display busy" s, w)
  else
    match data, filename with
    | None, _ => (-1, ERRMSG "SDWriteFileFAT" "invalid data pointer (NULL)" s, w)
    | _, None => (-1, ERRMSG "SDWriteFileFAT" "invalid filename (NULL pointer)" s, w)
    | Some dp, Some filename =>
        let len := strlen filename in
        if (len <? 1) || (12 <? len) then
          (-1, ERRMSG "SDWriteFileFAT"
                 "invalid filename length; must be 1..12 characters" s, w)
        else
          (* the buffer is filled in and not used any further *)
          let cmd := SDWriteFileFAT_cmd size filename append in
          let '(_, p, w) := COMPORT.Flush (port s) w in
          let s := set_port p s in
          let nblk := if size <=? 100 then 1
                      else if Z.rem size 50 =? 0 then Z.quot size 50
                      else Z.quot size 50 + 1 in
          let nresid := if size <=? 100 then size else Z.rem size 50 in
          match write_blocks (Z.to_nat nblk) 0 nblk nresid dp s w with
          | (Some r, s, w) => (r, s, w)
          | (None, s, w) => waitACKNACK 1000 s w
          end
    end.

(** The for loop of SDListDirFAT over one buffer.  The first component is
    [Some r] when the body returned [r] ([dir->size()], or -1 from the
    branch that reports a NACK). *)
Fixpoint scan_dir (buf direntry : list Z) (dir : list (list Z))
  : option Z * list Z * list (list Z) :=
  match buf with
  | [] => (None, direntry, dir)
  | b :: buf' =>
      if (b =? LF) || (b =? ACK) || negb (b =? NACK) then
        let dir := match direntry with [] => dir | _ => dir ++ [direntry] end in
        let direntry := @nil Z in
        if b =? ACK then (Some (Z.of_nat (List.length dir)), direntry, dir)
        else if b =? NACK then (Some (-1), direntry, dir)
        else scan_dir buf' direntry dir
      else scan_dir buf' (direntry ++ [b]) dir
  end.

(** The loop [while ((nb = port.Read(buf, 512, 500)) > 0)] and the two
    error exits after it; [None] when [turns] runs out. *)
Fixpoint listdir_loop (turns : nat) (direntry : list Z) (dir : list (list Z))
         (s : t) (w : World) : option (Z * list (list Z) * t * World) :=
  match turns with
  | O => None
  | S turns' =>
      let '(nb, buf, p, w) := COMPORT.Read (port s) w 512 500 in
      let s := set_port p s in
      if 0 <? nb then
        match scan_dir buf direntry dir with
        | (Some r, _, dir) =>
            if r =? -1
            then Some (-1, dir, ERRMSG "SDListDirFAT" "failed after acquiring entries (NACK)" s, w)
            else Some (r, dir, s, w)
        | (None, direntry, dir) => listdir_loop turns' direntry dir s w
        end
      else if nb =? -1 then
        Some (-1, dir, ERRMSG "SDListDirFAT" "failed after acquiring entries; see message below" s, w)
      else
        Some (-1, dir, ERRMSG "SDListDirFAT" "TIMEOUT; no ACK or NACK detected" s, w)
  end.

(** PGD::SDListDirFAT; [dir] is the caller's list, the result carries its
    final content. *)
Definition SDListDirFAT (pattern : option (list Z)) (dir : list (list Z))
           (s : t) (w : World) : Z * list (list Z) * t * World :=
  if LCDSTATE_eqb (state s) LCD_INACTIVE then
    (-1, dir, ERRMSG "SDListDirFAT" "display inactive" s, w)
  else if LCDSTATE_eqb (state s) LCD_BUSY then
    (-1, dir, ERRMSG "SDListDirFAT" "display busy" s, w)
  else
    match pattern with
    | None => (-1, dir, ERRMSG "SDListDirFAT" "invalid filename (NULL pointer)" s, w)
    | Some pattern =>
        let len := strlen pattern in
        if (len <? 1) || (12 <? len) then
          (-1, dir, ERRMSG "SDListDirFAT"
                      "invalid filename length; must be 1..12 characters" s, w)
        else
          let cmd := [ ch "@"%char; ch "d"%char ] ++ cstr pattern ++ [0] in
          let len := len + 3 in
          let '(_, p, w) := COMPORT.Flush (port s) w in
          let s := set_port p s in
          let '(res, p, w) := COMPORT.Write (port s) w cmd len in
          let s := set_port p s in
          if negb (res =? len) then
            let s := ERRMSG "SDListDirFAT" "failed; see message below" s in
            if 0 <? res then (-2, dir, s, w) else (-1, dir, s, w)
          else
            (* dir->clear(); direntry.clear(); *)
            match listdir_loop (S (rx_size (rx w))) [] [] s w with
            | Some r => r
            | None => (-1, [], s, w)   (* not reached, see listdir_loop_total *)
            end
    end.

(** *** Waiting for one kind of answer *)

(** The loop condition of waitACK and waitNACK, as written:
    [(now.tv_sec < tov.tv_sec) || ((now.tv_sec == tov.tv_sec) && (now.tv_usec < tov.tv_sec))]. *)
Definition before_deadline_strict (now tov : timeval) : bool :=
  (tv_sec now <? tv_sec tov)
  || ((tv_sec now =? tv_sec tov) && (tv_usec now <? tv_sec tov)).

(** The while loop of waitACK, with
    [for (i = 0; i < nb; ++i) if (msg[i] == '\x06') return 0;];
    [None] when [turns] runs out. *)
Fixpoint waitACK_loop (turns : nat) (tov now : timeval) (s : t) (w : World)
  : option (Z * t * World) :=
  match turns with
  | O => None
  | S turns' =>
      if before_deadline_strict now tov then
        let '(nb, msg, p, w) := COMPORT.Read (port s) w 64 10 in
        let s := set_port p s in
        if nb =? -1 then
          Some (-1, ERRMSG "waitACK" "failed (see message below)" s, w)
        else if existsb (fun b => b =? ACK) msg then Some (0, s, w)
        else waitACK_loop turns' tov (gettimeofday w) s w
      else Some (2, ERRMSG "waitACK" "timeout" s, w)
  end.

(** PGD::waitACK: 0 for success, -1 for comms fault, +2 for timeout *)
Definition waitACK (timeout : Z) (s : t) (w : World) : Z * t * World :=
  let now := gettimeofday w in
  let timeout := if timeout <? 2 then 2 else timeout in
  let tov := deadline now timeout in
  match waitACK_loop (waitACKNACK_turns tov w) tov now s w with
  | Some r => r
  | None => (2, s, w)   (* not reached, see waitACK_loop_total *)
  end.

(** The while loop of waitNACK, with
    [for (i = 0; i < nb; ++i) if (msg[i] == '\x15') return 1;]. *)
Fixpoint waitNACK_loop (turns : nat) (tov now : timeval) (s : t) (w : World)
  : option (Z * t * World) :=
  match turns with
  | O => None
  | S turns' =>
      if before_deadline_strict now tov then
        let '(nb, msg, p, w) := COMPORT.Read (port s) w 64 10 in
        let s := set_port p s in
        if nb =? -1 then
          Some (-1, ERRMSG "waitNACK" "failed (see message below)" s, w)
        else if existsb (fun b => b =? NACK) msg then Some (1, s, w)
        else waitNACK_loop turns' tov (gettimeofday w) s w
      else Some (0, s, w)
  end.

(** PGD::waitNACK: 1 for NACK, -1 for comms fault, 0 for timeout *)
Definition waitNACK (timeout : Z) (s : t) (w : World) : Z * t * World :=
  let now := gettimeofday w in
  let timeout := if timeout <? 2 then 2 else timeout in
  let tov := deadline now timeout in
  match waitNACK_loop (waitACKNACK_turns tov w) tov now s w with
  | Some r => r
  | None => (0, s, w)   (* not reached, see waitNACK_loop_total *)
  end.

(** The loop [int i = 4; while (i--) { ... }] of autobaud; the argument
    is [i] at the loop test, the first component is [Some r] when the
    body returned [r], and [None] after a [break] or a failed test. *)
Fixpoint autobaud_loop (i : nat) (s : t) (w : World) : option Z * t * World :=
  match i with
  | O => (None, s, w)
  | S i' =>
      let '(_, p, w) := COMPORT.Flush (port s) w in
      let s := set_port p s in
      let '(res, p, w) := COMPORT.Write (port s) w (chars "U" ++ [0]) 1 in
      let s := set_port p s in
      let w := if res <? 0 then usleep 20 w else w in
      let '(a, s, w) := if 0 <=? res then waitACK 20 s w else (-1, s, w) in
      if (0 <=? res) && (a =? 0) then (None, s, w)   (* break *)
      else if Nat.eqb i' 0 then
        (Some (-1), ERRMSG "autobaud" "timed out, no ACK received" s, w)
      else autobaud_loop i' s w
  end.

(** PGD::autobaud *)
Definition autobaud (s : t) (w : World) : Z * t * World :=
  match autobaud_loop 4 s w with
  | (Some r, s, w) => (r, s, w)
  | (None, s, w) => (0, set_state LCD_IDLE (set_baud DB_9600 B9600 s), w)
  end.

(** *** The worker thread *)

(** procthread: [while (!pp->Process());]; [None] when [turns] runs out. *)
Fixpoint procthread (turns : nat) (s : t) (w : World) : option (t * World) :=
  match turns with
  | O => None
  | S turns' =>
      let '(r, s, w) := Process s w in
      if r =? 0 then procthread turns' s w else Some (s, w)
  end.

(** *** Version and control *)

(** struct PGDVER, as Version fills it in; [None] for DEV_UNKNOWN. *)
Record PGDVER := {
  display_type : option Z;
  hardware_rev : Z;
  firmware_rev : Z;
  hres : Z;
  vres : Z
}.

(** PGD::Version; [ver] is the caller's record, or NULL, and the result
    carries its final content. *)
Definition Version (ver : option PGDVER) (display : bool) (s : t) (w : World)
  : Z * option PGDVER * t * World :=
  if LCDSTATE_eqb (state s) LCD_INACTIVE then
    (-1, ver, ERRMSG "Version" "display inactive" s, w)
  else if LCDSTATE_eqb (state s) LCD_BUSY then
    (-1, ver, ERRMSG "Version" "display busy" s, w)
  else
    let '(_, p, w) := COMPORT.Flush (port s) w in
    let s := set_port p s in
    let '(res, p, w) :=
      if display then COMPORT.Write (port s) w [ch "V"%char; 1; 0] 2
      else COMPORT.Write (port s) w [ch "V"%char; 0; 0] 2 in
    let s := set_port p s in
    if negb (res =? 2) then
      let s := ERRMSG "Version" "could not query version (see message below)" s in
      if 0 <? res then (-2, ver, s, w) else (-1, ver, s, w)
    else
      let '(res, msg, p, w) :=
        if display then COMPORT.Read (port s) w 5 500
        else COMPORT.Read (port s) w 5 50 in
      let s := set_port p s in
      if res <? 0 then (-1, ver, ERRMSG "Version" "no response" s, w)
      else if negb (res =? 5) then
        (-1, ver, ERRMSG "Version" "incomplete response packet (5 expected)" s, w)
      else
        (* char msg[8] *)
        let msg := store_at (repeat 0 8) 0 msg in
        match ver with
        | Some _ =>
            let m0 := nth 0 msg 0 in
            (0,
             Some {| display_type :=
                       if (m0 =? 0) || (m0 =? 1) || (m0 =? 2) then Some m0 else None;
                     hardware_rev := Z.land (nth 1 msg 0) 255;
                     firmware_rev := Z.land (nth 2 msg 0) 255;
                     hres := convertRes (nth 3 msg 0);
                     vres := convertRes (nth 4 msg 0) |},
             s, w)
        | None => (0, None, s, w)
        end.


(** *** Graphics *)

(** PGD::AddBitmap; [group] and [index] are uchar, [data] is not NULL
    and holds at least [datalen] bytes.  The switch yields the text of
    the refusal, if any. *)
Definition AddBitmap (group index : Z) (data : list Z) (datalen : Z)
           (s : t) (w : World) : Z * t * World :=
  if LCDSTATE_eqb (state s) LCD_INACTIVE then (-1, ERRMSG "AddBitmap" "display inactive" s, w)
  else if LCDSTATE_eqb (state s) LCD_BUSY then (-1, ERRMSG "AddBitmap" "display busy" s, w)
  else
    let refusal : option string :=
      if group =? 0 then
        if negb (datalen =? 8)
        then Some "invalid data length for group 0, length must be 8"%string
        else if (index <? 0) || (63 <? index)
        then Some "invalid index for group 0, index must be 0..63"%string
        else None
      else if group =? 1 then
        if negb (datalen =? 32)
        then Some "invalid data length for group 1, length must be 32"%string
        else if (index <? 0) || (15 <? index)
        then Some "invalid index for group 1, index must be 0..15"%string
        else None
      else if group =? 2 then
        if negb (datalen =? 128)
        then Some "invalid data length for group 2, length must be 128"%string
        else if (index <? 0) || (7 <? index)
        then Some "invalid index for group 2, index must be 0..7"%string
        else None
      else Some "invalid group; valid values are 0..2"%string in
    match refusal with
    | Some text => (-1, ERRMSG "AddBitmap" text s, w)
    | None =>
        (* char cmd[160]; memcpy(&cmd[3], data, datalen); *)
        let cmd := poke 2 index (poke 1 group (poke 0 (ch "A"%char) (repeat 0 160))) in
        let cmd := store_at cmd 3 (firstn (Z.to_nat datalen) data) in
        let datalen := datalen + 3 in
        let '(_, p, w) := COMPORT.Flush (port s) w in
        let s := set_port p s in
        let '(wr, p, w) := COMPORT.Write (port s) w cmd datalen in
        let s := set_port p s in
        if negb (wr =? datalen) then
          let s := ERRMSG "AddBitmap" "failed; see message below" s in
          if 0 <? wr then (-2, s, w) else (-1, s, w)
        else
          let '(_, p, w) := COMPORT.Drain (port s) w in
          let s := set_port p s in
          waitACKNACK 200 s w
    end.

(** PGD::DrawBitmap *)
Definition DrawBitmap (group index x y color : Z) (s : t) (w : World) : Z * t * World :=
  if LCDSTATE_eqb (state s) LCD_INACTIVE then (-1, ERRMSG "DrawBitmap" "display inactive" s, w)
  else if LCDSTATE_eqb (state s) LCD_BUSY then (-1, ERRMSG "DrawBitmap" "display busy" s, w)
  else
    let refusal : option string :=
      if group =? 0 then
        if (index <? 0) || (63 <? index)
        then Some "invalid index for group 0, index must be 0..63"%string
        else None
      else if group =? 1 then
        if (index <? 0) || (15 <? index)
        then Some "invalid index for group 1, index must be 0..15"%string
        else None
      else if group =? 2 then
        if (index <? 0) || (7 <? index)
        then Some "invalid index for group 2, index must be 0..7"%string
        else None
      else Some "invalid group; valid values are 0..2"%string in
    match refusal with
    | Some text => (-1, ERRMSG "DrawBitmap" text s, w)
    | None =>
        (* char cmd[10]; cmd[0] .. cmd[8] are assigned *)
        let cmd :=
          [ ch "D"%char; group; index;
            Z.land (Z.shiftr x 8) 255; Z.land x 255;
            Z.land (Z.shiftr y 8) 255; Z.land y 255;
            Z.land (Z.shiftr color 8) 255; Z.land color 255;
            0 ] in
        let '(_, p, w) := COMPORT.Flush (port s) w in
        let s := set_port p s in
        let '(res, p, w) := COMPORT.Write (port s) w cmd 9 in
        let s := set_port p s in
        if negb (res =? 9) then
          let s := ERRMSG "DrawBitmap" "failed; see message below" s in
          if 0 <? res then (-2, s, w) else (-1, s, w)
        else waitACKNACK 100 s w
    end.

(** The for loop of Polygon over the vertices [i ..]; the result is
    [(idx, cmd)]. *)
Fixpoint Polygon_loop (todo : nat) (i idx : Z) (xp yp cmd : list Z) : Z * list Z :=
  match todo with
  | O => (idx, cmd)
  | S todo' =>
      let val := nth (Z.to_nat i) xp 0 in
      let cmd := poke (idx + 1) (Z.land (Z.shiftr val 8) 255) cmd in
      let cmd := poke (idx + 2) (Z.land val 255) cmd in
      let val := nth (Z.to_nat i) yp 0 in
      let cmd := poke (idx + 3) (Z.land (Z.shiftr val 8) 255) cmd in
      let cmd := poke (idx + 4) (Z.land val 255) cmd in
      Polygon_loop todo' (i + 1) (idx + 4) xp yp cmd
  end.

(** PGD::Polygon; [vertices] is a uchar, [xp] and [yp] hold at least
    [vertices] ushort each when they are not NULL. *)
Definition Polygon (vertices : Z) (xp yp : option (list Z)) (color : Z)
           (s : t) (w : World) : Z * t * World :=
  if LCDSTATE_eqb (state s) LCD_INACTIVE then (-1, ERRMSG "Polygon" "display inactive" s, w)
  else if LCDSTATE_eqb (state s) LCD_BUSY then (-1, ERRMSG "Polygon" "display busy" s, w)
  else if (vertices <? 3) || (7 <? vertices) then
    (-1, ERRMSG "Polygon" "invalid number of vertices; valid range is 3..7" s, w)
  else
    match xp, yp with
    | Some xp, Some yp =>
        (* char cmd[32] *)
        let cmd := poke 1 vertices (poke 0 (ch "g"%char) (repeat 0 32)) in
        let '(idx, cmd) := Polygon_loop (Z.to_nat vertices) 0 1 xp yp cmd in
        let cmd := poke (idx + 1) (Z.land (Z.shiftr color 8) 255) cmd in
        let cmd := poke (idx + 2) (Z.land color 255) cmd in
        let idx := idx + 3 in
        let '(_, p, w) := COMPORT.Flush (port s) w in
        let s := set_port p s in
        let '(res, p, w) := COMPORT.Write (port s) w cmd idx in
        let s := set_port p s in
        if negb (res =? idx) then
          let s := ERRMSG "Polygon" "failed; see message below" s in
          if 0 <? res then (-2, s, w) else (-1, s, w)
        else waitACKNACK 100 s w
    | _, _ => (-1, ERRMSG "Polygon" "invalid vertex list (NULL pointer)" s, w)
    end.

(** PGD::WritePixel *)
Definition WritePixel (x y color : Z) (s : t) (w : World) : Z * t * World :=
  if LCDSTATE_eqb (state s) LCD_INACTIVE then (-1, ERRMSG "WritePixel" "display inactive" s, w)
  else if LCDSTATE_eqb (state s) LCD_BUSY then (-1, ERRMSG "WritePixel" "display busy" s, w)
  else
    (* char cmd[8]; cmd[0] .. cmd[6] are assigned *)
    let cmd :=
      [ ch "P"%char;
        Z.land (Z.shiftr x 8) 255; Z.land x 255;
        Z.land (Z.shiftr y 8) 255; Z.land y 255;
        Z.land (Z.shiftr color 8) 255; Z.land color 255;
        0 ] in
    let '(_, p, w) := COMPORT.Flush (port s) w in
    let s := set_port p s in
    let '(res, p, w) := COMPORT.Write (port s) w cmd 7 in
    let s := set_port p s in
    if negb (res =? 7) then
      let s := ERRMSG "WritePixel" "failed; see message below" s in
      if 0 <? res then (-2, s, w) else (-1, s, w)
    else waitACKNACK 200 s w.

(** PGD::ReadPixel; [color] is not NULL, and the second component of
    the result is the value stored through it, if any. *)
Definition ReadPixel (x y : Z) (s : t) (w : World) : Z * option Z * t * World :=
  if LCDSTATE_eqb (state s) LCD_INACTIVE then
    (-1, None, ERRMSG "ReadPixel" "display inactive" s, w)
  else if LCDSTATE_eqb (state s) LCD_BUSY then
    (-1, None, ERRMSG "ReadPixel" "display busy" s, w)
  else
    (* char cmd[6]; cmd[0] .. cmd[4] are assigned *)
    let cmd :=
      [ ch "R"%char;
        Z.land (Z.shiftr x 8) 255; Z.land x 255;
        Z.land (Z.shiftr y 8) 255; Z.land y 255;
        0 ] in
    let '(_, p, w) := COMPORT.Flush (port s) w in
    let s := set_port p s in
    let '(res, p, w) := COMPORT.Write (port s) w cmd 5 in
    let s := set_port p s in
    if negb (res =? 5) then
      let s := ERRMSG "ReadPixel" "failed; see message below" s in
      if 0 <? res then (-2, None, s, w) else (-1, None, s, w)
    else
      let '(res, got, p, w) := COMPORT.Read (port s) w 2 200 in
      let s := set_port p s in
      let cmd := store_at cmd 0 got in
      if res <? 0 then (-1, None, ERRMSG "ReadPixel" "no response" s, w)
      else if negb (res =? 2) then
        (-1, None, ERRMSG "ReadPixel" "incomplete response packet" s, w)
      else
        (0,
         Some (Z.lor (Z.land (nth 1 cmd 0) 255) (Z.shiftl (Z.land (nth 0 cmd 0) 255) 8)),
         s, w).

(** *** Touch pad *)

(** PGD::GetTouch; [mode] is a uchar, [points] the address of the
    caller's ushort[2].  The direct answer is stored through [points],
    which the code does not test. *)
Definition GetTouch (mode : Z) (points : option Z) (s : t) (w : World) : Z * t * World :=
  if LCDSTATE_eqb (state s) LCD_INACTIVE then (-1, ERRMSG "GetTouch" "display inactive" s, w)
  else if LCDSTATE_eqb (state s) LCD_BUSY then (-1, ERRMSG "GetTouch" "display busy" s, w)
  else
    let cmd := poke 1 mode (chars "o   " ++ [0]) in
    let '(_, p, w) := COMPORT.Flush (port s) w in
    let s := set_port p s in
    let '(res, p, w) := COMPORT.Write (port s) w cmd 2 in
    let s := set_port p s in
    if negb (res =? 2) then
      let s := ERRMSG "GetTouch" "failed; see message below" s in
      if 0 <? res then (-2, s, w) else (-1, s, w)
    else if mode <=? 3 then
      (2, set_state LCD_BUSY (set_brcv 0 (set_curdata points (set_curcmd PG_TOUCH_DATA s))), w)
    else
      let '(res, got, p, w) := COMPORT.Read (port s) w 4 100 in
      let s := set_port p s in
      let cmd := store_at cmd 0 got in
      if res <? 0 then (-1, ERRMSG "GetTouch" "no response" s, w)
      else if negb (res =? 4) then
        (-1, ERRMSG "GetTouch" "incomplete response packet (4 expected)" s, w)
      else
        match points with
        | Some sp =>
            (0, s, emit (EvStore sp (be16_of (nth 0 cmd 0) (nth 1 cmd 0))
                                    (be16_of (nth 2 cmd 0) (nth 3 cmd 0))) w)
        | None => (0, s, w)   (* a store through NULL: not defined by the language *)
        end.

(** PGD::WaitTouch; [timeout] is a ushort. *)
Definition WaitTouch (timeout : Z) (s : t) (w : World) : Z * t * World :=
  if LCDSTATE_eqb (state s) LCD_INACTIVE then (-1, ERRMSG "WaitTouch" "display inactive" s, w)
  else if LCDSTATE_eqb (state s) LCD_BUSY then (-1, ERRMSG "WaitTouch" "display busy" s, w)
  else
    let cmd :=
      poke 2 (Z.land timeout 255)
           (poke 1 (Z.land (Z.shiftr timeout 8) 255) (chars "w  " ++ [0])) in
    let '(_, p, w) := COMPORT.Flush (port s) w in
    let s := set_port p s in
    let '(res, p, w) := COMPORT.Write (port s) w cmd 3 in
    let s := set_port p s in
    if negb (res =? 3) then
      let s := ERRMSG "WaitTouch" "failed; see message below" s in
      if 0 <? res then (-2, s, w) else (-1, s, w)
    else
      let '(a, s, w) := waitACKNACK 0 s w in
      if a =? 0 then (0, s, w)
      else if a =? 1 then (1, s, w)
      else if a =? 2 then
        (2, set_state LCD_BUSY (set_curdata None (set_curcmd PG_TOUCH_WAIT s)), w)
      else (-1, s, w).

(** *** SD card, raw access *)

(** PGD::SDReadSectRaw; [sectaddr] is an unsigned int, [data] is not
    NULL.  The result is what port.Read returns, with the bytes stored
    in [data]. *)
Definition SDReadSectRaw (sectaddr datalen : Z) (s : t) (w : World)
  : Z * list Z * t * World :=
  if LCDSTATE_eqb (state s) LCD_INACTIVE then
    (-1, [], ERRMSG "SDReadSectRaw" "display inactive" s, w)
  else if LCDSTATE_eqb (state s) LCD_BUSY then
    (-1, [], ERRMSG "SDReadSectRaw" "display busy" s, w)
  else if datalen <? 512 then
    (-1, [], ERRMSG "SDReadSectRaw" "datalen must be at least 512" s, w)
  else if 0x00ffffff <? sectaddr then
    (-1, [], ERRMSG "SDReadSectRaw" "invalid sector address, must be <= 0x00ffffff" s, w)
  else
    let cmd := chars "@R   " ++ [0] in
    let cmd := poke 2 (Z.land (Z.shiftr sectaddr 16) 255) cmd in
    let cmd := poke 3 (Z.land (Z.shiftr sectaddr 8) 255) cmd in
    let cmd := poke 4 (Z.land sectaddr 255) cmd in
    let '(_, p, w) := COMPORT.Flush (port s) w in
    let s := set_port p s in
    let '(res, p, w) := COMPORT.Write (port s) w cmd 5 in
    let s := set_port p s in
    if negb (res =? 5) then
      let s := ERRMSG "SDReadSectRaw" "failed; see message below" s in
      if 0 <? res then (-2, [], s, w) else (-1, [], s, w)
    else
      let '(nb, got, p, w) := COMPORT.Read (port s) w 512 500 in
      (nb, got, set_port p s, w).

(** PGD::SDWriteSectRaw; [data] is not NULL and holds at least 512
    bytes. *)
Definition SDWriteSectRaw (sectaddr : Z) (data : list Z) (datalen : Z)
           (s : t) (w : World) : Z * t * World :=
  if LCDSTATE_eqb (state s) LCD_INACTIVE then
    (-1, ERRMSG "SDWriteSectRaw" "display inactive" s, w)
  else if LCDSTATE_eqb (state s) LCD_BUSY then
    (-1, ERRMSG "SDWriteSectRaw" "display busy" s, w)
  else if 0x00ffffff <? sectaddr then
    (-1, ERRMSG "SDWriteSectRaw" "invalid sector address, must be <= 0x00ffffff" s, w)
  else
    (* char cmd[520] *)
    let cmd := poke 1 (ch "W"%char) (poke 0 (ch "@"%char) (repeat 0 520)) in
    let cmd := poke 2 (Z.land (Z.shiftr sectaddr 16) 255) cmd in
    let cmd := poke 3 (Z.land (Z.shiftr sectaddr 8) 255) cmd in
    let cmd := poke 4 (Z.land sectaddr 255) cmd in
    let cmd := store_at cmd 5 (firstn 512 data) in
    if negb (datalen =? 512) then
      (-1, ERRMSG "SDWriteSectRaw" "datalen must be 512" s, w)
    else
      let '(_, p, w) := COMPORT.Flush (port s) w in
      let s := set_port p s in
      let '(res, p, w) := COMPORT.Write (port s) w cmd 517 in
      let s := set_port p s in
      if negb (res =? 517) then
        let s := ERRMSG "SDWriteSectRaw" "failed; see message below" s in
        if 0 <? res then (-2, s, w) else (-1, s, w)
      else waitACKNACK 200 s w.

(** PGD::SDRunScriptRaw; [byteaddr] is an unsigned int. *)
Definition SDRunScriptRaw (byteaddr : Z) (s : t) (w : World) : Z * t * World :=
  if LCDSTATE_eqb (state s) LCD_INACTIVE then
    (-1, ERRMSG "SDRunScriptRaw" "display inactive" s, w)
  else if LCDSTATE_eqb (state s) LCD_BUSY then
    (-1, ERRMSG "SDRunScriptRaw" "display busy" s, w)
  else
    let cmd := chars "@P   " ++ [0] in
    let cmd := poke 2 (Z.land (Z.shiftr byteaddr 24) 255) cmd in
    let cmd := poke 3 (Z.land (Z.shiftr byteaddr 16) 255) cmd in
    let cmd := poke 4 (Z.land (Z.shiftr byteaddr 8) 255) cmd in
    let cmd := poke 5 (Z.land byteaddr 255) cmd in
    let '(_, p, w) := COMPORT.Flush (port s) w in
    let s := set_port p s in
    let '(res, p, w) := COMPORT.Write (port s) w cmd 6 in
    let s := set_port p s in
    if negb (res =? 6) then
      let s := ERRMSG "SDRunScriptRaw" "failed; see message below" s in
      if 0 <? res then (-2, s, w) else (-1, s, w)
    else waitNACK 200 s w.

(** *** SD card, further FAT commands *)

(** PGD::SDEraseFileFAT *)
Definition SDEraseFileFAT (filename : option (list Z)) (s : t) (w : World)
  : Z * t * World :=
  if LCDSTATE_eqb (state s) LCD_INACTIVE then
    (-1, ERRMSG "SDEraseFileFAT" "display inactive" s, w)
  else if LCDSTATE_eqb (state s) LCD_BUSY then
    (-1, ERRMSG "SDEraseFileFAT" "display busy" s, w)
  else
    match filename with
    | None => (-1, ERRMSG "SDEraseFileFAT" "invalid filename (NULL pointer)" s, w)
    | Some filename =>
        let len := strlen filename in
        if (len <? 1) || (12 <? len) then
          (-1, ERRMSG "SDEraseFileFAT"
                 "invalid filename length; must be 1..12 characters" s, w)
        else
          (* char cmd[20]; snprintf(&cmd[2], 13, "%s", filename); *)
          let cmd := poke 1 (ch "e"%char) (poke 0 (ch "@"%char) (repeat 0 20)) in
          let cmd := store_at cmd 2 (cstr filename ++ [0]) in
          let len := len + 3 in
          let '(_, p, w) := COMPORT.Flush (port s) w in
          let s := set_port p s in
          let '(res, p, w) := COMPORT.Write (port s) w cmd len in
          let s := set_port p s in
          if negb (res =? len) then
            let s := ERRMSG "SDEraseFileFAT" "failed; see message below" s in
            if 0 <? res then (-2, s, w) else (-1, s, w)
          else waitACKNACK 200 s w
    end.

(** PGD::SDShowImageFAT; [imgaddr] is an unsigned int. *)
Definition SDShowImageFAT (filename : option (list Z)) (x y imgaddr : Z)
           (s : t) (w : World) : Z * t * World :=
  if LCDSTATE_eqb (state s) LCD_INACTIVE then
    (-1, ERRMSG "SDShowImageFAT" "display inactive" s, w)
  else if LCDSTATE_eqb (state s) LCD_BUSY then
    (-1, ERRMSG "SDShowImageFAT" "display busy" s, w)
  else if 0x00ffffff <? imgaddr then
    (-1, ERRMSG "SDShowImageFAT"
           "invalid image sector address, must be <= 0x00ffffff" s, w)
  else
    match filename with
    | None => (-1, ERRMSG "SDShowImageFAT" "invalid filename (NULL pointer)" s, w)
    | Some filename =>
        let len := strlen filename in
        if (len <? 1) || (12 <? len) then
          (-1, ERRMSG "SDShowImageFAT"
                 "invalid filename length; must be 1..12 characters" s, w)
        else
          (* char cmd[24]; snprintf(&cmd[2], 13, "%s", filename); *)
          let cmd := poke 1 (ch "m"%char) (poke 0 (ch "@"%char) (repeat 0 24)) in
          let cmd := store_at cmd 2 (cstr filename ++ [0]) in
          let cmd := poke (3 + len) (Z.land (Z.shiftr x 8) 255) cmd in
          let cmd := poke (4 + len) (Z.land x 255) cmd in
          let cmd := poke (5 + len) (Z.land (Z.shiftr y 8) 255) cmd in
          let cmd := poke (6 + len) (Z.land y 255) cmd in
          let cmd := poke (7 + len) (Z.land (Z.shiftr imgaddr 16) 255) cmd in
          let cmd := poke (8 + len) (Z.land (Z.shiftr imgaddr 8) 255) cmd in
          let cmd := poke (9 + len) (Z.land imgaddr 255) cmd in
          let len := len + 10 in
          let '(_, p, w) := COMPORT.Flush (port s) w in
          let s := set_port p s in
          let '(res, p, w) := COMPORT.Write (port s) w cmd len in
          let s := set_port p s in
          if negb (res =? len) then
            let s := ERRMSG "SDShowImageFAT" "failed; see message below" s in
            if 0 <? res then (-2, s, w) else (-1, s, w)
          else waitACKNACK 200 s w
    end.

(** PGD::SDPlayAudioFAT; [option] is a uchar. *)
Definition SDPlayAudioFAT (filename : option (list Z)) (option : Z)
           (s : t) (w : World) : Z * t * World :=
  if LCDSTATE_eqb (state s) LCD_INACTIVE then
    (-1, ERRMSG "SDPlayAudioFAT" "display inactive" s, w)
  else if LCDSTATE_eqb (state s) LCD_BUSY then
    (-1, ERRMSG "SDPlayAudioFAT" "display busy" s, w)
  else
    match filename with
    | None => (-1, ERRMSG "SDPlayAudioFAT" "invalid filename (NULL pointer)" s, w)
    | Some filename =>
        let len := strlen filename in
        if (len <? 1) || (12 <? len) then
          (-1, ERRMSG "SDPlayAudioFAT"
                 "invalid filename length; must be 1..12 characters" s, w)
        else if 5 <? option then
          (-1, ERRMSG "SDPlayAudioFAT" "invalid option; valid range is 0..5" s, w)
        else
          (* char cmd[20]; snprintf(&cmd[3], 13, "%s", filename); *)
          let cmd :=
            poke 2 option (poke 1 (ch "l"%char) (poke 0 (ch "@"%char) (repeat 0 20))) in
          let cmd := store_at cmd 3 (cstr filename ++ [0]) in
          let len := len + 4 in
          let '(_, p, w) := COMPORT.Flush (port s) w in
          let s := set_port p s in
          let '(res, p, w) := COMPORT.Write (port s) w cmd len in
          let s := set_port p s in
          if negb (res =? len) then
            let s := ERRMSG "SDPlayAudioFAT" "failed; see message below" s in
            if 0 <? res then (-2, s, w) else (-1, s, w)
          else waitACKNACK 200 s w
    end.

(** PGD::SDRunScriptFAT *)
Definition SDRunScriptFAT (filename : option (list Z)) (s : t) (w : World)
  : Z * t * World :=
  if LCDSTATE_eqb (state s) LCD_INACTIVE then
    (-1, ERRMSG "SDRunScriptFAT" "display inactive" s, w)
  else if LCDSTATE_eqb (state s) LCD_BUSY then
    (-1, ERRMSG "SDRunScriptFAT" "display busy" s, w)
  else
    match filename with
    | None => (-1, ERRMSG "SDRunScriptFAT" "invalid filename (NULL pointer)" s, w)
    | Some filename =>
        let len := strlen filename in
        if (len <? 1) || (12 <? len) then
          (-1, ERRMSG "SDRunScriptFAT"
                 "invalid filename length; must be 1..12 characters" s, w)
        else
          (* char cmd[20]; snprintf(&cmd[2], 13, "%s", filename); *)
          let cmd := poke 1 (ch "p"%char) (poke 0 (ch "@"%char) (repeat 0 20)) in
          let cmd := store_at cmd 2 (cstr filename ++ [0]) in
          let len := len + 3 in
          let '(_, p, w) := COMPORT.Flush (port s) w in
          let s := set_port p s in
          let '(res, p, w) := COMPORT.Write (port s) w cmd len in
          let s := set_port p s in
          if negb (res =? len) then
            let s := ERRMSG "SDRunScriptFAT" "failed; see message below" s in
            if 0 <? res then (-2, s, w) else (-1, s, w)
          else waitACKNACK 200 s w
    end.

(** The loop [while (bs)] of SDReadFileFAT over one block, reading to
    [&dp[idx]].  The first component is [Some r] when the body returned
    [r]; the whole is [None] when [turns] runs out. *)
Fixpoint read_block (turns : nat) (idx bs : Z) (dp : list Z) (s : t) (w : World)
  : option (option Z * list Z * t * World) :=
  match turns with
  | O => None
  | S turns' =>
      if bs =? 0 then Some (None, dp, s, w)
      else
        let '(nb, got, p, w) := COMPORT.Read (port s) w bs 500 in
        let s := set_port p s in
        let dp := store_at dp idx got in
        if nb =? -1 then
          Some (Some (-2), dp,
                ERRMSG "SDReadFileFAT" "failed to read data; see message below" s, w)
        else if nb =? 0 then
          Some (Some (-2), dp,
                ERRMSG "SDReadFileFAT" "failed to read data (timeout)" s, w)
        else read_block turns' (idx + nb) (bs - nb) dp s w
  end.

(** The for loop of SDReadFileFAT over the blocks [i .. nblk-1]. *)
Fixpoint read_blocks (todo : nat) (i nblk nres : Z) (dp : list Z) (s : t) (w : World)
  : option Z * list Z * t * World :=
  match todo with
  | O => (None, dp, s, w)
  | S todo' =>
      let '(_, p, w) := COMPORT.Write (port s) w [ACK; 0] 1 in
      let s := set_port p s in
      let idx := i * 50 in
      let bs := if (i =? nblk - 1) && negb (nres =? 0) then nres else 50 in
      match read_block (S (Z.to_nat bs)) idx bs dp s w with
      | Some (Some r, dp, s, w) => (Some r, dp, s, w)
      | Some (None, dp, s, w) => read_blocks todo' (i + 1) nblk nres dp s w
      | None => (Some (-2), dp, s, w)   (* not reached, see read_block_total *)
      end
  end.

(** PGD::SDReadFileFAT.  [data] is the caller's handle (NULL, or the
    pointer it holds now), [size] the caller's counter; the result
    carries what they hold at the end.  The allocation succeeds. *)
Definition SDReadFileFAT (data : option (option (list Z))) (size : option Z)
           (filename : option (list Z)) (s : t) (w : World)
  : Z * option (option (list Z)) * option Z * t * World :=
  if LCDSTATE_eqb (state s) LCD_INACTIVE then
    (-1, data, size, ERRMSG "SDReadFileFAT" "display inactive" s, w)
  else if LCDSTATE_eqb (state s) LCD_BUSY then
    (-1, data, size, ERRMSG "SDReadFileFAT" "display busy" s, w)
  else
    match data, size, filename with
    | None, _, _ =>
        (-1, data, size, ERRMSG "SDReadFileFAT" "invalid data handle (NULL)" s, w)
    | _, None, _ =>
        (-1, data, size, ERRMSG "SDReadFileFAT" "invalid size pointer (NULL)" s, w)
    | _, _, None =>
        (-1, data, size, ERRMSG "SDReadFileFAT" "invalid filename (NULL pointer)" s, w)
    | Some _, Some _, Some filename =>
        let len := strlen filename in
        if (len <? 1) || (12 <? len) then
          (-1, data, size,
           ERRMSG "SDReadFileFAT" "invalid filename length; must be 1..12 characters" s, w)
        else
          (* char cmd[20]; snprintf(&cmd[3], 13, "%s", filename); *)
          let cmd :=
            poke 2 50 (poke 1 (ch "a"%char) (poke 0 (ch "@"%char) (repeat 0 20))) in
          let cmd := store_at cmd 3 (cstr filename ++ [0]) in
          let len := len + 4 in
          let '(_, p, w) := COMPORT.Flush (port s) w in
          let s := set_port p s in
          let '(res, p, w) := COMPORT.Write (port s) w cmd len in
          let s := set_port p s in
          if negb (res =? len) then
            let s := ERRMSG "SDReadFileFAT" "failed; see message below" s in
            if 0 <? res then (-2, data, size, s, w) else (-1, data, size, s, w)
          else
            let '(nb, got, p, w) := COMPORT.Read (port s) w 4 500 in
            let s := set_port p s in
            let cmd := store_at cmd 0 got in
            if nb =? -1 then
              (-1, data, size, ERRMSG "SDReadFileFAT" "failed; see message below" s, w)
            else if nb =? 0 then
              (* attempt to cancel the transaction *)
              let '(_, p, w) := COMPORT.Write (port s) w [NACK; 0] 1 in
              let s := set_port p s in
              (-2, data, size, ERRMSG "SDReadFileFAT" "timeout: no response" s, w)
            else if (nb =? 1) && (nth 0 cmd 0 =? NACK) then (1, data, size, s, w)
            else if negb (nb =? 4) then
              let '(_, p, w) := COMPORT.Write (port s) w [NACK; 0] 1 in
              let s := set_port p s in
              (-2, data, size,
               ERRMSG "SDReadFileFAT" "unexpected response size; expected 4" s, w)
            else
              let fs :=
                Z.lor (Z.lor (Z.lor (Z.shiftl (Z.land (nth 0 cmd 0) 255) 24)
                                    (Z.shiftl (Z.land (nth 1 cmd 0) 255) 16))
                             (Z.shiftl (Z.land (nth 2 cmd 0) 255) 8))
                      (Z.land (nth 3 cmd 0) 255) in
              if fs =? 0 then
                (* file size is zero; there is nothing to read *)
                let '(_, p, w) := COMPORT.Write (port s) w [NACK; 0] 1 in
                let s := set_port p s in
                (0, data, Some 0, s, w)
              else
                (* char *dp = new char[fs]; *data = dp; *size = fs; *)
                let dp := repeat 0 (Z.to_nat fs) in
                let nres := Z.rem fs 50 in
                let nblk := if negb (nres =? 0) then Z.quot fs 50 + 1 else Z.quot fs 50 in
                match read_blocks (Z.to_nat nblk) 0 nblk nres dp s w with
                | (Some r, _, s, w) => (r, Some None, Some 0, s, w)
                | (None, dp, s, w) =>
                    (* check the last byte; it should be an ACK *)
                    let '(a, s, w) := waitACK 100 s w in
                    (a, Some (Some dp), Some fs, s, w)
                end
    end.

(** PGD::DrawIcon.  [width] and [height] are ushort, [dsize] and
    [datalen] are int; [data] is not NULL and holds at least [datalen]
    bytes.  There is no port.Flush() here, and an incomplete write
    returns what port.Write returned.  [None]: the call does not return;
    with a negative size either [new char[dsize + 10]] throws or the
    stores into [cmd] run off the buffer, and above [INT_MAX - 10] the
    sum [dsize + 10] overflows. *)
Definition DrawIcon (x y width height colormode : Z) (data : list Z) (datalen : Z)
           (s : t) (w : World) : option (Z * t * World) :=
  if LCDSTATE_eqb (state s) LCD_INACTIVE
  then Some (-1, ERRMSG "DrawIcon" "display inactive" s, w)
  else if LCDSTATE_eqb (state s) LCD_BUSY
  then Some (-1, ERRMSG "DrawIcon" "display busy" s, w)
  else if negb (colormode =? 0x08) && negb (colormode =? 0x10) then
    Some (-1, ERRMSG "DrawIcon" "invalid color mode; valid values are 0x08 and 0x10 only" s,
          w)
  else
    (* int dsize; dsize = width*height; if (colormode == 0x10) dsize *= 2; *)
    let dsize := wrap_int (width * height) in
    let dsize := if colormode =? 0x10 then wrap_int (dsize * 2) else dsize in
    if negb (dsize =? datalen) then
      Some (-1, ERRMSG "DrawIcon" "invalid data length for color mode" s, w)
    else if (dsize <? 0) || (INT_MAX - 10 <? dsize) then None
    else
      (* char *cmd = new char[dsize + 10]; memcpy(&cmd[10], data, datalen); *)
      let cmd :=
        [ ch "I"%char;
          Z.land (Z.shiftr x 8) 255; Z.land x 255;
          Z.land (Z.shiftr y 8) 255; Z.land y 255;
          Z.land (Z.shiftr width 8) 255; Z.land width 255;
          Z.land (Z.shiftr height 8) 255; Z.land height 255;
          colormode ]
        ++ firstn (Z.to_nat datalen) data in
      let dsize := dsize + 10 in
      let '(res, p, w) := COMPORT.Write (port s) w cmd dsize in
      let s := set_port p s in
      Some (if negb (res =? dsize) then (res, s, w) else waitACKNACK 400 s w).

(** *** Pins and small settings *)

(** PGD::ReadPin; [pin] is a uchar, [status] the caller's pointer, and
    the second component of the result is the byte stored through it,
    if any. *)
Definition ReadPin (pin : Z) (status : option Z) (s : t) (w : World)
  : Z * option Z * t * World :=
  if LCDSTATE_eqb (state s) LCD_INACTIVE then
    (-1, None, ERRMSG "ReadPin" "display inactive" s, w)
  else if LCDSTATE_eqb (state s) LCD_BUSY then
    (-1, None, ERRMSG "ReadPin" "display busy" s, w)
  else if (pin <? 0) || (15 <? pin) then
    (-1, None, ERRMSG "ReadPin" "invalid pin; valid values are 0..15" s, w)
  else
    match status with
    | None => (-1, None, ERRMSG "ReadPin" "invalid pointer to status byte" s, w)
    | Some _ =>
        let cmd := poke 1 pin (chars "i      " ++ [0]) in
        let '(_, p, w) := COMPORT.Flush (port s) w in
        let s := set_port p s in
        let '(res, p, w) := COMPORT.Write (port s) w cmd 2 in
        let s := set_port p s in
        if negb (res =? 2) then
          let s := ERRMSG "ReadPin" "failed; see message below" s in
          if 0 <? res then (-2, None, s, w) else (-1, None, s, w)
        else
          let '(res, got, p, w) := COMPORT.Read (port s) w 1 100 in
          let s := set_port p s in
          let cmd := store_at cmd 0 got in
          if negb (res =? 1) then
            (-1, None, ERRMSG "ReadPin" "no response (see below)" s, w)
          else (0, Some (nth 0 cmd 0), s, w)
    end.

(** PGD::WritePin; [pin] and [value] are uchar. *)
Definition WritePin (pin value : Z) (s : t) (w : World) : Z * t * World :=
  if LCDSTATE_eqb (state s) LCD_INACTIVE then (-1, ERRMSG "WritePin" "display inactive" s, w)
  else if LCDSTATE_eqb (state s) LCD_BUSY then (-1, ERRMSG "WritePin" "display busy" s, w)
  else if (pin <? 0) || (15 <? pin) then
    (-1, ERRMSG "WritePin" "invalid pin; valid values are 0..15" s, w)
  else if negb (value =? 0) && negb (value =? 1) then
    (-1, ERRMSG "WritePin" "invalid pin value; valid values are 0,1" s, w)
  else
    let cmd := poke 2 value (poke 1 pin (chars "y      " ++ [0])) in
    let '(_, p, w) := COMPORT.Flush (port s) w in
    let s := set_port p s in
    let '(res, p, w) := COMPORT.Write (port s) w cmd 3 in
    let s := set_port p s in
    if negb (res =? 3) then
      let s := ERRMSG "WritePin" "failed; see message below" s in
      if 0 <? res then (-2, s, w) else (-1, s, w)
    else waitACKNACK 100 s w.

(** PGD::PenSize; [size] is a uchar. *)
Definition PenSize (size : Z) (s : t) (w : World) : Z * t * World :=
  if LCDSTATE_eqb (state s) LCD_INACTIVE then (-1, ERRMSG "PenSize" "display inactive" s, w)
  else if LCDSTATE_eqb (state s) LCD_BUSY then (-1, ERRMSG "PenSize" "display busy" s, w)
  else if negb (size =? 0) && negb (size =? 1) then
    (-1, ERRMSG "PenSize" "invalid pen size; valid values are 0,1" s, w)
  else
    let '(_, p, w) := COMPORT.Flush (port s) w in
    let s := set_port p s in
    let '(res, p, w) :=
      if negb (size =? 0) then COMPORT.Write (port s) w [ch "p"%char; 1; 0] 2
      else COMPORT.Write (port s) w [ch "p"%char; 0; 0] 2 in
    let s := set_port p s in
    if negb (res =? 2) then
      let s := ERRMSG "PenSize" "failed; see message below" s in
      if 0 <? res then (-2, s, w) else (-1, s, w)
    else waitACKNACK 100 s w.

(** PGD::SetFont; [size] is a uchar. *)
Definition SetFont (size : Z) (s : t) (w : World) : Z * t * World :=
  if LCDSTATE_eqb (state s) LCD_INACTIVE then (-1, ERRMSG "SetFont" "display inactive" s, w)
  else if LCDSTATE_eqb (state s) LCD_BUSY then (-1, ERRMSG "SetFont" "display busy" s, w)
  else if (size <? 0) || (3 <? size) then
    (-1, ERRMSG "SetFont" "invalid font size; valid values are 0..3" s, w)
  else
    (* char cmd[2] *)
    let cmd := [ ch "F"%char; size ] in
    let '(_, p, w) := COMPORT.Flush (port s) w in
    let s := set_port p s in
    let '(res, p, w) := COMPORT.Write (port s) w cmd 2 in
    let s := set_port p s in
    if negb (res =? 2) then
      let s := ERRMSG "SetFont" "failed; see message below" s in
      if 0 <? res then (-2, s, w) else (-1, s, w)
    else waitACKNACK 100 s w.

(** PGD::SetOpacity; [mode] is a uchar. *)
Definition SetOpacity (mode : Z) (s : t) (w : World) : Z * t * World :=
  if LCDSTATE_eqb (state s) LCD_INACTIVE then (-1, ERRMSG "SetOpacity" "display inactive" s, w)
  else if LCDSTATE_eqb (state s) LCD_BUSY then (-1, ERRMSG "SetOpacity" "display busy" s, w)
  else if negb (mode =? 0) && negb (mode =? 1) then
    (-1, ERRMSG "SetOpacity" "invalid text opacity mode; valid values are 0,1" s, w)
  else
    let '(_, p, w) := COMPORT.Flush (port s) w in
    let s := set_port p s in
    let '(res, p, w) :=
      if negb (mode =? 0) then COMPORT.Write (port s) w [ch "O"%char; 1; 0] 2
      else COMPORT.Write (port s) w [ch "O"%char; 0; 0] 2 in
    let s := set_port p s in
    if negb (res =? 2) then
      let s := ERRMSG "SetOpacity" "failed; see message below" s in
      if 0 <? res then (-2, s, w) else (-1, s, w)
    else waitACKNACK 100 s w.

End PGD.

(** ** The calling thread and the worker thread

    PGD::Connect starts [procthread] on the object with pthread_create
    and keeps the thread in [procloop]; from then on the member functions
    the application calls and the worker's Process work on the same
    object and the same port.  Here PGD::Close and the worker are taken
    statement by statement, so that their steps can be interleaved;
    reads and writes of the shared object happen in the order of the
    steps. *)

Module Threads.

(** The switch of PGD::Process on the result of [waitACKNACK(200)]. *)
Definition after_wait (tmpcmd : PGDCMD) (r : Z) (s : PGD.t) (w : World) : Z * PGD.t * World :=
  if r =? 0 then PGD.complete s w tmpcmd true
  else if r =? 1 then PGD.complete (PGD.set_errmsg "NACK" s) w tmpcmd false
  else if r =? -1 then PGD.complete s w tmpcmd false
  else if r =? 2 then (0, s, w)
  else
    PGD.complete
      (PGD.ERRMSG "Process" "unexpected return from waitACKNACK (only 0,1,2,-1 accepted)" s)
      w tmpcmd false.

(** Where the worker thread is. *)
Inductive WorkerAt :=
| W_Process                                      (* at the call in [while (!pp->Process());] *)
| W_wait (tmpcmd : PGDCMD) (tov now : timeval)   (* in Process, inside waitACKNACK(200), at
                                                    the test of its loop *)
| W_exit.                                        (* past the loop of procthread *)

(** One step of the worker: from the call of Process to the loop of
    waitACKNACK or to the return of Process, or one turn of that loop,
    followed by the rest of Process when the loop ends. *)
Definition worker_step (at_ : WorkerAt) (s : PGD.t) (w : World) : WorkerAt * PGD.t * World :=
  match at_ with
  | W_exit => (W_exit, s, w)
  | W_Process =>
      if PGD.halt s then (W_exit, s, w)          (* Process returns -1 *)
      else if negb (LCDSTATE_eqb (PGD.state s) LCD_BUSY) then (W_Process, s, usleep 100000 w)
      else
        match PGD.curcmd s with
        | PG_SLEEP | PG_TOUCH_WAIT =>
            let now := gettimeofday w in
            (W_wait (PGD.curcmd s) (PGD.deadline now 200) now, s, w)
        | _ => let '(_, s, w) := PGD.Process s w in (W_Process, s, w)
        end
  | W_wait tmpcmd tov now =>
      if PGD.before_deadline now tov then
        let '(nb, msg, p, w) := COMPORT.Read (PGD.port s) w 4 10 in
        let s := PGD.set_port p s in
        if nb =? -1 then
          let '(_, s, w) :=
            after_wait tmpcmd (-1)
              (PGD.ERRMSG "waitACKNACK" "failed (see message below)" s) w in
          (W_Process, s, w)
        else
          match PGD.scan_acknack msg with
          | Some r => let '(_, s, w) := after_wait tmpcmd r s w in (W_Process, s, w)
          | None => (W_wait tmpcmd tov (gettimeofday w), s, w)
          end
      else
        let '(_, s, w) := after_wait tmpcmd 2 (PGD.ERRMSG "waitACKNACK" "timeout" s) w in
        (W_Process, s, w)
  end.

Fixpoint worker_steps (n : nat) (at_ : WorkerAt) (s : PGD.t) (w : World)
  : WorkerAt * PGD.t * World :=
  match n with
  | O => (at_, s, w)
  | S n' => let '(at', s, w) := worker_step at_ s w in worker_steps n' at' s w
  end.

Section Caller.

Variable DBAUD_code : DBAUD -> Z.

(** Where the calling thread is in PGD::Close. *)
Inductive CloseAt :=
| C_entry     (* if (!port.IsOpen()) return; errmsg[0] = 0; halt = true; *)
| C_cancel    (* if (state == LCD_BUSY) { ... callback(this, tmpcmd, false, usrobj); } *)
| C_baud      (* if (state != LCD_INACTIVE) SetBaud(DB_9600) *)
| C_port      (* port.Close(); *)
| C_state     (* state = LCD_INACTIVE; *)
| C_join      (* if (procloop) pthread_join(procloop, NULL); *)
| C_return.

(** One statement of PGD::Close.  At [C_join] the calling thread goes on
    only when there is nothing to wait for, see [step]. *)
Definition Close_step (at_ : CloseAt) (s : PGD.t) (w : World) : CloseAt * PGD.t * World :=
  match at_ with
  | C_entry =>
      if negb (COMPORT.IsOpen (PGD.port s)) then (C_return, s, w)
      else (C_cancel, PGD.set_halt true (PGD.set_errmsg EmptyString s), w)
  | C_cancel =>
      if LCDSTATE_eqb (PGD.state s) LCD_BUSY then
        let s := PGD.ERRMSG "Close" "port is closing" s in
        let tmpcmd := PGD.curcmd s in
        let s := PGD.set_curcmd PG_NONE s in
        let s := PGD.set_curdata None s in
        let s := PGD.set_state LCD_IDLE s in
        (C_baud, s, PGD.invoke_callback s w tmpcmd false)
      else (C_baud, s, w)
  | C_baud =>
      if negb (LCDSTATE_eqb (PGD.state s) LCD_INACTIVE) then
        let '(_, s, w) := PGD.SetBaud DBAUD_code DB_9600 s w in (C_port, s, w)
      else (C_port, s, w)
  | C_port =>
      let '(_, p, w) := COMPORT.Close (PGD.port s) w in (C_state, PGD.set_port p s, w)
  | C_state => (C_join, PGD.set_state LCD_INACTIVE s, w)
  | C_join => (C_return, s, w)
  | C_return => (C_return, s, w)
  end.

(** The statements of Close in a row, from [at_] on. *)
Fixpoint Close_run (n : nat) (at_ : CloseAt) (s : PGD.t) (w : World)
  : CloseAt * PGD.t * World :=
  match n with
  | O => (at_, s, w)
  | S n' => let '(at', s, w) := Close_step at_ s w in Close_run n' at' s w
  end.

(** The two threads and what they share. *)
Record Config := {
  caller : CloseAt;
  worker : WorkerAt;
  obj : PGD.t;
  world : World
}.

Inductive Turn := Caller | Worker.

Definition exited (at_ : WorkerAt) : bool :=
  match at_ with W_exit => true | _ => false end.

(** One step of the thread whose turn it is; [None] when that thread
    cannot move: the caller has returned or waits in pthread_join for a
    worker that has not ended, the worker has ended or was never
    created. *)
Definition step (turn : Turn) (c : Config) : option Config :=
  match turn with
  | Caller =>
      match caller c with
      | C_return => None
      | C_join =>
          if (PGD.procloop (obj c) =? 0) || exited (worker c)
          then Some {| caller := C_return; worker := worker c;
                       obj := obj c; world := world c |}
          else None
      | at_ =>
          let '(at', s, w) := Close_step at_ (obj c) (world c) in
          Some {| caller := at'; worker := worker c; obj := s; world := w |}
      end
  | Worker =>
      if (PGD.procloop (obj c) =? 0) || exited (worker c) then None
      else
        let '(at', s, w) := worker_step (worker c) (obj c) (world c) in
        Some {| caller := caller c; worker := at'; obj := s; world := w |}
  end.

(** A schedule, turn by turn. *)
Fixpoint run (sched : list Turn) (c : Config) : option Config :=
  match sched with
  | [] => Some c
  | turn :: sched' =>
      match step turn c with
      | Some c' => run sched' c'
      | None => None
      end
  end.

(** PGD::Close is called on [s] while the worker is at [at_]. *)
Definition start (s : PGD.t) (w : World) (at_ : WorkerAt) : Config :=
  {| caller := C_entry; worker := at_; obj := s; world := w |}.

End Caller.

End Threads.

(** ** The listing protocol as the specification words it

    Bytes accumulate into the current entry; LF ends the entry and the
    scan goes on; ACK ends the listing with the number of entries; NACK
    aborts with an error. *)
Fixpoint spec_scan_dir (buf direntry : list Z) (dir : list (list Z))
  : option Z * list Z * list (list Z) :=
  match buf with
  | [] => (None, direntry, dir)
  | b :: buf' =>
      if b =? NACK then (Some (-1), direntry, dir)
      else if (b =? LF) || (b =? ACK) then
        let dir := match direntry with [] => dir | _ => dir ++ [direntry] end in
        if b =? ACK then (Some (Z.of_nat (List.length dir)), [], dir)
        else spec_scan_dir buf' [] dir
      else spec_scan_dir buf' (direntry ++ [b]) dir
  end.

(** ** Sample configurations *)

Module Samples.

(** A controller after a successful Connect: port open at 9600 baud,
    worker thread created. *)
Definition idle : PGD.t :=
  PGD.set_state LCD_IDLE
    (PGD.set_procloop 1 (PGD.set_port (COMPORT.set_fd 3 COMPORT.init) PGD.init)).

(** A controller whose Connect opened the port and failed at autobaud:
    the port is open, the state Inactive, and there is no worker thread. *)
Definition no_worker : PGD.t := PGD.set_port (COMPORT.set_fd 3 COMPORT.init) PGD.init.

(** The same with a handler registered and a deferred command in flight. *)
Definition busy (cmd : PGDCMD) : PGD.t :=
  PGD.set_state LCD_BUSY (PGD.set_curcmd cmd (PGD.set_callback (Some 4096) 77 idle)).

(** A world whose clock reads 2012-10-01 00:00:00.250 UTC, with the given
    answers from the device and no write faults. *)
Definition world (answers : list RxEvent) : World :=
  {| now_us := 1349049600250000; rx := answers; wr := [];
     tty_speed := B9600; tty_speeds := [B9600; B57600; B115200]; trace := [] |}.

(** Sample values for the bit-rate codes. *)
Definition codes (b : DBAUD) : Z :=
  match b with
  | DB_9600 => 6 | DB_57600 => 12 | DB_115200 => 13
  | DB_128000 => 14 | DB_256000 => 15
  end.

End Samples.

(** * Vocabulary of the statements *)

(** What a port operation leaves alone in the world: everything but the
    clock and the read script. *)
Definition same_line (w w' : World) : Prop :=
  trace w' = trace w /\ wr w' = wr w
  /\ tty_speed w' = tty_speed w /\ tty_speeds w' = tty_speeds w.

(** What a write leaves alone in the world. *)
Definition same_input (w w' : World) : Prop :=
  rx w' = rx w /\ now_us w' = now_us w
  /\ tty_speed w' = tty_speed w /\ tty_speeds w' = tty_speeds w.

(** Events that are all written bytes: no handler call, no close. *)
Definition tx_only (evs : list Event) : Prop := forallb is_tx evs = true.

(** What the wait routine leaves alone in the controller: everything but
    the error texts. *)
Definition same_ctl (s s' : PGD.t) : Prop :=
  PGD.halt s' = PGD.halt s /\ PGD.state s' = PGD.state s
  /\ PGD.baud s' = PGD.baud s /\ PGD.portspeed s' = PGD.portspeed s
  /\ PGD.curcmd s' = PGD.curcmd s /\ PGD.curdata s' = PGD.curdata s
  /\ PGD.brcv s' = PGD.brcv s /\ PGD.datain s' = PGD.datain s
  /\ PGD.callback s' = PGD.callback s /\ PGD.usrobj s' = PGD.usrobj s
  /\ COMPORT.fd (PGD.port s') = COMPORT.fd (PGD.port s).

(** The results of waitACKNACK. *)
Definition ack_code (r : Z) : Prop := r = 0 \/ r = 1 \/ r = 2 \/ r = -1.

(** The 10 ms reads a silent line allows before the second of [tov] is
    over. *)
Definition ticks (tov : timeval) (w : World) : nat :=
  Z.to_nat (((tv_sec tov + 1) * 1000000 - now_us w + 9999) / 10000).

(** A ushort as two bytes, high byte first. *)
Definition be16 (x : Z) : list Z := [Z.land (Z.shiftr x 8) 255; Z.land x 255].

(** What a command that writes [frame] and then waits does to the wire:
    only a prefix of the frame can go out, the whole frame went out when
    the result is not negative, and the whole frame goes out on a line
    that is open and takes what it is handed. *)
Definition sends (frame : list Z) (s : PGD.t) (w : World) (r : Z) (w' : World) : Prop :=
  (exists pre rest, sent w' = sent w ++ pre /\ pre ++ rest = frame)
  /\ (0 <= r -> sent w' = sent w ++ frame)
  /\ (COMPORT.fd (PGD.port s) <> -1 -> wr w = [] -> sent w' = sent w ++ frame).

(** The valid volume values: 0..3, 8..127, 253..255. *)
Definition volume_valid (value : Z) : Prop :=
  0 <= value <= 3 \/ 8 <= value <= 127 \/ 253 <= value <= 255.

(** The options Suspend refuses: bit 4 set, or wake-on-touch together
    with touch off. *)
Definition suspend_refused (options : Z) : Prop :=
  Z.land options 0x10 <> 0 \/ Z.land options 0x2f = 0x22.

(** The trace of a handler call that sees the controller Idle with no
    deferred command left; nothing when no handler is registered. *)
Definition fired (s : PGD.t) (cmd : PGDCMD) (ok : bool) : list Event :=
  match PGD.callback s with
  | Some cb => [EvCallback cb cmd ok (PGD.usrobj s) LCD_IDLE PG_NONE]
  | None => []
  end.

(** A completion: the events [pre], then the handler call, and the
    controller left Idle with the record cleared. *)
Definition completed (s : PGD.t) (w : World) (pre : list Event) (cmd : PGDCMD)
           (ok : bool) (s' : PGD.t) (w' : World) : Prop :=
  PGD.state s' = LCD_IDLE /\ PGD.curcmd s' = PG_NONE
  /\ trace w' = trace w ++ pre ++ fired s cmd ok.

(** No completion: still Busy with the same record, and no event at all. *)
Definition pending (s : PGD.t) (w : World) (s' : PGD.t) (w' : World) : Prop :=
  PGD.state s' = LCD_BUSY /\ PGD.curcmd s' = PGD.curcmd s
  /\ PGD.curdata s' = PGD.curdata s /\ PGD.callback s' = PGD.callback s
  /\ PGD.usrobj s' = PGD.usrobj s /\ trace w' = trace w.

(** The two big-endian ushort decoded from the four bytes of [d]. *)
Definition touch_point (d : list Z) : Z * Z :=
  (PGD.be16_of (nth 0 d 0) (nth 1 d 0), PGD.be16_of (nth 2 d 0) (nth 3 d 0)).

(** The header the specification has SDWriteFileFAT send first: opcode
    '@','t', the handshake byte, the file name with its terminating 0, and
    the size as four bytes, high byte first. *)
Definition spec_write_header (size : Z) (filename : list Z) (append : bool) : list Z :=
  [ch "@"%char; ch "t"%char;
   Z.lor (if size <=? 100 then 0 else 50) (if append then 0x80 else 0)]
  ++ PGD.cstr filename ++ [0]
  ++ [Z.land (Z.shiftr size 24) 255; Z.land (Z.shiftr size 16) 255;
      Z.land (Z.shiftr size 8) 255; Z.land size 255].

(** A wall clock that reads at least 10^6 seconds, as every real clock
    does (seconds since 1970). *)
Definition realistic_clock (w : World) : Prop := 1000000000000 <= now_us w.

(** Bytes that are neither ACK nor NACK. *)
Definition no_answer (bs : list Z) : Prop :=
  forall b, In b bs -> b <> ACK /\ b <> NACK.

(** A refusal: the result is -1, the world is untouched, and the
    controller differs by its error text only. *)
Definition refused (s : PGD.t) (w : World) (r : Z) (s' : PGD.t) (w' : World) : Prop :=
  r = -1 /\ w' = w /\ same_ctl s s'.


(** The user bitmap slots: 64 of 8x8, 16 of 16x16 and 8 of 32x32. *)
Definition bitmap_slot (group index : Z) : Prop :=
  (group = 0 /\ 0 <= index <= 63) \/ (group = 1 /\ 0 <= index <= 15)
  \/ (group = 2 /\ 0 <= index <= 7).

(** The bytes of one bitmap of a group, one bit per pixel. *)
Definition bitmap_bytes (group : Z) : Z :=
  if group =? 0 then 8 else if group =? 1 then 32 else 128.

(** A 24-bit quantity as three bytes, high byte first. *)
Definition be24 (x : Z) : list Z :=
  [Z.land (Z.shiftr x 16) 255; Z.land (Z.shiftr x 8) 255; Z.land x 255].

(** The frame of a polygon: 'g', the number of vertices, the x and y of
    each vertex in turn, the colour. *)
Definition polygon_frame (vertices : Z) (xp yp : list Z) (color : Z) : list Z :=
  [ch "g"%char; vertices]
  ++ flat_map (fun i => be16 (nth i xp 0) ++ be16 (nth i yp 0)) (seq 0 (Z.to_nat vertices))
  ++ be16 color.

(** A file name the FAT commands take: not NULL, 1 to 12 characters. *)
Definition fat_name (filename : option (list Z)) : Prop :=
  match filename with
  | Some f => 1 <= PGD.strlen f <= 12
  | None => False
  end.

(** The characters of a file name and the 0 that ends it. *)
Definition name_bytes (filename : option (list Z)) : list Z :=
  match filename with
  | Some f => PGD.cstr f ++ [0]
  | None => []
  end.

(** A byte value. *)
Definition is_byte (b : Z) : Prop := 0 <= b < 256.

(** What the device has queued after the first [n] bytes of the chunk
    [bs] were taken. *)
Definition rx_after (n : nat) (bs : list Z) (r : list RxEvent) : list RxEvent :=
  match skipn n bs with
  | [] => r
  | _ => RxData 0 (skipn n bs) :: r
  end.

(** Three bytes, high byte first, as a number. *)
Definition decode24 (bs : list Z) : Z :=
  65536 * nth 0 bs 0 + 256 * nth 1 bs 0 + nth 2 bs 0.

(** [P] holds of the [n] numbers from [v] on. *)
Fixpoint range_check (P : Z -> bool) (n : nat) (v : Z) : bool :=
  match n with
  | O => true
  | S n' => P v && range_check P n' (v + 1)
  end.

(** The results of a command that writes a frame and waits. *)
Definition cmd_code (r : Z) : Prop := r = -2 \/ r = -1 \/ r = 0 \/ r = 1 \/ r = 2.

(** The controller is Busy with the deferred command [cmd] and no data
    pointer. *)
Definition deferred (cmd : PGDCMD) (s' : PGD.t) : Prop :=
  PGD.state s' = LCD_BUSY /\ PGD.curcmd s' = cmd /\ PGD.curdata s' = None.

(** The controller is Idle with its record as it was. *)
Definition still_idle (s s' : PGD.t) : Prop :=
  PGD.state s' = LCD_IDLE /\ PGD.curcmd s' = PGD.curcmd s
  /\ PGD.curdata s' = PGD.curdata s.

(** A 32-bit quantity as four bytes, high byte first. *)
Definition be32 (x : Z) : list Z :=
  [Z.land (Z.shiftr x 24) 255; Z.land (Z.shiftr x 16) 255;
   Z.land (Z.shiftr x 8) 255; Z.land x 255].

(** What the device has queued when [chunk] is what is left of the chunk
    it sent at [dt]. *)
Definition pending_chunk (dt : N) (chunk : list Z) (r : list RxEvent) : list RxEvent :=
  match chunk with
  | [] => r
  | _ => RxData dt chunk :: r
  end.

(** The frame of an icon: 'I', position and size, high bytes first, the
    colour mode and the pixel data. *)
Definition icon_frame (x y width height colormode : Z) (data : list Z) : list Z :=
  ch "I"%char :: be16 x ++ be16 y ++ be16 width ++ be16 height ++ colormode :: data.

(** The pixel data DrawIcon asks for: one byte per pixel in mode 0x08,
    two in mode 0x10, computed in [int] as the code does. *)
Definition icon_bytes (width height colormode : Z) : Z :=
  if colormode =? 0x10 then wrap_int (wrap_int (width * height) * 2)
  else wrap_int (width * height).

(** Nothing arrives and nothing fails while select waits [us]
    microseconds. *)
Definition quiet (us : Z) (r : list RxEvent) : Prop :=
  match r with
  | [] => True
  | RxData dt _ :: _ | RxFault dt :: _ => us <= Z.of_N dt
  end.

(** A time of day in microseconds. *)
Definition to_us (t : timeval) : Z := tv_sec t * 1000000 + tv_usec t.

(** * Properties *)

(** ** The trace and the bytes on the wire *)

Lemma tx_bytes_app (a b : list Event) : tx_bytes (a ++ b) = tx_bytes a ++ tx_bytes b.
Proof.
  induction a as [|e a IH]; simpl; [reflexivity|].
  destruct e; simpl; rewrite IH; auto using app_assoc.
Qed.

Lemma sent_emit_tx (bs : list Z) (w : World) : sent (emit (EvTx bs) w) = sent w ++ bs.
Proof. unfold sent; simpl. rewrite tx_bytes_app; simpl. now rewrite app_nil_r. Qed.

(** ** The serial port *)

Lemma same_line_refl w : same_line w w.
Proof. repeat split. Qed.

Lemma same_line_trans w1 w2 w3 : same_line w1 w2 -> same_line w2 w3 -> same_line w1 w3.
Proof. unfold same_line; intuition congruence. Qed.

Lemma usec_range (w : World) : 0 <= tv_usec (gettimeofday w) < 1000000.
Proof. unfold gettimeofday; simpl. apply Z.mod_pos_bound; lia. Qed.

Lemma Read_tov_usec (now : timeval) (timeout : Z) :
  0 <= timeout -> 0 <= tv_usec now < 1000000 ->
  0 <= tv_usec (COMPORT.Read_tov now timeout) < 1000000.
Proof.
  intros Ht Hu. unfold COMPORT.Read_tov.
  assert (0 <= Z.rem timeout 1000 < 1000) by (apply Z.rem_bound_pos; lia).
  destruct (Z.leb_spec 1000000 (tv_usec now + Z.rem timeout 1000 * 1000)); simpl.
  - apply Z.rem_bound_pos; lia.
  - lia.
Qed.

Lemma Read_budget_pos (now tov : timeval) (t : Z) :
  0 <= tv_usec now < 1000000 -> 0 <= tv_usec tov < 1000000 ->
  COMPORT.Read_budget now tov = Some t -> 0 < t.
Proof.
  intros Hn Hv. unfold COMPORT.Read_budget.
  destruct (Z.ltb_spec (tv_sec tov) (tv_sec now)); [discriminate|].
  destruct (Z.eqb_spec (tv_sec now) (tv_sec tov)) as [He|He];
    destruct (Z.leb_spec (tv_usec tov) (tv_usec now)); cbn [andb]; try discriminate;
    match goal with |- context [?t =? 0] => destruct (Z.eqb_spec t 0) as [|Hz] end;
    try discriminate; intros [= <-].
  - rewrite He, Z.sub_diag in *. cbn [Z.mul Z.add] in *.
    assert (0 <= Z.quot (tv_usec tov - tv_usec now) 1000) by (apply Z.quot_pos; lia). lia.
  - assert (-1000 < Z.quot (tv_usec tov - tv_usec now) 1000).
    { Z.quot_rem_to_equations. lia. }
    lia.
  - assert (0 <= Z.quot (tv_usec tov - tv_usec now) 1000) by (apply Z.quot_pos; lia). lia.
Qed.

Lemma rx_waited_size (us : Z) (r : list RxEvent) :
  PGD.rx_size (COMPORT.rx_waited us r) = PGD.rx_size r.
Proof. destruct r as [|[dt bs|dt] r]; reflexivity. Qed.

(** What one call of the read loop does: it touches nothing but the clock
    and the script, appends to the caller's buffer, never fills it beyond
    [len], and either takes something off the script or lets the whole
    budget pass. *)
Ltac port_fin :=
  repeat match goal with |- _ /\ _ => split end;
  try solve [ reflexivity | lia | repeat split | left; reflexivity | left; lia
            | right; lia | right; reflexivity | eexists; reflexivity
            | exists []; now rewrite app_nil_r | right; repeat split; lia
            | intros; lia ].

Lemma Read_loop_spec (r : list RxEvent) :
  forall len timeout tov data w n data' r' w',
  COMPORT.Read_loop r len timeout tov data w = (n, data', r', w') ->
  0 <= timeout -> 0 <= tv_usec tov < 1000000 -> Z.of_nat (List.length data) < len ->
  same_line w w' /\ rx w' = rx w
  /\ (n = -1 \/ n = Z.of_nat (List.length data'))
  /\ (exists more, data' = data ++ more)
  /\ Z.of_nat (List.length data') <= len
  /\ now_us w <= now_us w'
  /\ (PGD.rx_size r' <= PGD.rx_size r)%nat
  /\ ((PGD.rx_size r' < PGD.rx_size r)%nat
      \/ (now_us w' = now_us w + timeout * 1000 /\ data' = data /\ n <> -1))
  /\ ((List.length data < List.length data')%nat -> (PGD.rx_size r' < PGD.rx_size r)%nat).
Proof.
  induction r as [|e r IH]; intros len timeout tov data w n data' r' w' H Ht Hv Hlen.
  - simpl in H. injection H as <- <- <- <-. simpl. port_fin.
  - assert (Hlate : forall idx',
        (idx', data, COMPORT.rx_waited (timeout * 1000) (e :: r), usleep (timeout * 1000) w)
        = (n, data', r', w') -> idx' = Z.of_nat (List.length data) ->
        same_line w w' /\ rx w' = rx w
        /\ (n = -1 \/ n = Z.of_nat (List.length data'))
        /\ (exists more, data' = data ++ more)
        /\ Z.of_nat (List.length data') <= len
        /\ now_us w <= now_us w'
        /\ (PGD.rx_size r' <= PGD.rx_size (e :: r))%nat
        /\ ((PGD.rx_size r' < PGD.rx_size (e :: r))%nat
            \/ (now_us w' = now_us w + timeout * 1000 /\ data' = data /\ n <> -1))
        /\ ((List.length data < List.length data')%nat
            -> (PGD.rx_size r' < PGD.rx_size (e :: r))%nat)).
    { intros idx' [= <- <- <- <-] ->.
      change (match e with
              | RxData dt bs => RxData (dt - Z.to_N (timeout * 1000)) bs :: r
              | RxFault dt => RxFault (dt - Z.to_N (timeout * 1000)) :: r
              end) with (COMPORT.rx_waited (timeout * 1000) (e :: r)).
      rewrite rx_waited_size. simpl now_us. port_fin. }
    destruct e as [dt bs|dt]; cbn [COMPORT.Read_loop] in H.
    + destruct (COMPORT.in_window dt timeout); [|apply (Hlate _ H eq_refl)].
      clear Hlate.
      set (nb := Nat.min (List.length bs) (Z.to_nat (len - Z.of_nat (List.length data)))) in *.
      assert (Hnb : (nb <= List.length bs)%nat) by (unfold nb; lia).
      assert (Hnb' : Z.of_nat nb <= len - Z.of_nat (List.length data)) by (unfold nb; lia).
      assert (Hd : List.length (data ++ firstn nb bs) = (List.length data + nb)%nat)
        by (rewrite length_app, length_firstn; lia).
      assert (Hsk : List.length (skipn nb bs) = (List.length bs - nb)%nat)
        by apply length_skipn.
      destruct (skipn nb bs) as [|b rest] eqn:Hrest.
      * simpl in Hsk.
        destruct (Z.eqb_spec (Z.of_nat (List.length (data ++ firstn nb bs))) len) as [He|Hne].
        -- injection H as <- <- <- <-. simpl now_us. simpl PGD.rx_size. port_fin.
        -- destruct (COMPORT.Read_budget _ tov) as [t|] eqn:Hbud.
           ++ apply Read_budget_pos in Hbud; [|apply usec_range|exact Hv].
              assert (Hroom : Z.of_nat (List.length (data ++ firstn nb bs)) < len)
                by (rewrite Hd in *; lia).
              apply IH in H; [|lia|exact Hv|exact Hroom].
              destruct H as (Hl & Hrx & Hn & (more & Hm) & Hle & Hnow & Hsz & _ & _).
              simpl now_us in *. simpl PGD.rx_size.
              split; [exact Hl|]. split; [exact Hrx|]. split; [exact Hn|].
              split; [exists (firstn nb bs ++ more); now rewrite app_assoc|].
              port_fin.
           ++ injection H as <- <- <- <-. simpl now_us. simpl PGD.rx_size. port_fin.
      * injection H as <- <- <- <-. simpl now_us. simpl PGD.rx_size.
        simpl in Hsk. assert (0 < nb)%nat.
        { destruct bs as [|b0 bs0]; [rewrite skipn_nil in Hrest; discriminate|].
          unfold nb. simpl List.length. lia. }
        port_fin.
    + destruct (COMPORT.in_window dt timeout); [|apply (Hlate _ H eq_refl)].
      injection H as <- <- <- <-. simpl now_us. simpl PGD.rx_size. port_fin.
Qed.

Lemma Read_frame (p : COMPORT.t) (w : World) (len timeout : Z) :
  forall nb got p' w', COMPORT.Read p w len timeout = (nb, got, p', w') ->
  COMPORT.fd p' = COMPORT.fd p /\ same_line w w'
  /\ (nb = -1 \/ 0 <= nb) /\ (nb <> -1 -> nb = Z.of_nat (List.length got)).
Proof.
  unfold COMPORT.Read; intros nb got p' w'.
  destruct (COMPORT.fd p =? -1); [intros [= <- <- <- <-]; repeat split; auto; lia|].
  destruct (Z.leb_spec len 0); [intros [= <- <- <- <-]; repeat split; auto; lia|].
  destruct (COMPORT.Read_loop _ _ _ _ _ w) as [[[n data] r] w1] eqn:Hloop.
  apply Read_loop_spec in Hloop;
    [|destruct (Z.ltb_spec timeout 0); lia
     |apply Read_tov_usec; [destruct (Z.ltb_spec timeout 0); lia|apply usec_range]
     |simpl; lia].
  destruct Hloop as (Hl & _ & Hn & _).
  intros [= <- <- <- <-].
  split; [destruct (n =? -1); reflexivity|]. split; [exact Hl|].
  split; [destruct Hn as [->| ->]; [auto|right; lia]|].
  intros Hne. destruct Hn; [contradiction|assumption].
Qed.

(** With an open port and room in the buffer, a read eats into the
    script or lets the whole budget pass. *)
Lemma Read_progress (p : COMPORT.t) (w : World) (len timeout : Z) :
  COMPORT.fd p <> -1 -> 0 < len -> 0 <= timeout ->
  forall nb got p' w', COMPORT.Read p w len timeout = (nb, got, p', w') ->
  now_us w <= now_us w'
  /\ (PGD.rx_size (rx w') <= PGD.rx_size (rx w))%nat
  /\ ((PGD.rx_size (rx w') < PGD.rx_size (rx w))%nat
      \/ now_us w' = now_us w + timeout * 1000)
  /\ (0 < nb -> (PGD.rx_size (rx w') < PGD.rx_size (rx w))%nat).
Proof.
  intros Hfd Hlen Ht nb got p' w'. unfold COMPORT.Read.
  destruct (Z.eqb_spec (COMPORT.fd p) (-1)) as [|_]; [contradiction|].
  destruct (Z.leb_spec len 0) as [|_]; [lia|].
  destruct (Z.ltb_spec timeout 0) as [|_]; [lia|].
  destruct (COMPORT.Read_loop _ _ _ _ _ w) as [[[n data] r] w1] eqn:Hloop.
  apply Read_loop_spec in Hloop; [|lia|apply Read_tov_usec; [lia|apply usec_range]|simpl; lia].
  destruct Hloop as (_ & _ & Hn & _ & _ & Hnow & Hsz & Hpr & Hgot).
  intros [= <- <- <- <-]. simpl.
  split; [exact Hnow|]. split; [exact Hsz|]. split; [tauto|].
  intros Hpos. apply Hgot. simpl. lia.
Qed.

Lemma Read_open (p : COMPORT.t) (w : World) (len timeout : Z) :
  forall nb got p' w', COMPORT.Read p w len timeout = (nb, got, p', w') ->
  nb <> -1 -> COMPORT.fd p <> -1.
Proof.
  unfold COMPORT.Read; intros nb got p' w'.
  destruct (COMPORT.fd p =? -1) eqn:Hfd; [intros [= <- <- <- <-]; congruence|].
  intros _ _. now apply Z.eqb_neq.
Qed.

Lemma Read_clock_mono (p : COMPORT.t) (w : World) (len timeout : Z) :
  forall nb got p' w', COMPORT.Read p w len timeout = (nb, got, p', w') ->
  now_us w <= now_us w'.
Proof.
  unfold COMPORT.Read; intros nb got p' w'.
  destruct (COMPORT.fd p =? -1); [intros [= <- <- <- <-]; lia|].
  destruct (Z.leb_spec len 0); [intros [= <- <- <- <-]; lia|].
  destruct (COMPORT.Read_loop _ _ _ _ _ w) as [[[n data] r] w1] eqn:Hloop.
  apply Read_loop_spec in Hloop;
    [|destruct (Z.ltb_spec timeout 0); lia
     |apply Read_tov_usec; [destruct (Z.ltb_spec timeout 0); lia|apply usec_range]
     |simpl; lia].
  intros [= <- <- <- <-]. simpl. apply Hloop.
Qed.

Lemma Read_at_most (p : COMPORT.t) (w : World) (len timeout : Z) :
  forall nb got p' w', COMPORT.Read p w len timeout = (nb, got, p', w') ->
  (List.length got <= Z.to_nat len)%nat.
Proof.
  unfold COMPORT.Read; intros nb got p' w'.
  destruct (COMPORT.fd p =? -1); [intros [= <- <- <- <-]; simpl; lia|].
  destruct (Z.leb_spec len 0); [intros [= <- <- <- <-]; simpl; lia|].
  destruct (COMPORT.Read_loop _ _ _ _ _ w) as [[[n data] r] w1] eqn:Hloop.
  apply Read_loop_spec in Hloop;
    [|destruct (Z.ltb_spec timeout 0); lia
     |apply Read_tov_usec; [destruct (Z.ltb_spec timeout 0); lia|apply usec_range]
     |simpl; lia].
  intros [= <- <- <- <-]. destruct Hloop as (_ & _ & _ & _ & Hle & _). lia.
Qed.

Lemma to_us_gettimeofday (w : World) : to_us (gettimeofday w) = now_us w.
Proof.
  unfold to_us, gettimeofday; simpl.
  assert (H := Z.div_mod (now_us w) 1000000 ltac:(lia)). lia.
Qed.

Lemma Read_tov_exact (now : timeval) (timeout : Z) :
  0 <= timeout -> 0 <= tv_usec now < 1000000 ->
  to_us (COMPORT.Read_tov now timeout) = to_us now + timeout * 1000.
Proof.
  intros Ht Hu. unfold COMPORT.Read_tov, to_us.
  assert (Hq : timeout = 1000 * Z.quot timeout 1000 + Z.rem timeout 1000)
    by (apply Z.quot_rem'; lia).
  assert (Hr : 0 <= Z.rem timeout 1000 < 1000) by (apply Z.rem_bound_pos; lia).
  assert (Hs : timeout < 1000 -> Z.quot timeout 1000 = 0) by (intros; apply Z.quot_small; lia).
  destruct (Z.leb_spec 1000 timeout);
    destruct (Z.leb_spec 1000000 (tv_usec now + Z.rem timeout 1000 * 1000)); simpl;
    try (rewrite Z.rem_mod_nonneg by lia;
         rewrite <- (Z.mod_unique_pos _ 1000000 1
                        (tv_usec now + Z.rem timeout 1000 * 1000 - 1000000)) by lia);
    try specialize (Hs ltac:(lia)); lia.
Qed.

(** The budget of the next pass is what is left until [tov], in
    milliseconds, rounded down or up. *)
Lemma Read_budget_bounds (now tov : timeval) :
  0 <= tv_usec now < 1000000 -> 0 <= tv_usec tov < 1000000 ->
  match COMPORT.Read_budget now tov with
  | Some t => 0 < t /\ to_us tov - to_us now - 1000 < t * 1000 < to_us tov - to_us now + 1000
  | None => to_us tov - to_us now < 1000
  end.
Proof.
  intros Hn Hv. unfold COMPORT.Read_budget, to_us.
  destruct (Z.ltb_spec (tv_sec tov) (tv_sec now)); [lia|].
  destruct (Z.eqb_spec (tv_sec now) (tv_sec tov)) as [He|He];
    destruct (Z.leb_spec (tv_usec tov) (tv_usec now)); cbn [andb]; try lia;
    match goal with |- context [?t =? 0] => destruct (Z.eqb_spec t 0) as [Hz|Hz] end;
    Z.quot_rem_to_equations; lia.
Qed.

Lemma rx_waited_0 (r : list RxEvent) : COMPORT.rx_waited 0 r = r.
Proof. destruct r as [|[dt bs|dt] r]; simpl; now rewrite ?N.sub_0_r. Qed.

Lemma in_window_early (dt : N) (timeout : Z) :
  Z.of_N dt < timeout * 1000 -> COMPORT.in_window dt timeout = true.
Proof.
  intros H. unfold COMPORT.in_window.
  destruct (Z.eqb_spec timeout 0); [lia|]. apply Z.ltb_lt; exact H.
Qed.

Lemma in_window_late (dt : N) (timeout : Z) :
  0 < timeout -> timeout * 1000 <= Z.of_N dt -> COMPORT.in_window dt timeout = false.
Proof.
  intros Ht H. unfold COMPORT.in_window.
  destruct (Z.eqb_spec timeout 0); [lia|]. apply Z.ltb_ge; exact H.
Qed.

(** On a line that stays quiet the loop gives up when its budget is spent. *)
Lemma Read_loop_quiet (r : list RxEvent) (len timeout : Z) (tov : timeval)
      (data : list Z) (w : World) :
  0 < timeout -> quiet (timeout * 1000) r ->
  COMPORT.Read_loop r len timeout tov data w
  = (Z.of_nat (List.length data), data, COMPORT.rx_waited (timeout * 1000) r,
     usleep (timeout * 1000) w).
Proof.
  intros Ht Hq. destruct r as [|[dt bs|dt] r]; simpl in *; [reflexivity| |];
    rewrite (in_window_late dt timeout Ht Hq); reflexivity.
Qed.

(** The answer is there in time and fills the buffer: the read returns
    at once with [len] bytes, and what is left of the chunk stays queued. *)
Lemma Read_chunk (p : COMPORT.t) (w : World) (len timeout : Z)
      (dt : N) (bs : list Z) (r : list RxEvent) :
  COMPORT.fd p <> -1 -> 0 < len -> rx w = RxData dt bs :: r ->
  Z.of_N dt < timeout * 1000 -> len <= Z.of_nat (List.length bs) ->
  COMPORT.Read p w len timeout
  = (len, firstn (Z.to_nat len) bs, p,
     usleep (Z.of_N dt) (set_rx (rx_after (Z.to_nat len) bs r) w)).
Proof.
  intros Hfd Hlen Hrx Hdt Hbs. unfold COMPORT.Read, rx_after.
  destruct (Z.eqb_spec (COMPORT.fd p) (-1)) as [|_]; [contradiction|].
  destruct (Z.leb_spec len 0) as [|_]; [lia|].
  destruct (Z.ltb_spec timeout 0) as [|_]; [lia|].
  rewrite Hrx. cbn [COMPORT.Read_loop]. rewrite (in_window_early _ _ Hdt).
  cbn [List.length app]. rewrite Z.sub_0_r.
  replace (Nat.min (List.length bs) (Z.to_nat len)) with (Z.to_nat len) by lia.
  assert (Hl : Z.of_nat (List.length (firstn (Z.to_nat len) bs)) = len)
    by (rewrite length_firstn; lia).
  rewrite Hl, Z.eqb_refl.
  destruct (skipn (Z.to_nat len) bs) as [|b rest];
    (replace (len =? -1) with false by (symmetry; apply Z.eqb_neq; lia)); reflexivity.
Qed.

(** The answer is there in time but shorter than the buffer, and the line
    is quiet afterwards: the read waits for more until its budget is
    spent and returns what it has. *)
Lemma Read_short (p : COMPORT.t) (w : World) (len timeout : Z)
      (dt : N) (bs : list Z) (r : list RxEvent) :
  COMPORT.fd p <> -1 -> rx w = RxData dt bs :: r ->
  Z.of_N dt < timeout * 1000 -> Z.of_nat (List.length bs) < len ->
  quiet (timeout * 1000) r ->
  exists us,
    COMPORT.Read p w len timeout
    = (Z.of_nat (List.length bs), bs, p,
       usleep (Z.of_N dt + us) (set_rx (COMPORT.rx_waited us r) w))
    /\ 0 <= us /\ timeout * 1000 - Z.of_N dt - 1000 < us < timeout * 1000 - Z.of_N dt + 1000.
Proof.
  intros Hfd Hrx Hdt Hbs Hq. unfold COMPORT.Read.
  destruct (Z.eqb_spec (COMPORT.fd p) (-1)) as [|_]; [contradiction|].
  destruct (Z.leb_spec len 0) as [|_]; [lia|].
  destruct (Z.ltb_spec timeout 0) as [|_]; [lia|].
  rewrite Hrx. cbn [COMPORT.Read_loop]. rewrite (in_window_early _ _ Hdt).
  cbn [List.length app]. rewrite Z.sub_0_r.
  replace (Nat.min (List.length bs) (Z.to_nat len)) with (List.length bs) by lia.
  rewrite firstn_all, skipn_all.
  destruct (Z.eqb_spec (Z.of_nat (List.length bs)) len) as [|_]; [lia|].
  assert (Hn : (Z.of_nat (List.length bs) =? -1) = false) by (apply Z.eqb_neq; lia).
  assert (Ht0 : 0 <= timeout) by lia.
  assert (Hb := Read_budget_bounds (gettimeofday (usleep (Z.of_N dt) w))
                  (COMPORT.Read_tov (gettimeofday w) timeout)
                  (usec_range _) (Read_tov_usec _ _ Ht0 (usec_range w))).
  destruct (COMPORT.Read_budget _ _) as [t|];
    rewrite Read_tov_exact, !to_us_gettimeofday in Hb by (try apply usec_range; lia);
    change (now_us (usleep (Z.of_N dt) w)) with (now_us w + Z.of_N dt) in Hb.
  - rewrite Read_loop_quiet.
    + rewrite Hn. exists (t * 1000). split; [|lia].
      f_equal. unfold usleep, set_now, set_rx; cbn [now_us rx wr tty_speed tty_speeds trace].
      f_equal. lia.
    + lia.
    + destruct r as [|[d b|d] r]; simpl in *; lia.
  - rewrite Hn. exists 0. rewrite rx_waited_0, Z.add_0_r. split; [reflexivity|lia].
Qed.

(** Nothing comes within the budget: the read returns 0 when it is spent. *)
Lemma Read_quiet (p : COMPORT.t) (w : World) (len timeout : Z) :
  COMPORT.fd p <> -1 -> 0 < len -> 0 < timeout -> quiet (timeout * 1000) (rx w) ->
  COMPORT.Read p w len timeout
  = (0, [], p, usleep (timeout * 1000)
                 (set_rx (COMPORT.rx_waited (timeout * 1000) (rx w)) w)).
Proof.
  intros Hfd Hlen Ht Hq. unfold COMPORT.Read.
  destruct (Z.eqb_spec (COMPORT.fd p) (-1)) as [|_]; [contradiction|].
  destruct (Z.leb_spec len 0) as [|_]; [lia|].
  destruct (Z.ltb_spec timeout 0) as [|_]; [lia|].
  rewrite Read_loop_quiet by assumption. reflexivity.
Qed.



Lemma tx_only_app (a b : list Event) : tx_only a -> tx_only b -> tx_only (a ++ b).
Proof. unfold tx_only; rewrite forallb_app; intros -> ->; reflexivity. Qed.

Lemma sys_write_spec (buf : list Z) (w : World) :
  buf <> [] ->
  forall k w', COMPORT.sys_write buf w = (k, w') ->
  same_input w w'
  /\ ((k <= 0 /\ trace w' = trace w)
      \/ (0 < k <= Z.of_nat (List.length buf)
          /\ trace w' = trace w ++ [EvTx (firstn (Z.to_nat k) buf)])).
Proof.
  unfold COMPORT.sys_write, same_input; intros Hne k w'.
  destruct (wr w) as [|[n| |] r]; intros [= <- <-]; simpl.
  - split; [auto|right]. rewrite Nat2Z.id, firstn_all.
    destruct buf; [congruence|simpl; split; [lia|reflexivity]].
  - split; [auto|right]. rewrite Nat2Z.id.
    destruct buf; [congruence|simpl List.length; split; [lia|reflexivity]].
  - split; [auto|left]; split; [lia|reflexivity].
  - split; [auto|left]; split; [lia|reflexivity].
Qed.

(** The write loop puts a prefix of the buffer on the wire and counts it. *)
Lemma write_loop_spec (turns : nat) :
  forall buf ntx bsent w ntx' bsent' w',
  COMPORT.write_loop turns buf ntx bsent w = (ntx', bsent', w') ->
  same_input w w'
  /\ exists evs rest,
       trace w' = trace w ++ evs /\ tx_only evs
       /\ tx_bytes evs ++ rest = buf
       /\ ntx' = ntx + Z.of_nat (List.length (tx_bytes evs)).
Proof.
  induction turns as [|turns IH]; intros buf ntx bsent w ntx' bsent' w'; simpl.
  - intros [= <- <- <-]. split; [repeat split|].
    exists [], buf. rewrite app_nil_r; simpl. repeat split; auto; lia.
  - destruct buf as [|b buf].
    + intros [= <- <- <-]. split; [repeat split|].
      exists [], []. rewrite app_nil_r; simpl. repeat split; auto; lia.
    + destruct (COMPORT.sys_write (b :: buf) w) as [k w1] eqn:Hsys.
      apply sys_write_spec in Hsys; [|discriminate].
      destruct Hsys as [Hin Hk].
      destruct (Z.ltb_spec 0 k) as [Hpos|Hneg].
      * intros Hloop. apply IH in Hloop.
        destruct Hloop as [Hin' (evs & rest & Htr & Htx & Hbuf & Hn)].
        destruct Hk as [[Hk _]|[Hk Htr1]]; [lia|].
        split; [unfold same_input in *; intuition congruence|].
        exists (EvTx (firstn (Z.to_nat k) (b :: buf)) :: evs), rest.
        rewrite Htr, Htr1, <- app_assoc. simpl app.
        split; [reflexivity|]. split; [exact Htx|]. split.
        -- simpl tx_bytes. rewrite <- app_assoc, Hbuf. apply firstn_skipn.
        -- simpl tx_bytes. rewrite length_app, length_firstn, Hn.
           simpl List.length in *. lia.
      * intros [= <- <- <-].
        destruct Hk as [[_ Htr1]|[Hk _]]; [|lia].
        split; [exact Hin|].
        exists [], (b :: buf). rewrite app_nil_r. simpl. repeat split; auto; lia.
Qed.

(** COMPORT::Write sends a prefix of [data[0..len)], and all of it when it
    reports [len] bytes. *)
Lemma Write_spec (p : COMPORT.t) (w : World) (data : list Z) (len : Z) :
  forall r p' w', COMPORT.Write p w data len = (r, p', w') ->
  COMPORT.fd p' = COMPORT.fd p /\ same_input w w'
  /\ exists evs,
       trace w' = trace w ++ evs /\ tx_only evs
       /\ (exists rest, tx_bytes evs ++ rest = firstn (Z.to_nat len) data)
       /\ (0 < len -> r = len -> tx_bytes evs = firstn (Z.to_nat len) data).
Proof.
  intros r p' w'. unfold COMPORT.Write.
  destruct (Z.leb_spec len 0) as [Hle|Hlt].
  { intros [= <- <- <-]. split; [reflexivity|]. split; [repeat split|].
    exists []. rewrite app_nil_r. repeat split; auto.
    - exists (firstn (Z.to_nat len) data); reflexivity.
    - lia. }
  destruct (Z.eqb_spec (COMPORT.fd p) (-1)) as [Hfd|Hfd].
  { intros [= <- <- <-]. split; [reflexivity|]. split; [repeat split|].
    exists []. rewrite app_nil_r. repeat split; auto.
    - exists (firstn (Z.to_nat len) data); reflexivity.
    - lia. }
  destruct (COMPORT.write_loop _ _ 0 0 w) as [[ntx bsent] w1] eqn:Hloop.
  apply write_loop_spec in Hloop.
  destruct Hloop as [Hin (evs & rest & Htr & Htx & Hbuf & Hn)].
  assert (Hall : ntx = len -> tx_bytes evs = firstn (Z.to_nat len) data).
  { intros ->. assert (Hl := f_equal (@List.length Z) Hbuf).
    rewrite length_app, length_firstn in Hl.
    assert (List.length rest = 0)%nat by lia.
    destruct rest; [|discriminate]. now rewrite app_nil_r in Hbuf. }
  assert (Hfin : forall q, COMPORT.fd q = COMPORT.fd p ->
            forall r0, (0 < len -> r0 = len -> ntx = len) ->
            (r0, q, w1) = (r, p', w') ->
            COMPORT.fd p' = COMPORT.fd p /\ same_input w w'
            /\ exists evs,
                 trace w' = trace w ++ evs /\ tx_only evs
                 /\ (exists rest, tx_bytes evs ++ rest = firstn (Z.to_nat len) data)
                 /\ (0 < len -> r = len -> tx_bytes evs = firstn (Z.to_nat len) data)).
  { intros q Hq r0 Hr0 [= <- <- <-]. split; [exact Hq|]. split; [exact Hin|].
    exists evs. repeat split; eauto. }
  destruct (bsent =? -1).
  - destruct (Z.ltb_spec 0 ntx); apply Hfin; simpl; auto; lia.
  - destruct (ntx =? len); apply Hfin; simpl; auto.
Qed.

(** On a line without write faults the whole buffer goes out at once. *)
Lemma Write_ok (p : COMPORT.t) (w : World) (data : list Z) (len : Z) :
  COMPORT.fd p <> -1 -> wr w = [] -> 0 < len <= Z.of_nat (List.length data) ->
  COMPORT.Write p w data len = (len, p, emit (EvTx (firstn (Z.to_nat len) data)) w).
Proof.
  intros Hfd Hwr Hlen. unfold COMPORT.Write.
  destruct (Z.leb_spec len 0) as [|_]; [lia|].
  destruct (Z.eqb_spec (COMPORT.fd p) (-1)) as [|_]; [contradiction|].
  assert (Hl : List.length (firstn (Z.to_nat len) data) = Z.to_nat len)
    by (rewrite length_firstn; lia).
  destruct (firstn (Z.to_nat len) data) as [|b buf] eqn:Hbuf; [simpl in Hl; lia|].
  rewrite Hl. destruct (Z.to_nat len) as [|n] eqn:Hn; [lia|].
  simpl COMPORT.write_loop. unfold COMPORT.sys_write. rewrite Hwr.
  rewrite Hl. replace (Z.of_nat (S n)) with len by lia.
  destruct (Z.ltb_spec 0 len) as [_|]; [|lia].
  rewrite Hn, <- Hl, skipn_all.
  assert (Hend : forall k a c w0, COMPORT.write_loop k [] a c w0 = (a, c, w0))
    by (intros [|k]; reflexivity).
  rewrite Hend.
  destruct (Z.eqb_spec len (-1)) as [|_]; [lia|].
  simpl. rewrite ?Z.add_0_l, Z.eqb_refl. reflexivity.
Qed.

Lemma Flush_spec (p : COMPORT.t) (w : World) :
  forall r p' w', COMPORT.Flush p w = (r, p', w') -> p' = p /\ w' = w.
Proof. unfold COMPORT.Flush; intros r p' w'; destruct (_ <? _); intros [= <- <- <-]; auto. Qed.

(** ** Waiting for the acknowledgement *)

Lemma same_ctl_refl s : same_ctl s s.
Proof. repeat split. Qed.

Lemma same_ctl_trans s1 s2 s3 : same_ctl s1 s2 -> same_ctl s2 s3 -> same_ctl s1 s3.
Proof. unfold same_ctl; intuition congruence. Qed.

Lemma scan_acknack_range (msg : list Z) (r : Z) :
  PGD.scan_acknack msg = Some r -> r = 0 \/ r = 1.
Proof.
  induction msg as [|b msg IH]; simpl; [discriminate|].
  destruct (b =? ACK); [intros [= <-]; auto|].
  destruct (b =? NACK); [intros [= <-]; auto|exact IH].
Qed.

Lemma waitACKNACK_loop_frame (turns : nat) :
  forall tov now s w r s' w',
  PGD.waitACKNACK_loop turns tov now s w = Some (r, s', w') ->
  same_ctl s s' /\ same_line w w' /\ ack_code r.
Proof.
  unfold ack_code.
  induction turns as [|turns IH]; intros tov now s w r s' w'; simpl; [discriminate|].
  destruct (PGD.before_deadline now tov).
  - destruct (COMPORT.Read (PGD.port s) w 4 10) as [[[nb msg] p] w1] eqn:Hrd.
    apply Read_frame in Hrd. destruct Hrd as (Hfd & Hline & _ & _).
    destruct (nb =? -1).
    + intros [= <- <- <-]. repeat split; simpl; auto; apply Hline.
    + destruct (PGD.scan_acknack msg) as [a|] eqn:Hscan.
      * intros [= <- <- <-]. apply scan_acknack_range in Hscan.
        repeat split; simpl; auto; try apply Hline. tauto.
      * intros Hloop. apply IH in Hloop. destruct Hloop as (Hc & Hl & Hr).
        split; [|split; [eapply same_line_trans; eauto|exact Hr]].
        eapply same_ctl_trans; [|exact Hc]. repeat split; simpl; auto.
  - intros [= <- <- <-]. repeat split; simpl; auto.
Qed.

Lemma waitACKNACK_frame (timeout : Z) (s : PGD.t) (w : World) :
  forall r s' w', PGD.waitACKNACK timeout s w = (r, s', w') ->
  same_ctl s s' /\ same_line w w' /\ ack_code r.
Proof.
  unfold PGD.waitACKNACK; intros r s' w'.
  destruct (PGD.waitACKNACK_loop _ _ _ s w) as [[[r0 s0] w0]|] eqn:Hloop.
  - intros [= <- <- <-]. eapply waitACKNACK_loop_frame; eauto.
  - intros [= <- <- <-]. unfold ack_code. split; [apply same_ctl_refl|].
    split; [apply same_line_refl|auto].
Qed.

(** *** The wait loops return *)

Lemma ticks_mono (tov : timeval) (w w' : World) :
  now_us w <= now_us w' -> (ticks tov w' <= ticks tov w)%nat.
Proof.
  intros H. unfold ticks.
  assert (((tv_sec tov + 1) * 1000000 - now_us w' + 9999) / 10000
          <= ((tv_sec tov + 1) * 1000000 - now_us w + 9999) / 10000)
    by (apply Z.div_le_mono; lia).
  lia.
Qed.

Lemma ticks_step (tov : timeval) (w w' : World) :
  PGD.before_deadline (gettimeofday w) tov = true ->
  now_us w' = now_us w + 10 * 1000 ->
  (ticks tov w' < ticks tov w)%nat.
Proof.
  unfold PGD.before_deadline, gettimeofday, ticks; simpl. intros Hb Hn.
  assert (Hsec : now_us w / 1000000 <= tv_sec tov).
  { apply orb_true_iff in Hb. destruct Hb as [Hb|Hb].
    - apply Z.ltb_lt in Hb; lia.
    - apply andb_true_iff in Hb. destruct Hb as [Hb _]. apply Z.eqb_eq in Hb; lia. }
  assert (Hlt : now_us w < (tv_sec tov + 1) * 1000000).
  { assert (Hm := Z.mod_pos_bound (now_us w) 1000000 ltac:(lia)).
    assert (Hd := Z.div_mod (now_us w) 1000000 ltac:(lia)). lia. }
  rewrite Hn.
  assert (Hlo : 1 <= ((tv_sec tov + 1) * 1000000 - now_us w + 9999) / 10000)
    by (apply Z.div_le_lower_bound; lia).
  assert (Hdec : ((tv_sec tov + 1) * 1000000 - (now_us w + 10 * 1000) + 9999) / 10000
                 = ((tv_sec tov + 1) * 1000000 - now_us w + 9999) / 10000 - 1).
  { replace (((tv_sec tov + 1) * 1000000 - now_us w + 9999) / 10000 - 1)
      with (((tv_sec tov + 1) * 1000000 - now_us w + 9999) / 10000 + -1) by lia.
    rewrite <- (Z.div_add _ (-1) 10000) by lia. f_equal; lia. }
  change (10 * 1000) with 10000 in Hdec. rewrite Hdec. lia.
Qed.


(** The turns [waitACKNACK] hands to its loop are never used up. *)
Lemma waitACKNACK_loop_total (turns : nat) :
  forall tov s w,
  (PGD.rx_size (rx w) + ticks tov w < turns)%nat ->
  PGD.waitACKNACK_loop turns tov (gettimeofday w) s w <> None.
Proof.
  induction turns as [|turns IH]; intros tov s w Hm; [lia|]. simpl.
  destruct (PGD.before_deadline (gettimeofday w) tov) eqn:Hb; [|discriminate].
  destruct (COMPORT.Read (PGD.port s) w 4 10) as [[[nb msg] p] w1] eqn:Hrd.
  destruct (Z.eqb_spec nb (-1)) as [|Hnb]; [discriminate|].
  destruct (PGD.scan_acknack msg); [discriminate|].
  apply IH.
  assert (Hfd := Read_open _ _ _ _ _ _ _ _ Hrd Hnb).
  destruct (Read_progress _ _ 4 10 Hfd ltac:(lia) ltac:(lia) _ _ _ _ Hrd)
    as (Hnow & Hle & [Hdat|Hsil] & _).
  - assert (Hs := ticks_mono tov w w1 Hnow). lia.
  - assert (Hs := ticks_step tov w w1 Hb Hsil). lia.
Qed.

(** PGD::waitACKNACK always returns what its loop computes. *)
Lemma waitACKNACK_returns (timeout : Z) (s : PGD.t) (w : World) :
  PGD.waitACKNACK_loop
    (PGD.waitACKNACK_turns (PGD.deadline (gettimeofday w) timeout) w)
    (PGD.deadline (gettimeofday w) timeout) (gettimeofday w) s w
  = Some (PGD.waitACKNACK timeout s w).
Proof.
  unfold PGD.waitACKNACK.
  destruct (PGD.waitACKNACK_loop _ _ _ s w) as [r|] eqn:Hloop; [reflexivity|].
  exfalso. revert Hloop. apply waitACKNACK_loop_total.
  unfold PGD.waitACKNACK_turns, ticks. lia.
Qed.

(** The read loop of SDListDirFAT never uses up its turns either: every
    turn but the last reads at least one byte off the script. *)
Lemma listdir_loop_total (turns : nat) :
  forall direntry dir s w,
  (PGD.rx_size (rx w) < turns)%nat ->
  PGD.listdir_loop turns direntry dir s w <> None.
Proof.
  induction turns as [|turns IH]; intros direntry dir s w Hm; [lia|]. simpl.
  destruct (COMPORT.Read (PGD.port s) w 512 500) as [[[nb buf] p] w1] eqn:Hrd.
  destruct (Z.ltb_spec 0 nb) as [Hpos|Hle].
  - destruct (PGD.scan_dir buf direntry dir) as [[[r|] de] d].
    + destruct (r =? -1); discriminate.
    + apply IH.
      assert (Hfd := Read_open _ _ _ _ _ _ _ _ Hrd ltac:(lia)).
      destruct (Read_progress _ _ 512 500 Hfd ltac:(lia) ltac:(lia) _ _ _ _ Hrd)
        as (_ & _ & _ & Hdat).
      specialize (Hdat Hpos). lia.
  - destruct (nb =? -1); discriminate.
Qed.

(** ** Bytes sent by a command *)

Lemma sent_after_Write (p : COMPORT.t) (w : World) (data : list Z) (len : Z) :
  forall r p' w', COMPORT.Write p w data len = (r, p', w') ->
  COMPORT.fd p' = COMPORT.fd p
  /\ (exists pre rest,
        sent w' = sent w ++ pre /\ pre ++ rest = firstn (Z.to_nat len) data)
  /\ (0 < len -> r = len -> sent w' = sent w ++ firstn (Z.to_nat len) data).
Proof.
  intros r p' w' H. apply Write_spec in H.
  destruct H as (Hfd & _ & evs & Htr & _ & (rest & Hpre) & Hall).
  unfold sent. rewrite Htr, tx_bytes_app. split; [exact Hfd|]. split.
  - exists (tx_bytes evs), rest; auto.
  - intros Hlen Hr. now rewrite Hall.
Qed.

Lemma sent_after_wait (timeout : Z) (s : PGD.t) (w : World) :
  forall r s' w', PGD.waitACKNACK timeout s w = (r, s', w') -> sent w' = sent w.
Proof.
  intros r s' w' H. apply waitACKNACK_frame in H.
  destruct H as (_ & (Htr & _) & _). unfold sent. now rewrite Htr.
Qed.

(** ** Resolution codes *)

(** C6.  The resolution-code conversion yields 220 for 0x22, 240 for 0x24,
    128 for 0x28, 320 for 0x32, 160 for 0x60, 64 for 0x64, 176 for 0x76,
    96 for 0x96, and 0 for every other value of its argument. *)
Theorem convertRes_mapping :
  PGD.convertRes 0x22 = 220 /\ PGD.convertRes 0x24 = 240
  /\ PGD.convertRes 0x28 = 128 /\ PGD.convertRes 0x32 = 320
  /\ PGD.convertRes 0x60 = 160 /\ PGD.convertRes 0x64 = 64
  /\ PGD.convertRes 0x76 = 176 /\ PGD.convertRes 0x96 = 96
  /\ forall b : Z,
       ~ In b [0x22; 0x24; 0x28; 0x32; 0x60; 0x64; 0x76; 0x96] ->
       PGD.convertRes b = 0.
Proof.
  repeat (split; [reflexivity|]).
  intros b Hb. unfold PGD.convertRes.
  repeat match goal with
         | |- context [b =? ?c] =>
             destruct (Z.eqb_spec b c) as [->|_]; [exfalso; apply Hb; simpl; tauto|]
         end.
  reflexivity.
Qed.

Lemma convertRes_mapping_witness :
  ~ In 0x00 [0x22; 0x24; 0x28; 0x32; 0x60; 0x64; 0x76; 0x96]
  /\ PGD.convertRes 0x00 = 0.
Proof.
  assert (H : ~ In 0x00 [0x22; 0x24; 0x28; 0x32; 0x60; 0x64; 0x76; 0x96])
    by (simpl; intros H; repeat (destruct H as [H|H]; [discriminate H|]); exact H).
  split; [exact H|].
  exact (proj2 (proj2 (proj2 (proj2 (proj2 (proj2 (proj2 (proj2
           convertRes_mapping))))))) 0x00 H).
Defined.

(** ** Registering the handler *)

(** C8, as amended.  SetCallback stores the handler and the user context
    and returns 0 whenever the controller is not Busy, that is in the Idle
    and in the Inactive state; in the Busy state it returns -1 and the
    stored handler and context are unchanged. *)
Theorem SetCallback_unless_busy (s : PGD.t) (cb : option Z) (obj : Z) :
  (PGD.state s <> LCD_BUSY ->
     PGD.SetCallback s cb obj = (0, PGD.set_callback cb obj s))
  /\ (PGD.state s = LCD_BUSY ->
        fst (PGD.SetCallback s cb obj) = -1
        /\ PGD.callback (snd (PGD.SetCallback s cb obj)) = PGD.callback s
        /\ PGD.usrobj (snd (PGD.SetCallback s cb obj)) = PGD.usrobj s).
Proof.
  unfold PGD.SetCallback. split.
  - intros Hs. destruct (PGD.state s); try reflexivity. congruence.
  - intros ->. simpl. auto.
Qed.

Lemma SetCallback_unless_busy_witness :
  (PGD.state PGD.init <> LCD_BUSY
   /\ PGD.SetCallback PGD.init (Some 4096) 77
      = (0, PGD.set_callback (Some 4096) 77 PGD.init))
  /\ (PGD.state (Samples.busy PG_SLEEP) = LCD_BUSY
      /\ fst (PGD.SetCallback (Samples.busy PG_SLEEP) None 0) = -1
      /\ PGD.callback (snd (PGD.SetCallback (Samples.busy PG_SLEEP) None 0)) = Some 4096).
Proof.
  split.
  - assert (H : PGD.state PGD.init <> LCD_BUSY) by (simpl; discriminate).
    split; [exact H|].
    exact (proj1 (SetCallback_unless_busy PGD.init (Some 4096) 77) H).
  - assert (H : PGD.state (Samples.busy PG_SLEEP) = LCD_BUSY) by reflexivity.
    split; [exact H|].
    destruct (proj2 (SetCallback_unless_busy (Samples.busy PG_SLEEP) None 0) H)
      as (H1 & H2 & _).
    split; [exact H1|exact H2].
Defined.

(** C8 as stated fails: in the Inactive state, which is not Idle, the call
    succeeds and replaces the stored handler. *)
Lemma SetCallback_inactive_counterexample :
  PGD.state PGD.init = LCD_INACTIVE
  /\ PGD.callback PGD.init = None
  /\ fst (PGD.SetCallback PGD.init (Some 4096) 77) = 0
  /\ PGD.callback (snd (PGD.SetCallback PGD.init (Some 4096) 77)) = Some 4096
  /\ ~ (forall s cb obj, PGD.state s <> LCD_IDLE ->
          fst (PGD.SetCallback s cb obj) <> 0
          /\ PGD.callback (snd (PGD.SetCallback s cb obj)) = PGD.callback s).
Proof.
  repeat (split; [reflexivity|]).
  intros H. destruct (H PGD.init (Some 4096) 77) as [H0 _].
  - simpl; discriminate.
  - apply H0. reflexivity.
Qed.

(** ** Empty texts *)

(** C10.  In the Idle state ShowString, ScaleString and Button, given a
    non-null text of length zero, return 0 at once: controller and world
    are as before, so nothing was written to the serial channel. *)
Theorem empty_text_returns_at_once (s : PGD.t) (w : World) (text : list Z)
        (col row font color x y width height bcolor tcolor xmul ymul : Z)
        (pressed : bool) :
  PGD.state s = LCD_IDLE -> PGD.strlen text = 0 ->
  PGD.ShowString col row font color (Some text) s w = (0, s, w)
  /\ PGD.ScaleString x y font color width height (Some text) s w = (0, s, w)
  /\ PGD.Button pressed x y bcolor font tcolor xmul ymul (Some text) s w = (0, s, w)
  /\ sent (snd (PGD.ShowString col row font color (Some text) s w)) = sent w
  /\ sent (snd (PGD.ScaleString x y font color width height (Some text) s w)) = sent w
  /\ sent (snd (PGD.Button pressed x y bcolor font tcolor xmul ymul (Some text) s w))
     = sent w.
Proof.
  intros Hs Hlen.
  unfold PGD.ShowString, PGD.ScaleString, PGD.Button.
  rewrite Hs, Hlen. simpl. repeat split.
Qed.

Lemma empty_text_returns_at_once_witness :
  PGD.state Samples.idle = LCD_IDLE /\ PGD.strlen [] = 0
  /\ PGD.ShowString 1 2 3 0xFFFF (Some []) Samples.idle (Samples.world [])
     = (0, Samples.idle, Samples.world [])
  /\ PGD.ScaleString 10 20 3 0xFFFF 2 2 (Some []) Samples.idle (Samples.world [])
     = (0, Samples.idle, Samples.world [])
  /\ PGD.Button true 10 20 0xF800 3 0xFFFF 1 1 (Some []) Samples.idle (Samples.world [])
     = (0, Samples.idle, Samples.world []).
Proof.
  assert (H1 : PGD.state Samples.idle = LCD_IDLE) by reflexivity.
  assert (H2 : PGD.strlen [] = 0) by reflexivity.
  split; [exact H1|]. split; [exact H2|].
  destruct (empty_text_returns_at_once Samples.idle (Samples.world []) []
              1 2 3 0xFFFF 10 20 2 2 0xF800 0xFFFF 1 1 true H1 H2)
    as (A & B & C & _).
  split; [exact A|]. split; [exact B|exact C].
Defined.

(** ** Command frames *)

(** The shared tail of the commands:
    [if ((res = port.Write(cmd, n)) != n) { ...; if (res > 0) return -2; return -1; }
     return waitACKNACK(t);] *)
Lemma write_then_wait (s : PGD.t) (w : World) (cmd : list Z) (n t : Z)
      (fn msg : string) :
  0 < n <= Z.of_nat (List.length cmd) ->
  forall r s' w',
  (let '(res, p, w1) := COMPORT.Write (PGD.port s) w cmd n in
   let s1 := PGD.set_port p s in
   if negb (res =? n)
   then let s2 := PGD.ERRMSG fn msg s1 in
        if 0 <? res then (-2, s2, w1) else (-1, s2, w1)
   else PGD.waitACKNACK t s1 w1) = (r, s', w') ->
  sends (firstn (Z.to_nat n) cmd) s w r w' /\ PGD.state s' = PGD.state s.
Proof.
  intros Hn r s' w'.
  destruct (COMPORT.Write (PGD.port s) w cmd n) as [[res p] w1] eqn:Hwr.
  destruct (sent_after_Write _ _ _ _ _ _ _ Hwr) as (Hfd & Hpre & Hall).
  assert (Hok : COMPORT.fd (PGD.port s) <> -1 -> wr w = [] -> res = n).
  { intros Ho Hw. rewrite (Write_ok _ _ _ _ Ho Hw Hn) in Hwr. congruence. }
  destruct (Z.eqb_spec res n) as [->|Hne]; simpl negb; cbv iota.
  - intros Hw. destruct (waitACKNACK_frame _ _ _ _ _ _ Hw) as (Hc & _ & _).
    rewrite <- (sent_after_wait _ _ _ _ _ _ Hw) in Hall, Hpre.
    split; [|apply Hc].
    split; [exact Hpre|]. split; intros; apply Hall; lia.
  - intros Hr. split.
    + split; [|split].
      * destruct (0 <? res); injection Hr as <- <- <-; exact Hpre.
      * destruct (0 <? res); injection Hr as <- <- <-; lia.
      * intros Ho Hw. elim Hne. auto.
    + destruct (0 <? res); injection Hr as <- <- <-; reflexivity.
Qed.

Lemma Rectangle_sends (x1 y1 x2 y2 color : Z) (s : PGD.t) (w : World) :
  PGD.state s = LCD_IDLE ->
  forall r s' w', PGD.Rectangle x1 y1 x2 y2 color s w = (r, s', w') ->
  sends (ch "r"%char :: be16 x1 ++ be16 y1 ++ be16 x2 ++ be16 y2 ++ be16 color) s w r w'.
Proof.
  intros Hs r s' w'. unfold PGD.Rectangle. rewrite Hs. cbv beta iota delta [LCDSTATE_eqb].
  destruct (COMPORT.Flush (PGD.port s) w) as [[rf pf] wf] eqn:Hfl.
  apply Flush_spec in Hfl. destruct Hfl as [-> ->].
  intros H.
  apply (write_then_wait (PGD.set_port (PGD.port s) s) w _ 11 100) in H;
    [|simpl; lia].
  exact (proj1 H).
Qed.

(** C5.  Rectangle(x1=10, y1=20, x2=100, y2=200, color=0xF800) in the Idle
    state writes exactly the bytes 72 00 0A 00 14 00 64 00 C8 F8 00 to the
    serial channel: nothing but a prefix of them can go out, all of them
    went out whenever the call returns 0, 1 or 2, and all of them go out
    when the channel is open and takes what it is handed. *)
Theorem Rectangle_wire_bytes (s : PGD.t) (w : World) :
  PGD.state s = LCD_IDLE ->
  forall r s' w', PGD.Rectangle 10 20 100 200 0xF800 s w = (r, s', w') ->
  sends [0x72; 0x00; 0x0A; 0x00; 0x14; 0x00; 0x64; 0x00; 0xC8; 0xF8; 0x00] s w r w'.
Proof.
  intros Hs r s' w' H. exact (Rectangle_sends 10 20 100 200 0xF800 s w Hs r s' w' H).
Qed.

Lemma Rectangle_wire_bytes_witness :
  PGD.state Samples.idle = LCD_IDLE
  /\ PGD.Rectangle 10 20 100 200 0xF800 Samples.idle (Samples.world [RxData 900 [ACK]])
     = (0, Samples.idle,
        emit (EvTx [0x72; 0x00; 0x0A; 0x00; 0x14; 0x00; 0x64; 0x00; 0xC8; 0xF8; 0x00])
             (set_now 1349049600259900 (Samples.world [])))
  /\ sends [0x72; 0x00; 0x0A; 0x00; 0x14; 0x00; 0x64; 0x00; 0xC8; 0xF8; 0x00]
           Samples.idle (Samples.world [RxData 900 [ACK]]) 0
           (emit (EvTx [0x72; 0x00; 0x0A; 0x00; 0x14; 0x00; 0x64; 0x00; 0xC8; 0xF8; 0x00])
                 (set_now 1349049600259900 (Samples.world []))).
Proof.
  assert (H1 : PGD.state Samples.idle = LCD_IDLE) by reflexivity.
  assert (H2 : PGD.Rectangle 10 20 100 200 0xF800 Samples.idle
                 (Samples.world [RxData 900 [ACK]])
               = (0, Samples.idle,
                  emit (EvTx [0x72; 0x00; 0x0A; 0x00; 0x14; 0x00; 0x64; 0x00; 0xC8; 0xF8; 0x00])
                       (set_now 1349049600259900 (Samples.world []))))
    by (vm_compute; reflexivity).
  split; [exact H1|]. split; [exact H2|].
  exact (Rectangle_wire_bytes Samples.idle (Samples.world [RxData 900 [ACK]]) H1 _ _ _ H2).
Defined.

(** ** Argument validation *)

(** C7.  For a uchar [value] and a controller in the Idle state:
    outside the valid set {0..3, 8..127, 253..255} SetVolume returns -1
    and leaves the world untouched (no byte is written); inside it the
    command bytes 'v', value are what is written.  On a channel that is
    open and takes what it is handed, "error -1 and nothing written"
    happens exactly for the values outside the valid set. *)
Theorem SetVolume_validation (value : Z) (s : PGD.t) (w : World) :
  0 <= value <= 255 -> PGD.state s = LCD_IDLE ->
  forall r s' w', PGD.SetVolume value s w = (r, s', w') ->
  (~ volume_valid value -> r = -1 /\ w' = w /\ sent w' = sent w)
  /\ (volume_valid value -> sends [ch "v"%char; value] s w r w')
  /\ (COMPORT.fd (PGD.port s) <> -1 -> wr w = [] ->
      (r = -1 /\ sent w' = sent w <-> ~ volume_valid value)).
Proof.
  intros Hv Hs r s' w'. unfold PGD.SetVolume, volume_valid.
  rewrite Hs. cbv beta iota delta [LCDSTATE_eqb].
  destruct ((value <? 0) || (255 <? value) || (3 <? value) && (value <? 8)
            || (127 <? value) && (value <? 253)) eqn:Hbad.
  - assert (Hnv : ~ (0 <= value <= 3 \/ 8 <= value <= 127 \/ 253 <= value <= 255)).
    { repeat (apply orb_true_iff in Hbad; destruct Hbad as [Hbad|Hbad]);
        repeat match goal with
               | H : (_ && _) = true |- _ => apply andb_true_iff in H; destruct H
               | H : (_ <? _) = true |- _ => apply Z.ltb_lt in H
               end; lia. }
    intros [= <- <- <-]. split; [auto|]. split; [tauto|]. intros _ _. tauto.
  - assert (Hval : 0 <= value <= 3 \/ 8 <= value <= 127 \/ 253 <= value <= 255).
    { repeat (apply orb_false_iff in Hbad; destruct Hbad as [Hbad ?]);
        repeat match goal with
               | H : (_ && _) = false |- _ => apply andb_false_iff in H; destruct H
               | H : (_ <? _) = false |- _ => apply Z.ltb_ge in H
               end; lia. }
    destruct (COMPORT.Flush (PGD.port s) w) as [[rf pf] wf] eqn:Hfl.
    apply Flush_spec in Hfl. destruct Hfl as [-> ->].
    intros H.
    apply (write_then_wait (PGD.set_port (PGD.port s) s) w _ 2 100) in H;
      [|simpl; lia].
    destruct H as [Hsend _].
    split; [tauto|]. split; [intros _; exact Hsend|].
    intros Ho Hw. split; [|tauto].
    intros [_ Hsame]. exfalso.
    destruct Hsend as (_ & _ & Hfull). specialize (Hfull Ho Hw).
    simpl in Hfull. rewrite Hsame in Hfull.
    apply (f_equal (@List.length Z)) in Hfull. rewrite length_app in Hfull.
    simpl in Hfull. lia.
Qed.

Lemma SetVolume_validation_witness :
  (0 <= 5 <= 255 /\ PGD.state Samples.idle = LCD_IDLE
   /\ ~ volume_valid 5
   /\ fst (fst (PGD.SetVolume 5 Samples.idle (Samples.world []))) = -1
   /\ snd (PGD.SetVolume 5 Samples.idle (Samples.world [])) = Samples.world [])
  /\ (0 <= 8 <= 255 /\ volume_valid 8
      /\ sends [ch "v"%char; 8] Samples.idle (Samples.world [RxData 900 [ACK]])
               (fst (fst (PGD.SetVolume 8 Samples.idle (Samples.world [RxData 900 [ACK]]))))
               (snd (PGD.SetVolume 8 Samples.idle (Samples.world [RxData 900 [ACK]])))).
Proof.
  assert (Hs : PGD.state Samples.idle = LCD_IDLE) by reflexivity.
  assert (H5 : 0 <= 5 <= 255) by lia.
  assert (H8 : 0 <= 8 <= 255) by lia.
  assert (N5 : ~ volume_valid 5) by (unfold volume_valid; lia).
  assert (V8 : volume_valid 8) by (unfold volume_valid; lia).
  split.
  - split; [exact H5|]. split; [exact Hs|]. split; [exact N5|].
    destruct (PGD.SetVolume 5 Samples.idle (Samples.world [])) as [[r s'] w'] eqn:E.
    destruct (SetVolume_validation 5 Samples.idle (Samples.world []) H5 Hs r s' w' E)
      as (A & _ & _).
    destruct (A N5) as (A1 & A2 & _). split; [exact A1|exact A2].
  - split; [exact H8|]. split; [exact V8|].
    destruct (PGD.SetVolume 8 Samples.idle (Samples.world [RxData 900 [ACK]]))
      as [[r s'] w'] eqn:E.
    destruct (SetVolume_validation 8 Samples.idle (Samples.world [RxData 900 [ACK]])
                H8 Hs r s' w' E) as (_ & B & _).
    exact (B V8).
Defined.

(** C9.  In the Idle state Suspend returns -1 and leaves the world
    untouched (no byte is sent) whenever [options] has bit 4 (0x10) set or
    [(options & 0x2f) == 0x22]; options that pass both checks are framed
    as 'Z', options, duration and sent. *)
Theorem Suspend_validation (options duration : Z) (s : PGD.t) (w : World) :
  PGD.state s = LCD_IDLE ->
  forall r s' w', PGD.Suspend options duration s w = (r, s', w') ->
  (suspend_refused options ->
     r = -1 /\ w' = w /\ sent w' = sent w /\ PGD.state s' = LCD_IDLE)
  /\ (~ suspend_refused options ->
        sends [ch "Z"%char; options; duration] s w r w').
Proof.
  intros Hs r s' w'. unfold PGD.Suspend, suspend_refused.
  rewrite Hs. cbv beta iota delta [LCDSTATE_eqb].
  destruct (Z.eqb_spec (Z.land options 16) 0) as [H16|H16]; simpl negb; cbv iota.
  2:{ intros [= <- <- <-]. split; [intros _; simpl; auto|].
      intros Hn; exfalso; apply Hn; left; exact H16. }
  destruct (Z.eqb_spec (Z.land options 47) 34) as [H47|H47].
  { intros [= <- <- <-]. split; [intros _; simpl; auto|].
    intros Hn; exfalso; apply Hn; right; exact H47. }
  destruct (COMPORT.Flush (PGD.port s) w) as [[rf pf] wf] eqn:Hfl.
  apply Flush_spec in Hfl. destruct Hfl as [-> ->].
  simpl PGD.port.
  destruct (COMPORT.Write (PGD.port s) w _ 3) as [[res p] w1] eqn:Hwr.
  destruct (sent_after_Write _ _ _ _ _ _ _ Hwr) as (Hfd & Hpre & Hall).
  assert (Hok : COMPORT.fd (PGD.port s) <> -1 -> wr w = [] -> res = 3).
  { intros Ho Hw. rewrite (Write_ok _ _ _ _ Ho Hw) in Hwr by (simpl; lia). congruence. }
  change (firstn (Z.to_nat 3) _) with [ch "Z"%char; options; duration] in Hpre, Hall.
  assert (Hacc : forall P : Prop,
            P -> (Z.land options 16 <> 0 \/ Z.land options 47 = 34 ->
                  r = -1 /\ w' = w /\ sent w' = sent w /\ PGD.state s' = LCD_IDLE)
                 /\ (~ (Z.land options 16 <> 0 \/ Z.land options 47 = 34) -> P)).
  { intros P HP. split; [intros [Hr|Hr]; [contradiction|congruence]|auto]. }
  destruct (Z.eqb_spec res 3) as [->|Hne]; simpl negb; cbv iota.
  - destruct (PGD.waitACKNACK 100 _ w1) as [[a s2] w2] eqn:Hw.
    intros H. apply Hacc.
    assert (Hsent : sent w' = sent w2).
    { destruct (a =? 0); [injection H as <- <- <-; reflexivity|].
      destruct (a =? 1); [injection H as <- <- <-; reflexivity|].
      destruct (a =? 2); [|injection H as <- <- <-; reflexivity].
      destruct (negb _); injection H as <- <- <-; reflexivity. }
    unfold sends. rewrite Hsent, (sent_after_wait _ _ _ _ _ _ Hw).
    split; [exact Hpre|]. split; intros; apply Hall; lia.
  - intros H. apply Hacc.
    assert (Hr : w' = w1 /\ r < 0)
      by (destruct (0 <? res); injection H as <- <- <-; split; auto; lia).
    destruct Hr as [-> Hr]. unfold sends.
    split; [exact Hpre|]. split; [lia|]. intros Ho Hw. elim Hne; auto.
Qed.

Lemma Suspend_validation_witness :
  (PGD.state Samples.idle = LCD_IDLE /\ suspend_refused 0x12
   /\ fst (fst (PGD.Suspend 0x12 10 Samples.idle (Samples.world []))) = -1
   /\ snd (PGD.Suspend 0x12 10 Samples.idle (Samples.world [])) = Samples.world [])
  /\ (suspend_refused 0x22
      /\ fst (fst (PGD.Suspend 0x22 10 Samples.idle (Samples.world []))) = -1
      /\ snd (PGD.Suspend 0x22 10 Samples.idle (Samples.world [])) = Samples.world [])
  /\ (~ suspend_refused 0x02
      /\ sends [ch "Z"%char; 0x02; 10] Samples.idle (Samples.world [])
               (fst (fst (PGD.Suspend 0x02 10 Samples.idle (Samples.world []))))
               (snd (PGD.Suspend 0x02 10 Samples.idle (Samples.world [])))).
Proof.
  assert (Hs : PGD.state Samples.idle = LCD_IDLE) by reflexivity.
  assert (R1 : suspend_refused 0x12) by (left; vm_compute; discriminate).
  assert (R2 : suspend_refused 0x22) by (right; vm_compute; reflexivity).
  assert (R3 : ~ suspend_refused 0x02)
    by (intros [H|H]; vm_compute in H; [apply H; reflexivity|discriminate H]).
  split; [|split].
  - split; [exact Hs|]. split; [exact R1|].
    destruct (PGD.Suspend 0x12 10 Samples.idle (Samples.world [])) as [[r s'] w'] eqn:E.
    destruct (Suspend_validation 0x12 10 Samples.idle (Samples.world []) Hs r s' w' E)
      as (A & _).
    destruct (A R1) as (A1 & A2 & _). split; [exact A1|exact A2].
  - split; [exact R2|].
    destruct (PGD.Suspend 0x22 10 Samples.idle (Samples.world [])) as [[r s'] w'] eqn:E.
    destruct (Suspend_validation 0x22 10 Samples.idle (Samples.world []) Hs r s' w' E)
      as (A & _).
    destruct (A R2) as (A1 & A2 & _). split; [exact A1|exact A2].
  - split; [exact R3|].
    destruct (PGD.Suspend 0x02 10 Samples.idle (Samples.world [])) as [[r s'] w'] eqn:E.
    destruct (Suspend_validation 0x02 10 Samples.idle (Samples.world []) Hs r s' w' E)
      as (_ & B).
    exact (B R3).
Defined.

(** ** The worker routine *)

Lemma complete_spec (s0 s1 : PGD.t) (w0 w1 : World) (pre : list Event)
      (cmd : PGDCMD) (ok : bool) :
  PGD.callback s1 = PGD.callback s0 -> PGD.usrobj s1 = PGD.usrobj s0 ->
  trace w1 = trace w0 ++ pre ->
  forall r s' w', PGD.complete s1 w1 cmd ok = (r, s', w') ->
  r = 0 /\ completed s0 w0 pre cmd ok s' w'.
Proof.
  intros Hcb Husr Htr r s' w'. unfold PGD.complete, PGD.invoke_callback, completed, fired.
  simpl. rewrite Hcb, Husr. intros [= <- <- <-]. simpl.
  repeat split; auto.
  destruct (PGD.callback s0); simpl; rewrite Htr;
    [rewrite <- app_assoc|rewrite app_nil_r]; reflexivity.
Qed.

(** C4.  One iteration of Process on a Busy controller returns 0 and
    - for Sleep and TouchWait, with [a] the result of waitACKNACK(200):
      on ACK (0), NACK (1) or I/O error (-1) the record is cleared and the
      state is Idle when the handler is called (success only for ACK); on
      timeout (2) state and record are unchanged and no handler is called;
    - for TouchData, with [nb] the result of the read: on an I/O error
      and on the fourth byte the record is cleared and the state is Idle
      when the handler is called; on a timeout (no byte) nothing changes,
      and on fewer than four bytes only the byte count does;
    - with no or an unknown command tag the handler is called the same
      way, with PG_NONE and failure. *)
Theorem Process_clears_before_callback (s : PGD.t) (w : World) :
  PGD.halt s = false -> PGD.state s = LCD_BUSY ->
  forall r s' w', PGD.Process s w = (r, s', w') ->
  r = 0
  /\ match PGD.curcmd s with
     | PG_SLEEP | PG_TOUCH_WAIT =>
         let a := fst (fst (PGD.waitACKNACK 200 s w)) in
         if a =? 2 then pending s w s' w' /\ PGD.brcv s' = PGD.brcv s
         else completed s w [] (PGD.curcmd s) (a =? 0) s' w'
     | PG_TOUCH_DATA =>
         let '(nb, got, _, _) := COMPORT.Read (PGD.port s) w (4 - PGD.brcv s) 100 in
         let d := PGD.store_at (PGD.datain s) (PGD.brcv s) got in
         if nb <? 0 then completed s w [] PG_TOUCH_DATA false s' w'
         else if nb =? 0 then pending s w s' w' /\ PGD.brcv s' = PGD.brcv s
         else if PGD.brcv s + nb =? 4 then
           match PGD.curdata s with
           | Some sp =>
               completed s w [EvStore sp (fst (touch_point d)) (snd (touch_point d))]
                         PG_TOUCH_DATA true s' w'
           | None => completed s w [] PG_TOUCH_DATA false s' w'
           end
         else pending s w s' w' /\ PGD.brcv s' = PGD.brcv s + nb
     | PG_NONE | PG_OTHER _ => completed s w [] PG_NONE false s' w'
     end.
Proof.
  intros Hhalt Hbusy r s' w'. unfold PGD.Process. rewrite Hhalt, Hbusy.
  cbv beta iota delta [LCDSTATE_eqb negb].
  assert (Hwait : forall cmd, PGD.curcmd s = cmd ->
    (let '(a, s1, w1) := PGD.waitACKNACK 200 s w in
     if a =? 0 then PGD.complete s1 w1 cmd true
     else if a =? 1 then PGD.complete (PGD.set_errmsg "NACK" s1) w1 cmd false
     else if a =? -1 then PGD.complete s1 w1 cmd false
     else if a =? 2 then (0, s1, w1)
     else PGD.complete
            (PGD.ERRMSG "Process"
               "unexpected return from waitACKNACK (only 0,1,2,-1 accepted)" s1)
            w1 cmd false) = (r, s', w') ->
    r = 0 /\ (let a := fst (fst (PGD.waitACKNACK 200 s w)) in
              if a =? 2 then pending s w s' w' /\ PGD.brcv s' = PGD.brcv s
              else completed s w [] cmd (a =? 0) s' w')).
  { intros cmd Hcmd.
    destruct (PGD.waitACKNACK 200 s w) as [[a s1] w1] eqn:Hw.
    destruct (waitACKNACK_frame _ _ _ _ _ _ Hw) as (Hc & Hl & Ha).
    destruct Hc as (_ & Hst & _ & _ & Hcur & Hdat & Hbr & _ & Hcb & Husr & _).
    destruct Hl as (Htr & _).
    assert (Htr' : trace w1 = trace w ++ []) by (now rewrite app_nil_r).
    simpl fst.
    destruct Ha as [-> | [-> | [-> | ->]]]; simpl Z.eqb; cbv iota.
    - apply complete_spec; auto.
    - apply complete_spec; auto.
    - intros [= <- <- <-]. split; [reflexivity|].
      unfold pending. rewrite Hst, Hcur, Hdat, Hbr, Hcb, Husr, Htr. repeat split; auto.
    - apply complete_spec; auto. }
  destruct (PGD.curcmd s) as [| | | |code] eqn:Hcmd.
  - (* PG_NONE *)
    intros [= <- <- <-]. split; [reflexivity|].
    unfold completed, PGD.invoke_callback, fired. simpl.
    repeat split; auto. rewrite Hcmd.
    destruct (PGD.callback s); simpl; [reflexivity|now rewrite app_nil_r].
  - apply Hwait; reflexivity.
  - apply Hwait; reflexivity.
  - (* PG_TOUCH_DATA *)
    destruct (COMPORT.Read (PGD.port s) w (4 - PGD.brcv s) 100)
      as [[[nb got] p] w1] eqn:Hrd.
    destruct (Read_frame _ _ _ _ _ _ _ _ Hrd) as (_ & (Htr & _) & _ & _).
    assert (Htr' : trace w1 = trace w ++ []) by (now rewrite app_nil_r).
    destruct (nb <? 0); [apply complete_spec; auto|].
    destruct (nb =? 0); simpl negb; cbv iota.
    { intros [= <- <- <-]. split; [reflexivity|].
      unfold pending. simpl. rewrite Hbusy, Hcmd, Htr. repeat split; auto. }
    simpl PGD.brcv. simpl PGD.curdata. simpl PGD.datain.
    destruct (PGD.brcv s + nb =? 4).
    + destruct (PGD.curdata s) as [sp|].
      * apply complete_spec; auto. simpl. now rewrite Htr.
      * apply complete_spec; auto.
    + intros [= <- <- <-]. split; [reflexivity|].
      unfold pending. simpl. rewrite Hbusy, Hcmd, Htr. repeat split; auto.
  - (* any other tag *)
    apply complete_spec; auto. now rewrite app_nil_r.
Qed.

Lemma Process_clears_before_callback_witness :
  PGD.halt (Samples.busy PG_SLEEP) = false
  /\ PGD.state (Samples.busy PG_SLEEP) = LCD_BUSY
  /\ (let '(r, s', w') :=
        PGD.Process (Samples.busy PG_SLEEP) (Samples.world [RxData 900 [ACK]]) in
      r = 0
      /\ completed (Samples.busy PG_SLEEP) (Samples.world [RxData 900 [ACK]])
                   [] PG_SLEEP true s' w')
  /\ (let '(r, s', w') :=
        PGD.Process (Samples.busy PG_SLEEP) (Samples.world [RxData 900 [NACK]]) in
      r = 0
      /\ completed (Samples.busy PG_SLEEP) (Samples.world [RxData 900 [NACK]])
                   [] PG_SLEEP false s' w')
  /\ (let '(r, s', w') := PGD.Process (Samples.busy PG_SLEEP) (Samples.world []) in
      r = 0
      /\ pending (Samples.busy PG_SLEEP) (Samples.world []) s' w'
         /\ PGD.brcv s' = PGD.brcv (Samples.busy PG_SLEEP)).
Proof.
  assert (Hh : PGD.halt (Samples.busy PG_SLEEP) = false) by reflexivity.
  assert (Hb : PGD.state (Samples.busy PG_SLEEP) = LCD_BUSY) by reflexivity.
  split; [exact Hh|]. split; [exact Hb|]. split; [|split].
  - destruct (PGD.Process (Samples.busy PG_SLEEP) (Samples.world [RxData 900 [ACK]]))
      as [[r s'] w'] eqn:E.
    exact (Process_clears_before_callback _ _ Hh Hb r s' w' E).
  - destruct (PGD.Process (Samples.busy PG_SLEEP) (Samples.world [RxData 900 [NACK]]))
      as [[r s'] w'] eqn:E.
    exact (Process_clears_before_callback _ _ Hh Hb r s' w' E).
  - destruct (PGD.Process (Samples.busy PG_SLEEP) (Samples.world []))
      as [[r s'] w'] eqn:E.
    exact (Process_clears_before_callback _ _ Hh Hb r s' w' E).
Defined.

(** ** Teardown *)

Lemma COMPORT_SetBaud_frame (p : COMPORT.t) (w : World) (speed : Z) :
  forall r p' w', COMPORT.SetBaud p w speed = (r, p', w') ->
  COMPORT.fd p' = COMPORT.fd p /\ trace w' = trace w.
Proof.
  intros r p' w'. unfold COMPORT.SetBaud.
  destruct (COMPORT.hasterm p); simpl;
    destruct (negb _); try (intros [= <- <- <-]; simpl; auto; fail);
    destruct (COMPORT.fd p <? 0); try (intros [= <- <- <-]; simpl; auto; fail);
    destruct (existsb _ _); simpl;
    destruct (negb _); intros [= <- <- <-]; simpl; auto.
Qed.

(** PGD::SetBaud keeps the descriptor and adds nothing but written bytes
    to the trace. *)
Lemma SetBaud_frame (codes : DBAUD -> Z) (speed : DBAUD) (s : PGD.t) (w : World) :
  forall r s' w', PGD.SetBaud codes speed s w = (r, s', w') ->
  COMPORT.fd (PGD.port s') = COMPORT.fd (PGD.port s)
  /\ exists evs, trace w' = trace w ++ evs /\ tx_only evs.
Proof.
  intros r s' w'. unfold PGD.SetBaud.
  assert (Hnil : forall r0 s0, COMPORT.fd (PGD.port s0) = COMPORT.fd (PGD.port s) ->
            (r0, s0, w) = (r, s', w') ->
            COMPORT.fd (PGD.port s') = COMPORT.fd (PGD.port s)
            /\ exists evs, trace w' = trace w ++ evs /\ tx_only evs).
  { intros r0 s0 Hfd [= <- <- <-]. split; [exact Hfd|].
    exists []. rewrite app_nil_r. split; reflexivity. }
  destruct (LCDSTATE_eqb (PGD.state s) LCD_INACTIVE); [apply Hnil; reflexivity|].
  destruct (LCDSTATE_eqb (PGD.state s) LCD_BUSY); [apply Hnil; reflexivity|].
  destruct (DBAUD_eqb speed (PGD.baud s)); [apply Hnil; reflexivity|].
  destruct (match speed with
            | DB_9600 => Some B9600 | DB_57600 => Some B57600
            | DB_115200 => Some B115200 | _ => None end) as [tspeed|];
    [|apply Hnil; reflexivity].
  clear Hnil.
  destruct (COMPORT.SetBaud (PGD.port s) w tspeed) as [[r1 p1] w1] eqn:H1.
  apply COMPORT_SetBaud_frame in H1. destruct H1 as [F1 T1].
  assert (Hend : forall evs r0 s0 w0,
            COMPORT.fd (PGD.port s0) = COMPORT.fd (PGD.port s) ->
            trace w0 = trace w ++ evs -> tx_only evs ->
            (r0, s0, w0) = (r, s', w') ->
            COMPORT.fd (PGD.port s') = COMPORT.fd (PGD.port s)
            /\ exists evs, trace w' = trace w ++ evs /\ tx_only evs).
  { intros evs r0 s0 w0 Hfd Htr Htx [= <- <- <-]. split; [exact Hfd|].
    exists evs. split; assumption. }
  assert (Hnil : forall w0, trace w0 = trace w -> trace w0 = trace w ++ [])
    by (intros w0 ->; now rewrite app_nil_r).
  destruct (negb (r1 =? 0)); [apply (Hend []); simpl; auto; reflexivity|].
  simpl PGD.port.
  destruct (COMPORT.SetBaud p1 (usleep 50 w1) (PGD.portspeed _)) as [[r2 p2] w2] eqn:H2.
  apply COMPORT_SetBaud_frame in H2. destruct H2 as [F2 T2]. simpl in T2.
  destruct (r2 <? 0);
    [apply (Hend []); simpl; [congruence|apply Hnil; congruence|reflexivity]|].
  simpl PGD.port.
  destruct (COMPORT.Flush p2 (usleep 50 w2)) as [[rf pf] wf] eqn:Hfl.
  apply Flush_spec in Hfl. destruct Hfl as [-> ->].
  destruct (COMPORT.Write p2 (usleep 50 w2) _ 2) as [[res p3] w3] eqn:Hwr.
  apply Write_spec in Hwr. destruct Hwr as (F3 & _ & evs & T3 & Htx & _).
  simpl in T3.
  assert (T3' : trace w3 = trace w ++ evs) by congruence.
  destruct (negb (res =? 2)).
  { destruct (0 <? res); apply (Hend evs); simpl; auto; congruence. }
  destruct (PGD.waitACKNACK 100 _ w3) as [[a s4] w4] eqn:Hw.
  apply waitACKNACK_frame in Hw. destruct Hw as (Hc & (T4 & _) & _).
  destruct Hc as (_ & _ & _ & _ & _ & _ & _ & _ & _ & _ & F4). simpl in F4.
  destruct (a =? 1); [apply (Hend evs); simpl; auto; congruence|].
  destruct (COMPORT.SetBaud (PGD.port s4) w4 tspeed) as [[r5 p5] w5] eqn:H5.
  apply COMPORT_SetBaud_frame in H5. destruct H5 as [F5 T5].
  destruct (negb (r5 =? 0)); apply (Hend evs); simpl; auto; congruence.
Qed.

(** What the calling thread's own statements do when Close finds the
    controller Busy: the registered handler, if any, is called once with
    the pending command tag and success = false, ahead of everything
    else; only written bytes (the bit-rate reset) come between that call
    and the closing of the descriptor; the last statement before the
    join leaves the state Inactive. *)
Lemma Close_statements_cancel (codes : DBAUD -> Z) (s : PGD.t) (w : World) :
  COMPORT.IsOpen (PGD.port s) = true -> PGD.state s = LCD_BUSY ->
  forall s' w', PGD.Close codes s w = (s', w') ->
  PGD.state s' = LCD_INACTIVE
  /\ COMPORT.IsOpen (PGD.port s') = false
  /\ exists mid,
       tx_only mid
       /\ trace w' = trace w ++ fired s (PGD.curcmd s) false ++ mid ++ [EvCloseFd].
Proof.
  intros Hopen Hbusy s' w'. unfold PGD.Close. rewrite Hopen. cbn [negb].
  cbn [PGD.state PGD.set_halt PGD.set_errmsg]. rewrite Hbusy. cbn [LCDSTATE_eqb].
  cbn [PGD.state PGD.set_state PGD.set_curdata PGD.set_curcmd PGD.ERRMSG
       PGD.set_errmsg PGD.set_halt LCDSTATE_eqb negb PGD.curcmd].
  match goal with
  | |- context [PGD.SetBaud codes DB_9600 ?s1 ?w1] =>
      assert (Hw1 : trace w1 = trace w ++ fired s (PGD.curcmd s) false);
      [|destruct (PGD.SetBaud codes DB_9600 s1 w1) as [[r2 s2] w2] eqn:Hsb]
  end.
  { unfold PGD.invoke_callback, fired. simpl.
    destruct (PGD.callback s); simpl; [reflexivity|now rewrite app_nil_r]. }
  apply SetBaud_frame in Hsb. destruct Hsb as (Hfd & mid & Htr & Htx).
  simpl in Hfd.
  unfold COMPORT.IsOpen in Hopen. apply Z.leb_le in Hopen.
  unfold COMPORT.Close.
  destruct (Z.eqb_spec (COMPORT.fd (PGD.port s2)) (-1)) as [Hc|_]; [lia|].
  intros [= <- <-]. simpl. split; [reflexivity|]. split; [reflexivity|].
  exists mid. split; [exact Htx|].
  rewrite Htr, Hw1, <- !app_assoc. reflexivity.
Qed.

(** ** The two threads *)

(** The worker's steps are Process cut in pieces: run without
    interruption from the call of Process, they end where Process
    returns. *)
Lemma Process_after_wait (s : PGD.t) (w : World) :
  PGD.halt s = false -> PGD.state s = LCD_BUSY ->
  PGD.curcmd s = PG_SLEEP \/ PGD.curcmd s = PG_TOUCH_WAIT ->
  PGD.Process s w
  = (let '(r, s1, w1) := PGD.waitACKNACK 200 s w in
     Threads.after_wait (PGD.curcmd s) r s1 w1).
Proof.
  intros Hh Hst Hcmd. unfold PGD.Process. rewrite Hh, Hst. cbn [LCDSTATE_eqb negb].
  destruct Hcmd as [Hc|Hc]; rewrite Hc; reflexivity.
Qed.

Lemma after_wait_returns_0 (tmpcmd : PGDCMD) (r : Z) (s : PGD.t) (w : World) :
  fst (fst (Threads.after_wait tmpcmd r s w)) = 0.
Proof.
  unfold Threads.after_wait, PGD.complete.
  destruct (r =? 0); [reflexivity|]. destruct (r =? 1); [reflexivity|].
  destruct (r =? -1); [reflexivity|]. destruct (r =? 2); reflexivity.
Qed.

Lemma worker_steps_app (n m : nat) :
  forall at_ s w,
  Threads.worker_steps (n + m) at_ s w
  = (let '(at', s', w') := Threads.worker_steps n at_ s w in
     Threads.worker_steps m at' s' w').
Proof.
  induction n as [|n IH]; intros at_ s w; [reflexivity|].
  simpl. destruct (Threads.worker_step at_ s w) as [[at1 s1] w1]. apply IH.
Qed.

Lemma worker_wait_loop (tmpcmd : PGDCMD) (turns : nat) :
  forall tov now s w r s1 w1,
  PGD.waitACKNACK_loop turns tov now s w = Some (r, s1, w1) ->
  exists n, (0 < n)%nat
    /\ Threads.worker_steps n (Threads.W_wait tmpcmd tov now) s w
       = (Threads.W_Process, snd (fst (Threads.after_wait tmpcmd r s1 w1)),
          snd (Threads.after_wait tmpcmd r s1 w1)).
Proof.
  induction turns as [|turns IH]; intros tov now s w r s1 w1; [discriminate|].
  cbn [PGD.waitACKNACK_loop].
  destruct (PGD.before_deadline now tov) eqn:Hb.
  - destruct (COMPORT.Read (PGD.port s) w 4 10) as [[[nb msg] p] w0] eqn:Hrd.
    destruct (nb =? -1) eqn:Hnb.
    + intros [= <- <- <-]. exists 1%nat. split; [lia|].
      cbn [Threads.worker_steps Threads.worker_step]. rewrite Hb, Hrd, Hnb.
      destruct (Threads.after_wait _ _ _ _) as [[r0 s0] w2]. reflexivity.
    + destruct (PGD.scan_acknack msg) as [a|] eqn:Hscan.
      * intros [= <- <- <-]. exists 1%nat. split; [lia|].
        cbn [Threads.worker_steps Threads.worker_step]. rewrite Hb, Hrd, Hnb, Hscan.
        destruct (Threads.after_wait _ _ _ _) as [[r0 s0] w2]. reflexivity.
      * intros Hloop. apply IH in Hloop. destruct Hloop as (n & Hn & Hrun).
        exists (S n). split; [lia|].
        cbn [Threads.worker_steps Threads.worker_step]. rewrite Hb, Hrd, Hnb, Hscan.
        exact Hrun.
  - intros [= <- <- <-]. exists 1%nat. split; [lia|].
    cbn [Threads.worker_steps Threads.worker_step]. rewrite Hb.
    destruct (Threads.after_wait _ _ _ _) as [[r0 s0] w2]. reflexivity.
Qed.

Lemma worker_runs_Process (s : PGD.t) (w : World) :
  (PGD.halt s = true -> Threads.worker_step Threads.W_Process s w = (Threads.W_exit, s, w))
  /\ (PGD.halt s = false ->
      exists n, (0 < n)%nat
        /\ Threads.worker_steps n Threads.W_Process s w
           = (Threads.W_Process, snd (fst (PGD.Process s w)), snd (PGD.Process s w))).
Proof.
  split.
  - intros Hh. cbn [Threads.worker_step]. rewrite Hh. reflexivity.
  - intros Hh.
    assert (Hone : forall s' w',
              Threads.worker_step Threads.W_Process s w = (Threads.W_Process, s', w') ->
              (s', w') = (snd (fst (PGD.Process s w)), snd (PGD.Process s w)) ->
              exists n, (0 < n)%nat
                /\ Threads.worker_steps n Threads.W_Process s w
                   = (Threads.W_Process, snd (fst (PGD.Process s w)),
                      snd (PGD.Process s w))).
    { intros s' w' H1 [= <- <-]. exists 1%nat. split; [lia|].
      cbn [Threads.worker_steps]. rewrite H1. reflexivity. }
    assert (Hwait : PGD.state s = LCD_BUSY ->
              PGD.curcmd s = PG_SLEEP \/ PGD.curcmd s = PG_TOUCH_WAIT ->
              exists n, (0 < n)%nat
                /\ Threads.worker_steps n Threads.W_Process s w
                   = (Threads.W_Process, snd (fst (PGD.Process s w)),
                      snd (PGD.Process s w))).
    { intros Hst Hcmd. rewrite (Process_after_wait s w Hh Hst Hcmd).
      assert (Hr := waitACKNACK_returns 200 s w).
      destruct (PGD.waitACKNACK 200 s w) as [[r s1] w1].
      apply (worker_wait_loop (PGD.curcmd s)) in Hr. destruct Hr as (n & Hn & Hrun).
      exists (S n). split; [lia|].
      cbn [Threads.worker_steps Threads.worker_step]. rewrite Hh, Hst.
      cbn [LCDSTATE_eqb negb].
      destruct Hcmd as [Hc|Hc]; rewrite Hc in *; exact Hrun. }
    destruct (PGD.state s) eqn:Hst.
    + apply (Hone s (usleep 100000 w)).
      * cbn [Threads.worker_step]. rewrite Hh, Hst. reflexivity.
      * unfold PGD.Process. rewrite Hh, Hst. reflexivity.
    + apply (Hone s (usleep 100000 w)).
      * cbn [Threads.worker_step]. rewrite Hh, Hst. reflexivity.
      * unfold PGD.Process. rewrite Hh, Hst. reflexivity.
    + destruct (PGD.curcmd s) eqn:Hcmd; [|apply Hwait; auto|apply Hwait; auto| |].
      all: apply (Hone (snd (fst (PGD.Process s w))) (snd (PGD.Process s w)));
        [|reflexivity];
        cbn [Threads.worker_step]; rewrite Hh, Hst, Hcmd; cbn [LCDSTATE_eqb negb];
        destruct (PGD.Process s w) as [[r s'] w']; reflexivity.
Qed.

(** C3, the code in a run of the two threads.  WaitTouch has left the
    controller Busy with a handler registered, the device stays silent,
    and the worker is inside waitACKNACK(200) when the application calls
    Close.  Close calls the handler with success = false, closes the
    port and writes the state Inactive.  The loop of waitACKNACK does
    not look at the halt flag: the worker's next read finds the port
    closed, Process takes that for a communications fault, writes the
    state Idle and calls the handler a second time, and only then does
    the worker see the halt flag and end.  When the join lets Close
    return, the state is Idle. *)
Theorem Close_races_with_worker :
  let s := Samples.busy PG_TOUCH_WAIT in
  let w := Samples.world [] in
  let T := Threads.run Samples.codes in
  let W := Threads.Worker in
  let C := Threads.Caller in
  let cancel := EvCallback 4096 PG_TOUCH_WAIT false 77 LCD_IDLE PG_NONE in
  PGD.state s = LCD_BUSY /\ PGD.procloop s <> 0
  /\ (* the worker enters waitACKNACK; Close runs up to the join *)
     match T [W; C; C; C; C; C] (Threads.start s w Threads.W_Process) with
     | Some c =>
         Threads.caller c = Threads.C_join
         /\ Threads.worker c <> Threads.W_exit
         /\ PGD.state (Threads.obj c) = LCD_INACTIVE
         /\ trace (Threads.world c) = [cancel; EvCloseFd]
         /\ Threads.step Samples.codes C c = None
     | None => False
     end
  /\ (* the worker's read fails, Process completes, the worker ends;
        the join returns *)
     match T [W; C; C; C; C; C; W; W; C] (Threads.start s w Threads.W_Process) with
     | Some c =>
         Threads.caller c = Threads.C_return
         /\ Threads.worker c = Threads.W_exit
         /\ PGD.state (Threads.obj c) = LCD_IDLE
         /\ trace (Threads.world c) = [cancel; EvCloseFd; cancel]
     | None => False
     end.
Proof. vm_compute. repeat split; discriminate. Qed.

(** ** SD card: writing a file *)

(** C1, the code at a call that passes validation: one byte 'A' for the
    file F, not appending, the device acknowledging twice, 20 ms apart.  The command
    buffer holds the header the claim describes, yet the only byte that
    reaches the wire is the data byte. *)
Theorem SDWriteFileFAT_header_not_sent :
  let s := Samples.idle in
  let w := Samples.world [RxData 900 [ACK]; RxData 20000 [ACK]] in
  let '(r, s', w') := PGD.SDWriteFileFAT (Some [0x41]) 1 (Some (PGD.chars "F")) false s w in
  r = 0
  /\ sent w' = [0x41]
  /\ firstn 9 (PGD.SDWriteFileFAT_cmd 1 (PGD.chars "F") false)
     = spec_write_header 1 (PGD.chars "F") false
  /\ spec_write_header 1 (PGD.chars "F") false
     = [0x40; 0x74; 0x00; 0x46; 0x00; 0x00; 0x00; 0x00; 0x01].
Proof. vm_compute. repeat split. Qed.

(** ** SD card: listing a directory *)

(** C2, the code at two answers of the device.  For the listing
    "A" LF ACK the call returns 0 with an empty list, where the protocol
    as specified yields the one entry "A"; for NACK ACK it returns 1 with
    the entry "\x15", where the protocol as specified aborts. *)
Theorem SDListDirFAT_inverted_test :
  let s := Samples.idle in
  (let '(r, dir, _, _) :=
     PGD.SDListDirFAT (Some (PGD.chars "*")) [] s (Samples.world [RxData 900 [0x41; LF; ACK]]) in
   r = 0 /\ dir = [])
  /\ spec_scan_dir [0x41; LF; ACK] [] [] = (Some 1, [], [[0x41]])
  /\ (let '(r, dir, _, _) :=
        PGD.SDListDirFAT (Some (PGD.chars "*")) [] s (Samples.world [RxData 900 [NACK; ACK]]) in
      r = 1 /\ dir = [[NACK]])
  /\ spec_scan_dir [NACK; ACK] [] [] = (Some (-1), [], []).
Proof. vm_compute. repeat split. Qed.

(** What the test [(buf[i] == '\x0a') || (buf[i] == '\x06') || (buf[i] != '\x15')]
    does in general: without a NACK byte in the buffer nothing is ever
    collected. *)
Lemma scan_dir_collects_nothing (buf : list Z) (dir : list (list Z)) :
  ~ In NACK buf ->
  let '(r, direntry, dir') := PGD.scan_dir buf [] dir in
  direntry = [] /\ dir' = dir
  /\ (r = None \/ r = Some (Z.of_nat (List.length dir))).
Proof.
  induction buf as [|b buf IH]; simpl; intros Hn; [auto|].
  destruct (Z.eqb_spec b NACK) as [->|Hb]; [tauto|].
  rewrite orb_true_r.
  destruct (b =? ACK); [auto|].
  apply IH. tauto.
Qed.

(** *** What SDWriteFileFAT puts on the wire, in general *)

Lemma firstn_plus (l : list Z) (a b : nat) :
  firstn (a + b) l = firstn a l ++ firstn b (skipn a l).
Proof.
  revert l; induction a as [|a IH]; intros l; [reflexivity|].
  destruct l as [|x l]; simpl; [now rewrite firstn_nil|]. now rewrite IH.
Qed.

(** The block loop only ever extends the wire by further bytes of the
    payload, in order. *)
Lemma write_blocks_payload (todo : nat) :
  forall i nblk nresid dp s w base ro s' w',
  0 <= i -> Z.of_nat todo = nblk - i -> 0 <= nresid ->
  sent w = base ++ firstn (Z.to_nat (i * 50)) dp ->
  PGD.write_blocks todo i nblk nresid dp s w = (ro, s', w') ->
  exists pre rest, sent w' = base ++ pre /\ pre ++ rest = dp.
Proof.
  induction todo as [|todo IH]; intros i nblk nresid dp s w base ro s' w' Hi Htodo Hres Hsent.
  - simpl. intros [= <- <- <-].
    exists (firstn (Z.to_nat (i * 50)) dp), (skipn (Z.to_nat (i * 50)) dp).
    split; [exact Hsent|apply firstn_skipn].
  - simpl.
    destruct (PGD.waitACKNACK 1000 s w) as [[a s1] w1] eqn:Hw.
    assert (Hs1 : sent w1 = base ++ firstn (Z.to_nat (i * 50)) dp)
      by (rewrite (sent_after_wait _ _ _ _ _ _ Hw); exact Hsent).
    assert (Hstop : forall r0 s0, (r0, s0, w1) = (ro, s', w') ->
              exists pre rest, sent w' = base ++ pre /\ pre ++ rest = dp).
    { intros r0 s0 [= <- <- <-].
      exists (firstn (Z.to_nat (i * 50)) dp), (skipn (Z.to_nat (i * 50)) dp).
      split; [exact Hs1|apply firstn_skipn]. }
    destruct (a =? 0).
    2:{ destruct (a =? 1); [destruct (i =? 0)|]; apply Hstop. }
    clear Hstop.
    set (bs := if (i =? nblk - 1) && negb (nresid =? 0) then nresid else 50).
    assert (Hbs : 0 < bs /\ (bs <> 50 -> todo = O)).
    { unfold bs. destruct (Z.eqb_spec i (nblk - 1)) as [He|He]; simpl.
      - destruct (Z.eqb_spec nresid 0); simpl; split; try lia.
      - split; [lia|congruence]. }
    destruct Hbs as [Hpos Hlast].
    destruct (COMPORT.Write (PGD.port s1) w1 (skipn (Z.to_nat (i * 50)) dp) bs)
      as [[res p] w2] eqn:Hwr.
    destruct (sent_after_Write _ _ _ _ _ _ _ Hwr) as (_ & (pre & rest & Hs2 & Hp) & Hall).
    destruct (Z.eqb_spec res bs) as [Heq|Hne]; simpl negb; cbv iota.
    + specialize (Hall Hpos Heq).
      assert (Hs3 : sent w2 = base ++ firstn (Z.to_nat (i * 50) + Z.to_nat bs) dp)
        by (rewrite Hall, Hs1, firstn_plus, app_assoc; reflexivity).
      destruct (Z.eq_dec bs 50) as [H50|H50].
      * apply (IH (i + 1) nblk nresid dp _ w2 base); try lia.
        rewrite Hs3. do 2 f_equal. lia.
      * rewrite (Hlast H50). simpl. intros [= <- <- <-].
        eexists _, _. split; [exact Hs3|apply firstn_skipn].
    + intros [= <- <- <-].
      exists (firstn (Z.to_nat (i * 50)) dp ++ pre),
             (rest ++ skipn (Z.to_nat bs) (skipn (Z.to_nat (i * 50)) dp)).
      split; [rewrite Hs2, Hs1, app_assoc; reflexivity|].
      rewrite <- app_assoc, (app_assoc pre), Hp, firstn_skipn. apply firstn_skipn.
Qed.

(** Whatever the arguments and the answers of the device, the bytes
    SDWriteFileFAT sends are an initial part of the payload [data]: the
    command header is never among them. *)
Lemma SDWriteFileFAT_sends_payload_only (dp : list Z) (size : Z) (filename : option (list Z))
      (append : bool) (s : PGD.t) (w : World) :
  0 <= size ->
  forall r s' w',
  PGD.SDWriteFileFAT (Some dp) size filename append s w = (r, s', w') ->
  exists pre rest, sent w' = sent w ++ pre /\ pre ++ rest = dp.
Proof.
  intros Hsize r s' w'. unfold PGD.SDWriteFileFAT.
  assert (Hnil : forall r0 s0, (r0, s0, w) = (r, s', w') ->
            exists pre rest, sent w' = sent w ++ pre /\ pre ++ rest = dp).
  { intros r0 s0 [= <- <- <-]. exists [], dp. now rewrite app_nil_r. }
  destruct (LCDSTATE_eqb (PGD.state s) LCD_INACTIVE); [apply Hnil|].
  destruct (LCDSTATE_eqb (PGD.state s) LCD_BUSY); [apply Hnil|].
  destruct filename as [filename|]; [|apply Hnil].
  destruct ((PGD.strlen filename <? 1) || (12 <? PGD.strlen filename)); [apply Hnil|].
  clear Hnil. cbv zeta.
  destruct (COMPORT.Flush (PGD.port s) w) as [[rf pf] wf] eqn:Hfl.
  apply Flush_spec in Hfl. destruct Hfl as [-> ->].
  set (nblk := if size <=? 100 then 1
               else if Z.rem size 50 =? 0 then Z.quot size 50 else Z.quot size 50 + 1).
  set (nresid := if size <=? 100 then size else Z.rem size 50).
  assert (Hnblk : 0 <= nblk).
  { unfold nblk. destruct (size <=? 100); [lia|].
    assert (0 <= Z.quot size 50) by (apply Z.quot_pos; lia).
    destruct (Z.rem size 50 =? 0); lia. }
  assert (Hnres : 0 <= nresid).
  { unfold nresid. destruct (size <=? 100); [lia|]. apply Z.rem_nonneg; lia. }
  destruct (PGD.write_blocks (Z.to_nat nblk) 0 nblk nresid dp _ w)
    as [[ro s1] w1] eqn:Hwb.
  apply (write_blocks_payload _ _ _ _ _ _ _ (sent w)) in Hwb;
    [|lia|lia|exact Hnres|simpl; now rewrite app_nil_r].
  destruct ro as [r0|].
  - intros [= <- <- <-]. exact Hwb.
  - intros Hw. rewrite (sent_after_wait _ _ _ _ _ _ Hw). exact Hwb.
Qed.

(** The part of the write protocol the loop does implement: a NACK in
    answer to the first wait ends the call with 1, nothing sent. *)
Lemma SDWriteFileFAT_first_NACK (dp filename : list Z) (size : Z) (append : bool)
      (s : PGD.t) (w : World) :
  PGD.state s = LCD_IDLE -> 1 <= PGD.strlen filename <= 12 -> 0 <= size ->
  fst (fst (PGD.waitACKNACK 1000 s w)) = 1 ->
  fst (fst (PGD.SDWriteFileFAT (Some dp) size (Some filename) append s w)) = 1
  /\ sent (snd (PGD.SDWriteFileFAT (Some dp) size (Some filename) append s w)) = sent w.
Proof.
  intros Hs Hlen Hsize Hnack. unfold PGD.SDWriteFileFAT.
  rewrite Hs. cbv beta iota delta [LCDSTATE_eqb].
  destruct (Z.ltb_spec (PGD.strlen filename) 1) as [|_]; [lia|].
  destruct (Z.ltb_spec 12 (PGD.strlen filename)) as [|_]; [lia|].
  cbv beta iota zeta delta [orb].
  destruct (COMPORT.Flush (PGD.port s) w) as [[rf pf] wf] eqn:Hfl.
  apply Flush_spec in Hfl. destruct Hfl as [-> ->].
  set (nblk := if size <=? 100 then 1
               else if Z.rem size 50 =? 0 then Z.quot size 50 else Z.quot size 50 + 1).
  assert (Hnblk : 1 <= nblk).
  { unfold nblk. destruct (Z.leb_spec size 100); [lia|].
    assert (2 <= Z.quot size 50) by (apply Z.quot_le_lower_bound; lia).
    destruct (Z.rem size 50 =? 0); lia. }
  destruct (Z.to_nat nblk) as [|k] eqn:Hk; [lia|].
  cbn [PGD.write_blocks].
  replace (PGD.set_port (PGD.port s) s) with s by (destruct s; reflexivity).
  destruct (PGD.waitACKNACK 1000 s w) as [[a s1] w1] eqn:Hw.
  simpl in Hnack. subst a. simpl.
  split; [reflexivity|]. exact (sent_after_wait _ _ _ _ _ _ Hw).
Qed.

(** ** The port stays open while the controller is not Inactive *)

Lemma tx_only_no_close_no_callback (evs : list Event) :
  tx_only evs -> existsb is_close evs = false /\ existsb is_callback evs = false.
Proof.
  unfold tx_only. induction evs as [|e evs IH]; simpl; [auto|].
  destruct e; simpl; try discriminate. exact IH.
Qed.

Lemma Process_keeps_port (s : PGD.t) (w : World) :
  forall r s' w', PGD.Process s w = (r, s', w') ->
  COMPORT.fd (PGD.port s') = COMPORT.fd (PGD.port s).
Proof.
  intros r s' w'. unfold PGD.Process.
  destruct (PGD.halt s); [intros [= <- <- <-]; reflexivity|].
  destruct (negb _); [intros [= <- <- <-]; reflexivity|].
  destruct (PGD.curcmd s).
  - intros [= <- <- <-]; reflexivity.
  - destruct (PGD.waitACKNACK 200 s w) as [[a s1] w1] eqn:Hw.
    destruct (waitACKNACK_frame _ _ _ _ _ _ Hw)
      as ((_ & _ & _ & _ & _ & _ & _ & _ & _ & _ & Hfd) & _ & _).
    destruct (a =? 0); [intros [= <- <- <-]; exact Hfd|].
    destruct (a =? 1); [intros [= <- <- <-]; exact Hfd|].
    destruct (a =? -1); [intros [= <- <- <-]; exact Hfd|].
    destruct (a =? 2); intros [= <- <- <-]; exact Hfd.
  - destruct (PGD.waitACKNACK 200 s w) as [[a s1] w1] eqn:Hw.
    destruct (waitACKNACK_frame _ _ _ _ _ _ Hw)
      as ((_ & _ & _ & _ & _ & _ & _ & _ & _ & _ & Hfd) & _ & _).
    destruct (a =? 0); [intros [= <- <- <-]; exact Hfd|].
    destruct (a =? 1); [intros [= <- <- <-]; exact Hfd|].
    destruct (a =? -1); [intros [= <- <- <-]; exact Hfd|].
    destruct (a =? 2); intros [= <- <- <-]; exact Hfd.
  - destruct (COMPORT.Read (PGD.port s) w (4 - PGD.brcv s) 100)
      as [[[nb got] p] w1] eqn:Hrd.
    destruct (Read_frame _ _ _ _ _ _ _ _ Hrd) as (Hfd & _).
    destruct (nb <? 0); [intros [= <- <- <-]; exact Hfd|].
    destruct (negb (nb =? 0)); [|intros [= <- <- <-]; exact Hfd].
    simpl PGD.brcv. simpl PGD.curdata.
    destruct (PGD.brcv s + nb =? 4); [|intros [= <- <- <-]; exact Hfd].
    destruct (PGD.curdata s);
      (intros H; apply (f_equal (fun x => PGD.port (snd (fst x)))) in H;
       cbn [PGD.complete PGD.port PGD.set_state PGD.set_curcmd PGD.ERRMSG
            PGD.set_errmsg PGD.set_brcv PGD.set_port fst snd] in H;
       rewrite <- H; exact Hfd).
  - intros [= <- <- <-]; reflexivity.
Qed.

(** Suspend, the command that makes the controller Busy, keeps the
    descriptor; it only goes Busy from Idle. *)
Lemma Suspend_keeps_port (options duration : Z) (s : PGD.t) (w : World) :
  forall r s' w', PGD.Suspend options duration s w = (r, s', w') ->
  COMPORT.fd (PGD.port s') = COMPORT.fd (PGD.port s)
  /\ (PGD.state s' = PGD.state s
      \/ (PGD.state s = LCD_IDLE /\ PGD.state s' = LCD_BUSY /\ r = 2
          /\ PGD.curcmd s' = PG_SLEEP)).
Proof.
  intros r s' w'. unfold PGD.Suspend.
  destruct (PGD.state s) eqn:Hst; cbv beta iota delta [LCDSTATE_eqb];
    try (intros [= <- <- <-]; simpl; auto; fail).
  destruct (negb _); [intros [= <- <- <-]; simpl; auto|].
  destruct (_ =? 34); [intros [= <- <- <-]; simpl; auto|].
  destruct (COMPORT.Flush (PGD.port s) w) as [[rf pf] wf] eqn:Hfl.
  apply Flush_spec in Hfl. destruct Hfl as [-> ->].
  destruct (COMPORT.Write _ w _ 3) as [[res p] w1] eqn:Hwr.
  apply Write_spec in Hwr. destruct Hwr as (Hfd & _). simpl in Hfd.
  destruct (negb (res =? 3)).
  { destruct (0 <? res); intros [= <- <- <-]; simpl; auto. }
  destruct (PGD.waitACKNACK 100 _ w1) as [[a s2] w2] eqn:Hw.
  destruct (waitACKNACK_frame _ _ _ _ _ _ Hw)
    as ((_ & Hs2 & _ & _ & _ & _ & _ & _ & _ & _ & Hfd2) & _ & _).
  simpl in Hs2, Hfd2.
  assert (Hfd3 : COMPORT.fd (PGD.port s2) = COMPORT.fd (PGD.port s)) by congruence.
  destruct (a =? 0); [intros [= <- <- <-]; split; [exact Hfd3|left; congruence]|].
  destruct (a =? 1); [intros [= <- <- <-]; split; [exact Hfd3|left; congruence]|].
  destruct (a =? 2); [|intros [= <- <- <-]; split; [exact Hfd3|left; congruence]].
  destruct (negb _); intros [= <- <- <-]; simpl;
    (split; [exact Hfd3|]); [right; auto|left; congruence].
Qed.

(** ** SDListDirFAT returns *)

Lemma SDListDirFAT_loop_returns (direntry : list Z) (dir : list (list Z))
      (s : PGD.t) (w : World) :
  exists r, PGD.listdir_loop (S (PGD.rx_size (rx w))) direntry dir s w = Some r.
Proof.
  destruct (PGD.listdir_loop (S (PGD.rx_size (rx w))) direntry dir s w) as [r|] eqn:H.
  - exists r; reflexivity.
  - exfalso. revert H. apply listdir_loop_total. lia.
Qed.

(** * Further properties of the code *)

(** ** COMPORT::Write *)

Lemma Write_count (p : COMPORT.t) (w : World) (data : list Z) (len : Z) :
  forall r p' w', COMPORT.Write p w data len = (r, p', w') ->
  COMPORT.fd p' = COMPORT.fd p
  /\ ((r = -1 /\ sent w' = sent w)
      \/ (0 <= r <= len /\ sent w' = sent w ++ firstn (Z.to_nat r) data)).
Proof.
  intros r p' w' H. split; [exact (proj1 (Write_spec _ _ _ _ _ _ _ H))|].
  revert H. unfold COMPORT.Write.
  destruct (Z.leb_spec len 0) as [Hle|Hlt]; [intros [= <- <- <-]; auto|].
  destruct (COMPORT.fd p =? -1); [intros [= <- <- <-]; auto|].
  destruct (COMPORT.write_loop _ _ 0 0 w) as [[ntx bsent] w1] eqn:Hloop.
  apply write_loop_spec in Hloop.
  destruct Hloop as [_ (evs & rest & Htr & _ & Hbuf & Hn)].
  assert (Hlen : Z.of_nat (List.length (tx_bytes evs)) <= len).
  { assert (Hl := f_equal (@List.length Z) Hbuf).
    rewrite length_app, length_firstn in Hl. lia. }
  assert (Hsent : sent w1 = sent w ++ firstn (Z.to_nat ntx) data).
  { unfold sent. rewrite Htr, tx_bytes_app. f_equal.
    rewrite Hn, Z.add_0_l, Nat2Z.id.
    assert (Hf : firstn (List.length (tx_bytes evs)) (firstn (Z.to_nat len) data)
                 = tx_bytes evs).
    { rewrite <- Hbuf. rewrite firstn_app, Nat.sub_diag, firstn_all.
      simpl. now rewrite app_nil_r. }
    rewrite firstn_firstn in Hf. rewrite Nat.min_l in Hf by lia. now rewrite Hf. }
  assert (Hnil : ntx <= 0 -> sent w1 = sent w).
  { intros H0. rewrite Hsent. replace (Z.to_nat ntx) with O by lia.
    simpl. now rewrite app_nil_r. }
  destruct (bsent =? -1).
  - destruct (Z.ltb_spec 0 ntx); intros [= <- <- <-]; [right; split; [lia|auto]|left; auto].
  - destruct (negb (ntx =? len)); intros [= <- <- <-]; right; split; auto; lia.
Qed.

(** X1.  COMPORT::Write either returns -1 with nothing put on the wire, or
    returns the number [r] of bytes it put on the wire, which are the
    first [r] bytes of [data]; [r] never exceeds [len]. *)
Theorem Write_reports_bytes_sent (p : COMPORT.t) (w : World) (data : list Z) (len : Z) :
  forall r p' w', COMPORT.Write p w data len = (r, p', w') ->
  (r = -1 /\ sent w' = sent w)
  \/ (0 <= r <= len /\ sent w' = sent w ++ firstn (Z.to_nat r) data).
Proof.
  intros r p' w' H. exact (proj2 (Write_count _ _ _ _ _ _ _ H)).
Qed.

Lemma Write_reports_bytes_sent_witness :
  COMPORT.Write (COMPORT.set_fd 3 COMPORT.init)
                (set_wr [WrAccept 2; WrFault] (Samples.world [])) [1; 2; 3; 4] 4
  = (2, COMPORT.set_errmsg "Write(): write incomplete" (COMPORT.set_fd 3 COMPORT.init),
     emit (EvTx [1; 2]) (Samples.world []))
  /\ ((2 = -1 /\ sent (emit (EvTx [1; 2]) (Samples.world [])) = sent (Samples.world []))
      \/ (0 <= 2 <= 4
          /\ sent (emit (EvTx [1; 2]) (Samples.world []))
             = sent (Samples.world []) ++ firstn (Z.to_nat 2) [1; 2; 3; 4])).
Proof.
  assert (H : COMPORT.Write (COMPORT.set_fd 3 COMPORT.init)
                (set_wr [WrAccept 2; WrFault] (Samples.world [])) [1; 2; 3; 4] 4
              = (2, COMPORT.set_errmsg "Write(): write incomplete"
                      (COMPORT.set_fd 3 COMPORT.init),
                 emit (EvTx [1; 2]) (Samples.world []))) by (vm_compute; reflexivity).
  split; [exact H|].
  exact (Write_reports_bytes_sent _ _ _ _ _ _ _ H).
Defined.


Lemma waitACKNACK_loop_clock (turns : nat) :
  forall tov now s w r s' w',
  PGD.waitACKNACK_loop turns tov now s w = Some (r, s', w') ->
  now_us w <= now_us w'.
Proof.
  induction turns as [|turns IH]; intros tov now s w r s' w'; simpl; [discriminate|].
  destruct (PGD.before_deadline now tov); [|intros [= <- <- <-]; lia].
  destruct (COMPORT.Read (PGD.port s) w 4 10) as [[[nb msg] p] w1] eqn:Hrd.
  apply Read_clock_mono in Hrd.
  destruct (nb =? -1); [intros [= <- <- <-]; exact Hrd|].
  destruct (PGD.scan_acknack msg); [intros [= <- <- <-]; exact Hrd|].
  intros H. apply IH in H. lia.
Qed.

(** X2.  waitACKNACK only waits: its result is one of -1, 0, 1, 2; it leaves
    the controller as it was apart from the error texts, adds no event
    (so it writes nothing), and never sets the clock back. *)
Theorem waitACKNACK_only_waits (timeout : Z) (s : PGD.t) (w : World) :
  let '(r, s', w') := PGD.waitACKNACK timeout s w in
  ack_code r /\ same_ctl s s' /\ trace w' = trace w /\ sent w' = sent w
  /\ now_us w <= now_us w'.
Proof.
  destruct (PGD.waitACKNACK timeout s w) as [[r s'] w'] eqn:H.
  destruct (waitACKNACK_frame _ _ _ _ _ _ H) as (Hc & (Htr & _) & Hr).
  repeat split; try assumption; try apply Hc.
  - unfold sent; now rewrite Htr.
  - assert (Hl := waitACKNACK_returns timeout s w). rewrite H in Hl.
    apply waitACKNACK_loop_clock in Hl. exact Hl.
Qed.

Lemma deadline_sec_le (now : timeval) (timeout : Z) :
  0 <= timeout -> tv_sec now <= tv_sec (PGD.deadline now timeout).
Proof.
  intros Ht. unfold PGD.deadline.
  assert (0 <= Z.quot timeout 1000) by (apply Z.quot_pos; lia).
  destruct (1000 <=? timeout); destruct (1000000 <=? _); simpl; lia.
Qed.

Lemma realistic_sec (w : World) :
  realistic_clock w ->
  1000000 <= tv_sec (gettimeofday w) /\ 0 <= tv_usec (gettimeofday w) < 1000000.
Proof.
  unfold realistic_clock, gettimeofday; simpl. intros H. split.
  - apply Z.div_le_lower_bound; lia.
  - apply Z.mod_pos_bound; lia.
Qed.

(** With a realistic clock every wait starts inside its window. *)
Lemma before_deadline_start (timeout : Z) (w : World) :
  0 <= timeout -> realistic_clock w ->
  PGD.before_deadline (gettimeofday w) (PGD.deadline (gettimeofday w) timeout) = true.
Proof.
  intros Ht Hc. destruct (realistic_sec w Hc) as [Hs Hu].
  assert (Hd := deadline_sec_le (gettimeofday w) timeout Ht).
  unfold PGD.before_deadline.
  destruct (Z.ltb_spec (tv_sec (gettimeofday w))
                       (tv_sec (PGD.deadline (gettimeofday w) timeout))); [reflexivity|].
  cbn [orb]. apply andb_true_iff. split; [apply Z.eqb_eq|apply Z.leb_le]; lia.
Qed.

(** With a realistic deadline the wait loops go on until the second of
    the deadline is over. *)
Lemma before_deadline_early (w : World) (tov : timeval) :
  1000000 <= tv_sec tov -> now_us w < (tv_sec tov + 1) * 1000000 ->
  PGD.before_deadline (gettimeofday w) tov = true
  /\ PGD.before_deadline_strict (gettimeofday w) tov = true.
Proof.
  intros Htov Hnow.
  assert (Hu := usec_range w). assert (Hn := to_us_gettimeofday w). unfold to_us in Hn.
  unfold PGD.before_deadline, PGD.before_deadline_strict.
  destruct (Z.ltb_spec (tv_sec (gettimeofday w)) (tv_sec tov)); [auto|]. cbn [orb].
  destruct (Z.eqb_spec (tv_sec (gettimeofday w)) (tv_sec tov)); [|lia]. cbn [andb].
  split; [apply Z.leb_le|apply Z.ltb_lt]; lia.
Qed.

Lemma deadline_exact (w : World) (timeout : Z) :
  0 <= timeout ->
  to_us (PGD.deadline (gettimeofday w) timeout) = now_us w + timeout * 1000
  /\ 0 <= tv_usec (PGD.deadline (gettimeofday w) timeout) < 1000000.
Proof.
  intros Ht. change PGD.deadline with COMPORT.Read_tov. split.
  - rewrite Read_tov_exact, to_us_gettimeofday by (try apply usec_range; lia). reflexivity.
  - apply Read_tov_usec; [lia|apply usec_range].
Qed.

(** One turn of a wait loop while the answer is still more than 10 ms
    away. *)
Lemma Read_waiting (p : COMPORT.t) (w : World) (len : Z) (dt : N) (bs : list Z)
      (r : list RxEvent) :
  COMPORT.fd p <> -1 -> 0 < len -> rx w = RxData dt bs :: r -> 10000 <= Z.of_N dt ->
  COMPORT.Read p w len 10
  = (0, [], p, usleep 10000 (set_rx (RxData (dt - 10000) bs :: r) w)).
Proof.
  intros Hfd Hlen Hrx Hdt.
  rewrite Read_quiet; [rewrite Hrx; reflexivity|assumption|assumption|lia|].
  rewrite Hrx. exact Hdt.
Qed.

(** What one read of a wait loop returns when the answer is less than
    10 ms away: the chunk, cut to the buffer. *)
Lemma Read_answer (p : COMPORT.t) (w : World) (len : Z) (dt : N) (bs : list Z)
      (r : list RxEvent) :
  COMPORT.fd p <> -1 -> 0 < len -> rx w = RxData dt bs :: r -> Z.of_N dt < 10000 ->
  quiet 10000 r ->
  exists w', COMPORT.Read p w len 10
             = (Z.of_nat (List.length (firstn (Z.to_nat len) bs)),
                firstn (Z.to_nat len) bs, p, w').
Proof.
  intros Hfd Hlen Hrx Hdt Hq.
  destruct (Z.le_gt_cases len (Z.of_nat (List.length bs))) as [Hl|Hl].
  - rewrite (Read_chunk p w len 10 dt bs r Hfd Hlen Hrx) by lia.
    rewrite length_firstn. replace (Z.of_nat (Nat.min _ _)) with len by lia. eauto.
  - destruct (Read_short p w len 10 dt bs r Hfd Hrx) as (us & Hrd & _); try lia.
    { exact Hq. }
    rewrite Hrd, firstn_all2 by lia. eauto.
Qed.

Lemma wait_step_measure (tov : timeval) (w : World) (dt : N) (bs : list Z)
      (r : list RxEvent) (turns : nat) :
  1000000 <= tv_sec tov -> rx w = RxData dt bs :: r -> 10000 <= Z.of_N dt ->
  now_us w + Z.of_N dt < (tv_sec tov + 1) * 1000000 ->
  (PGD.rx_size (rx w) + ticks tov w < S turns)%nat ->
  let w1 := usleep 10000 (set_rx (RxData (dt - 10000) bs :: r) w) in
  rx w1 = RxData (dt - 10000) bs :: r
  /\ now_us w1 + Z.of_N (dt - 10000) < (tv_sec tov + 1) * 1000000
  /\ (PGD.rx_size (rx w1) + ticks tov w1 < turns)%nat.
Proof.
  intros Htov Hrx Hdt Hnow Hm. cbn zeta.
  split; [reflexivity|]. split; [simpl now_us; lia|].
  assert (Hb : PGD.before_deadline (gettimeofday w) tov = true)
    by (apply before_deadline_early; lia).
  assert (Hs := ticks_step tov w (usleep 10000 (set_rx (RxData (dt - 10000) bs :: r) w))
                  Hb eq_refl).
  rewrite Hrx in Hm. simpl PGD.rx_size in *. lia.
Qed.

(** The answer the device sends before the loop gives up decides the
    wait. *)
Lemma waitACKNACK_loop_answer (turns : nat) :
  forall tov s w dt bs r a,
  COMPORT.fd (PGD.port s) <> -1 -> 1000000 <= tv_sec tov ->
  rx w = RxData dt bs :: r ->
  now_us w + Z.of_N dt < (tv_sec tov + 1) * 1000000 ->
  PGD.scan_acknack (firstn 4 bs) = Some a -> quiet 10000 r ->
  (PGD.rx_size (rx w) + ticks tov w < turns)%nat ->
  exists s' w', PGD.waitACKNACK_loop turns tov (gettimeofday w) s w = Some (a, s', w').
Proof.
  induction turns as [|turns IH]; intros tov s w dt bs r a Hfd Htov Hrx Hnow Hscan Hq Hm;
    [lia|].
  cbn [PGD.waitACKNACK_loop].
  destruct (before_deadline_early w tov Htov) as [-> _]; [lia|].
  destruct (Z.lt_ge_cases (Z.of_N dt) 10000) as [Hin|Hout].
  - destruct (Read_answer (PGD.port s) w 4 dt bs r Hfd ltac:(lia) Hrx Hin Hq) as (w' & ->).
    change (Z.to_nat 4) with 4%nat. rewrite Hscan.
    destruct (Z.eqb_spec (Z.of_nat (List.length (firstn 4 bs))) (-1)); [lia|]. eauto.
  - rewrite (Read_waiting (PGD.port s) w 4 dt bs r Hfd ltac:(lia) Hrx) by lia.
    cbn [Z.eqb PGD.scan_acknack].
    destruct (wait_step_measure tov w dt bs r turns Htov Hrx) as (H1 & H2 & H3); try lia.
    eapply IH; eauto.
Qed.

Lemma waitACK_loop_answer (turns : nat) :
  forall tov s w dt bs r,
  COMPORT.fd (PGD.port s) <> -1 -> 1000000 <= tv_sec tov ->
  rx w = RxData dt bs :: r ->
  now_us w + Z.of_N dt < (tv_sec tov + 1) * 1000000 ->
  existsb (fun b => b =? ACK) (firstn 64 bs) = true -> quiet 10000 r ->
  (PGD.rx_size (rx w) + ticks tov w < turns)%nat ->
  exists s' w', PGD.waitACK_loop turns tov (gettimeofday w) s w = Some (0, s', w').
Proof.
  induction turns as [|turns IH]; intros tov s w dt bs r Hfd Htov Hrx Hnow Hscan Hq Hm;
    [lia|].
  cbn [PGD.waitACK_loop].
  destruct (before_deadline_early w tov Htov) as [_ ->]; [lia|].
  destruct (Z.lt_ge_cases (Z.of_N dt) 10000) as [Hin|Hout].
  - destruct (Read_answer (PGD.port s) w 64 dt bs r Hfd ltac:(lia) Hrx Hin Hq) as (w' & ->).
    change (Z.to_nat 64) with 64%nat. rewrite Hscan.
    destruct (Z.eqb_spec (Z.of_nat (List.length (firstn 64 bs))) (-1)); [lia|]. eauto.
  - rewrite (Read_waiting (PGD.port s) w 64 dt bs r Hfd ltac:(lia) Hrx) by lia.
    cbn [Z.eqb existsb].
    destruct (wait_step_measure tov w dt bs r turns Htov Hrx) as (H1 & H2 & H3); try lia.
    eapply IH; eauto.
Qed.

Lemma waitNACK_loop_answer (turns : nat) :
  forall tov s w dt bs r,
  COMPORT.fd (PGD.port s) <> -1 -> 1000000 <= tv_sec tov ->
  rx w = RxData dt bs :: r ->
  now_us w + Z.of_N dt < (tv_sec tov + 1) * 1000000 ->
  existsb (fun b => b =? NACK) (firstn 64 bs) = true -> quiet 10000 r ->
  (PGD.rx_size (rx w) + ticks tov w < turns)%nat ->
  exists s' w', PGD.waitNACK_loop turns tov (gettimeofday w) s w = Some (1, s', w').
Proof.
  induction turns as [|turns IH]; intros tov s w dt bs r Hfd Htov Hrx Hnow Hscan Hq Hm;
    [lia|].
  cbn [PGD.waitNACK_loop].
  destruct (before_deadline_early w tov Htov) as [_ ->]; [lia|].
  destruct (Z.lt_ge_cases (Z.of_N dt) 10000) as [Hin|Hout].
  - destruct (Read_answer (PGD.port s) w 64 dt bs r Hfd ltac:(lia) Hrx Hin Hq) as (w' & ->).
    change (Z.to_nat 64) with 64%nat. rewrite Hscan.
    destruct (Z.eqb_spec (Z.of_nat (List.length (firstn 64 bs))) (-1)); [lia|]. eauto.
  - rewrite (Read_waiting (PGD.port s) w 64 dt bs r Hfd ltac:(lia) Hrx) by lia.
    cbn [Z.eqb existsb].
    destruct (wait_step_measure tov w dt bs r turns Htov Hrx) as (H1 & H2 & H3); try lia.
    eapply IH; eauto.
Qed.

(** The deadline of a wait lies in or after the present second, and
    within its second the loops never give up. *)
Lemma deadline_window (w : World) (timeout : Z) (dt : N) :
  0 <= timeout -> realistic_clock w -> Z.of_N dt <= timeout * 1000 ->
  1000000 <= tv_sec (PGD.deadline (gettimeofday w) timeout)
  /\ now_us w + Z.of_N dt < (tv_sec (PGD.deadline (gettimeofday w) timeout) + 1) * 1000000.
Proof.
  intros Ht Hc Hdt. destruct (deadline_exact w timeout Ht) as [He Hu].
  unfold to_us in He. unfold realistic_clock in Hc. split; lia.
Qed.

(** An ACK or NACK that arrives within the budget decides waitACKNACK,
    whatever precedes it among the first four bytes of its chunk. *)
Lemma waitACKNACK_answer (timeout : Z) (s : PGD.t) (w : World)
      (dt : N) (bs : list Z) (r : list RxEvent) (a : Z) :
  COMPORT.fd (PGD.port s) <> -1 -> 0 <= timeout -> realistic_clock w ->
  rx w = RxData dt bs :: r -> Z.of_N dt <= timeout * 1000 ->
  PGD.scan_acknack (firstn 4 bs) = Some a -> quiet 10000 r ->
  exists s' w', PGD.waitACKNACK timeout s w = (a, s', w').
Proof.
  intros Hfd Ht Hc Hrx Hdt Hscan Hq.
  destruct (deadline_window w timeout dt Ht Hc Hdt) as [Htov Hnow].
  unfold PGD.waitACKNACK.
  destruct (waitACKNACK_loop_answer
              (PGD.waitACKNACK_turns (PGD.deadline (gettimeofday w) timeout) w)
              (PGD.deadline (gettimeofday w) timeout) s w dt bs r a
              Hfd Htov Hrx Hnow Hscan Hq) as (s' & w' & ->).
  - unfold PGD.waitACKNACK_turns, ticks. lia.
  - eauto.
Qed.

(** An ACK that arrives within the budget ends waitACK with 0. *)
Lemma waitACK_answer (timeout : Z) (s : PGD.t) (w : World)
      (dt : N) (bs : list Z) (r : list RxEvent) :
  COMPORT.fd (PGD.port s) <> -1 -> realistic_clock w ->
  rx w = RxData dt bs :: r -> Z.of_N dt <= timeout * 1000 ->
  existsb (fun b => b =? ACK) (firstn 64 bs) = true -> quiet 10000 r ->
  exists s' w', PGD.waitACK timeout s w = (0, s', w').
Proof.
  intros Hfd Hc Hrx Hdt Hscan Hq.
  unfold PGD.waitACK.
  set (tmo := if timeout <? 2 then 2 else timeout).
  assert (Ht : 0 <= tmo /\ Z.of_N dt <= tmo * 1000)
    by (unfold tmo; destruct (Z.ltb_spec timeout 2); lia).
  destruct (deadline_window w tmo dt (proj1 Ht) Hc (proj2 Ht)) as [Htov Hnow].
  destruct (waitACK_loop_answer
              (PGD.waitACKNACK_turns (PGD.deadline (gettimeofday w) tmo) w)
              (PGD.deadline (gettimeofday w) tmo) s w dt bs r
              Hfd Htov Hrx Hnow Hscan Hq) as (s' & w' & ->).
  - unfold PGD.waitACKNACK_turns, ticks. lia.
  - eauto.
Qed.

(** A NACK that arrives within the budget ends waitNACK with 1. *)
Lemma waitNACK_answer (timeout : Z) (s : PGD.t) (w : World)
      (dt : N) (bs : list Z) (r : list RxEvent) :
  COMPORT.fd (PGD.port s) <> -1 -> realistic_clock w ->
  rx w = RxData dt bs :: r -> Z.of_N dt <= timeout * 1000 ->
  existsb (fun b => b =? NACK) (firstn 64 bs) = true -> quiet 10000 r ->
  exists s' w', PGD.waitNACK timeout s w = (1, s', w').
Proof.
  intros Hfd Hc Hrx Hdt Hscan Hq.
  unfold PGD.waitNACK.
  set (tmo := if timeout <? 2 then 2 else timeout).
  assert (Ht : 0 <= tmo /\ Z.of_N dt <= tmo * 1000)
    by (unfold tmo; destruct (Z.ltb_spec timeout 2); lia).
  destruct (deadline_window w tmo dt (proj1 Ht) Hc (proj2 Ht)) as [Htov Hnow].
  destruct (waitNACK_loop_answer
              (PGD.waitACKNACK_turns (PGD.deadline (gettimeofday w) tmo) w)
              (PGD.deadline (gettimeofday w) tmo) s w dt bs r
              Hfd Htov Hrx Hnow Hscan Hq) as (s' & w' & ->).
  - unfold PGD.waitACKNACK_turns, ticks. lia.
  - eauto.
Qed.

Lemma scan_acknack_skip (junk l : list Z) :
  no_answer junk -> PGD.scan_acknack (junk ++ l) = PGD.scan_acknack l.
Proof.
  induction junk as [|b junk IH]; intros Hn; [reflexivity|]. simpl.
  destruct (Hn b (or_introl eq_refl)) as [Ha Hb].
  destruct (Z.eqb_spec b ACK); [contradiction|].
  destruct (Z.eqb_spec b NACK); [contradiction|].
  apply IH. intros c Hc. apply Hn. now right.
Qed.

(** X3.  An answer that arrives within the budget of waitACKNACK, with
    nothing else coming in the 10 ms after it: among its first four bytes,
    bytes that are neither ACK nor NACK are skipped and the first ACK or
    NACK decides, 0 for ACK and 1 for NACK; nothing is written. *)
Theorem waitACKNACK_first_answer_decides (timeout : Z) (s : PGD.t) (w : World)
        (dt : N) (junk rest : list Z) (b : Z) (r : list RxEvent) :
  COMPORT.fd (PGD.port s) <> -1 -> 0 <= timeout -> realistic_clock w ->
  rx w = RxData dt (junk ++ b :: rest) :: r ->
  Z.of_N dt <= timeout * 1000 -> quiet 10000 r ->
  no_answer junk -> (List.length junk < 4)%nat -> b = ACK \/ b = NACK ->
  fst (fst (PGD.waitACKNACK timeout s w)) = (if b =? ACK then 0 else 1)
  /\ sent (snd (PGD.waitACKNACK timeout s w)) = sent w.
Proof.
  intros Hfd Ht Hc Hrx Hdt Hq Hjunk Hlen Hb.
  assert (Hscan : PGD.scan_acknack (firstn 4 (junk ++ b :: rest))
                  = Some (if b =? ACK then 0 else 1)).
  { rewrite firstn_app.
    rewrite (firstn_all2 (n := 4) junk) by lia.
    rewrite scan_acknack_skip by exact Hjunk.
    destruct (4 - List.length junk)%nat as [|k] eqn:Hk; [lia|]. simpl.
    destruct Hb as [-> | ->]; reflexivity. }
  destruct (waitACKNACK_answer timeout s w dt _ r _ Hfd Ht Hc Hrx Hdt Hscan Hq)
    as (s' & w' & Hw).
  destruct (waitACKNACK_frame _ _ _ _ _ _ Hw) as (_ & (Htr & _) & _).
  rewrite Hw. simpl. split; [reflexivity|]. unfold sent. now rewrite Htr.
Qed.

Lemma waitACKNACK_first_answer_decides_witness :
  COMPORT.fd (PGD.port Samples.idle) <> -1 /\ 0 <= 100
  /\ realistic_clock (Samples.world [RxData 25700 ([255; 0] ++ NACK :: [ACK])])
  /\ Z.of_N 25700 <= 100 * 1000 /\ quiet 10000 []
  /\ no_answer [255; 0] /\ (List.length [255; 0] < 4)%nat
  /\ fst (fst (PGD.waitACKNACK 100 Samples.idle
                 (Samples.world [RxData 25700 ([255; 0] ++ NACK :: [ACK])]))) = 1.
Proof.
  assert (H1 : COMPORT.fd (PGD.port Samples.idle) <> -1) by (simpl; lia).
  assert (H2 : 0 <= 100) by lia.
  assert (H3 : realistic_clock (Samples.world [RxData 25700 ([255; 0] ++ NACK :: [ACK])]))
    by (unfold realistic_clock; simpl; lia).
  assert (H4 : no_answer [255; 0]).
  { intros b [<-|[<-|[]]]; split; discriminate. }
  assert (H5 : (List.length [255; 0] < 4)%nat) by (simpl; lia).
  assert (H6 : Z.of_N 25700 <= 100 * 1000) by (simpl; lia).
  assert (H7 : quiet 10000 []) by exact I.
  repeat (split; [assumption|]).
  exact (proj1 (waitACKNACK_first_answer_decides 100 Samples.idle _ 25700 [255; 0] [ACK]
                  NACK [] H1 H2 H3 eq_refl H6 H7 H4 H5 (or_intror eq_refl))).
Defined.

Lemma waitACKNACK_loop_timeout_late (turns : nat) :
  forall tov s w s' w',
  1000000 <= tv_sec tov ->
  PGD.waitACKNACK_loop turns tov (gettimeofday w) s w = Some (2, s', w') ->
  tv_sec tov < tv_sec (gettimeofday w').
Proof.
  induction turns as [|turns IH]; intros tov s w s' w' Htov; simpl; [discriminate|].
  destruct (PGD.before_deadline (gettimeofday w) tov) eqn:Hb.
  - destruct (COMPORT.Read (PGD.port s) w 4 10) as [[[nb msg] p] w1] eqn:Hrd.
    destruct (nb =? -1); [intros [= _ _ _]|].
    destruct (PGD.scan_acknack msg) as [a|] eqn:Hscan.
    + intros [= -> _ _]. apply scan_acknack_range in Hscan. lia.
    + apply IH. exact Htov.
  - intros [= _ <-]. unfold PGD.before_deadline in Hb.
    apply orb_false_iff in Hb. destruct Hb as [H1 H2].
    apply Z.ltb_ge in H1. apply andb_false_iff in H2.
    assert (Hu : 0 <= tv_usec (gettimeofday w) < 1000000)
      by (unfold gettimeofday; simpl; apply Z.mod_pos_bound; lia).
    change (tv_sec tov < tv_sec (gettimeofday w)).
    destruct H2 as [H2|H2]; [apply Z.eqb_neq in H2|apply Z.leb_gt in H2]; lia.
Qed.

(** X4.  The loop of waitACKNACK compares the microseconds of the clock with
    the seconds of the deadline.  With a realistic clock a timeout (result
    2) is therefore never reported before the clock has left the second
    in which the deadline lies, however short the budget. *)
Theorem waitACKNACK_timeout_overshoots (timeout : Z) (s : PGD.t) (w : World) :
  0 <= timeout -> realistic_clock w ->
  forall s' w', PGD.waitACKNACK timeout s w = (2, s', w') ->
  tv_sec (PGD.deadline (gettimeofday w) timeout) < tv_sec (gettimeofday w')
  /\ (tv_sec (gettimeofday w) + 1) * 1000000 <= now_us w'.
Proof.
  intros Ht Hc s' w' H.
  assert (Hl := waitACKNACK_returns timeout s w). rewrite H in Hl.
  destruct (realistic_sec w Hc) as [Hs _].
  assert (Hd := deadline_sec_le (gettimeofday w) timeout Ht).
  apply waitACKNACK_loop_timeout_late in Hl; [|lia].
  split; [exact Hl|].
  assert (Hlt : tv_sec (gettimeofday w) + 1 <= tv_sec (gettimeofday w')) by lia.
  change (tv_sec (gettimeofday w')) with (now_us w' / 1000000) in Hlt.
  assert (Hm := Z.mod_pos_bound (now_us w') 1000000 ltac:(lia)).
  assert (Hdm := Z.div_mod (now_us w') 1000000 ltac:(lia)).
  lia.
Qed.

Lemma waitACKNACK_timeout_overshoots_witness :
  0 <= 20 /\ realistic_clock (Samples.world [])
  /\ fst (fst (PGD.waitACKNACK 20 Samples.idle (Samples.world []))) = 2
  /\ 1349049601000000
     <= now_us (snd (PGD.waitACKNACK 20 Samples.idle (Samples.world []))).
Proof.
  assert (H1 : 0 <= 20) by lia.
  assert (H2 : realistic_clock (Samples.world []))
    by (unfold realistic_clock; simpl; lia).
  destruct (PGD.waitACKNACK 20 Samples.idle (Samples.world [])) as [[r s'] w'] eqn:E.
  assert (Hr : r = 2) by (vm_compute in E; congruence).
  split; [exact H1|]. split; [exact H2|]. split; [exact Hr|].
  subst r.
  exact (proj2 (waitACKNACK_timeout_overshoots 20 Samples.idle (Samples.world [])
                  H1 H2 s' w' E)).
Defined.

(** ** PGD::SetBaud *)

Lemma DBAUD_eqb_eq (a b : DBAUD) : DBAUD_eqb a b = true <-> a = b.
Proof. destruct a, b; simpl; split; intros H; congruence. Qed.

Lemma COMPORT_SetBaud_ok (p : COMPORT.t) (w : World) (speed : Z) :
  forall p' w', COMPORT.SetBaud p w speed = (0, p', w') ->
  tty_speed w' = speed /\ COMPORT.params_speed p' = speed.
Proof.
  intros p' w'. unfold COMPORT.SetBaud.
  destruct (negb _); [intros [= _ _ _]|].
  destruct (COMPORT.fd _ <? 0); [intros [= _ _ _]|].
  match goal with |- context [negb (?a =? ?b)] => destruct (Z.eqb_spec a b) as [He|He] end;
    simpl negb; cbv iota; intros [= <- <-]; simpl; auto.
Qed.

(** X5.  PGD::SetBaud keeps the readiness state.  When it returns 0 the
    recorded bit rate is the requested one, and unless that was the rate
    already (in which case nothing happens at all) the two bytes 'Q', code
    went out and the host line runs at the recorded port speed.  When it
    returns anything else the recorded bit rate and port speed are
    unchanged. *)
Theorem SetBaud_outcome (codes : DBAUD -> Z) (speed : DBAUD) (s : PGD.t) (w : World) :
  forall r s' w', PGD.SetBaud codes speed s w = (r, s', w') ->
  PGD.state s' = PGD.state s
  /\ (r = 0 ->
      PGD.baud s' = speed
      /\ ((speed = PGD.baud s /\ s' = s /\ w' = w)
          \/ (speed <> PGD.baud s /\ PGD.state s = LCD_IDLE
              /\ sent w' = sent w ++ [ch "Q"%char; Z.land (codes speed) 255]
              /\ tty_speed w' = PGD.portspeed s')))
  /\ (r <> 0 -> PGD.baud s' = PGD.baud s /\ PGD.portspeed s' = PGD.portspeed s).
Proof.
  intros r s' w'. unfold PGD.SetBaud.
  assert (Hfail : forall r0 s0 w0,
            r0 <> 0 -> PGD.state s0 = PGD.state s -> PGD.baud s0 = PGD.baud s ->
            PGD.portspeed s0 = PGD.portspeed s ->
            (r0, s0, w0) = (r, s', w') ->
            PGD.state s' = PGD.state s
            /\ (r = 0 ->
                PGD.baud s' = speed
                /\ ((speed = PGD.baud s /\ s' = s /\ w' = w)
                    \/ (speed <> PGD.baud s /\ PGD.state s = LCD_IDLE
                        /\ sent w' = sent w ++ [ch "Q"%char; Z.land (codes speed) 255]
                        /\ tty_speed w' = PGD.portspeed s')))
            /\ (r <> 0 -> PGD.baud s' = PGD.baud s /\ PGD.portspeed s' = PGD.portspeed s)).
  { intros r0 s0 w0 Hr Hst Hb Hp [= <- <- <-]. split; [exact Hst|].
    split; [intros; contradiction|auto]. }
  destruct (PGD.state s) eqn:Hst; cbv beta iota delta [LCDSTATE_eqb];
    try (apply Hfail; simpl; auto; lia).
  destruct (DBAUD_eqb speed (PGD.baud s)) eqn:Heq.
  { apply DBAUD_eqb_eq in Heq. intros [= <- <- <-].
    split; [exact Hst|]. split; [intros _; auto|intros H; contradiction]. }
  assert (Hne : speed <> PGD.baud s)
    by (intros H; apply DBAUD_eqb_eq in H; congruence).
  destruct (match speed with
            | DB_9600 => Some B9600 | DB_57600 => Some B57600
            | DB_115200 => Some B115200 | _ => None end) as [tspeed|];
    [|apply Hfail; simpl; auto; lia].
  destruct (COMPORT.SetBaud (PGD.port s) w tspeed) as [[r1 p1] w1] eqn:H1.
  apply COMPORT_SetBaud_frame in H1. destruct H1 as [_ T1].
  destruct (negb (r1 =? 0)); [apply Hfail; simpl; auto; lia|].
  simpl PGD.port.
  destruct (COMPORT.SetBaud p1 (usleep 50 w1) (PGD.portspeed _)) as [[r2 p2] w2] eqn:H2.
  apply COMPORT_SetBaud_frame in H2. destruct H2 as [_ T2]. simpl in T2.
  destruct (r2 <? 0); [apply Hfail; simpl; auto; lia|].
  simpl PGD.port.
  destruct (COMPORT.Flush p2 (usleep 50 w2)) as [[rf pf] wf] eqn:Hfl.
  apply Flush_spec in Hfl. destruct Hfl as [-> ->].
  destruct (COMPORT.Write p2 (usleep 50 w2) _ 2) as [[res p3] w3] eqn:Hwr.
  destruct (sent_after_Write _ _ _ _ _ _ _ Hwr) as (_ & _ & Hall).
  destruct (Z.eqb_spec res 2) as [->|Hres]; simpl negb; cbv iota.
  2:{ destruct (0 <? res); apply Hfail; simpl; auto; lia. }
  specialize (Hall ltac:(lia) eq_refl).
  assert (Hs3 : sent w3 = sent w ++ [ch "Q"%char; Z.land (codes speed) 255]).
  { rewrite Hall. unfold sent at 1. simpl trace. rewrite T2, T1. reflexivity. }
  destruct (PGD.waitACKNACK 100 _ w3) as [[a s4] w4] eqn:Hw.
  destruct (waitACKNACK_frame _ _ _ _ _ _ Hw) as (Hc & _ & _).
  apply sent_after_wait in Hw.
  destruct Hc as (_ & Hst4 & Hb4 & Hp4 & _). simpl in Hst4, Hb4, Hp4.
  destruct (a =? 1); [apply Hfail; simpl; auto; try lia; congruence|].
  destruct (COMPORT.SetBaud (PGD.port s4) w4 tspeed) as [[r5 p5] w5] eqn:H5.
  destruct (Z.eqb_spec r5 0) as [->|Hr5]; simpl negb; cbv iota.
  2:{ assert (T5 := COMPORT_SetBaud_frame _ _ _ _ _ _ H5).
      apply Hfail; simpl; auto; try lia; congruence. }
  assert (T5 := COMPORT_SetBaud_frame _ _ _ _ _ _ H5).
  apply COMPORT_SetBaud_ok in H5.
  intros [= <- <- <-]. simpl. split; [congruence|].
  split; [|intros H; contradiction]. intros _. split; [reflexivity|].
  right. split; [exact Hne|]. split; [reflexivity|]. split; [|apply H5].
  assert (Hs5 : sent w5 = sent w4) by (unfold sent; now rewrite (proj2 T5)).
  rewrite Hs5, Hw, Hs3. reflexivity.
Qed.

Lemma SetBaud_outcome_witness :
  let s := Samples.idle in
  let w := Samples.world [RxData 500 [255]] in
  PGD.SetBaud Samples.codes DB_115200 s w
  = (0, snd (fst (PGD.SetBaud Samples.codes DB_115200 s w)),
     snd (PGD.SetBaud Samples.codes DB_115200 s w))
  /\ PGD.baud (snd (fst (PGD.SetBaud Samples.codes DB_115200 s w))) = DB_115200
  /\ sent (snd (PGD.SetBaud Samples.codes DB_115200 s w)) = [ch "Q"%char; 13]
  /\ tty_speed (snd (PGD.SetBaud Samples.codes DB_115200 s w)) = B115200.
Proof.
  intros s w.
  assert (E : PGD.SetBaud Samples.codes DB_115200 s w
              = (0, snd (fst (PGD.SetBaud Samples.codes DB_115200 s w)),
                 snd (PGD.SetBaud Samples.codes DB_115200 s w)))
    by (vm_compute; reflexivity).
  split; [exact E|].
  destruct (SetBaud_outcome Samples.codes DB_115200 s w _ _ _ E) as (_ & H0 & _).
  destruct (H0 eq_refl) as [Hb [[Habs _]|(_ & _ & Hsent & Htty)]].
  - discriminate Habs.
  - split; [exact Hb|]. split; [exact Hsent|]. rewrite Htty. vm_compute. reflexivity.
Defined.

(** ** PGD::Close *)

Lemma SetBaud_keeps (codes : DBAUD -> Z) (speed : DBAUD) (s : PGD.t) (w : World) :
  forall r s' w', PGD.SetBaud codes speed s w = (r, s', w') ->
  PGD.halt s' = PGD.halt s /\ PGD.callback s' = PGD.callback s
  /\ PGD.usrobj s' = PGD.usrobj s.
Proof.
  intros r s' w'. unfold PGD.SetBaud.
  destruct (LCDSTATE_eqb (PGD.state s) LCD_INACTIVE); [intros [= <- <- <-]; simpl; auto|].
  destruct (LCDSTATE_eqb (PGD.state s) LCD_BUSY); [intros [= <- <- <-]; simpl; auto|].
  destruct (DBAUD_eqb speed (PGD.baud s)); [intros [= <- <- <-]; simpl; auto|].
  destruct (match speed with
            | DB_9600 => Some B9600 | DB_57600 => Some B57600
            | DB_115200 => Some B115200 | _ => None end) as [tspeed|];
    [|intros [= <- <- <-]; simpl; auto].
  destruct (COMPORT.SetBaud (PGD.port s) w tspeed) as [[r1 p1] w1].
  destruct (negb (r1 =? 0)); [intros [= <- <- <-]; simpl; auto|].
  destruct (COMPORT.SetBaud _ (usleep 50 w1) _) as [[r2 p2] w2].
  destruct (r2 <? 0); [intros [= <- <- <-]; simpl; auto|].
  destruct (COMPORT.Flush _ (usleep 50 w2)) as [[rf pf] wf].
  destruct (COMPORT.Write _ wf _ 2) as [[res p3] w3].
  destruct (negb (res =? 2)).
  { destruct (0 <? res); intros [= <- <- <-]; simpl; auto. }
  destruct (PGD.waitACKNACK 100 _ w3) as [[a s4] w4] eqn:Hw.
  destruct (waitACKNACK_frame _ _ _ _ _ _ Hw)
    as ((Hh & _ & _ & _ & _ & _ & _ & _ & Hcb & Hu & _) & _ & _).
  simpl in Hh, Hcb, Hu.
  destruct (a =? 1); [intros [= <- <- <-]; simpl; auto|].
  destruct (COMPORT.SetBaud (PGD.port s4) w4 tspeed) as [[r5 p5] w5].
  destruct (negb (r5 =? 0)); intros [= <- <- <-]; simpl; auto.
Qed.

(** What Close on an open port does, whatever the state. *)
Lemma Close_shape (codes : DBAUD -> Z) (s : PGD.t) (w : World) :
  COMPORT.IsOpen (PGD.port s) = true ->
  forall s' w', PGD.Close codes s w = (s', w') ->
  PGD.state s' = LCD_INACTIVE /\ COMPORT.fd (PGD.port s') = -1
  /\ PGD.halt s' = true /\ PGD.callback s' = PGD.callback s
  /\ exists mid,
       tx_only mid
       /\ trace w' = trace w
                     ++ (if LCDSTATE_eqb (PGD.state s) LCD_BUSY
                         then fired s (PGD.curcmd s) false else [])
                     ++ mid ++ [EvCloseFd].
Proof.
  intros Hopen s' w'. unfold PGD.Close. rewrite Hopen. cbn [negb].
  cbn [PGD.state PGD.set_halt PGD.set_errmsg].
  assert (Hfd0 : COMPORT.fd (PGD.port s) <> -1)
    by (unfold COMPORT.IsOpen in Hopen; apply Z.leb_le in Hopen; lia).
  assert (Hfin : forall s2 w2 mid pre,
            COMPORT.fd (PGD.port s2) = COMPORT.fd (PGD.port s) ->
            PGD.halt s2 = true -> PGD.callback s2 = PGD.callback s ->
            tx_only mid -> trace w2 = trace w ++ pre ++ mid ->
            (let '(_, p, w1) := COMPORT.Close (PGD.port s2) w2 in
             (PGD.set_state LCD_INACTIVE (PGD.set_port p s2), w1)) = (s', w') ->
            PGD.state s' = LCD_INACTIVE /\ COMPORT.fd (PGD.port s') = -1
            /\ PGD.halt s' = true /\ PGD.callback s' = PGD.callback s
            /\ exists mid, tx_only mid /\ trace w' = trace w ++ pre ++ mid ++ [EvCloseFd]).
  { intros s2 w2 mid pre Hfd Hh Hcb Htx Htr. unfold COMPORT.Close.
    destruct (Z.eqb_spec (COMPORT.fd (PGD.port s2)) (-1)) as [|_]; [congruence|].
    intros [= <- <-]. simpl. repeat split; auto.
    exists mid. split; [exact Htx|]. rewrite Htr, <- !app_assoc. reflexivity. }
  destruct (PGD.state s) eqn:Hst; cbn [LCDSTATE_eqb negb PGD.state PGD.set_state
    PGD.set_curdata PGD.set_curcmd PGD.ERRMSG PGD.set_errmsg PGD.set_halt PGD.curcmd];
    rewrite ?Hst; cbn [LCDSTATE_eqb negb PGD.state PGD.set_state
    PGD.set_curdata PGD.set_curcmd PGD.ERRMSG PGD.set_errmsg PGD.set_halt PGD.curcmd].
  - apply (Hfin (PGD.set_halt true (PGD.set_errmsg EmptyString s)) w [] []);
      simpl; auto; try reflexivity. now rewrite app_nil_r.
  - match goal with
    | |- context [PGD.SetBaud codes DB_9600 ?s1 ?w1] =>
        destruct (PGD.SetBaud codes DB_9600 s1 w1) as [[r2 s2] w2] eqn:Hsb
    end.
    destruct (SetBaud_frame _ _ _ _ _ _ _ Hsb) as (Hfd & mid & Htr & Htx).
    destruct (SetBaud_keeps _ _ _ _ _ _ _ Hsb) as (Hh & Hcb & _).
    apply (Hfin s2 w2 mid []); simpl in *; auto.
  - match goal with
    | |- context [PGD.SetBaud codes DB_9600 ?s1 ?w1] =>
        assert (Hw1 : trace w1 = trace w ++ fired s (PGD.curcmd s) false);
        [|destruct (PGD.SetBaud codes DB_9600 s1 w1) as [[r2 s2] w2] eqn:Hsb]
    end.
    { unfold PGD.invoke_callback, fired. simpl.
      destruct (PGD.callback s); simpl; [reflexivity|now rewrite app_nil_r]. }
    destruct (SetBaud_frame _ _ _ _ _ _ _ Hsb) as (Hfd & mid & Htr & Htx).
    destruct (SetBaud_keeps _ _ _ _ _ _ _ Hsb) as (Hh & Hcb & _).
    apply (Hfin s2 w2 mid (fired s (PGD.curcmd s) false)); simpl in *; auto.
    rewrite Htr, Hw1, <- app_assoc. reflexivity.
Qed.

Lemma waitACKNACK_loop_procloop (turns : nat) :
  forall tov now s w r s' w',
  PGD.waitACKNACK_loop turns tov now s w = Some (r, s', w') ->
  PGD.procloop s' = PGD.procloop s.
Proof.
  induction turns as [|turns IH]; intros tov now s w r s' w'; simpl; [discriminate|].
  destruct (PGD.before_deadline now tov); [|intros [= <- <- <-]; reflexivity].
  destruct (COMPORT.Read (PGD.port s) w 4 10) as [[[nb msg] p] w1].
  destruct (nb =? -1); [intros [= <- <- <-]; reflexivity|].
  destruct (PGD.scan_acknack msg); [intros [= <- <- <-]; reflexivity|].
  intros H. apply IH in H. exact H.
Qed.

Lemma waitACKNACK_procloop (timeout : Z) (s : PGD.t) (w : World) :
  PGD.procloop (snd (fst (PGD.waitACKNACK timeout s w))) = PGD.procloop s.
Proof.
  assert (H := waitACKNACK_returns timeout s w).
  destruct (PGD.waitACKNACK timeout s w) as [[r s'] w'].
  apply waitACKNACK_loop_procloop in H. exact H.
Qed.

Lemma SetBaud_procloop (codes : DBAUD -> Z) (speed : DBAUD) (s : PGD.t) (w : World) :
  PGD.procloop (snd (fst (PGD.SetBaud codes speed s w))) = PGD.procloop s.
Proof.
  unfold PGD.SetBaud.
  destruct (LCDSTATE_eqb (PGD.state s) LCD_INACTIVE); [reflexivity|].
  destruct (LCDSTATE_eqb (PGD.state s) LCD_BUSY); [reflexivity|].
  destruct (DBAUD_eqb speed (PGD.baud s)); [reflexivity|].
  destruct (match speed with
            | DB_9600 => Some B9600 | DB_57600 => Some B57600
            | DB_115200 => Some B115200 | _ => None end) as [tspeed|]; [|reflexivity].
  destruct (COMPORT.SetBaud (PGD.port s) w tspeed) as [[r1 p1] w1].
  destruct (negb (r1 =? 0)); [reflexivity|].
  destruct (COMPORT.SetBaud _ (usleep 50 w1) _) as [[r2 p2] w2].
  destruct (r2 <? 0); [reflexivity|].
  destruct (COMPORT.Flush _ (usleep 50 w2)) as [[rf pf] wf].
  destruct (COMPORT.Write _ wf _ 2) as [[res p3] w3].
  destruct (negb (res =? 2)); [destruct (0 <? res); reflexivity|].
  match goal with
  | |- context [PGD.waitACKNACK 100 ?s0 w3] =>
      assert (Hp := waitACKNACK_procloop 100 s0 w3);
      destruct (PGD.waitACKNACK 100 s0 w3) as [[a s4] w4]
  end.
  simpl in Hp.
  destruct (a =? 1); [exact Hp|].
  destruct (COMPORT.SetBaud (PGD.port s4) w4 tspeed) as [[r5 p5] w5].
  destruct (negb (r5 =? 0)); exact Hp.
Qed.

Lemma Close_step_procloop (codes : DBAUD -> Z) (at_ : Threads.CloseAt) (s : PGD.t)
      (w : World) :
  PGD.procloop (snd (fst (Threads.Close_step codes at_ s w))) = PGD.procloop s.
Proof.
  destruct at_; cbn [Threads.Close_step]; try reflexivity.
  - destruct (negb _); reflexivity.
  - destruct (LCDSTATE_eqb _ _); reflexivity.
  - destruct (negb _); [|reflexivity].
    assert (H := SetBaud_procloop codes DB_9600 s w).
    destruct (PGD.SetBaud codes DB_9600 s w) as [[r s'] w']. exact H.
  - destruct (COMPORT.Close (PGD.port s) w) as [[r p] w']. reflexivity.
Qed.

Lemma Close_run_returns (codes : DBAUD -> Z) (at_ : Threads.CloseAt) (s : PGD.t)
      (w : World) :
  fst (fst (Threads.Close_run codes 6 at_ s w)) = Threads.C_return.
Proof.
  assert (H1 : forall s w, fst (fst (Threads.Close_run codes 1 Threads.C_join s w))
                           = Threads.C_return) by reflexivity.
  assert (H0 : forall n s w, Threads.Close_run codes n Threads.C_return s w
                             = (Threads.C_return, s, w)).
  { intros n; induction n as [|n IH]; intros s0 w0; [reflexivity|]. simpl. apply IH. }
  assert (H2 : forall n s w, fst (fst (Threads.Close_run codes (S (S n)) Threads.C_state s w))
                             = Threads.C_return)
    by (intros n s0 w0; simpl; now rewrite H0).
  assert (H3 : forall n s w, fst (fst (Threads.Close_run codes (S (S (S n))) Threads.C_port s w))
                             = Threads.C_return).
  { intros n s0 w0. cbn [Threads.Close_run Threads.Close_step].
    destruct (COMPORT.Close _ _) as [[r p] w1]. apply H2. }
  assert (H4 : forall n s w, fst (fst (Threads.Close_run codes (S (S (S (S n)))) Threads.C_baud s w))
                             = Threads.C_return).
  { intros n s0 w0. cbn [Threads.Close_run Threads.Close_step].
    destruct (negb _); [destruct (PGD.SetBaud _ _ _ _) as [[r s1] w1]|]; apply H3. }
  assert (H5 : forall n s w,
            fst (fst (Threads.Close_run codes (S (S (S (S (S n))))) Threads.C_cancel s w))
            = Threads.C_return).
  { intros n s0 w0. cbn [Threads.Close_run Threads.Close_step].
    destruct (LCDSTATE_eqb _ _); apply H4. }
  destruct at_.
  - change (Threads.Close_run codes 6 Threads.C_entry s w)
      with (let '(a, s1, w1) := Threads.Close_step codes Threads.C_entry s w in
            Threads.Close_run codes 5 a s1 w1).
    cbn [Threads.Close_step]. destruct (negb _); [now rewrite H0|apply H5].
  - apply H5.
  - apply H4.
  - apply H3.
  - apply H2.
  - simpl. reflexivity.
  - now rewrite H0.
Qed.

Lemma Close_run_S (codes : DBAUD -> Z) (n : nat) :
  forall at_ s w,
  Threads.Close_run codes (S n) at_ s w
  = (let '(at', s', w') := Threads.Close_run codes n at_ s w in Threads.Close_step codes at' s' w').
Proof.
  induction n as [|n IH]; intros at_ s w.
  - simpl. destruct (Threads.Close_step codes at_ s w) as [[a s1] w1]. reflexivity.
  - change (Threads.Close_run codes (S (S n)) at_ s w)
      with (let '(at', s1, w1) := Threads.Close_step codes at_ s w in
            Threads.Close_run codes (S n) at' s1 w1).
    destruct (Threads.Close_step codes at_ s w) as [[a s1] w1] eqn:E.
    rewrite IH. cbn [Threads.Close_run]. rewrite E. reflexivity.
Qed.

(** Six statements are all of Close: one more changes nothing. *)
Lemma Close_run_step (codes : DBAUD -> Z) (at_ : Threads.CloseAt) (s : PGD.t) (w : World) :
  (let '(at', s', w') := Threads.Close_step codes at_ s w in Threads.Close_run codes 6 at' s' w')
  = Threads.Close_run codes 6 at_ s w.
Proof.
  change (Threads.Close_run codes 7 at_ s w = Threads.Close_run codes 6 at_ s w).
  rewrite Close_run_S.
  assert (H := Close_run_returns codes at_ s w).
  destruct (Threads.Close_run codes 6 at_ s w) as [[a s1] w1]. simpl in H. subst a. reflexivity.
Qed.

(** The statements in a row are PGD::Close as the calling thread runs it
    on its own. *)
Lemma Close_run_Close (codes : DBAUD -> Z) (s : PGD.t) (w : World) :
  Threads.Close_run codes 6 Threads.C_entry s w
  = (Threads.C_return, fst (PGD.Close codes s w), snd (PGD.Close codes s w)).
Proof.
  unfold PGD.Close. cbn [Threads.Close_run]. unfold Threads.Close_step at 1.
  destruct (negb (COMPORT.IsOpen (PGD.port s))); [reflexivity|].
  unfold Threads.Close_step at 1.
  change (PGD.state (PGD.set_halt true (PGD.set_errmsg EmptyString s)))
    with (PGD.state s).
  destruct (PGD.state s) eqn:Hst; cbn [LCDSTATE_eqb negb];
    unfold Threads.Close_step at 1;
    repeat match goal with
           | |- context [PGD.state (PGD.set_halt true (PGD.set_errmsg EmptyString s))] =>
               change (PGD.state (PGD.set_halt true (PGD.set_errmsg EmptyString s)))
                 with (PGD.state s); rewrite Hst
           | |- context [PGD.state (PGD.set_state ?v ?x)] =>
               change (PGD.state (PGD.set_state v x)) with v
           end;
    cbn [LCDSTATE_eqb negb].
  - unfold Threads.Close_step at 1.
    destruct (COMPORT.Close _ _) as [[r3 p3] w3]. reflexivity.
  - destruct (PGD.SetBaud _ _ _ _) as [[r s2] w2]. unfold Threads.Close_step at 1.
    destruct (COMPORT.Close _ _) as [[r3 p3] w3]. reflexivity.
  - destruct (PGD.SetBaud _ _ _ _) as [[r s2] w2]. unfold Threads.Close_step at 1.
    destruct (COMPORT.Close _ _) as [[r3 p3] w3]. reflexivity.
Qed.

(** Without a worker thread only the calling thread moves, and when it
    has returned the object and the world are those of [PGD.Close]. *)
Lemma run_without_worker (codes : DBAUD -> Z) (sched : list Threads.Turn) :
  forall c c',
  PGD.procloop (Threads.obj c) = 0 ->
  Threads.run codes sched c = Some c' -> Threads.caller c' = Threads.C_return ->
  (Threads.C_return, Threads.obj c', Threads.world c')
  = Threads.Close_run codes 6 (Threads.caller c) (Threads.obj c) (Threads.world c)
  /\ Forall (eq Threads.Caller) sched.
Proof.
  induction sched as [|turn sched IH]; intros c c' Hp Hrun Hret.
  - injection Hrun as <-. rewrite Hret. split; [|constructor].
    clear. generalize (Threads.obj c) (Threads.world c). intros s w. reflexivity.
  - cbn [Threads.run] in Hrun.
    destruct turn; cbn [Threads.step] in Hrun; rewrite Hp in Hrun;
      cbn [Z.eqb orb] in Hrun; [|discriminate].
    assert (Hstep : forall c1,
              Threads.run codes sched c1 = Some c' ->
              (Threads.caller c1, Threads.obj c1, Threads.world c1)
              = Threads.Close_step codes (Threads.caller c) (Threads.obj c)
                  (Threads.world c) ->
              (Threads.C_return, Threads.obj c', Threads.world c')
              = Threads.Close_run codes 6 (Threads.caller c) (Threads.obj c) (Threads.world c)
              /\ Forall (eq Threads.Caller) (Threads.Caller :: sched)).
    { intros c1 Hrun1 Hc1.
      assert (Hp1 : PGD.procloop (Threads.obj c1) = 0).
      { assert (H := Close_step_procloop codes (Threads.caller c) (Threads.obj c)
                       (Threads.world c)).
        rewrite <- Hc1 in H. simpl in H. congruence. }
      destruct (IH c1 c' Hp1 Hrun1 Hret) as [Heq Hall].
      split; [|constructor; auto].
      rewrite Heq.
      rewrite <- (Close_run_step codes (Threads.caller c) (Threads.obj c)
                    (Threads.world c)), <- Hc1.
      reflexivity. }
    destruct (Threads.caller c) eqn:Hat; try discriminate;
      try (destruct (Threads.Close_step codes _ (Threads.obj c) (Threads.world c))
             as [[a1 s1] w1] eqn:E;
           apply (Hstep _ Hrun); simpl; rewrite ?E; reflexivity).
    apply (Hstep _ Hrun). reflexivity.
Qed.

Lemma Close_run_returned (codes : DBAUD -> Z) (n : nat) (s : PGD.t) (w : World) :
  Threads.Close_run codes n Threads.C_return s w = (Threads.C_return, s, w).
Proof. revert s w; induction n as [|n IH]; intros s w; [reflexivity|]. simpl. apply IH. Qed.

(** Turns of the calling thread alone, without a worker thread: they are
    the statements of Close in a row, until Close has returned. *)
Lemma run_callers (codes : DBAUD -> Z) (n : nat) :
  forall c, PGD.procloop (Threads.obj c) = 0 ->
  match Threads.run codes (repeat Threads.Caller n) c with
  | Some c' =>
      (Threads.caller c', Threads.obj c', Threads.world c')
      = Threads.Close_run codes n (Threads.caller c) (Threads.obj c) (Threads.world c)
      /\ Threads.worker c' = Threads.worker c
  | None =>
      fst (fst (Threads.Close_run codes (pred n) (Threads.caller c) (Threads.obj c)
                  (Threads.world c))) = Threads.C_return
      /\ n <> O
  end.
Proof.
  induction n as [|n IH]; intros c Hp; [simpl; auto|].
  cbn [repeat Threads.run].
  assert (Hgo : forall c1,
            (Threads.caller c1, Threads.obj c1, Threads.world c1)
            = Threads.Close_step codes (Threads.caller c) (Threads.obj c) (Threads.world c) ->
            Threads.worker c1 = Threads.worker c ->
            match Threads.run codes (repeat Threads.Caller n) c1 with
            | Some c' =>
                (Threads.caller c', Threads.obj c', Threads.world c')
                = Threads.Close_run codes (S n) (Threads.caller c) (Threads.obj c) (Threads.world c)
                /\ Threads.worker c' = Threads.worker c
            | None =>
                fst (fst (Threads.Close_run codes (pred (S n)) (Threads.caller c) (Threads.obj c)
                            (Threads.world c))) = Threads.C_return
                /\ S n <> O
            end).
  { intros c1 Hc1 Hw1.
    assert (Hp1 : PGD.procloop (Threads.obj c1) = 0).
    { assert (H := Close_step_procloop codes (Threads.caller c) (Threads.obj c)
                     (Threads.world c)).
      rewrite <- Hc1 in H. simpl in H. congruence. }
    specialize (IH c1 Hp1).
    destruct (Threads.run codes (repeat Threads.Caller n) c1) as [c'|].
    - destruct IH as [He Hw]. split; [|congruence].
      rewrite He. cbn [Threads.Close_run]. rewrite <- Hc1. reflexivity.
    - destruct IH as [He Hn]. split; [|discriminate].
      destruct n as [|n]; [congruence|].
      cbn [pred] in *. cbn [Threads.Close_run]. rewrite <- Hc1. exact He. }
  cbn [Threads.step]. rewrite Hp. cbn [Z.eqb orb].
  destruct (Threads.caller c) eqn:Hat;
    try (destruct (Threads.Close_step codes _ (Threads.obj c) (Threads.world c))
           as [[a1 s1] w1] eqn:E;
         apply (Hgo {| Threads.caller := a1; Threads.worker := Threads.worker c;
                       Threads.obj := s1; Threads.world := w1 |});
         [simpl; rewrite ?E; reflexivity|reflexivity]).
  - apply (Hgo {| Threads.caller := Threads.C_return; Threads.worker := Threads.worker c;
                  Threads.obj := Threads.obj c; Threads.world := Threads.world c |});
      reflexivity.
  - split; [|discriminate]. cbn [pred]. now rewrite Close_run_returned.
Qed.

Lemma Close_run_5 (codes : DBAUD -> Z) (s : PGD.t) (w : World) :
  COMPORT.IsOpen (PGD.port s) = true ->
  fst (fst (Threads.Close_run codes 5 Threads.C_entry s w)) = Threads.C_join.
Proof.
  intros Ho. cbn [Threads.Close_run]. unfold Threads.Close_step at 1. rewrite Ho. cbn [negb].
  unfold Threads.Close_step at 1.
  destruct (LCDSTATE_eqb _ _); unfold Threads.Close_step at 1;
    destruct (negb _); try destruct (PGD.SetBaud _ _ _ _) as [[r s2] w2];
    unfold Threads.Close_step at 1;
    destruct (COMPORT.Close _ _) as [[r3 p3] w3]; reflexivity.
Qed.

(** Without a worker thread, Close called on an open port returns after
    its six statements, with the object and the world of [PGD.Close]. *)
Lemma Close_alone (codes : DBAUD -> Z) (s : PGD.t) (w : World) (at_ : Threads.WorkerAt) :
  COMPORT.IsOpen (PGD.port s) = true -> PGD.procloop s = 0 ->
  Threads.run codes (repeat Threads.Caller 6) (Threads.start s w at_)
  = Some {| Threads.caller := Threads.C_return; Threads.worker := at_;
            Threads.obj := fst (PGD.Close codes s w);
            Threads.world := snd (PGD.Close codes s w) |}.
Proof.
  intros Ho Hp.
  assert (H := run_callers codes 6 (Threads.start s w at_) Hp).
  destruct (Threads.run codes (repeat Threads.Caller 6) (Threads.start s w at_)) as [c|].
  - destruct H as [He Hw]. cbn [Threads.start Threads.caller Threads.obj Threads.world
                                Threads.worker] in He, Hw.
    rewrite Close_run_Close in He. destruct c as [a b o x]. simpl in He, Hw.
    injection He as -> -> ->. subst b. reflexivity.
  - destruct H as [He _]. cbn [pred Threads.start Threads.caller Threads.obj Threads.world]
      in He.
    rewrite (Close_run_5 codes s w Ho) in He. discriminate.
Qed.

(** X6.  Close without a worker thread is final.  When [procloop] is 0 (no
    thread was created: Connect failed before pthread_create, or was
    never called on the open port) only the calling thread runs, Close
    called on an open port returns after its six statements, and every
    run that ends with Close returned leaves the controller, in any
    state it was in, Inactive with the port closed; the descriptor was
    closed exactly once, as the last thing; a second Close does nothing;
    and Process returns -1 without doing anything. *)
Theorem Close_is_final (codes : DBAUD -> Z) (s : PGD.t) (w : World)
        (at_ : Threads.WorkerAt) :
  COMPORT.IsOpen (PGD.port s) = true -> PGD.procloop s = 0 ->
  (exists c, Threads.run codes (repeat Threads.Caller 6) (Threads.start s w at_) = Some c
             /\ Threads.caller c = Threads.C_return)
  /\ forall sched c,
       Threads.run codes sched (Threads.start s w at_) = Some c ->
       Threads.caller c = Threads.C_return ->
       let s' := Threads.obj c in
       let w' := Threads.world c in
       (s', w') = PGD.Close codes s w
       /\ PGD.state s' = LCD_INACTIVE /\ COMPORT.IsOpen (PGD.port s') = false
       /\ (exists evs, trace w' = trace w ++ evs ++ [EvCloseFd]
                       /\ existsb is_close evs = false)
       /\ PGD.Close codes s' w' = (s', w')
       /\ PGD.Process s' w' = (-1, s', w').
Proof.
  intros Hopen Hp. split.
  { eexists. split; [apply Close_alone; assumption|reflexivity]. }
  intros sched c Hrun Hret s' w'.
  destruct (run_without_worker codes sched (Threads.start s w at_) c Hp Hrun Hret)
    as [He _].
  cbn [Threads.start Threads.caller Threads.obj Threads.world] in He.
  rewrite Close_run_Close in He.
  assert (H : PGD.Close codes s w = (s', w')).
  { destruct (PGD.Close codes s w) as [s1 w1]. simpl in He.
    injection He as E1 E2. unfold s', w'. rewrite E1, E2. reflexivity. }
  destruct (Close_shape codes s w Hopen s' w' H) as (Hst & Hfd & Hh & _ & mid & Htx & Htr).
  assert (Hcl : COMPORT.IsOpen (PGD.port s') = false)
    by (unfold COMPORT.IsOpen; rewrite Hfd; reflexivity).
  split; [symmetry; exact H|].
  split; [exact Hst|]. split; [exact Hcl|]. split; [|split].
  - exists ((if LCDSTATE_eqb (PGD.state s) LCD_BUSY
             then fired s (PGD.curcmd s) false else []) ++ mid).
    split; [rewrite Htr, <- !app_assoc; reflexivity|].
    rewrite existsb_app.
    destruct (tx_only_no_close_no_callback mid Htx) as [-> _].
    destruct (LCDSTATE_eqb _ _); [|reflexivity].
    unfold fired. destruct (PGD.callback s); reflexivity.
  - unfold PGD.Close. rewrite Hcl. reflexivity.
  - unfold PGD.Process. rewrite Hh. reflexivity.
Qed.

Lemma Close_is_final_witness :
  let s := Samples.no_worker in
  let w := Samples.world [] in
  COMPORT.IsOpen (PGD.port s) = true /\ PGD.procloop s = 0
  /\ exists c,
       Threads.run Samples.codes (repeat Threads.Caller 6)
         (Threads.start s w Threads.W_exit) = Some c
       /\ Threads.caller c = Threads.C_return
       /\ PGD.state (Threads.obj c) = LCD_INACTIVE
       /\ COMPORT.IsOpen (PGD.port (Threads.obj c)) = false
       /\ PGD.Process (Threads.obj c) (Threads.world c)
          = (-1, Threads.obj c, Threads.world c).
Proof.
  intros s w.
  assert (Ho : COMPORT.IsOpen (PGD.port s) = true) by reflexivity.
  assert (Hp : PGD.procloop s = 0) by reflexivity.
  split; [exact Ho|]. split; [exact Hp|].
  destruct (Close_is_final Samples.codes s w Threads.W_exit Ho Hp)
    as ((c & Hrun & Hret) & Hall).
  exists c. split; [exact Hrun|]. split; [exact Hret|].
  destruct (Hall _ c Hrun Hret) as (_ & A & B & _ & _ & C).
  split; [exact A|]. split; [exact B|exact C].
Defined.

(** ** PGD::Process *)

Lemma sent_invoke_callback (s : PGD.t) (w : World) (cmd : PGDCMD) (ok : bool) :
  sent (PGD.invoke_callback s w cmd ok) = sent w.
Proof.
  unfold PGD.invoke_callback, sent. destruct (PGD.callback s); [|reflexivity].
  simpl. rewrite tx_bytes_app. simpl. now rewrite app_nil_r.
Qed.

Lemma complete_sent (s : PGD.t) (w : World) (cmd : PGDCMD) (ok : bool) :
  forall r s' w', PGD.complete s w cmd ok = (r, s', w') ->
  r = 0 /\ sent w' = sent w /\ PGD.state s' = LCD_IDLE.
Proof.
  unfold PGD.complete. intros r s' w' [= <- <- <-].
  split; [reflexivity|]. split; [apply sent_invoke_callback|reflexivity].
Qed.

(** X7.  Process is passive towards the device: it never writes a byte.  It
    returns -1 exactly when the halt flag is set, and then does nothing;
    when the controller is not Busy it only sleeps 100 ms; and it never
    moves the controller anywhere but from Busy to Idle. *)
Theorem Process_is_passive (s : PGD.t) (w : World) :
  let '(r, s', w') := PGD.Process s w in
  sent w' = sent w
  /\ (r = -1 \/ r = 0) /\ (r = -1 <-> PGD.halt s = true)
  /\ (PGD.halt s = true -> s' = s /\ w' = w)
  /\ (PGD.halt s = false /\ PGD.state s <> LCD_BUSY ->
      s' = s /\ trace w' = trace w /\ now_us w' = now_us w + 100000)
  /\ (PGD.state s' = PGD.state s \/ (PGD.state s = LCD_BUSY /\ PGD.state s' = LCD_IDLE)).
Proof.
  destruct (PGD.Process s w) as [[r s'] w'] eqn:H. revert H. unfold PGD.Process.
  destruct (PGD.halt s) eqn:Hh.
  { intros [= <- <- <-]. repeat split; auto; try tauto;
      try (intros [? ?]; congruence);
      match goal with H : true = false /\ _ |- _ => destruct H; discriminate end. }
  assert (Hidle : PGD.state s <> LCD_BUSY -> (0, s, usleep 100000 w) = (r, s', w') ->
            sent w' = sent w
            /\ (r = -1 \/ r = 0) /\ (r = -1 <-> false = true)
            /\ (false = true -> s' = s /\ w' = w)
            /\ (false = false /\ PGD.state s <> LCD_BUSY ->
                s' = s /\ trace w' = trace w /\ now_us w' = now_us w + 100000)
            /\ (PGD.state s' = PGD.state s
                \/ (PGD.state s = LCD_BUSY /\ PGD.state s' = LCD_IDLE))).
  { intros Hnb [= <- <- <-].
    split; [reflexivity|]. split; [auto|].
    split; [split; intros; [exfalso; lia|discriminate]|].
    split; [discriminate|]. split; [intros _; repeat split|]. left; reflexivity. }
  assert (Hgoal :
            (r = 0 /\ sent w' = sent w
             /\ (PGD.state s' = LCD_BUSY \/ PGD.state s' = LCD_IDLE)) ->
            PGD.state s = LCD_BUSY ->
            sent w' = sent w
            /\ (r = -1 \/ r = 0) /\ (r = -1 <-> false = true)
            /\ (false = true -> s' = s /\ w' = w)
            /\ (false = false /\ PGD.state s <> LCD_BUSY ->
                s' = s /\ trace w' = trace w /\ now_us w' = now_us w + 100000)
            /\ (PGD.state s' = PGD.state s
                \/ (PGD.state s = LCD_BUSY /\ PGD.state s' = LCD_IDLE))).
  { intros (Hr & Hs & Hst) Hb. subst r.
    split; [exact Hs|]. split; [auto|].
    split; [split; intros; [exfalso; lia|discriminate]|].
    split; [discriminate|]. split; [intros [_ Hn]; congruence|].
    rewrite Hb. destruct Hst; [left; assumption|right; split; auto]. }
  destruct (PGD.state s) eqn:Hst; cbv beta iota delta [LCDSTATE_eqb negb];
    try (apply Hidle; discriminate).
  clear Hidle.
  intros H. apply Hgoal; [|reflexivity]. clear Hgoal. revert H.
  assert (Hwait :
    (let '(a, s1, w1) := PGD.waitACKNACK 200 s w in
     if a =? 0 then PGD.complete s1 w1 (PGD.curcmd s) true
     else if a =? 1 then PGD.complete (PGD.set_errmsg "NACK" s1) w1 (PGD.curcmd s) false
     else if a =? -1 then PGD.complete s1 w1 (PGD.curcmd s) false
     else if a =? 2 then (0, s1, w1)
     else PGD.complete
            (PGD.ERRMSG "Process"
               "unexpected return from waitACKNACK (only 0,1,2,-1 accepted)" s1)
            w1 (PGD.curcmd s) false) = (r, s', w') ->
    r = 0 /\ sent w' = sent w
    /\ (PGD.state s' = LCD_BUSY \/ PGD.state s' = LCD_IDLE)).
  { destruct (PGD.waitACKNACK 200 s w) as [[a s1] w1] eqn:Hw.
    destruct (waitACKNACK_frame _ _ _ _ _ _ Hw) as ((_ & Hs1 & _) & _ & _).
    apply sent_after_wait in Hw.
    assert (Hc : forall s0 cmd ok, PGD.complete s0 w1 cmd ok = (r, s', w') ->
              r = 0 /\ sent w' = sent w
              /\ (PGD.state s' = LCD_BUSY \/ PGD.state s' = LCD_IDLE)).
    { intros s0 cmd ok Hc. apply complete_sent in Hc. destruct Hc as (-> & -> & ->).
      auto. }
    destruct (a =? 0); [apply Hc|]. destruct (a =? 1); [apply Hc|].
    destruct (a =? -1); [apply Hc|]. destruct (a =? 2); [|apply Hc].
    intros [= <- <- <-]. repeat split; auto. left. congruence. }
  destruct (PGD.curcmd s) eqn:Hcmd.
  - intros [= <- <- <-]. simpl. rewrite sent_invoke_callback. auto.
  - exact Hwait.
  - exact Hwait.
  - destruct (COMPORT.Read (PGD.port s) w (4 - PGD.brcv s) 100)
      as [[[nb got] p] w1] eqn:Hrd.
    destruct (Read_frame _ _ _ _ _ _ _ _ Hrd) as (_ & (Htr & _) & _).
    assert (Hs1 : sent w1 = sent w) by (unfold sent; now rewrite Htr).
    assert (Hc : forall s0 w0 cmd ok, sent w0 = sent w ->
              PGD.complete s0 w0 cmd ok = (r, s', w') ->
              r = 0 /\ sent w' = sent w
              /\ (PGD.state s' = LCD_BUSY \/ PGD.state s' = LCD_IDLE)).
    { intros s0 w0 cmd ok Hw0 Hc. apply complete_sent in Hc.
      destruct Hc as (-> & -> & ->). auto. }
    destruct (nb <? 0); [apply Hc; exact Hs1|].
    destruct (nb =? 0).
    { intros [= <- <- <-]. simpl. rewrite Hst. auto. }
    cbn [PGD.brcv PGD.set_brcv PGD.curdata PGD.set_port PGD.set_datain PGD.datain].
    destruct (PGD.brcv s + nb =? 4).
    + destruct (PGD.curdata s); apply Hc; [|exact Hs1].
      rewrite <- Hs1. unfold sent. simpl. rewrite tx_bytes_app. simpl.
      now rewrite app_nil_r.
    + intros [= <- <- <-]. simpl. rewrite Hst. auto.
  - intros H. apply complete_sent in H. destruct H as (-> & -> & ->). auto.
Qed.

(** ** The display control command *)

(** ** Frames of further commands *)

Lemma Drain_spec (p : COMPORT.t) (w : World) :
  forall r p' w', COMPORT.Drain p w = (r, p', w') -> p' = p /\ w' = w.
Proof. unfold COMPORT.Drain; intros r p' w'; destruct (_ <? _); intros [= <- <- <-]; auto. Qed.

(** The shared tail of the commands, with any continuation [k] that
    sends nothing and keeps the state of the controller. *)
Lemma write_then (s : PGD.t) (w : World) (cmd : list Z) (n : Z) (fn msg : string)
      (k : PGD.t -> World -> Z * PGD.t * World) :
  0 < n <= Z.of_nat (List.length cmd) ->
  (forall s1 w1 r s' w', k s1 w1 = (r, s', w') ->
     sent w' = sent w1 /\ PGD.state s' = PGD.state s1) ->
  forall r s' w',
  (let '(res, p, w1) := COMPORT.Write (PGD.port s) w cmd n in
   let s1 := PGD.set_port p s in
   if negb (res =? n)
   then let s2 := PGD.ERRMSG fn msg s1 in
        if 0 <? res then (-2, s2, w1) else (-1, s2, w1)
   else k s1 w1) = (r, s', w') ->
  sends (firstn (Z.to_nat n) cmd) s w r w' /\ PGD.state s' = PGD.state s.
Proof.
  intros Hn Hk r s' w'.
  destruct (COMPORT.Write (PGD.port s) w cmd n) as [[res p] w1] eqn:Hwr.
  destruct (sent_after_Write _ _ _ _ _ _ _ Hwr) as (Hfd & Hpre & Hall).
  assert (Hok : COMPORT.fd (PGD.port s) <> -1 -> wr w = [] -> res = n).
  { intros Ho Hw. rewrite (Write_ok _ _ _ _ Ho Hw Hn) in Hwr. congruence. }
  destruct (Z.eqb_spec res n) as [->|Hne]; simpl negb; cbv iota.
  - intros Hw. destruct (Hk _ _ _ _ _ Hw) as (Hsent & Hst).
    rewrite <- Hsent in Hall, Hpre.
    split; [|exact Hst].
    split; [exact Hpre|]. split; intros; apply Hall; lia.
  - intros Hr. split.
    + split; [|split].
      * destruct (0 <? res); injection Hr as <- <- <-; exact Hpre.
      * destruct (0 <? res); injection Hr as <- <- <-; lia.
      * intros Ho Hw. elim Hne. auto.
    + destruct (0 <? res); injection Hr as <- <- <-; reflexivity.
Qed.

Lemma waitACKNACK_keeps (t : Z) :
  forall s1 w1 r s' w', PGD.waitACKNACK t s1 w1 = (r, s', w') ->
  sent w' = sent w1 /\ PGD.state s' = PGD.state s1.
Proof.
  intros s1 w1 r s' w' H. split; [exact (sent_after_wait _ _ _ _ _ _ H)|].
  apply waitACKNACK_frame in H. apply H.
Qed.

(** Bytes stored inside a buffer: what the buffer holds up to their end. *)
Lemma store_at_frame (buf bs : list Z) (off : nat) :
  (off + List.length bs <= List.length buf)%nat ->
  firstn (off + List.length bs) (PGD.store_at buf (Z.of_nat off) bs) = firstn off buf ++ bs.
Proof.
  intros Hlen. unfold PGD.store_at. rewrite Nat2Z.id.
  rewrite firstn_app, length_firstn.
  replace (Nat.min off (List.length buf)) with off by lia.
  rewrite firstn_all2 by (rewrite length_firstn; lia).
  replace (off + List.length bs - off)%nat with (List.length bs) by lia.
  rewrite firstn_app, firstn_all, Nat.sub_diag. simpl. now rewrite app_nil_r.
Qed.

Lemma refused_intro (fn text : string) (s : PGD.t) (w : World) :
  forall r s' w', (-1, PGD.ERRMSG fn text s, w) = (r, s', w') -> refused s w r s' w'.
Proof. intros r s' w' [= <- <- <-]. repeat split. Qed.

(** X9.  AddBitmap and DrawBitmap agree on the bitmap slots: group 0 has the
    indices 0..63, group 1 has 0..15, group 2 has 0..7.  AddBitmap also
    wants the data length of the group (8, 32, 128 bytes).  Anything else
    is refused with -1 and nothing is touched; an accepted call sends
    'A', group, index and the data, or 'D', group, index, x, y and the
    colour, high bytes first. *)
Theorem bitmap_slots (group index : Z) (s : PGD.t) (w : World) :
  PGD.state s = LCD_IDLE ->
  (forall data datalen r s' w',
     datalen <= Z.of_nat (List.length data) ->
     PGD.AddBitmap group index data datalen s w = (r, s', w') ->
     (~ (bitmap_slot group index /\ datalen = bitmap_bytes group) -> refused s w r s' w')
     /\ (bitmap_slot group index /\ datalen = bitmap_bytes group ->
         sends (ch "A"%char :: group :: index :: firstn (Z.to_nat datalen) data) s w r w'))
  /\ (forall x y color r s' w',
     PGD.DrawBitmap group index x y color s w = (r, s', w') ->
     (~ bitmap_slot group index -> refused s w r s' w')
     /\ (bitmap_slot group index ->
         sends (ch "D"%char :: group :: index :: be16 x ++ be16 y ++ be16 color) s w r w')).
Proof.
  intros Hs. split.
  - intros data datalen r s' w' Hdata. unfold PGD.AddBitmap. rewrite Hs.
    cbv beta iota delta [LCDSTATE_eqb].
    set (P := bitmap_slot group index /\ datalen = bitmap_bytes group).
    assert (Hrefuse : forall text,
              ~ P -> (-1, PGD.ERRMSG "AddBitmap" text s, w) = (r, s', w') ->
              (~ P -> refused s w r s' w')
              /\ (P -> sends (ch "A"%char :: group :: index :: firstn (Z.to_nat datalen) data)
                             s w r w')).
    { intros text Hn Hcall. split; [|tauto]. intros _. eapply refused_intro; eauto. }
    assert (Haccept :
              P -> (8 <= datalen <= 128) ->
              (let '(_, p, w0) := COMPORT.Flush (PGD.port s) w in
               let s0 := PGD.set_port p s in
               let '(wr, p0, w1) :=
                 COMPORT.Write (PGD.port s0) w0
                   (PGD.store_at
                      (PGD.poke 2 index
                         (PGD.poke 1 group (PGD.poke 0 (ch "A"%char) (repeat 0 160))))
                      3 (firstn (Z.to_nat datalen) data)) (datalen + 3) in
               let s1 := PGD.set_port p0 s0 in
               if negb (wr =? datalen + 3)
               then let s2 := PGD.ERRMSG "AddBitmap" "failed; see message below" s1 in
                    if 0 <? wr then (-2, s2, w1) else (-1, s2, w1)
               else let '(_, p1, w2) := COMPORT.Drain (PGD.port s1) w1 in
                    let s2 := PGD.set_port p1 s1 in PGD.waitACKNACK 200 s2 w2)
              = (r, s', w') ->
              (~ P -> refused s w r s' w')
              /\ (P -> sends (ch "A"%char :: group :: index :: firstn (Z.to_nat datalen) data)
                             s w r w')).
    { intros HP Hlen Hcall. split; [tauto|]. intros _. revert Hcall.
      destruct (COMPORT.Flush (PGD.port s) w) as [[rf pf] wf] eqn:Hfl.
      apply Flush_spec in Hfl. destruct Hfl as [-> ->].
      intros Hcall.
      set (bs := firstn (Z.to_nat datalen) data) in *.
      assert (Hbs : List.length bs = Z.to_nat datalen)
        by (unfold bs; rewrite length_firstn; lia).
      set (buf := PGD.poke 2 index
                    (PGD.poke 1 group (PGD.poke 0 (ch "A"%char) (repeat 0 160)))) in *.
      assert (Hbuf : List.length buf = 160%nat) by reflexivity.
      assert (Hcmd : List.length (PGD.store_at buf 3 bs) = 160%nat).
      { unfold PGD.store_at. rewrite !length_app, length_firstn, length_skipn. lia. }
      apply (write_then (PGD.set_port (PGD.port s) s) w _ (datalen + 3) _ _
               (fun s1 w1 =>
                  let '(_, p1, w2) := COMPORT.Drain (PGD.port s1) w1 in
                  PGD.waitACKNACK 200 (PGD.set_port p1 s1) w2)) in Hcall.
      - destruct Hcall as [Hsends _].
        replace (Z.to_nat (datalen + 3)) with (3 + List.length bs)%nat in Hsends by lia.
        assert (Hfr : firstn (3 + List.length bs) (PGD.store_at buf 3 bs)
                      = firstn 3 buf ++ bs)
          by (apply (store_at_frame buf bs 3); lia).
        rewrite Hfr in Hsends. exact Hsends.
      - rewrite Hcmd. lia.
      - intros s1 w1 r0 s0 w0.
        destruct (COMPORT.Drain (PGD.port s1) w1) as [[rd pd] wd] eqn:Hd.
        apply Drain_spec in Hd. destruct Hd as [-> ->].
        intros Hw. apply waitACKNACK_keeps in Hw. exact Hw. }
    unfold P, bitmap_slot, bitmap_bytes in *.
    destruct (Z.eqb_spec group 0) as [Hg0|Hg0].
    { destruct (Z.eqb_spec datalen 8); simpl negb; cbv beta iota zeta;
        [|intros Hcall; eapply Hrefuse; [lia|exact Hcall]].
      destruct (Z.ltb_spec index 0), (Z.ltb_spec 63 index); simpl orb; cbv beta iota zeta;
        first [intros Hcall; apply Haccept; [lia|lia|exact Hcall]
              |intros Hcall; eapply Hrefuse; [lia|exact Hcall]]. }
    destruct (Z.eqb_spec group 1) as [Hg1|Hg1].
    { destruct (Z.eqb_spec datalen 32); simpl negb; cbv beta iota zeta;
        [|intros Hcall; eapply Hrefuse; [lia|exact Hcall]].
      destruct (Z.ltb_spec index 0), (Z.ltb_spec 15 index); simpl orb; cbv beta iota zeta;
        first [intros Hcall; apply Haccept; [lia|lia|exact Hcall]
              |intros Hcall; eapply Hrefuse; [lia|exact Hcall]]. }
    destruct (Z.eqb_spec group 2) as [Hg2|Hg2].
    { destruct (Z.eqb_spec datalen 128); simpl negb; cbv beta iota zeta;
        [|intros Hcall; eapply Hrefuse; [lia|exact Hcall]].
      destruct (Z.ltb_spec index 0), (Z.ltb_spec 7 index); simpl orb; cbv beta iota zeta;
        first [intros Hcall; apply Haccept; [lia|lia|exact Hcall]
              |intros Hcall; eapply Hrefuse; [lia|exact Hcall]]. }
    cbv beta iota zeta. intros Hcall; eapply Hrefuse; [lia|exact Hcall].
  - intros x y color r s' w'. unfold PGD.DrawBitmap. rewrite Hs.
    cbv beta iota delta [LCDSTATE_eqb].
    set (P := bitmap_slot group index).
    assert (Hrefuse : forall text,
              ~ P -> (-1, PGD.ERRMSG "DrawBitmap" text s, w) = (r, s', w') ->
              (~ P -> refused s w r s' w')
              /\ (P -> sends (ch "D"%char :: group :: index
                                :: be16 x ++ be16 y ++ be16 color) s w r w')).
    { intros text Hn Hcall. split; [|tauto]. intros _. eapply refused_intro; eauto. }
    assert (Haccept :
              P ->
              (let '(_, p, w0) := COMPORT.Flush (PGD.port s) w in
               let s0 := PGD.set_port p s in
               let '(res, p0, w1) :=
                 COMPORT.Write (PGD.port s0) w0
                   [ch "D"%char; group; index;
                    Z.land (Z.shiftr x 8) 255; Z.land x 255;
                    Z.land (Z.shiftr y 8) 255; Z.land y 255;
                    Z.land (Z.shiftr color 8) 255; Z.land color 255; 0] 9 in
               let s1 := PGD.set_port p0 s0 in
               if negb (res =? 9)
               then let s2 := PGD.ERRMSG "DrawBitmap" "failed; see message below" s1 in
                    if 0 <? res then (-2, s2, w1) else (-1, s2, w1)
               else PGD.waitACKNACK 100 s1 w1)
              = (r, s', w') ->
              (~ P -> refused s w r s' w')
              /\ (P -> sends (ch "D"%char :: group :: index
                                :: be16 x ++ be16 y ++ be16 color) s w r w')).
    { intros HP Hcall. split; [tauto|]. intros _. revert Hcall.
      destruct (COMPORT.Flush (PGD.port s) w) as [[rf pf] wf] eqn:Hfl.
      apply Flush_spec in Hfl. destruct Hfl as [-> ->]. intros Hcall.
      apply (write_then_wait (PGD.set_port (PGD.port s) s) w _ 9 100) in Hcall;
        [|simpl; lia].
      exact (proj1 Hcall). }
    unfold P, bitmap_slot in *.
    destruct (Z.eqb_spec group 0) as [Hg0|Hg0].
    { destruct (Z.ltb_spec index 0), (Z.ltb_spec 63 index); simpl orb; cbv beta iota zeta;
        first [intros Hcall; apply Haccept; [lia|exact Hcall]
              |intros Hcall; eapply Hrefuse; [lia|exact Hcall]]. }
    destruct (Z.eqb_spec group 1) as [Hg1|Hg1].
    { destruct (Z.ltb_spec index 0), (Z.ltb_spec 15 index); simpl orb; cbv beta iota zeta;
        first [intros Hcall; apply Haccept; [lia|exact Hcall]
              |intros Hcall; eapply Hrefuse; [lia|exact Hcall]]. }
    destruct (Z.eqb_spec group 2) as [Hg2|Hg2].
    { destruct (Z.ltb_spec index 0), (Z.ltb_spec 7 index); simpl orb; cbv beta iota zeta;
        first [intros Hcall; apply Haccept; [lia|exact Hcall]
              |intros Hcall; eapply Hrefuse; [lia|exact Hcall]]. }
    cbv beta iota zeta. intros Hcall; eapply Hrefuse; [lia|exact Hcall].
Qed.
Lemma Polygon_cmd (vertices : Z) (xs ys : list Z) (color : Z) :
  3 <= vertices <= 7 ->
  forall idx cmd,
  PGD.Polygon_loop (Z.to_nat vertices) 0 1 xs ys
    (PGD.poke 1 vertices (PGD.poke 0 (ch "g"%char) (repeat 0 32))) = (idx, cmd) ->
  idx = 4 * vertices + 1
  /\ List.length (PGD.poke (idx + 2) (Z.land color 255)
                    (PGD.poke (idx + 1) (Z.land (Z.shiftr color 8) 255) cmd)) = 32%nat
  /\ firstn (Z.to_nat (idx + 3))
       (PGD.poke (idx + 2) (Z.land color 255)
          (PGD.poke (idx + 1) (Z.land (Z.shiftr color 8) 255) cmd))
     = polygon_frame vertices xs ys color.
Proof.
  intros Hv idx cmd.
  assert (Hc : vertices = 3 \/ vertices = 4 \/ vertices = 5 \/ vertices = 6 \/ vertices = 7)
    by lia.
  destruct Hc as [-> | [-> | [-> | [-> | ->]]]];
    cbv -[Z.land Z.shiftr nth]; intros [= <- <-];
    cbv -[Z.land Z.shiftr nth]; repeat split.
Qed.

(** X10.  Polygon takes 3 to 7 vertices and two vertex lists that are not NULL;
    anything else is refused with -1 and nothing is touched.  An accepted
    polygon goes out as 'g', the number of vertices, then x and y of each
    vertex in turn and the colour, high bytes first: 4n + 4 bytes. *)
Theorem Polygon_frame (vertices : Z) (xp yp : option (list Z)) (color : Z)
        (s : PGD.t) (w : World) :
  PGD.state s = LCD_IDLE ->
  forall r s' w', PGD.Polygon vertices xp yp color s w = (r, s', w') ->
  (~ 3 <= vertices <= 7 \/ xp = None \/ yp = None -> refused s w r s' w')
  /\ (forall xs ys, 3 <= vertices <= 7 -> xp = Some xs -> yp = Some ys ->
      sends (polygon_frame vertices xs ys color) s w r w'
      /\ Z.of_nat (List.length (polygon_frame vertices xs ys color)) = 4 * vertices + 4).
Proof.
  intros Hs r s' w'. unfold PGD.Polygon. rewrite Hs.
  cbv beta iota delta [LCDSTATE_eqb].
  destruct (Z.ltb_spec vertices 3) as [Hlo|Hlo]; simpl orb; cbv iota.
  { intros Hcall. split; [intros _; eapply refused_intro; eauto|]. intros; lia. }
  destruct (Z.ltb_spec 7 vertices) as [Hhi|Hhi]; cbv iota.
  { intros Hcall. split; [intros _; eapply refused_intro; eauto|]. intros; lia. }
  destruct xp as [xs|]; [destruct yp as [ys|]|].
  2,3: intros Hcall; (split; [intros _; eapply refused_intro; eauto|]);
       intros; discriminate.
  destruct (PGD.Polygon_loop (Z.to_nat vertices) 0 1 xs ys
              (PGD.poke 1 vertices (PGD.poke 0 (ch "g"%char) (repeat 0 32))))
    as [idx cmd] eqn:Hloop.
  destruct (Polygon_cmd vertices xs ys color ltac:(lia) idx cmd Hloop)
    as (Hidx & Hlen & Hframe).
  destruct (COMPORT.Flush (PGD.port s) w) as [[rf pf] wf] eqn:Hfl.
  apply Flush_spec in Hfl. destruct Hfl as [-> ->]. intros Hcall.
  apply (write_then_wait (PGD.set_port (PGD.port s) s) w _ (idx + 3) 100) in Hcall;
    [|rewrite Hlen; lia].
  split; [intros [Hn|[Hn|Hn]]; [lia|discriminate|discriminate]|].
  intros xs0 ys0 _ [= <-] [= <-]. rewrite Hframe in Hcall.
  split; [exact (proj1 Hcall)|].
  rewrite <- Hframe, length_firstn, Hlen. lia.
Qed.

Lemma Polygon_frame_witness :
  let w := Samples.world [RxData 900 [ACK]] in
  let xs := [10; 300; 10] in
  let ys := [20; 20; 500] in
  PGD.state Samples.idle = LCD_IDLE
  /\ sends [ch "g"%char; 3; 0; 10; 0; 20; 1; 44; 0; 20; 0; 10; 1; 244; 0xF8; 0]
           Samples.idle w 0
           (snd (PGD.Polygon 3 (Some xs) (Some ys) 0xF800 Samples.idle w)).
Proof.
  intros w xs ys.
  assert (H1 : PGD.state Samples.idle = LCD_IDLE) by reflexivity.
  assert (E : PGD.Polygon 3 (Some xs) (Some ys) 0xF800 Samples.idle w
              = (0, snd (fst (PGD.Polygon 3 (Some xs) (Some ys) 0xF800 Samples.idle w)),
                 snd (PGD.Polygon 3 (Some xs) (Some ys) 0xF800 Samples.idle w)))
    by (vm_compute; reflexivity).
  split; [exact H1|].
  destruct (Polygon_frame 3 (Some xs) (Some ys) 0xF800 Samples.idle w H1 _ _ _ E)
    as [_ H].
  exact (proj1 (H xs ys ltac:(lia) eq_refl eq_refl)).
Defined.


Lemma bitmap_slots_witness :
  let w := Samples.world [RxData 900 [ACK]] in
  PGD.state Samples.idle = LCD_IDLE
  /\ bitmap_slot 1 15
  /\ sends [ch "D"%char; 1; 15; 0; 10; 0; 20; 0xF8; 0] Samples.idle w 0
           (snd (PGD.DrawBitmap 1 15 10 20 0xF800 Samples.idle w)).
Proof.
  intros w.
  assert (H1 : PGD.state Samples.idle = LCD_IDLE) by reflexivity.
  assert (Hv : bitmap_slot 1 15) by (unfold bitmap_slot; lia).
  assert (E : PGD.DrawBitmap 1 15 10 20 0xF800 Samples.idle w
              = (0, snd (fst (PGD.DrawBitmap 1 15 10 20 0xF800 Samples.idle w)),
                 snd (PGD.DrawBitmap 1 15 10 20 0xF800 Samples.idle w)))
    by (vm_compute; reflexivity).
  split; [exact H1|]. split; [exact Hv|].
  destruct (bitmap_slots 1 15 Samples.idle w H1) as [_ H].
  exact (proj2 (H 10 20 0xF800 _ _ _ E) Hv).
Defined.

(** ** File names of the FAT commands *)

Lemma name_frame (head : list Z) (size : nat) (name : list Z) :
  (List.length head + List.length name + 1 <= size)%nat ->
  let cmd := PGD.store_at (head ++ repeat 0 (size - List.length head))
               (Z.of_nat (List.length head)) (name ++ [0]) in
  List.length cmd = size
  /\ firstn (List.length head + (List.length name + 1)) cmd = head ++ name ++ [0].
Proof.
  intros Hlen cmd.
  assert (Hbuf : List.length (head ++ repeat 0 (size - List.length head)) = size)
    by (rewrite length_app, repeat_length; lia).
  split.
  - unfold cmd, PGD.store_at. rewrite Nat2Z.id.
    rewrite !length_app, length_firstn, length_skipn, Hbuf. simpl. lia.
  - unfold cmd.
    replace (List.length name + 1)%nat with (List.length (name ++ [0]))
      by (rewrite length_app; reflexivity).
    rewrite store_at_frame by (rewrite Hbuf, length_app; simpl; lia).
    rewrite firstn_app, Nat.sub_diag, firstn_all. simpl. now rewrite app_nil_r.
Qed.

Lemma SDShowImageFAT_cmd (name : list Z) (x y imgaddr : Z) :
  (1 <= List.length name <= 12)%nat ->
  let len := Z.of_nat (List.length name) in
  let cmd :=
    PGD.poke (9 + len) (Z.land imgaddr 255)
      (PGD.poke (8 + len) (Z.land (Z.shiftr imgaddr 8) 255)
         (PGD.poke (7 + len) (Z.land (Z.shiftr imgaddr 16) 255)
            (PGD.poke (6 + len) (Z.land y 255)
               (PGD.poke (5 + len) (Z.land (Z.shiftr y 8) 255)
                  (PGD.poke (4 + len) (Z.land x 255)
                     (PGD.poke (3 + len) (Z.land (Z.shiftr x 8) 255)
                        (PGD.store_at
                           (PGD.poke 1 (ch "m"%char)
                              (PGD.poke 0 (ch "@"%char) (repeat 0 24)))
                           2 (name ++ [0])))))))) in
  List.length cmd = 24%nat
  /\ firstn (Z.to_nat (len + 10)) cmd
     = [ch "@"%char; ch "m"%char] ++ (name ++ [0]) ++ be16 x ++ be16 y ++ be24 imgaddr.
Proof.
  intros H.
  do 13 (destruct name as [|? name];
         [try (simpl in H; lia); cbv -[Z.land Z.shiftr]; split; reflexivity|]).
  simpl in H; lia.
Qed.

(** X11.  The FAT commands that take a file name refuse a NULL name and a name
    of fewer than 1 or more than 12 characters: the result is -1 and
    nothing is touched.  SDPlayAudioFAT also refuses an option above 5
    and SDShowImageFAT an image address above 0x00ffffff.  An accepted
    name goes out after the opcode with the 0 that ends it: '@','e',name;
    '@','p',name; '@','l',option,name; and '@','m',name, then x, y and
    the three address bytes, high bytes first. *)
Theorem FAT_commands_name (filename : option (list Z)) (s : PGD.t) (w : World) :
  PGD.state s = LCD_IDLE ->
  (forall r s' w', PGD.SDEraseFileFAT filename s w = (r, s', w') ->
     (~ fat_name filename -> refused s w r s' w')
     /\ (fat_name filename ->
         sends ([ch "@"%char; ch "e"%char] ++ name_bytes filename) s w r w'))
  /\ (forall r s' w', PGD.SDRunScriptFAT filename s w = (r, s', w') ->
     (~ fat_name filename -> refused s w r s' w')
     /\ (fat_name filename ->
         sends ([ch "@"%char; ch "p"%char] ++ name_bytes filename) s w r w'))
  /\ (forall option r s' w', PGD.SDPlayAudioFAT filename option s w = (r, s', w') ->
     (~ (fat_name filename /\ option <= 5) -> refused s w r s' w')
     /\ (fat_name filename /\ option <= 5 ->
         sends ([ch "@"%char; ch "l"%char; option] ++ name_bytes filename) s w r w'))
  /\ (forall x y imgaddr r s' w',
     PGD.SDShowImageFAT filename x y imgaddr s w = (r, s', w') ->
     (~ (fat_name filename /\ imgaddr <= 0x00ffffff) -> refused s w r s' w')
     /\ (fat_name filename /\ imgaddr <= 0x00ffffff ->
         sends ([ch "@"%char; ch "m"%char] ++ name_bytes filename
                ++ be16 x ++ be16 y ++ be24 imgaddr) s w r w')).
Proof.
  intros Hs.
  assert (Hname : forall f, 1 <= PGD.strlen f <= 12 ->
            (1 <= List.length (PGD.cstr f) <= 12)%nat)
    by (unfold PGD.strlen; intros; lia).
  split; [|split; [|split]].
  - intros r s' w'. unfold PGD.SDEraseFileFAT. rewrite Hs.
    cbv beta iota delta [LCDSTATE_eqb].
    destruct filename as [f|]; simpl fat_name; simpl name_bytes.
    2:{ intros Hcall. split; [intros _; eapply refused_intro; eauto|tauto]. }
    destruct (Z.ltb_spec (PGD.strlen f) 1) as [Hlo|Hlo]; simpl orb; cbv iota.
    { intros Hcall. split; [intros _; eapply refused_intro; eauto|lia]. }
    destruct (Z.ltb_spec 12 (PGD.strlen f)) as [Hhi|Hhi]; cbv iota.
    { intros Hcall. split; [intros _; eapply refused_intro; eauto|lia]. }
    destruct (COMPORT.Flush (PGD.port s) w) as [[rf pf] wf] eqn:Hfl.
    apply Flush_spec in Hfl. destruct Hfl as [-> ->]. intros Hcall.
    split; [lia|]. intros _.
    destruct (name_frame [ch "@"%char; ch "e"%char] 20 (PGD.cstr f)) as [Hlen Hfr].
    { specialize (Hname f ltac:(lia)). simpl. lia. }
    apply (write_then_wait (PGD.set_port (PGD.port s) s) w _ (PGD.strlen f + 3) 200)
      in Hcall.
    + destruct Hcall as [Hsends _].
      replace (Z.to_nat (PGD.strlen f + 3))
        with (List.length [ch "@"%char; ch "e"%char] + (List.length (PGD.cstr f) + 1))%nat
        in Hsends by (unfold PGD.strlen; simpl; lia).
      change (PGD.store_at (PGD.poke 1 (ch "e"%char) (PGD.poke 0 (ch "@"%char) (repeat 0 20)))
                2 (PGD.cstr f ++ [0]))
        with (PGD.store_at ([ch "@"%char; ch "e"%char]
                              ++ repeat 0 (20 - List.length [ch "@"%char; ch "e"%char]))
                (Z.of_nat (List.length [ch "@"%char; ch "e"%char])) (PGD.cstr f ++ [0]))
        in Hsends.
      rewrite Hfr in Hsends. exact Hsends.
    + change (PGD.store_at (PGD.poke 1 (ch "e"%char) (PGD.poke 0 (ch "@"%char) (repeat 0 20)))
                2 (PGD.cstr f ++ [0]))
        with (PGD.store_at ([ch "@"%char; ch "e"%char]
                              ++ repeat 0 (20 - List.length [ch "@"%char; ch "e"%char]))
                (Z.of_nat (List.length [ch "@"%char; ch "e"%char])) (PGD.cstr f ++ [0])).
      rewrite Hlen. lia.
  - intros r s' w'. unfold PGD.SDRunScriptFAT. rewrite Hs.
    cbv beta iota delta [LCDSTATE_eqb].
    destruct filename as [f|]; simpl fat_name; simpl name_bytes.
    2:{ intros Hcall. split; [intros _; eapply refused_intro; eauto|tauto]. }
    destruct (Z.ltb_spec (PGD.strlen f) 1) as [Hlo|Hlo]; simpl orb; cbv iota.
    { intros Hcall. split; [intros _; eapply refused_intro; eauto|lia]. }
    destruct (Z.ltb_spec 12 (PGD.strlen f)) as [Hhi|Hhi]; cbv iota.
    { intros Hcall. split; [intros _; eapply refused_intro; eauto|lia]. }
    destruct (COMPORT.Flush (PGD.port s) w) as [[rf pf] wf] eqn:Hfl.
    apply Flush_spec in Hfl. destruct Hfl as [-> ->]. intros Hcall.
    split; [lia|]. intros _.
    destruct (name_frame [ch "@"%char; ch "p"%char] 20 (PGD.cstr f)) as [Hlen Hfr].
    { specialize (Hname f ltac:(lia)). simpl. lia. }
    apply (write_then_wait (PGD.set_port (PGD.port s) s) w _ (PGD.strlen f + 3) 200)
      in Hcall.
    + destruct Hcall as [Hsends _].
      replace (Z.to_nat (PGD.strlen f + 3))
        with (List.length [ch "@"%char; ch "p"%char] + (List.length (PGD.cstr f) + 1))%nat
        in Hsends by (unfold PGD.strlen; simpl; lia).
      change (PGD.store_at (PGD.poke 1 (ch "p"%char) (PGD.poke 0 (ch "@"%char) (repeat 0 20)))
                2 (PGD.cstr f ++ [0]))
        with (PGD.store_at ([ch "@"%char; ch "p"%char]
                              ++ repeat 0 (20 - List.length [ch "@"%char; ch "p"%char]))
                (Z.of_nat (List.length [ch "@"%char; ch "p"%char])) (PGD.cstr f ++ [0]))
        in Hsends.
      rewrite Hfr in Hsends. exact Hsends.
    + change (PGD.store_at (PGD.poke 1 (ch "p"%char) (PGD.poke 0 (ch "@"%char) (repeat 0 20)))
                2 (PGD.cstr f ++ [0]))
        with (PGD.store_at ([ch "@"%char; ch "p"%char]
                              ++ repeat 0 (20 - List.length [ch "@"%char; ch "p"%char]))
                (Z.of_nat (List.length [ch "@"%char; ch "p"%char])) (PGD.cstr f ++ [0])).
      rewrite Hlen. lia.
  - intros option r s' w'. unfold PGD.SDPlayAudioFAT. rewrite Hs.
    cbv beta iota delta [LCDSTATE_eqb].
    destruct filename as [f|]; simpl fat_name; simpl name_bytes.
    2:{ intros Hcall. split; [intros _; eapply refused_intro; eauto|tauto]. }
    destruct (Z.ltb_spec (PGD.strlen f) 1) as [Hlo|Hlo]; simpl orb; cbv iota.
    { intros Hcall. split; [intros _; eapply refused_intro; eauto|lia]. }
    destruct (Z.ltb_spec 12 (PGD.strlen f)) as [Hhi|Hhi]; cbv iota.
    { intros Hcall. split; [intros _; eapply refused_intro; eauto|lia]. }
    destruct (Z.ltb_spec 5 option) as [Hopt|Hopt].
    { intros Hcall. split; [intros _; eapply refused_intro; eauto|lia]. }
    destruct (COMPORT.Flush (PGD.port s) w) as [[rf pf] wf] eqn:Hfl.
    apply Flush_spec in Hfl. destruct Hfl as [-> ->]. intros Hcall.
    split; [lia|]. intros _.
    destruct (name_frame [ch "@"%char; ch "l"%char; option] 20 (PGD.cstr f)) as [Hlen Hfr].
    { specialize (Hname f ltac:(lia)). simpl. lia. }
    apply (write_then_wait (PGD.set_port (PGD.port s) s) w _ (PGD.strlen f + 4) 200)
      in Hcall.
    + destruct Hcall as [Hsends _].
      replace (Z.to_nat (PGD.strlen f + 4))
        with (List.length [ch "@"%char; ch "l"%char; option]
              + (List.length (PGD.cstr f) + 1))%nat
        in Hsends by (unfold PGD.strlen; simpl; lia).
      change (PGD.store_at
                (PGD.poke 2 option
                   (PGD.poke 1 (ch "l"%char) (PGD.poke 0 (ch "@"%char) (repeat 0 20))))
                3 (PGD.cstr f ++ [0]))
        with (PGD.store_at ([ch "@"%char; ch "l"%char; option]
                              ++ repeat 0 (20 - List.length [ch "@"%char; ch "l"%char; option]))
                (Z.of_nat (List.length [ch "@"%char; ch "l"%char; option]))
                (PGD.cstr f ++ [0]))
        in Hsends.
      rewrite Hfr in Hsends. exact Hsends.
    + change (PGD.store_at
                (PGD.poke 2 option
                   (PGD.poke 1 (ch "l"%char) (PGD.poke 0 (ch "@"%char) (repeat 0 20))))
                3 (PGD.cstr f ++ [0]))
        with (PGD.store_at ([ch "@"%char; ch "l"%char; option]
                              ++ repeat 0 (20 - List.length [ch "@"%char; ch "l"%char; option]))
                (Z.of_nat (List.length [ch "@"%char; ch "l"%char; option]))
                (PGD.cstr f ++ [0])).
      rewrite Hlen. lia.
  - intros x y imgaddr r s' w'. unfold PGD.SDShowImageFAT. rewrite Hs.
    cbv beta iota delta [LCDSTATE_eqb].
    destruct (Z.ltb_spec 0x00ffffff imgaddr) as [Hadr|Hadr].
    { intros Hcall. split; [intros _; eapply refused_intro; eauto|lia]. }
    destruct filename as [f|]; simpl fat_name; simpl name_bytes.
    2:{ intros Hcall. split; [intros _; eapply refused_intro; eauto|tauto]. }
    destruct (Z.ltb_spec (PGD.strlen f) 1) as [Hlo|Hlo]; simpl orb; cbv iota.
    { intros Hcall. split; [intros _; eapply refused_intro; eauto|lia]. }
    destruct (Z.ltb_spec 12 (PGD.strlen f)) as [Hhi|Hhi]; cbv iota.
    { intros Hcall. split; [intros _; eapply refused_intro; eauto|lia]. }
    destruct (COMPORT.Flush (PGD.port s) w) as [[rf pf] wf] eqn:Hfl.
    apply Flush_spec in Hfl. destruct Hfl as [-> ->]. intros Hcall.
    split; [lia|]. intros _.
    destruct (SDShowImageFAT_cmd (PGD.cstr f) x y imgaddr (Hname f ltac:(lia)))
      as [Hlen Hfr].
    fold (PGD.strlen f) in Hlen, Hfr.
    apply (write_then_wait (PGD.set_port (PGD.port s) s) w _ (PGD.strlen f + 10) 200)
      in Hcall.
    + destruct Hcall as [Hsends _]. rewrite Hfr in Hsends. exact Hsends.
    + rewrite Hlen. lia.
Qed.

Lemma FAT_commands_name_witness :
  let w := Samples.world [RxData 900 [ACK]] in
  let name := Some (PGD.chars "LOGO.GCI" ++ [0]) in
  PGD.state Samples.idle = LCD_IDLE
  /\ fat_name name
  /\ sends ([ch "@"%char; ch "m"%char] ++ PGD.chars "LOGO.GCI"
            ++ [0; 0; 10; 0; 20; 1; 2; 3])
           Samples.idle w 0
           (snd (PGD.SDShowImageFAT name 10 20 0x010203 Samples.idle w)).
Proof.
  intros w name.
  assert (H1 : PGD.state Samples.idle = LCD_IDLE) by reflexivity.
  assert (Hv : fat_name name) by (vm_compute; split; discriminate).
  assert (E : PGD.SDShowImageFAT name 10 20 0x010203 Samples.idle w
              = (0, snd (fst (PGD.SDShowImageFAT name 10 20 0x010203 Samples.idle w)),
                 snd (PGD.SDShowImageFAT name 10 20 0x010203 Samples.idle w)))
    by (vm_compute; reflexivity).
  split; [exact H1|]. split; [exact Hv|].
  destruct (FAT_commands_name name Samples.idle w H1) as (_ & _ & _ & H).
  assert (Ha : 0x010203 <= 0x00ffffff) by lia.
  exact (proj2 (H 10 20 0x010203 _ _ _ E) (conj Hv Ha)).
Defined.

(** ** Commands that read an answer back *)


(** A range of numbers checked one by one. *)
Lemma range_check_spec (P : Z -> bool) (n : nat) :
  forall v, range_check P n v = true ->
  forall u, v <= u < v + Z.of_nat n -> P u = true.
Proof.
  induction n as [|n IH]; intros v H u Hu; [lia|].
  simpl in H. apply andb_true_iff in H. destruct H as [Hv Hrest].
  destruct (Z.eq_dec u v) as [->|Hne]; [exact Hv|].
  apply (IH (v + 1) Hrest). lia.
Qed.

Lemma be16_of_bytes (hi lo : Z) :
  is_byte hi -> is_byte lo -> PGD.be16_of hi lo = 256 * hi + lo.
Proof.
  intros Hhi Hlo.
  assert (H : range_check
                (fun h => range_check (fun l => PGD.be16_of h l =? 256 * h + l)
                            (Z.to_nat 256) 0)
                (Z.to_nat 256) 0 = true) by (vm_compute; reflexivity).
  assert (H1 := range_check_spec _ _ _ H hi Hhi).
  assert (H2 := range_check_spec _ _ _ H1 lo Hlo).
  now apply Z.eqb_eq.
Qed.

Lemma be16_decode (v : Z) :
  0 <= v < 65536 ->
  Z.lor (Z.land (Z.land v 255) 255) (Z.shiftl (Z.land (Z.land (Z.shiftr v 8) 255) 255) 8) = v.
Proof.
  intros Hv.
  assert (H : range_check
                (fun v => Z.lor (Z.land (Z.land v 255) 255)
                            (Z.shiftl (Z.land (Z.land (Z.shiftr v 8) 255) 255) 8) =? v)
                (Z.to_nat 65536) 0 = true) by (vm_compute; reflexivity).
  assert (H1 := range_check_spec _ _ _ H v Hv).
  now apply Z.eqb_eq.
Qed.

(** X12.  WritePixel sends 'P', x, y and the colour, high bytes first.  When
    the device answers ReadPixel within the 200 ms of its read with the
    two colour bytes in the order WritePixel sends them, ReadPixel
    returns 0 and stores that colour, after sending 'R', x and y. *)
Theorem pixel_round_trip (x y color : Z) (s : PGD.t) (w : World) :
  PGD.state s = LCD_IDLE ->
  (forall r s' w', PGD.WritePixel x y color s w = (r, s', w') ->
     sends (ch "P"%char :: be16 x ++ be16 y ++ be16 color) s w r w')
  /\ (COMPORT.fd (PGD.port s) <> -1 -> wr w = [] -> 0 <= color < 65536 ->
      forall dt more rest, rx w = RxData dt (be16 color ++ more) :: rest ->
      Z.of_N dt < 200000 ->
      exists s' w',
        PGD.ReadPixel x y s w = (0, Some color, s', w')
        /\ sent w' = sent w ++ ch "R"%char :: be16 x ++ be16 y
        /\ PGD.state s' = LCD_IDLE
        /\ rx w' = rx_after 2 (be16 color ++ more) rest).
Proof.
  intros Hs. split.
  - intros r s' w'. unfold PGD.WritePixel. rewrite Hs.
    cbv beta iota delta [LCDSTATE_eqb].
    destruct (COMPORT.Flush (PGD.port s) w) as [[rf pf] wf] eqn:Hfl.
    apply Flush_spec in Hfl. destruct Hfl as [-> ->]. intros Hcall.
    apply (write_then_wait (PGD.set_port (PGD.port s) s) w _ 7 200) in Hcall;
      [|simpl; lia].
    exact (proj1 Hcall).
  - intros Hfd Hwr Hc dt more rest Hrx Hdt. unfold PGD.ReadPixel. rewrite Hs.
    cbv beta iota delta [LCDSTATE_eqb].
    destruct (COMPORT.Flush (PGD.port s) w) as [[rf pf] wf] eqn:Hfl.
    apply Flush_spec in Hfl. destruct Hfl as [-> ->].
    cbn [PGD.port PGD.set_port].
    rewrite (Write_ok (PGD.port s) w _ 5 Hfd Hwr) by (simpl; lia).
    cbn [negb Z.eqb Pos.eqb PGD.port PGD.set_port].
    rewrite (Read_chunk (PGD.port s) _ 2 200 dt (be16 color ++ more) rest Hfd)
      by (first [exact Hrx | lia | cbn [be16 List.length app]; lia]).
    cbn [PGD.port PGD.set_port].
    change (firstn (Z.to_nat 2) (be16 color ++ more)) with (be16 color).
    cbn [List.length be16 Z.of_nat Pos.of_succ_nat Pos.succ Z.ltb Z.compare Z.eqb Pos.eqb negb].
    eexists _, _. split; [|split; [|split]].
    + f_equal. f_equal. f_equal. f_equal.
      change (nth 1 (PGD.store_at _ 0 _) 0) with (Z.land color 255).
      change (nth 0 (PGD.store_at _ 0 _) 0) with (Z.land (Z.shiftr color 8) 255).
      apply be16_decode. exact Hc.
    + unfold sent. simpl. rewrite tx_bytes_app. simpl. reflexivity.
    + exact Hs.
    + reflexivity.
Qed.

Lemma pixel_round_trip_witness :
  let w := Samples.world [RxData 700 [0xF8; 0x1F]] in
  PGD.state Samples.idle = LCD_IDLE
  /\ PGD.ReadPixel 10 20 Samples.idle w
     = (0, Some 0xF81F, snd (fst (PGD.ReadPixel 10 20 Samples.idle w)),
        snd (PGD.ReadPixel 10 20 Samples.idle w)).
Proof.
  intros w.
  assert (H1 : PGD.state Samples.idle = LCD_IDLE) by reflexivity.
  assert (Hfd : COMPORT.fd (PGD.port Samples.idle) <> -1) by (vm_compute; discriminate).
  assert (Hwr : wr w = []) by reflexivity.
  assert (Hc : 0 <= 0xF81F < 65536) by lia.
  assert (Hrx : rx w = RxData 700 (be16 0xF81F ++ []) :: []) by reflexivity.
  assert (Hdt : Z.of_N 700 < 200000) by (simpl; lia).
  split; [exact H1|].
  destruct (proj2 (pixel_round_trip 10 20 0xF81F Samples.idle w H1) Hfd Hwr Hc _ _ _ Hrx Hdt)
    as (s' & w' & E & _).
  rewrite E. reflexivity.
Defined.
(** X13.  A failed Version leaves the caller's record as it was, and a NULL
    record stays NULL.  On an open line that takes what it is handed,
    when the device answers with five bytes or more within the budget of
    the read (500 ms when the version is displayed, else 50 ms), Version
    returns 0 after sending 'V' and the display flag, and fills the record from the
    first five bytes: the device type when it is 0, 1 or 2 (unknown
    otherwise), the hardware and firmware revisions, and the two
    resolution codes converted to pixels. *)
Theorem Version_decodes (display : bool) (s : PGD.t) (w : World) :
  PGD.state s = LCD_IDLE ->
  (forall ver r ver' s' w', PGD.Version ver display s w = (r, ver', s', w') ->
     (r <> 0 -> ver' = ver) /\ (ver = None -> ver' = None))
  /\ (COMPORT.fd (PGD.port s) <> -1 -> wr w = [] ->
      forall old dt t h f x y more rest,
      rx w = RxData dt (t :: h :: f :: x :: y :: more) :: rest ->
      Z.of_N dt < (if display then 500000 else 50000) ->
      is_byte h -> is_byte f ->
      exists s' w',
        PGD.Version (Some old) display s w
        = (0,
           Some {| PGD.display_type :=
                     if (t =? 0) || (t =? 1) || (t =? 2) then Some t else None;
                   PGD.hardware_rev := h;
                   PGD.firmware_rev := f;
                   PGD.hres := PGD.convertRes x;
                   PGD.vres := PGD.convertRes y |},
           s', w')
        /\ sent w' = sent w ++ [ch "V"%char; if display then 1 else 0]
        /\ PGD.state s' = LCD_IDLE).
Proof.
  intros Hs. split.
  - intros ver r ver' s' w'. unfold PGD.Version. rewrite Hs.
    cbv beta iota delta [LCDSTATE_eqb].
    destruct (COMPORT.Flush (PGD.port s) w) as [[rf pf] wf].
    destruct (if display
              then COMPORT.Write (PGD.port (PGD.set_port pf s)) wf [ch "V"%char; 1; 0] 2
              else COMPORT.Write (PGD.port (PGD.set_port pf s)) wf [ch "V"%char; 0; 0] 2)
      as [[res p] w1].
    destruct (negb (res =? 2)).
    { destruct (0 <? res); intros [= <- <- <- <-]; auto. }
    destruct (if display
              then COMPORT.Read (PGD.port (PGD.set_port p (PGD.set_port pf s))) w1 5 500
              else COMPORT.Read (PGD.port (PGD.set_port p (PGD.set_port pf s))) w1 5 50)
      as [[[res2 msg] p2] w2].
    destruct (res2 <? 0); [intros [= <- <- <- <-]; auto|].
    destruct (negb (res2 =? 5)); [intros [= <- <- <- <-]; auto|].
    destruct ver; intros [= <- <- <- <-]; split; intros; congruence.
  - intros Hfd Hwr old dt t h f x y more rest Hrx Hdt Hh Hf.
    unfold PGD.Version. rewrite Hs. cbv beta iota delta [LCDSTATE_eqb].
    destruct (COMPORT.Flush (PGD.port s) w) as [[rf pf] wf] eqn:Hfl.
    apply Flush_spec in Hfl. destruct Hfl as [-> ->].
    cbn [PGD.port PGD.set_port].
    assert (Hw : (if display
                  then COMPORT.Write (PGD.port s) w [ch "V"%char; 1; 0] 2
                  else COMPORT.Write (PGD.port s) w [ch "V"%char; 0; 0] 2)
                 = (2, PGD.port s,
                    emit (EvTx [ch "V"%char; if display then 1 else 0]) w)).
    { destruct display; rewrite (Write_ok (PGD.port s) w _ 2 Hfd Hwr) by (simpl; lia);
        reflexivity. }
    rewrite Hw. cbn [negb Z.eqb Pos.eqb PGD.port PGD.set_port].
    assert (Hr : forall tmo, Z.of_N dt < tmo * 1000 ->
              COMPORT.Read (PGD.port s)
                (emit (EvTx [ch "V"%char; if display then 1 else 0]) w) 5 tmo
              = (5, [t; h; f; x; y], PGD.port s,
                 usleep (Z.of_N dt)
                   (set_rx (rx_after 5 (t :: h :: f :: x :: y :: more) rest)
                      (emit (EvTx [ch "V"%char; if display then 1 else 0]) w)))).
    { intros tmo Htmo.
      rewrite (Read_chunk (PGD.port s) _ 5 tmo dt (t :: h :: f :: x :: y :: more) rest Hfd)
        by (first [exact Hrx | lia | cbn [List.length]; lia]).
      reflexivity. }
    assert (Hr2 : (if display
                   then COMPORT.Read (PGD.port s)
                          (emit (EvTx [ch "V"%char; if display then 1 else 0]) w) 5 500
                   else COMPORT.Read (PGD.port s)
                          (emit (EvTx [ch "V"%char; if display then 1 else 0]) w) 5 50)
                  = (5, [t; h; f; x; y], PGD.port s,
                     usleep (Z.of_N dt)
                       (set_rx (rx_after 5 (t :: h :: f :: x :: y :: more) rest)
                          (emit (EvTx [ch "V"%char; if display then 1 else 0]) w))))
      by (destruct display; apply Hr; lia).
    rewrite Hr2. cbn [negb Z.eqb Pos.eqb Z.ltb Z.compare PGD.port PGD.set_port].
    change (PGD.store_at (repeat 0 8) 0 [t; h; f; x; y]) with [t; h; f; x; y; 0; 0; 0].
    cbn [nth].
    assert (Hb : forall b, is_byte b -> Z.land b 255 = b).
    { intros b Hb. change 255 with (Z.ones 8). rewrite Z.land_ones by lia.
      apply Z.mod_small. exact Hb. }
    rewrite (Hb h Hh), (Hb f Hf).
    eexists _, _. split; [reflexivity|]. split; [|exact Hs].
    unfold sent. simpl. rewrite tx_bytes_app. reflexivity.
Qed.

Lemma Version_decodes_witness :
  let w := Samples.world [RxData 4000 [0; 1; 17; 0x24; 0x32]] in
  PGD.state Samples.idle = LCD_IDLE
  /\ fst (fst (fst (PGD.Version (Some {| PGD.display_type := None; PGD.hardware_rev := 0;
                                         PGD.firmware_rev := 0; PGD.hres := 0;
                                         PGD.vres := 0 |})
                      true Samples.idle w))) = 0
  /\ snd (fst (fst (PGD.Version (Some {| PGD.display_type := None; PGD.hardware_rev := 0;
                                         PGD.firmware_rev := 0; PGD.hres := 0;
                                         PGD.vres := 0 |})
                      true Samples.idle w)))
     = Some {| PGD.display_type := Some 0; PGD.hardware_rev := 1;
               PGD.firmware_rev := 17; PGD.hres := 240; PGD.vres := 320 |}.
Proof.
  intros w.
  assert (H1 : PGD.state Samples.idle = LCD_IDLE) by reflexivity.
  assert (Hfd : COMPORT.fd (PGD.port Samples.idle) <> -1) by (vm_compute; discriminate).
  assert (Hwr : wr w = []) by reflexivity.
  assert (Hrx : rx w = RxData 4000 (0 :: 1 :: 17 :: 0x24 :: 0x32 :: []) :: [])
    by reflexivity.
  assert (Hh : is_byte 1) by (unfold is_byte; lia).
  assert (Hf : is_byte 17) by (unfold is_byte; lia).
  assert (Hdt : Z.of_N 4000 < (if true then 500000 else 50000)) by (simpl; lia).
  split; [exact H1|].
  destruct (proj2 (Version_decodes true Samples.idle w H1) Hfd Hwr
              {| PGD.display_type := None; PGD.hardware_rev := 0;
                 PGD.firmware_rev := 0; PGD.hres := 0; PGD.vres := 0 |}
              _ _ _ _ _ _ _ _ Hrx Hdt Hh Hf)
    as (s' & w' & E & _).
  rewrite E. split; reflexivity.
Defined.

(** ** Touch coordinates *)

(** X14.  GetTouch in a mode above 3 never defers: the controller stays Idle
    with its record as it was, and the only events are written bytes
    unless the result is 0.  On an open line that takes what it is handed,
    when the answer comes within the 100 ms of the read and its first
    chunk holds four bytes or more, GetTouch returns 0 after sending 'o'
    and the mode, and stores the two
    coordinates, each the first of its two bytes times 256 plus the
    second. *)
Theorem GetTouch_direct (mode : Z) (s : PGD.t) (w : World) :
  PGD.state s = LCD_IDLE -> 3 < mode ->
  (forall points r s' w', PGD.GetTouch mode points s w = (r, s', w') ->
     PGD.state s' = LCD_IDLE /\ PGD.curcmd s' = PGD.curcmd s
     /\ PGD.curdata s' = PGD.curdata s
     /\ (r <> 0 -> exists evs, trace w' = trace w ++ evs /\ tx_only evs))
  /\ (COMPORT.fd (PGD.port s) <> -1 -> wr w = [] ->
      forall sp dt b0 b1 b2 b3 more rest,
      rx w = RxData dt (b0 :: b1 :: b2 :: b3 :: more) :: rest ->
      Z.of_N dt < 100000 ->
      is_byte b0 -> is_byte b1 -> is_byte b2 -> is_byte b3 ->
      exists s' w',
        PGD.GetTouch mode (Some sp) s w = (0, s', w')
        /\ trace w' = trace w ++ [EvTx [ch "o"%char; mode];
                                  EvStore sp (256 * b0 + b1) (256 * b2 + b3)]).
Proof.
  intros Hs Hmode.
  assert (Hm : (mode <=? 3) = false) by (apply Z.leb_gt; lia).
  split.
  - intros points r s' w'. unfold PGD.GetTouch. rewrite Hs, Hm.
    cbv beta iota delta [LCDSTATE_eqb].
    destruct (COMPORT.Flush (PGD.port s) w) as [[rf pf] wf] eqn:Hfl.
    apply Flush_spec in Hfl. destruct Hfl as [-> ->].
    destruct (COMPORT.Write (PGD.port (PGD.set_port (PGD.port s) s)) w
                (PGD.poke 1 mode (PGD.chars "o   " ++ [0])) 2) as [[res p] w1] eqn:Hwr.
    apply Write_spec in Hwr. destruct Hwr as (_ & _ & evs & Htr & Htx & _).
    destruct (negb (res =? 2)).
    { destruct (0 <? res); intros [= <- <- <-]; repeat split; eauto. }
    destruct (COMPORT.Read (PGD.port (PGD.set_port p (PGD.set_port (PGD.port s) s))) w1 4 100)
      as [[[res2 got] p2] w2] eqn:Hrd.
    apply Read_frame in Hrd. destruct Hrd as (_ & (Htr2 & _) & _).
    destruct (res2 <? 0).
    { intros [= <- <- <-]. repeat split; auto. intros _. exists evs. split; congruence. }
    destruct (negb (res2 =? 4)).
    { intros [= <- <- <-]. repeat split; auto. intros _. exists evs. split; congruence. }
    destruct points; intros [= <- <- <-]; repeat split; auto; intros Hn; try congruence.
  - intros Hfd Hwr sp dt b0 b1 b2 b3 more rest Hrx Hdt H0 H1 H2 H3.
    unfold PGD.GetTouch. rewrite Hs, Hm. cbv beta iota delta [LCDSTATE_eqb].
    destruct (COMPORT.Flush (PGD.port s) w) as [[rf pf] wf] eqn:Hfl.
    apply Flush_spec in Hfl. destruct Hfl as [-> ->].
    cbn [PGD.port PGD.set_port].
    rewrite (Write_ok (PGD.port s) w _ 2 Hfd Hwr) by (simpl; lia).
    cbn [negb Z.eqb Pos.eqb PGD.port PGD.set_port].
    rewrite (Read_chunk (PGD.port s) _ 4 100 dt (b0 :: b1 :: b2 :: b3 :: more) rest Hfd)
      by (first [exact Hrx | lia | cbn [List.length]; lia]).
    change (firstn (Z.to_nat 4) (b0 :: b1 :: b2 :: b3 :: more)) with [b0; b1; b2; b3].
    cbn [List.length Z.of_nat Pos.of_succ_nat Pos.succ Z.ltb Z.compare Z.eqb Pos.eqb negb
         PGD.port PGD.set_port].
    change (PGD.store_at (PGD.poke 1 mode (PGD.chars "o   " ++ [0])) 0 [b0; b1; b2; b3])
      with [b0; b1; b2; b3; 0].
    cbn [nth]. rewrite !be16_of_bytes by assumption.
    eexists _, _. split; [reflexivity|]. simpl. rewrite <- app_assoc. reflexivity.
Qed.

Lemma GetTouch_direct_witness :
  let w := Samples.world [RxData 700 [0; 120; 1; 44]] in
  PGD.state Samples.idle = LCD_IDLE /\ 3 < 5
  /\ trace (snd (PGD.GetTouch 5 (Some 8192) Samples.idle w))
     = [EvTx [ch "o"%char; 5]; EvStore 8192 120 300].
Proof.
  intros w.
  assert (H1 : PGD.state Samples.idle = LCD_IDLE) by reflexivity.
  assert (Hm : 3 < 5) by lia.
  assert (Hfd : COMPORT.fd (PGD.port Samples.idle) <> -1) by (vm_compute; discriminate).
  assert (Hwr : wr w = []) by reflexivity.
  assert (Hrx : rx w = RxData 700 (0 :: 120 :: 1 :: 44 :: []) :: []) by reflexivity.
  assert (Hb : is_byte 0 /\ is_byte 120 /\ is_byte 1 /\ is_byte 44)
    by (unfold is_byte; lia).
  assert (Hdt : Z.of_N 700 < 100000) by (simpl; lia).
  split; [exact H1|]. split; [exact Hm|].
  destruct Hb as (B0 & B1 & B2 & B3).
  destruct (proj2 (GetTouch_direct 5 Samples.idle w H1 Hm) Hfd Hwr 8192
              _ _ _ _ _ _ _ Hrx Hdt B0 B1 B2 B3)
    as (s' & w' & E & Htr).
  rewrite E. exact Htr.
Defined.
(** ** Raw sectors of the SD card *)

Lemma be24_decode (a : Z) : 0 <= a <= 0x00ffffff -> decode24 (be24 a) = a.
Proof.
  intros Ha. unfold decode24, be24. cbn [nth].
  change 255 with (Z.ones 8). rewrite !Z.land_ones by lia.
  rewrite !Z.shiftr_div_pow2 by lia.
  change (2 ^ 16) with 65536. change (2 ^ 8) with 256.
  Z.div_mod_to_equations. lia.
Qed.


(** X15.  The raw sector commands refuse a sector address above 0x00ffffff
    (SDReadSectRaw also a buffer of fewer than 512 bytes, SDWriteSectRaw
    a data length other than 512): the result is -1 and nothing is
    touched.  An accepted address goes out as three bytes, high byte
    first, from which it can be read back: '@','R' and the address, or
    '@','W', the address and the 512 data bytes.  SDReadSectRaw then
    returns the result of its one read: -1, or the number of bytes
    stored, which is at most 512 and need not be 512. *)
Theorem SD_sector_transfer (sectaddr : Z) (s : PGD.t) (w : World) :
  PGD.state s = LCD_IDLE -> 0 <= sectaddr ->
  (sectaddr <= 0x00ffffff -> decode24 (be24 sectaddr) = sectaddr)
  /\ (forall datalen r got s' w',
      PGD.SDReadSectRaw sectaddr datalen s w = (r, got, s', w') ->
      (~ (512 <= datalen /\ sectaddr <= 0x00ffffff) ->
       got = [] /\ refused s w r s' w')
      /\ (512 <= datalen /\ sectaddr <= 0x00ffffff ->
          sends ([ch "@"%char; ch "R"%char] ++ be24 sectaddr) s w r w'
          /\ (r = -2 \/ r = -1 \/ 0 <= r <= 512)
          /\ (0 <= r -> r = Z.of_nat (List.length got))))
  /\ (forall data datalen r s' w',
      512 <= Z.of_nat (List.length data) ->
      PGD.SDWriteSectRaw sectaddr data datalen s w = (r, s', w') ->
      (~ (datalen = 512 /\ sectaddr <= 0x00ffffff) -> refused s w r s' w')
      /\ (datalen = 512 /\ sectaddr <= 0x00ffffff ->
          sends ([ch "@"%char; ch "W"%char] ++ be24 sectaddr ++ firstn 512 data)
                s w r w')).
Proof.
  intros Hs Hpos. split; [intros Ha; apply be24_decode; lia|]. split.
  - intros datalen r got s' w'. unfold PGD.SDReadSectRaw. rewrite Hs.
    cbv beta iota delta [LCDSTATE_eqb].
    destruct (Z.ltb_spec datalen 512) as [Hd|Hd].
    { intros [= <- <- <- <-]. split; [|lia]. intros _. repeat split. }
    destruct (Z.ltb_spec 0x00ffffff sectaddr) as [Ha|Ha].
    { intros [= <- <- <- <-]. split; [|lia]. intros _. repeat split. }
    destruct (COMPORT.Flush (PGD.port s) w) as [[rf pf] wf] eqn:Hfl.
    apply Flush_spec in Hfl. destruct Hfl as [-> ->].
    cbn [PGD.port PGD.set_port].
    change (PGD.poke 4 (Z.land sectaddr 255)
              (PGD.poke 3 (Z.land (Z.shiftr sectaddr 8) 255)
                 (PGD.poke 2 (Z.land (Z.shiftr sectaddr 16) 255)
                    (PGD.chars "@R   " ++ [0]))))
      with ([ch "@"%char; ch "R"%char] ++ be24 sectaddr ++ [0]).
    destruct (COMPORT.Write (PGD.port s) w
                ([ch "@"%char; ch "R"%char] ++ be24 sectaddr ++ [0]) 5)
      as [[res p] w1] eqn:Hwr.
    destruct (sent_after_Write _ _ _ _ _ _ _ Hwr) as (Hfd & Hpre & Hall).
    change (firstn (Z.to_nat 5) ([ch "@"%char; ch "R"%char] ++ be24 sectaddr ++ [0]))
      with ([ch "@"%char; ch "R"%char] ++ be24 sectaddr) in Hpre, Hall.
    assert (Hok : COMPORT.fd (PGD.port s) <> -1 -> wr w = [] -> res = 5).
    { intros Ho Hw.
      rewrite (Write_ok _ _ _ _ Ho Hw) in Hwr by (simpl; lia). congruence. }
    intros Hcall. split; [lia|]. intros _. revert Hcall.
    destruct (Z.eqb_spec res 5) as [->|Hne]; simpl negb; cbv iota.
    + destruct (COMPORT.Read _ w1 512 500)
        as [[[nb got0] p2] w2] eqn:Hrd.
      assert (Hlen : (List.length got0 <= 512)%nat)
        by (apply Read_at_most in Hrd; lia).
      apply Read_frame in Hrd. destruct Hrd as (_ & (Htr & _) & Hnb & Hgot).
      intros [= <- <- <- <-].
      assert (Hsent : sent w2 = sent w1) by (unfold sent; now rewrite Htr).
      rewrite <- Hsent in Hall, Hpre.
      split; [|split].
      * split; [exact Hpre|]. split; intros; apply Hall; lia.
      * destruct Hnb as [->|Hnb]; [auto|]. right; right.
        rewrite (Hgot ltac:(lia)). lia.
      * intros Hr. apply Hgot. lia.
    + intros Hcall.
      assert (Hr : (r = -2 \/ r = -1) /\ w' = w1)
        by (destruct (0 <? res); injection Hcall as <- <- <- <-; auto).
      destruct Hr as [Hr ->].
      split; [|split].
      * split; [exact Hpre|]. split; [lia|]. intros Ho Hw. elim Hne. auto.
      * destruct Hr; auto.
      * lia.
  - intros data datalen r s' w' Hdata. unfold PGD.SDWriteSectRaw. rewrite Hs.
    cbv beta iota delta [LCDSTATE_eqb].
    destruct (Z.ltb_spec 0x00ffffff sectaddr) as [Ha|Ha].
    { intros Hcall. split; [intros _; eapply refused_intro; eauto|lia]. }
    destruct (Z.eqb_spec datalen 512) as [Hd|Hd]; simpl negb; cbv iota.
    2:{ intros Hcall. split; [intros _; eapply refused_intro; eauto|lia]. }
    destruct (COMPORT.Flush (PGD.port s) w) as [[rf pf] wf] eqn:Hfl.
    apply Flush_spec in Hfl. destruct Hfl as [-> ->]. intros Hcall.
    split; [lia|]. intros _.
    set (buf := PGD.poke 4 (Z.land sectaddr 255)
                  (PGD.poke 3 (Z.land (Z.shiftr sectaddr 8) 255)
                     (PGD.poke 2 (Z.land (Z.shiftr sectaddr 16) 255)
                        (PGD.poke 1 (ch "W"%char)
                           (PGD.poke 0 (ch "@"%char) (repeat 0 520)))))) in *.
    assert (Hbuf : List.length buf = 520%nat) by reflexivity.
    assert (Hhead : firstn 5 buf = [ch "@"%char; ch "W"%char] ++ be24 sectaddr)
      by reflexivity.
    assert (Hbs : List.length (firstn 512 data) = 512%nat)
      by (rewrite length_firstn; lia).
    assert (Hcmd : List.length (PGD.store_at buf 5 (firstn 512 data)) = 520%nat).
    { unfold PGD.store_at. rewrite !length_app, length_firstn, length_skipn. lia. }
    apply (write_then_wait (PGD.set_port (PGD.port s) s) w _ 517 200) in Hcall;
      [|rewrite Hcmd; lia].
    destruct Hcall as [Hsends _].
    assert (Hfr : firstn (5 + List.length (firstn 512 data))
                    (PGD.store_at buf 5 (firstn 512 data))
                  = firstn 5 buf ++ firstn 512 data)
      by (apply (store_at_frame buf (firstn 512 data) 5); lia).
    rewrite Hbs in Hfr. change (Z.to_nat 517) with (5 + 512)%nat in Hsends.
    rewrite Hfr, Hhead, <- app_assoc in Hsends. exact Hsends.
Qed.

Lemma SD_sector_transfer_witness :
  let w := Samples.world [RxData 900 [1; 2; 3]] in
  PGD.state Samples.idle = LCD_IDLE /\ 0 <= 0x010203
  /\ decode24 (be24 0x010203) = 0x010203
  /\ sends [ch "@"%char; ch "R"%char; 1; 2; 3] Samples.idle w 3
           (snd (PGD.SDReadSectRaw 0x010203 512 Samples.idle w)).
Proof.
  intros w.
  assert (H1 : PGD.state Samples.idle = LCD_IDLE) by reflexivity.
  assert (H2 : 0 <= 0x010203) by lia.
  assert (Hv : 512 <= 512 /\ 0x010203 <= 0x00ffffff) by lia.
  assert (E : PGD.SDReadSectRaw 0x010203 512 Samples.idle w
              = (3, [1; 2; 3], snd (fst (PGD.SDReadSectRaw 0x010203 512 Samples.idle w)),
                 snd (PGD.SDReadSectRaw 0x010203 512 Samples.idle w)))
    by (vm_compute; reflexivity).
  destruct (SD_sector_transfer 0x010203 Samples.idle w H1 H2) as (Hd & Hr & _).
  split; [exact H1|]. split; [exact H2|]. split; [exact (Hd (proj2 Hv))|].
  exact (proj1 (proj2 (Hr 512 _ _ _ _ E) Hv)).
Defined.

(** One iteration of Process on deferred touch data when the rest of the
    answer is there within the 100 ms of the read: the bytes are stored
    after those already received and the command completes. *)
Lemma Process_touch_chunk (s : PGD.t) (w : World) (dt : N) (bs : list Z)
      (r : list RxEvent) :
  PGD.halt s = false -> PGD.state s = LCD_BUSY -> PGD.curcmd s = PG_TOUCH_DATA ->
  COMPORT.fd (PGD.port s) <> -1 -> PGD.brcv s < 4 ->
  rx w = RxData dt bs :: r -> Z.of_N dt < 100000 ->
  4 - PGD.brcv s <= Z.of_nat (List.length bs) ->
  let got := firstn (Z.to_nat (4 - PGD.brcv s)) bs in
  let d := PGD.store_at (PGD.datain s) (PGD.brcv s) got in
  let w1 := usleep (Z.of_N dt) (set_rx (rx_after (Z.to_nat (4 - PGD.brcv s)) bs r) w) in
  let s1 := PGD.set_brcv (PGD.brcv s + (4 - PGD.brcv s))
              (PGD.set_port (PGD.port s) (PGD.set_datain d s)) in
  PGD.Process s w
  = match PGD.curdata s with
    | Some sp =>
        PGD.complete s1
          (emit (EvStore sp (PGD.be16_of (nth 0 d 0) (nth 1 d 0))
                            (PGD.be16_of (nth 2 d 0) (nth 3 d 0))) w1)
          PG_TOUCH_DATA true
    | None =>
        PGD.complete (PGD.ERRMSG "Process" "data pointer is NULL" s1) w1
          PG_TOUCH_DATA false
    end.
Proof.
  intros Hh Hst Hcmd Hfd Hbr Hrx Hdt Hbs. cbv zeta.
  unfold PGD.Process. rewrite Hh, Hst, Hcmd. cbv beta iota delta [LCDSTATE_eqb negb].
  rewrite (Read_chunk (PGD.port s) w (4 - PGD.brcv s) 100 dt bs r Hfd) by (assumption || lia).
  cbn [PGD.port PGD.set_port PGD.brcv PGD.set_brcv PGD.set_datain PGD.datain PGD.curdata].
  destruct (Z.ltb_spec (4 - PGD.brcv s) 0) as [|_]; [lia|].
  destruct (Z.eqb_spec (4 - PGD.brcv s) 0) as [|_]; [lia|].
  destruct (Z.eqb_spec (PGD.brcv s + (4 - PGD.brcv s)) 4) as [_|]; [|lia].
  reflexivity.
Qed.

(** One iteration of Process on deferred touch data when only a piece of
    the answer comes within the 100 ms of the read: the piece is stored,
    the read waits [us] more for the rest, and the command stays
    pending. *)
Lemma Process_touch_piece (s : PGD.t) (w : World) (dt : N) (bs : list Z)
      (r : list RxEvent) :
  PGD.halt s = false -> PGD.state s = LCD_BUSY -> PGD.curcmd s = PG_TOUCH_DATA ->
  COMPORT.fd (PGD.port s) <> -1 ->
  rx w = RxData dt bs :: r -> Z.of_N dt < 100000 -> bs <> [] ->
  PGD.brcv s + Z.of_nat (List.length bs) < 4 -> quiet 100000 r ->
  exists us,
    PGD.Process s w
    = (0, PGD.set_brcv (PGD.brcv s + Z.of_nat (List.length bs))
            (PGD.set_port (PGD.port s)
               (PGD.set_datain (PGD.store_at (PGD.datain s) (PGD.brcv s) bs) s)),
       usleep (Z.of_N dt + us) (set_rx (COMPORT.rx_waited us r) w))
    /\ 0 <= us /\ 99000 - Z.of_N dt < us < 101000 - Z.of_N dt.
Proof.
  intros Hh Hst Hcmd Hfd Hrx Hdt Hbs Hlen Hq.
  destruct (Read_short (PGD.port s) w (4 - PGD.brcv s) 100 dt bs r Hfd Hrx)
    as (us & Hrd & Hus0 & Hus); [lia|lia|exact Hq|].
  exists us. split; [|lia].
  unfold PGD.Process. rewrite Hh, Hst, Hcmd. cbv beta iota delta [LCDSTATE_eqb negb].
  rewrite Hrd.
  cbn [PGD.port PGD.set_port PGD.brcv PGD.set_brcv PGD.set_datain PGD.datain PGD.curdata].
  assert (0 < Z.of_nat (List.length bs)) by (destruct bs; [congruence|simpl; lia]).
  destruct (Z.ltb_spec (Z.of_nat (List.length bs)) 0) as [|_]; [lia|].
  destruct (Z.eqb_spec (Z.of_nat (List.length bs)) 0) as [|_]; [lia|].
  destruct (Z.eqb_spec (PGD.brcv s + Z.of_nat (List.length bs)) 4) as [|_]; [lia|].
  reflexivity.
Qed.

Lemma GetTouch_defers (mode : Z) (points : option Z) (s : PGD.t) (w : World) :
  PGD.state s = LCD_IDLE -> COMPORT.fd (PGD.port s) <> -1 -> wr w = [] -> mode <= 3 ->
  PGD.GetTouch mode points s w
  = (2,
     PGD.set_state LCD_BUSY
       (PGD.set_brcv 0
          (PGD.set_curdata points
             (PGD.set_curcmd PG_TOUCH_DATA
                (PGD.set_port (PGD.port s) (PGD.set_port (PGD.port s) s))))),
     emit (EvTx [ch "o"%char; mode]) w).
Proof.
  intros Hs Hfd Hwr Hm. unfold PGD.GetTouch. rewrite Hs.
  cbv beta iota delta [LCDSTATE_eqb].
  destruct (COMPORT.Flush (PGD.port s) w) as [[rf pf] wf] eqn:Hfl.
  apply Flush_spec in Hfl. destruct Hfl as [-> ->].
  cbn [PGD.port PGD.set_port].
  rewrite (Write_ok (PGD.port s) w _ 2 Hfd Hwr) by (simpl; lia).
  cbn [negb Z.eqb Pos.eqb].
  destruct (Z.leb_spec mode 3) as [_|]; [reflexivity|lia].
Qed.

Ltac pos_to_nat :=
  repeat match goal with
         | |- context [Pos.to_nat ?p] =>
             let n := eval vm_compute in (Pos.to_nat p) in
             change (Pos.to_nat p) with n
         end.

(** X16.  A touch answer that arrives in two pieces.  GetTouch in a mode up to
    3 sends 'o' and the mode, returns 2 and leaves the controller Busy.
    The first piece comes within the 100 ms of the read of the first
    iteration of Process and the second one only after that read has
    given up: the first iteration stores the first piece and stays Busy
    without any event.  The second piece comes within the read of the
    second iteration: it takes the rest of the four bytes, stores the two
    coordinates (first byte times 256 plus second byte), calls the
    handler with PG_TOUCH_DATA and success, and leaves the controller
    Idle.  Bytes after the fourth stay queued. *)
Theorem touch_answer_in_two_pieces (mode sp : Z) (s : PGD.t) (w : World)
        (d1 d2 : N) (a b more : list Z) (rest : list RxEvent) (b0 b1 b2 b3 : Z) :
  PGD.state s = LCD_IDLE -> PGD.halt s = false ->
  List.length (PGD.datain s) = 4%nat ->
  COMPORT.fd (PGD.port s) <> -1 -> wr w = [] -> mode <= 3 ->
  a <> [] -> (List.length a < 4)%nat ->
  a ++ b = b0 :: b1 :: b2 :: b3 :: more ->
  is_byte b0 -> is_byte b1 -> is_byte b2 -> is_byte b3 ->
  rx w = RxData d1 a :: RxData d2 b :: rest ->
  Z.of_N d1 < 100000 -> 100000 <= Z.of_N d2 -> Z.of_N d1 + Z.of_N d2 <= 199000 ->
  let '(r0, s1, w1) := PGD.GetTouch mode (Some sp) s w in
  let '(r1, s2, w2) := PGD.Process s1 w1 in
  let '(r2, s3, w3) := PGD.Process s2 w2 in
  r0 = 2 /\ PGD.state s1 = LCD_BUSY
  /\ r1 = 0 /\ PGD.state s2 = LCD_BUSY /\ trace w2 = trace w1
  /\ r2 = 0 /\ PGD.state s3 = LCD_IDLE /\ PGD.curcmd s3 = PG_NONE
  /\ trace w3 = trace w ++ [EvTx [ch "o"%char; mode];
                            EvStore sp (256 * b0 + b1) (256 * b2 + b3)]
                        ++ fired s PG_TOUCH_DATA true
  /\ rx w3 = match more with [] => rest | _ => RxData 0 more :: rest end.
Proof.
  intros Hs Hh Hlen Hfd Hwr Hm Ha Hla Hab B0 B1 B2 B3 Hrx Hd1 Hd2 Hd12.
  rewrite (GetTouch_defers mode (Some sp) s w Hs Hfd Hwr Hm).
  set (s1 := PGD.set_state LCD_BUSY _).
  set (w1 := emit (EvTx [ch "o"%char; mode]) w).
  destruct (PGD.datain s) as [|x0 [|x1 [|x2 [|x3 [|x4 xs]]]]] eqn:Hd;
    try discriminate Hlen. clear Hlen.
  assert (Hrx1 : rx w1 = RxData d1 a :: RxData d2 b :: rest) by exact Hrx.
  assert (Hcb : forall (s0 : PGD.t) (w0 : World) (evs : list Event),
            PGD.callback s0 = PGD.callback s -> PGD.usrobj s0 = PGD.usrobj s ->
            trace w0 = trace w ++ evs ->
            trace (PGD.invoke_callback
                     (PGD.set_state LCD_IDLE (PGD.set_curcmd PG_NONE s0)) w0
                     PG_TOUCH_DATA true)
            = trace w ++ evs ++ fired s PG_TOUCH_DATA true).
  { intros s0 w0 evs Hc Hu Ht. unfold PGD.invoke_callback, fired.
    cbn [PGD.callback PGD.usrobj PGD.state PGD.curcmd PGD.set_state PGD.set_curcmd].
    rewrite Hc, Hu. destruct (PGD.callback s); simpl; rewrite Ht.
    - now rewrite <- app_assoc.
    - now rewrite app_nil_r. }
  assert (Hq : quiet 100000 (RxData d2 b :: rest)) by exact Hd2.
  destruct a as [|a0 [|a1 [|a2 [|a3 a]]]]; [congruence| | | |simpl in Hla; lia];
    simpl in Hab;
    [injection Hab as -> -> |injection Hab as -> -> -> |injection Hab as -> -> -> ->].
  all: destruct (Process_touch_piece s1 w1 d1 _ _ Hh eq_refl eq_refl Hfd Hrx1 Hd1
                   ltac:(discriminate) ltac:(simpl; lia) Hq) as (us & -> & Hus0 & Hus);
    unfold s1; cbn -[PGD.be16_of fired ch PGD.invoke_callback PGD.Process N.sub Z.to_N];
    pos_to_nat; cbn -[PGD.be16_of fired ch PGD.invoke_callback PGD.Process N.sub Z.to_N].
  all: assert (Hd2' : Z.of_N (d2 - Z.to_N us) < 100000) by lia.
  all: match goal with
       | |- context [PGD.Process ?s2 ?w2] =>
           rewrite (Process_touch_chunk s2 w2 (d2 - Z.to_N us) _ rest Hh eq_refl eq_refl Hfd
                      ltac:(simpl; lia) eq_refl Hd2' ltac:(simpl; lia))
       end.
  all: cbn -[PGD.be16_of fired ch PGD.invoke_callback PGD.Process Z.mul Z.add N.sub Z.to_N];
    pos_to_nat;
    cbn -[PGD.be16_of fired ch PGD.invoke_callback PGD.Process Z.mul Z.add N.sub Z.to_N].
  all: rewrite Hd; cbn -[PGD.be16_of fired ch PGD.invoke_callback Z.mul Z.add N.sub Z.to_N];
    rewrite !be16_of_bytes by assumption.
  all: split; [reflexivity|]; split; [reflexivity|]; split; [reflexivity|];
    split; [reflexivity|]; split; [reflexivity|]; split; [reflexivity|];
    split; [reflexivity|]; split; [reflexivity|]; split;
    [apply (Hcb _ _ [EvTx [ch "o"%char; mode]; EvStore sp _ _]);
       [reflexivity|reflexivity|simpl; rewrite <- app_assoc; reflexivity]
    |unfold PGD.invoke_callback; simpl; destruct (PGD.callback s); destruct more;
       reflexivity].
Qed.

Lemma touch_answer_in_two_pieces_witness :
  let s := PGD.set_callback (Some 4096) 77 Samples.idle in
  let w := Samples.world [RxData 500 [0; 120; 1]; RxData 100300 [44]] in
  PGD.state s = LCD_IDLE /\ PGD.halt s = false
  /\ Z.of_N 500 < 100000 /\ 100000 <= Z.of_N 100300
  /\ Z.of_N 500 + Z.of_N 100300 <= 199000
  /\ (let '(r0, s1, w1) := PGD.GetTouch 0 (Some 8192) s w in
      let '(r1, s2, w2) := PGD.Process s1 w1 in
      let '(r2, s3, w3) := PGD.Process s2 w2 in
      r0 = 2 /\ PGD.state s1 = LCD_BUSY
      /\ r1 = 0 /\ PGD.state s2 = LCD_BUSY /\ trace w2 = trace w1
      /\ r2 = 0 /\ PGD.state s3 = LCD_IDLE /\ PGD.curcmd s3 = PG_NONE
      /\ trace w3 = trace w ++ [EvTx [ch "o"%char; 0];
                                EvStore 8192 (256 * 0 + 120) (256 * 1 + 44)]
                            ++ fired s PG_TOUCH_DATA true
      /\ rx w3 = []).
Proof.
  intros s w.
  assert (H1 : PGD.state s = LCD_IDLE) by reflexivity.
  assert (H2 : PGD.halt s = false) by reflexivity.
  assert (H3 : List.length (PGD.datain s) = 4%nat) by reflexivity.
  assert (H4 : COMPORT.fd (PGD.port s) <> -1) by (vm_compute; discriminate).
  assert (H5 : wr w = []) by reflexivity.
  assert (H6 : 0 <= 3) by lia.
  assert (H7 : [0; 120; 1] <> []) by discriminate.
  assert (H8 : (List.length [0; 120; 1] < 4)%nat) by (simpl; lia).
  assert (H9 : [0; 120; 1] ++ [44] = 0 :: 120 :: 1 :: 44 :: []) by reflexivity.
  assert (B : is_byte 0 /\ is_byte 120 /\ is_byte 1 /\ is_byte 44)
    by (unfold is_byte; lia).
  destruct B as (B0 & B1 & B2 & B3).
  assert (H10 : rx w = RxData 500 [0; 120; 1] :: RxData 100300 [44] :: []) by reflexivity.
  assert (T1 : Z.of_N 500 < 100000) by (simpl; lia).
  assert (T2 : 100000 <= Z.of_N 100300) by (simpl; lia).
  assert (T3 : Z.of_N 500 + Z.of_N 100300 <= 199000) by (simpl; lia).
  split; [exact H1|]. split; [exact H2|].
  split; [exact T1|]. split; [exact T2|]. split; [exact T3|].
  exact (touch_answer_in_two_pieces 0 8192 s w 500 100300 [0; 120; 1] [44] [] [] 0 120 1 44
           H1 H2 H3 H4 H5 H6 H7 H8 H9 B0 B1 B2 B3 H10 T1 T2 T3).
Defined.

(** ** Commands that defer their completion *)

(** X17.  Suspend and WaitTouch defer only on result 2.  WaitTouch sends 'w'
    and the timeout, high byte first; when it returns 2 the controller is
    Busy with PG_TOUCH_WAIT, and on any other result it is Idle with its
    record untouched.  Suspend leaves the controller Busy with PG_SLEEP
    when it returns 2 and a wake-up condition (the low four option bits)
    was given; when it returns 2 without one, as on any other result, the
    controller stays Idle and no completion is pending. *)
Theorem deferral_on_timeout (s : PGD.t) (w : World) :
  PGD.state s = LCD_IDLE ->
  (forall options duration r s' w',
     PGD.Suspend options duration s w = (r, s', w') ->
     cmd_code r
     /\ (r = 2 /\ Z.land options 0x0f <> 0 -> deferred PG_SLEEP s')
     /\ (r <> 2 \/ Z.land options 0x0f = 0 -> still_idle s s'))
  /\ (forall timeout r s' w',
     PGD.WaitTouch timeout s w = (r, s', w') ->
     cmd_code r
     /\ sends (ch "w"%char :: be16 timeout) s w r w'
     /\ (r = 2 -> deferred PG_TOUCH_WAIT s')
     /\ (r <> 2 -> still_idle s s')).
Proof.
  intros Hs. unfold cmd_code, deferred, still_idle. split.
  - intros options duration r s' w'. unfold PGD.Suspend. rewrite Hs.
    cbv beta iota delta [LCDSTATE_eqb].
    destruct (negb (Z.land options 16 =? 0)).
    { intros [= <- <- <-]. split; [auto|]. split; [intros [? _]; lia|]. auto. }
    destruct (Z.land options 47 =? 34).
    { intros [= <- <- <-]. split; [auto|]. split; [intros [? _]; lia|]. auto. }
    destruct (COMPORT.Flush (PGD.port s) w) as [[rf pf] wf] eqn:Hfl.
    apply Flush_spec in Hfl. destruct Hfl as [-> ->].
    destruct (COMPORT.Write _ w _ 3) as [[res p] w1].
    destruct (negb (res =? 3)).
    { destruct (0 <? res); intros [= <- <- <-]; (split; [auto|]);
        (split; [intros [? _]; lia|]); auto. }
    destruct (PGD.waitACKNACK 100 _ w1) as [[a s2] w2] eqn:Hw.
    apply waitACKNACK_frame in Hw.
    destruct Hw as ((_ & Hst & _ & _ & Hcmd & Hdata & _) & _ & _).
    cbn [PGD.state PGD.curcmd PGD.curdata PGD.set_port] in Hst, Hcmd, Hdata.
    destruct (a =? 0).
    { intros [= <- <- <-]. split; [auto 6|]. split; [intros [? _]; lia|].
      intros _. repeat split; congruence. }
    destruct (a =? 1).
    { intros [= <- <- <-]. split; [auto 6|]. split; [intros [? _]; lia|].
      intros _. repeat split; congruence. }
    destruct (a =? 2).
    2:{ intros [= <- <- <-]. split; [auto 6|]. split; [intros [? _]; lia|].
        intros _. repeat split; congruence. }
    destruct (Z.eqb_spec (Z.land options 15) 0) as [H15|H15]; simpl negb; cbv iota;
      intros [= <- <- <-]; (split; [auto 6|]).
    + split; [intros [_ ?]; contradiction|]. intros _. repeat split; congruence.
    + split; [intros _; repeat split|]. intros [?|?]; [lia|contradiction].
  - intros timeout r s' w'. unfold PGD.WaitTouch. rewrite Hs.
    cbv beta iota delta [LCDSTATE_eqb].
    destruct (COMPORT.Flush (PGD.port s) w) as [[rf pf] wf] eqn:Hfl.
    apply Flush_spec in Hfl. destruct Hfl as [-> ->].
    change (PGD.poke 2 (Z.land timeout 255)
              (PGD.poke 1 (Z.land (Z.shiftr timeout 8) 255) (PGD.chars "w  " ++ [0])))
      with (ch "w"%char :: be16 timeout ++ [0]).
    intros Hcall.
    assert (Hsends : sends (ch "w"%char :: be16 timeout) s w r w').
    { revert Hcall.
      set (k := fun (s1 : PGD.t) (w1 : World) =>
                  let '(a, s2, w2) := PGD.waitACKNACK 0 s1 w1 in
                  if a =? 0 then (0, s2, w2)
                  else if a =? 1 then (1, s2, w2)
                  else if a =? 2
                       then (2, PGD.set_state LCD_BUSY
                                  (PGD.set_curdata None (PGD.set_curcmd PG_TOUCH_WAIT s2)),
                             w2)
                       else (-1, s2, w2)).
      intros Hcall.
      assert (Hk : forall s1 w1 r0 s0 w0, k s1 w1 = (r0, s0, w0) ->
                sent w0 = sent w1 /\ (r0 = -1 \/ 0 <= r0)).
      { intros s1 w1 r0 s0 w0. unfold k.
        destruct (PGD.waitACKNACK 0 s1 w1) as [[a s2] w2] eqn:Hw.
        apply sent_after_wait in Hw.
        destruct (a =? 0); [intros [= <- <- <-]; split; [auto|lia]|].
        destruct (a =? 1); [intros [= <- <- <-]; split; [auto|lia]|].
        destruct (a =? 2); intros [= <- <- <-]; split; auto; lia. }
      destruct (COMPORT.Write (PGD.port (PGD.set_port (PGD.port s) s)) w
                  (ch "w"%char :: be16 timeout ++ [0]) 3) as [[res p] w1] eqn:Hwr.
      destruct (sent_after_Write _ _ _ _ _ _ _ Hwr) as (Hfd & Hpre & Hall).
      change (firstn (Z.to_nat 3) (ch "w"%char :: be16 timeout ++ [0]))
        with (ch "w"%char :: be16 timeout) in Hpre, Hall.
      assert (Hok : COMPORT.fd (PGD.port s) <> -1 -> wr w = [] -> res = 3).
      { intros Ho Hw.
        rewrite (Write_ok _ _ _ _ Ho Hw) in Hwr by (simpl; lia). congruence. }
      destruct (Z.eqb_spec res 3) as [->|Hne]; simpl negb; cbv iota in Hcall |- *.
      - apply Hk in Hcall. destruct Hcall as [Hsent _]. rewrite <- Hsent in Hall, Hpre.
        split; [exact Hpre|]. split; intros; apply Hall; lia.
      - assert (Hr : r < 0 /\ w' = w1)
          by (destruct (0 <? res); injection Hcall as <- <- <-; split; auto; lia).
        destruct Hr as [Hr ->].
        split; [exact Hpre|]. split; [lia|]. intros Ho Hw. elim Hne. auto. }
    split; [|split; [exact Hsends|]]; revert Hcall;
      destruct (COMPORT.Write _ w _ 3) as [[res p] w1];
      (destruct (negb (res =? 3));
       [destruct (0 <? res); intros [= <- <- <-]; try (split; intros; try lia);
          auto 6|]);
      destruct (PGD.waitACKNACK 0 _ w1) as [[a s2] w2] eqn:Hw;
      apply waitACKNACK_frame in Hw;
      destruct Hw as ((_ & Hst & _ & _ & Hcmd & Hdata & _) & _ & _);
      cbn [PGD.state PGD.curcmd PGD.curdata PGD.set_port] in Hst, Hcmd, Hdata;
      (destruct (a =? 0); [intros [= <- <- <-]|
       destruct (a =? 1); [intros [= <- <- <-]|
       destruct (a =? 2); intros [= <- <- <-]]]);
      auto 6; split; intros; try lia; repeat split; congruence.
Qed.

Lemma deferral_on_timeout_witness :
  let w := Samples.world [] in
  PGD.state Samples.idle = LCD_IDLE
  /\ fst (fst (PGD.WaitTouch 1000 Samples.idle w)) = 2
  /\ deferred PG_TOUCH_WAIT (snd (fst (PGD.WaitTouch 1000 Samples.idle w))).
Proof.
  intros w.
  assert (H1 : PGD.state Samples.idle = LCD_IDLE) by reflexivity.
  assert (E : PGD.WaitTouch 1000 Samples.idle w
              = (2, snd (fst (PGD.WaitTouch 1000 Samples.idle w)),
                 snd (PGD.WaitTouch 1000 Samples.idle w)))
    by (vm_compute; reflexivity).
  split; [exact H1|]. split; [rewrite E; reflexivity|].
  destruct (proj2 (deferral_on_timeout Samples.idle w H1) 1000 _ _ _ E)
    as (_ & _ & H & _).
  exact (H eq_refl).
Defined.

(** ** Waiting for one kind of answer *)

Lemma before_deadline_strict_weaken (now tov : timeval) :
  PGD.before_deadline_strict now tov = true -> PGD.before_deadline now tov = true.
Proof.
  unfold PGD.before_deadline_strict, PGD.before_deadline. intros H.
  apply orb_true_iff in H. apply orb_true_iff. destruct H as [H|H]; [left; exact H|].
  right. apply andb_true_iff in H. destruct H as [H1 H2].
  apply andb_true_iff. split; [exact H1|]. apply Z.ltb_lt in H2. apply Z.leb_le. lia.
Qed.

(** The turns [waitACK] and [waitNACK] hand to their loops are never used up. *)
Lemma waitACK_loop_total (turns : nat) :
  forall tov s w,
  (PGD.rx_size (rx w) + ticks tov w < turns)%nat ->
  PGD.waitACK_loop turns tov (gettimeofday w) s w <> None.
Proof.
  induction turns as [|turns IH]; intros tov s w Hm; [lia|]. simpl.
  destruct (PGD.before_deadline_strict (gettimeofday w) tov) eqn:Hb; [|discriminate].
  apply before_deadline_strict_weaken in Hb.
  destruct (COMPORT.Read (PGD.port s) w 64 10) as [[[nb msg] p] w1] eqn:Hrd.
  destruct (Z.eqb_spec nb (-1)) as [|Hnb]; [discriminate|].
  destruct (existsb _ msg); [discriminate|].
  apply IH.
  assert (Hfd := Read_open _ _ _ _ _ _ _ _ Hrd Hnb).
  destruct (Read_progress _ _ 64 10 Hfd ltac:(lia) ltac:(lia) _ _ _ _ Hrd)
    as (Hnow & Hle & [Hdat|Hsil] & _).
  - assert (Hs := ticks_mono tov w w1 Hnow). lia.
  - assert (Hs := ticks_step tov w w1 Hb Hsil). lia.
Qed.

Lemma waitNACK_loop_total (turns : nat) :
  forall tov s w,
  (PGD.rx_size (rx w) + ticks tov w < turns)%nat ->
  PGD.waitNACK_loop turns tov (gettimeofday w) s w <> None.
Proof.
  induction turns as [|turns IH]; intros tov s w Hm; [lia|]. simpl.
  destruct (PGD.before_deadline_strict (gettimeofday w) tov) eqn:Hb; [|discriminate].
  apply before_deadline_strict_weaken in Hb.
  destruct (COMPORT.Read (PGD.port s) w 64 10) as [[[nb msg] p] w1] eqn:Hrd.
  destruct (Z.eqb_spec nb (-1)) as [|Hnb]; [discriminate|].
  destruct (existsb _ msg); [discriminate|].
  apply IH.
  assert (Hfd := Read_open _ _ _ _ _ _ _ _ Hrd Hnb).
  destruct (Read_progress _ _ 64 10 Hfd ltac:(lia) ltac:(lia) _ _ _ _ Hrd)
    as (Hnow & Hle & [Hdat|Hsil] & _).
  - assert (Hs := ticks_mono tov w w1 Hnow). lia.
  - assert (Hs := ticks_step tov w w1 Hb Hsil). lia.
Qed.

(** PGD::waitACK and PGD::waitNACK always return what their loops compute. *)
Lemma waitACK_returns (timeout : Z) (s : PGD.t) (w : World) :
  let tov := PGD.deadline (gettimeofday w) (if timeout <? 2 then 2 else timeout) in
  PGD.waitACK_loop (PGD.waitACKNACK_turns tov w) tov (gettimeofday w) s w
  = Some (PGD.waitACK timeout s w).
Proof.
  intros tov. unfold PGD.waitACK. fold tov.
  destruct (PGD.waitACK_loop _ _ _ s w) as [r|] eqn:Hloop; [reflexivity|].
  exfalso. revert Hloop. apply waitACK_loop_total.
  unfold PGD.waitACKNACK_turns, ticks. lia.
Qed.

Lemma waitNACK_returns (timeout : Z) (s : PGD.t) (w : World) :
  let tov := PGD.deadline (gettimeofday w) (if timeout <? 2 then 2 else timeout) in
  PGD.waitNACK_loop (PGD.waitACKNACK_turns tov w) tov (gettimeofday w) s w
  = Some (PGD.waitNACK timeout s w).
Proof.
  intros tov. unfold PGD.waitNACK. fold tov.
  destruct (PGD.waitNACK_loop _ _ _ s w) as [r|] eqn:Hloop; [reflexivity|].
  exfalso. revert Hloop. apply waitNACK_loop_total.
  unfold PGD.waitACKNACK_turns, ticks. lia.
Qed.

Lemma waitACK_loop_frame (turns : nat) :
  forall tov now s w r s' w',
  PGD.waitACK_loop turns tov now s w = Some (r, s', w') ->
  same_ctl s s' /\ same_line w w' /\ (r = 0 \/ r = 2 \/ r = -1).
Proof.
  induction turns as [|turns IH]; intros tov now s w r s' w'; simpl; [discriminate|].
  destruct (PGD.before_deadline_strict now tov).
  - destruct (COMPORT.Read (PGD.port s) w 64 10) as [[[nb msg] p] w1] eqn:Hrd.
    apply Read_frame in Hrd. destruct Hrd as (Hfd & Hline & _ & _).
    destruct (nb =? -1).
    + intros [= <- <- <-]. repeat split; simpl; auto; apply Hline.
    + destruct (existsb _ msg).
      * intros [= <- <- <-]. repeat split; simpl; auto; apply Hline.
      * intros Hloop. apply IH in Hloop. destruct Hloop as (Hc & Hl & Hr).
        split; [|split; [eapply same_line_trans; eauto|exact Hr]].
        eapply same_ctl_trans; [|exact Hc]. repeat split; simpl; auto.
  - intros [= <- <- <-]. repeat split; simpl; auto.
Qed.

Lemma waitNACK_loop_frame (turns : nat) :
  forall tov now s w r s' w',
  PGD.waitNACK_loop turns tov now s w = Some (r, s', w') ->
  same_ctl s s' /\ same_line w w' /\ (r = 1 \/ r = 0 \/ r = -1).
Proof.
  induction turns as [|turns IH]; intros tov now s w r s' w'; simpl; [discriminate|].
  destruct (PGD.before_deadline_strict now tov).
  - destruct (COMPORT.Read (PGD.port s) w 64 10) as [[[nb msg] p] w1] eqn:Hrd.
    apply Read_frame in Hrd. destruct Hrd as (Hfd & Hline & _ & _).
    destruct (nb =? -1).
    + intros [= <- <- <-]. repeat split; simpl; auto; apply Hline.
    + destruct (existsb _ msg).
      * intros [= <- <- <-]. repeat split; simpl; auto; apply Hline.
      * intros Hloop. apply IH in Hloop. destruct Hloop as (Hc & Hl & Hr).
        split; [|split; [eapply same_line_trans; eauto|exact Hr]].
        eapply same_ctl_trans; [|exact Hc]. repeat split; simpl; auto.
  - intros [= <- <- <-]. repeat split; simpl; auto.
Qed.

Lemma waitACK_frame (timeout : Z) (s : PGD.t) (w : World) :
  forall r s' w', PGD.waitACK timeout s w = (r, s', w') ->
  same_ctl s s' /\ same_line w w' /\ (r = 0 \/ r = 2 \/ r = -1).
Proof.
  intros r s' w' H. assert (Hr := waitACK_returns timeout s w). cbv zeta in Hr.
  rewrite H in Hr. eapply waitACK_loop_frame; eauto.
Qed.

Lemma waitNACK_frame (timeout : Z) (s : PGD.t) (w : World) :
  forall r s' w', PGD.waitNACK timeout s w = (r, s', w') ->
  same_ctl s s' /\ same_line w w' /\ (r = 1 \/ r = 0 \/ r = -1).
Proof.
  intros r s' w' H. assert (Hr := waitNACK_returns timeout s w). cbv zeta in Hr.
  rewrite H in Hr. eapply waitNACK_loop_frame; eauto.
Qed.

(** On a line that stays silent waitNACK can only run into its timeout,
    which it reports as 0. *)
Lemma waitNACK_loop_silent (turns : nat) :
  forall tov s w r s' w',
  COMPORT.fd (PGD.port s) <> -1 -> rx w = [] ->
  PGD.waitNACK_loop turns tov (gettimeofday w) s w = Some (r, s', w') ->
  r = 0.
Proof.
  induction turns as [|turns IH]; intros tov s w r s' w' Hfd Hrx; simpl; [discriminate|].
  destruct (PGD.before_deadline_strict (gettimeofday w) tov); [|intros [= <- <- <-]; auto].
  rewrite Read_quiet by (try rewrite Hrx; simpl; auto; lia).
  cbn [Z.eqb existsb]. apply IH; [exact Hfd|rewrite Hrx; reflexivity].
Qed.

Lemma before_deadline_strict_start (timeout : Z) (w : World) :
  0 <= timeout -> realistic_clock w ->
  PGD.before_deadline_strict (gettimeofday w) (PGD.deadline (gettimeofday w) timeout)
  = true.
Proof.
  intros Ht Hc.
  assert (Hs := deadline_sec_le (gettimeofday w) _ Ht).
  destruct (realistic_sec w Hc) as [Hrs Hu].
  unfold PGD.before_deadline_strict.
  destruct (Z.ltb_spec (tv_sec (gettimeofday w))
              (tv_sec (PGD.deadline (gettimeofday w) timeout))) as [|Hge];
    [reflexivity|].
  cbn [orb]. apply andb_true_iff. split; [apply Z.eqb_eq; lia|].
  apply Z.ltb_lt. lia.
Qed.

(** X18.  SDRunScriptRaw sends '@','P' and the four address bytes, high byte
    first, and then waits for a NACK only.  Its results are -2 and -1
    for a failed write, -1 for a read fault, 1 for a NACK and 0
    otherwise: on an open line that takes what it is handed, a device
    that never answers makes it return 0, and an answer that comes within
    the 200 ms of the wait, with a NACK among its first 64 bytes and
    nothing else coming in the 10 ms after it, makes it return 1. *)
Theorem SDRunScriptRaw_result (byteaddr : Z) (s : PGD.t) (w : World) :
  PGD.state s = LCD_IDLE ->
  forall r s' w', PGD.SDRunScriptRaw byteaddr s w = (r, s', w') ->
  sends ([ch "@"%char; ch "P"%char] ++ be32 byteaddr) s w r w'
  /\ (r = -2 \/ r = -1 \/ r = 0 \/ r = 1)
  /\ PGD.state s' = LCD_IDLE
  /\ (COMPORT.fd (PGD.port s) <> -1 -> wr w = [] ->
      (rx w = [] -> r = 0)
      /\ (forall dt bs rest, realistic_clock w -> rx w = RxData dt bs :: rest ->
          Z.of_N dt <= 200000 -> quiet 10000 rest ->
          In NACK (firstn 64 bs) -> r = 1)).
Proof.
  intros Hs r s' w'. unfold PGD.SDRunScriptRaw. rewrite Hs.
  cbv beta iota delta [LCDSTATE_eqb].
  destruct (COMPORT.Flush (PGD.port s) w) as [[rf pf] wf] eqn:Hfl.
  apply Flush_spec in Hfl. destruct Hfl as [-> ->].
  change (PGD.poke 5 (Z.land byteaddr 255)
            (PGD.poke 4 (Z.land (Z.shiftr byteaddr 8) 255)
               (PGD.poke 3 (Z.land (Z.shiftr byteaddr 16) 255)
                  (PGD.poke 2 (Z.land (Z.shiftr byteaddr 24) 255)
                     (PGD.chars "@P   " ++ [0])))))
    with ([ch "@"%char; ch "P"%char] ++ be32 byteaddr).
  intros Hcall.
  assert (Hk : forall s1 w1 r0 s0 w0, PGD.waitNACK 200 s1 w1 = (r0, s0, w0) ->
            sent w0 = sent w1 /\ PGD.state s0 = PGD.state s1).
  { intros s1 w1 r0 s0 w0 Hw. apply waitNACK_frame in Hw.
    destruct Hw as ((_ & Hst & _) & (Htr & _) & _).
    split; [unfold sent; now rewrite Htr|exact Hst]. }
  assert (Hsends := Hcall).
  apply (write_then (PGD.set_port (PGD.port s) s) w _ 6 _ _ (PGD.waitNACK 200))
    in Hsends; [|simpl; lia|exact Hk].
  destruct Hsends as [Hsends Hst].
  split; [exact Hsends|]. split; [|split; [rewrite Hst; exact Hs|]].
  - revert Hcall.
    destruct (COMPORT.Write _ w _ 6) as [[res p] w1].
    destruct (negb (res =? 6)); [destruct (0 <? res); intros [= <- <- <-]; auto|].
    intros Hw. apply waitNACK_frame in Hw. destruct Hw as (_ & _ & [?|[?|?]]); auto.
  - intros Hfd Hwr. revert Hcall. cbn [PGD.port PGD.set_port].
    rewrite (Write_ok (PGD.port s) w _ 6 Hfd Hwr) by (simpl; lia).
    cbn [negb Z.eqb Pos.eqb]. intros Hw. split.
    + intros Hrx. assert (Hr := waitNACK_returns 200 (PGD.set_port (PGD.port s)
                                  (PGD.set_port (PGD.port s) s))
                                  (emit (EvTx (firstn (Z.to_nat 6)
                                     ([ch "@"%char; ch "P"%char] ++ be32 byteaddr))) w)).
      cbv zeta in Hr. rewrite Hw in Hr.
      eapply waitNACK_loop_silent; [| |exact Hr]; [exact Hfd|exact Hrx].
    + intros dt bs rest Hc Hrx Hdt Hq Hin.
      assert (He : existsb (fun b => b =? NACK) (firstn 64 bs) = true).
      { apply existsb_exists. exists NACK. split; [exact Hin|reflexivity]. }
      destruct (waitNACK_answer 200
                  (PGD.set_port (PGD.port s) (PGD.set_port (PGD.port s) s))
                  (emit (EvTx (firstn (Z.to_nat 6)
                     ([ch "@"%char; ch "P"%char] ++ be32 byteaddr))) w)
                  dt bs rest Hfd Hc Hrx Hdt He Hq) as (s1 & w1 & H1).
      rewrite Hw in H1. congruence.
Qed.

Lemma SDRunScriptRaw_result_witness :
  let w := Samples.world [] in
  let w1 := Samples.world [RxData 150000 [0; NACK]] in
  PGD.state Samples.idle = LCD_IDLE
  /\ PGD.SDRunScriptRaw 0x01020304 Samples.idle w
     = (0, snd (fst (PGD.SDRunScriptRaw 0x01020304 Samples.idle w)),
        snd (PGD.SDRunScriptRaw 0x01020304 Samples.idle w))
  /\ sends [ch "@"%char; ch "P"%char; 1; 2; 3; 4] Samples.idle w 0
           (snd (PGD.SDRunScriptRaw 0x01020304 Samples.idle w))
  /\ COMPORT.fd (PGD.port Samples.idle) <> -1
  /\ realistic_clock w1 /\ Z.of_N 150000 <= 200000 /\ quiet 10000 []
  /\ fst (fst (PGD.SDRunScriptRaw 0x01020304 Samples.idle w1)) = 1.
Proof.
  intros w w1.
  assert (H1 : PGD.state Samples.idle = LCD_IDLE) by reflexivity.
  assert (E : PGD.SDRunScriptRaw 0x01020304 Samples.idle w
              = (0, snd (fst (PGD.SDRunScriptRaw 0x01020304 Samples.idle w)),
                 snd (PGD.SDRunScriptRaw 0x01020304 Samples.idle w)))
    by (vm_compute; reflexivity).
  assert (Hfd : COMPORT.fd (PGD.port Samples.idle) <> -1) by (vm_compute; discriminate).
  assert (Hc : realistic_clock w1) by (unfold realistic_clock; simpl; lia).
  assert (Hdt : Z.of_N 150000 <= 200000) by (simpl; lia).
  assert (Hq : quiet 10000 []) by exact I.
  assert (Hin : In NACK (firstn 64 [0; NACK])) by (simpl; auto).
  split; [exact H1|]. split; [exact E|].
  split; [exact (proj1 (SDRunScriptRaw_result 0x01020304 Samples.idle w H1 _ _ _ E))|].
  split; [exact Hfd|]. split; [exact Hc|]. split; [exact Hdt|]. split; [exact Hq|].
  destruct (PGD.SDRunScriptRaw 0x01020304 Samples.idle w1) as [[r1 s1] w1'] eqn:E1.
  destruct (SDRunScriptRaw_result 0x01020304 Samples.idle w1 H1 _ _ _ E1)
    as (_ & _ & _ & H).
  exact (proj2 (H Hfd eq_refl) 150000%N [0; NACK] [] Hc eq_refl Hdt Hq Hin).
Defined.

(** ** Finding the device *)

Lemma autobaud_loop_spec (i : nat) :
  forall s w r s' w', PGD.autobaud_loop i s w = (r, s', w') ->
  same_ctl s s'
  /\ (r = None \/ r = Some (-1))
  /\ exists n, (n <= i)%nat /\ sent w' = sent w ++ repeat (ch "U"%char) n
       /\ (COMPORT.fd (PGD.port s) <> -1 -> wr w = [] -> r = Some (-1) -> n = i).
Proof.
  induction i as [|i IH]; intros s w r s' w'; cbn [PGD.autobaud_loop].
  { intros [= <- <- <-]. split; [apply same_ctl_refl|]. split; [auto|].
    exists 0%nat. simpl. rewrite app_nil_r. repeat split; auto. }
  destruct (COMPORT.Flush (PGD.port s) w) as [[rf pf] wf] eqn:Hfl.
  apply Flush_spec in Hfl. destruct Hfl as [-> ->].
  cbn [PGD.port PGD.set_port].
  destruct (COMPORT.Write (PGD.port s) w (PGD.chars "U" ++ [0]) 1) as [[res p] w1] eqn:Hwr.
  assert (Hws := Write_spec _ _ _ _ _ _ _ Hwr).
  destruct Hws as (Hfd1 & _ & evs & Htr & _ & (rest & Hpre) & Hall).
  assert (Hsent1 : exists n1, (n1 <= 1)%nat
                     /\ sent w1 = sent w ++ repeat (ch "U"%char) n1
                     /\ (COMPORT.fd (PGD.port s) <> -1 -> wr w = [] ->
                         n1 = 1%nat /\ wr w1 = [] /\ res = 1)).
  { change (firstn (Z.to_nat 1) (PGD.chars "U" ++ [0])) with [ch "U"%char] in Hpre.
    unfold sent. rewrite Htr, tx_bytes_app.
    destruct (tx_bytes evs) as [|b [|b' l]] eqn:Hev; simpl in Hpre.
    - exists 0%nat. split; [lia|]. split; [reflexivity|]. intros Ho Hw.
      rewrite (Write_ok _ _ _ _ Ho Hw) in Hwr by (simpl; lia).
      injection Hwr as <- <- <-. simpl in Htr.
      apply app_inv_head in Htr. subst evs. discriminate Hev.
    - injection Hpre as -> _. exists 1%nat. split; [lia|]. split; [reflexivity|].
      intros Ho Hw. rewrite (Write_ok _ _ _ _ Ho Hw) in Hwr by (simpl; lia).
      injection Hwr as <- <- <-. auto.
    - injection Hpre as _ Habs. discriminate Habs. }
  destruct Hsent1 as (n1 & Hn1 & Hs1 & Hok1).
  cbv zeta. set (w2 := if res <? 0 then usleep 20 w1 else w1).
  assert (Hw2 : sent w2 = sent w1 /\ wr w2 = wr w1)
    by (unfold w2; destruct (res <? 0); auto).
  destruct Hw2 as [Hs2 Hwr2].
  match goal with
  | |- context [if 0 <=? res then PGD.waitACK 20 ?s0 w2 else ?e] =>
      destruct (if 0 <=? res then PGD.waitACK 20 s0 w2 else e) as [[a s3] w3] eqn:Hwa
  end.
  assert (H3 : same_ctl s s3 /\ sent w3 = sent w2 /\ wr w3 = wr w2).
  { destruct (0 <=? res).
    - apply waitACK_frame in Hwa. destruct Hwa as (Hc & (Htr3 & Hwr3 & _) & _).
      split; [|split; [unfold sent; now rewrite Htr3|exact Hwr3]].
      eapply same_ctl_trans; [|exact Hc]. repeat split; simpl; auto.
    - injection Hwa as <- <- <-. repeat split; simpl; auto. }
  destruct H3 as (Hc3 & Hs3 & Hwr3).
  destruct ((0 <=? res) && (a =? 0)).
  { intros [= <- <- <-]. split; [exact Hc3|]. split; [auto|].
    exists n1. split; [lia|]. split; [congruence|]. intros _ _ Habs. discriminate Habs. }
  destruct (Nat.eqb_spec i 0) as [->|Hi].
  { intros [= <- <- <-]. split; [|split; [auto|]].
    - eapply same_ctl_trans; [exact Hc3|]. repeat split.
    - exists n1. split; [lia|]. split; [congruence|].
      intros Ho Hw _. destruct (Hok1 Ho Hw) as (-> & _). reflexivity. }
  intros Hloop. apply IH in Hloop. destruct Hloop as (Hc & Hr & n & Hn & Hsn & Hfull).
  split; [eapply same_ctl_trans; eauto|]. split; [exact Hr|].
  exists (n1 + n)%nat. split; [lia|]. split.
  - rewrite Hsn, Hs3, Hs2, Hs1, repeat_app, app_assoc. reflexivity.
  - intros Ho Hw Hres. destruct (Hok1 Ho Hw) as (-> & Hw1 & _).
    rewrite (Hfull ltac:(destruct Hc3 as (_ & _ & _ & _ & _ & _ & _ & _ & _ & _ & Hfd3);
                          rewrite Hfd3; exact Ho)
                   ltac:(congruence) Hres).
    reflexivity.
Qed.

(** X19.  autobaud probes the device with 'U' at most four times and sends
    nothing else.  It returns 0 or -1.  On 0 the controller is Idle at
    9600 baud; on -1 its state and bit rate are as before, and on an open
    line that takes what it is handed all four probes went out.  On such
    a line one probe is enough when the answer comes within the 20 ms of
    the first wait, with an ACK among its first 64 bytes and nothing
    else coming in the 10 ms after it. *)
Theorem autobaud_probes (s : PGD.t) (w : World) :
  let '(r, s', w') := PGD.autobaud s w in
  (r = 0 \/ r = -1)
  /\ (exists n, (n <= 4)%nat /\ sent w' = sent w ++ repeat (ch "U"%char) n)
  /\ (r = 0 -> PGD.state s' = LCD_IDLE /\ PGD.baud s' = DB_9600
               /\ PGD.portspeed s' = B9600)
  /\ (r = -1 -> PGD.state s' = PGD.state s /\ PGD.baud s' = PGD.baud s
                /\ (COMPORT.fd (PGD.port s) <> -1 -> wr w = [] ->
                    sent w' = sent w ++ repeat (ch "U"%char) 4))
  /\ (COMPORT.fd (PGD.port s) <> -1 -> wr w = [] -> realistic_clock w ->
      forall dt bs rest, rx w = RxData dt bs :: rest ->
      Z.of_N dt <= 20000 -> quiet 10000 rest -> In ACK (firstn 64 bs) ->
      r = 0 /\ sent w' = sent w ++ [ch "U"%char]).
Proof.
  destruct (PGD.autobaud s w) as [[r s'] w'] eqn:Hauto.
  assert (Hfirst : COMPORT.fd (PGD.port s) <> -1 -> wr w = [] -> realistic_clock w ->
            forall dt bs rest, rx w = RxData dt bs :: rest ->
            Z.of_N dt <= 20000 -> quiet 10000 rest -> In ACK (firstn 64 bs) ->
            r = 0 /\ sent w' = sent w ++ [ch "U"%char]).
  { intros Hfd Hwr Hc dt bs rest Hrx Hdt Hq Hin. revert Hauto.
    assert (He : existsb (fun b => b =? ACK) (firstn 64 bs) = true).
    { apply existsb_exists. exists ACK. split; [exact Hin|reflexivity]. }
    unfold PGD.autobaud. cbn [PGD.autobaud_loop].
    destruct (COMPORT.Flush (PGD.port s) w) as [[rf pf] wf] eqn:Hfl.
    apply Flush_spec in Hfl. destruct Hfl as [-> ->].
    cbn [PGD.port PGD.set_port].
    rewrite (Write_ok (PGD.port s) w _ 1 Hfd Hwr) by (simpl; lia).
    cbn [Z.ltb Z.leb Z.compare PGD.port PGD.set_port].
    destruct (waitACK_answer 20
                (PGD.set_port (PGD.port s) (PGD.set_port (PGD.port s) s))
                (emit (EvTx (firstn (Z.to_nat 1) (PGD.chars "U" ++ [0]))) w)
                dt bs rest Hfd Hc Hrx Hdt He Hq) as (s1 & w1 & Hw).
    destruct (waitACK_frame _ _ _ _ _ _ Hw) as (_ & (Htr & _) & _).
    rewrite Hw. cbn [Z.eqb andb]. intros [= <- <- <-].
    split; [reflexivity|]. unfold sent. rewrite Htr. simpl.
    rewrite tx_bytes_app. reflexivity. }
  revert Hauto. unfold PGD.autobaud.
  destruct (PGD.autobaud_loop 4 s w) as [[ro s1] w1] eqn:Hloop.
  apply autobaud_loop_spec in Hloop.
  destruct Hloop as (Hc & Hr & n & Hn & Hsent & Hfull).
  destruct Hr as [-> | ->]; intros [= <- <- <-].
  - split; [auto|]. split; [exists n; auto|]. split; [intros _; repeat split|].
    split; [intros Habs; lia|exact Hfirst].
  - split; [auto|]. split; [exists n; auto|]. split; [intros Habs; lia|].
    split; [|exact Hfirst].
    intros _. destruct Hc as (_ & Hst & Hb & _).
    split; [exact Hst|]. split; [exact Hb|].
    intros Ho Hw. rewrite Hsent, (Hfull Ho Hw eq_refl). reflexivity.
Qed.

Lemma autobaud_probes_witness :
  let w := Samples.world [RxData 12000 [0; ACK]] in
  COMPORT.fd (PGD.port Samples.idle) <> -1
  /\ realistic_clock w /\ Z.of_N 12000 <= 20000 /\ quiet 10000 []
  /\ fst (fst (PGD.autobaud Samples.idle w)) = 0
  /\ sent (snd (PGD.autobaud Samples.idle w)) = [ch "U"%char].
Proof.
  intros w.
  assert (Hfd : COMPORT.fd (PGD.port Samples.idle) <> -1) by (vm_compute; discriminate).
  assert (Hwr : wr w = []) by reflexivity.
  assert (Hc : realistic_clock w) by (unfold realistic_clock; simpl; lia).
  assert (Hdt : Z.of_N 12000 <= 20000) by (simpl; lia).
  assert (Hq : quiet 10000 []) by exact I.
  assert (Hin : In ACK (firstn 64 [0; ACK])) by (simpl; auto).
  split; [exact Hfd|]. split; [exact Hc|]. split; [exact Hdt|]. split; [exact Hq|].
  assert (H := autobaud_probes Samples.idle w).
  destruct (PGD.autobaud Samples.idle w) as [[r s'] w'].
  destruct H as (_ & _ & _ & _ & H).
  exact (H Hfd Hwr Hc 12000%N [0; ACK] [] eq_refl Hdt Hq Hin).
Defined.

(** ** The worker thread *)

Lemma Process_keeps_halt (s : PGD.t) (w : World) :
  forall r s' w', PGD.Process s w = (r, s', w') ->
  PGD.halt s' = PGD.halt s /\ (r = 0 <-> PGD.halt s = false).
Proof.
  intros r s' w'. unfold PGD.Process.
  destruct (PGD.halt s) eqn:Hh.
  { intros [= <- <- <-]. split; [exact Hh|]. split; intros; [lia|discriminate]. }
  assert (Hc : forall s0 w0 cmd ok, PGD.halt s0 = false ->
            PGD.complete s0 w0 cmd ok = (r, s', w') ->
            PGD.halt s' = false /\ (r = 0 <-> false = false)).
  { intros s0 w0 cmd ok H0 [= <- <- <-]. split; [exact H0|]. split; auto. }
  destruct (negb (LCDSTATE_eqb (PGD.state s) LCD_BUSY)).
  { intros [= <- <- <-]. split; [exact Hh|]. split; auto. }
  destruct (PGD.curcmd s).
  - intros [= <- <- <-]. split; [exact Hh|]. split; auto.
  - destruct (PGD.waitACKNACK 200 s w) as [[a s1] w1] eqn:Hw.
    apply waitACKNACK_frame in Hw. destruct Hw as ((Hh1 & _) & _).
    rewrite Hh in Hh1.
    destruct (a =? 0); [apply Hc; exact Hh1|].
    destruct (a =? 1); [apply Hc; exact Hh1|].
    destruct (a =? -1); [apply Hc; exact Hh1|].
    destruct (a =? 2); [|apply Hc; exact Hh1].
    intros [= <- <- <-]. split; [exact Hh1|]. split; auto.
  - destruct (PGD.waitACKNACK 200 s w) as [[a s1] w1] eqn:Hw.
    apply waitACKNACK_frame in Hw. destruct Hw as ((Hh1 & _) & _).
    rewrite Hh in Hh1.
    destruct (a =? 0); [apply Hc; exact Hh1|].
    destruct (a =? 1); [apply Hc; exact Hh1|].
    destruct (a =? -1); [apply Hc; exact Hh1|].
    destruct (a =? 2); [|apply Hc; exact Hh1].
    intros [= <- <- <-]. split; [exact Hh1|]. split; auto.
  - destruct (COMPORT.Read (PGD.port s) w (4 - PGD.brcv s) 100) as [[[nb got] p] w1].
    destruct (nb <? 0); [apply Hc; exact Hh|].
    destruct (negb (nb =? 0)); [|intros [= <- <- <-]; split; [exact Hh|]; split; auto].
    cbn [PGD.brcv PGD.set_brcv].
    destruct (_ =? 4).
    + destruct (PGD.curdata _); apply Hc; exact Hh.
    + intros [= <- <- <-]. split; [exact Hh|]. split; auto.
  - apply Hc. exact Hh.
Qed.

(** X20.  The worker thread ends only through the halt flag: with the flag set
    it returns at once and changes nothing; with the flag clear it never
    returns by itself, however many iterations it is given. *)
Theorem procthread_runs_until_halt (turns : nat) (s : PGD.t) (w : World) :
  (PGD.halt s = true -> PGD.procthread (S turns) s w = Some (s, w))
  /\ (PGD.halt s = false -> PGD.procthread turns s w = None).
Proof.
  split.
  - intros Hh. simpl. unfold PGD.Process. rewrite Hh. reflexivity.
  - revert s w. induction turns as [|turns IH]; intros s w Hh; [reflexivity|].
    simpl. destruct (PGD.Process s w) as [[r s1] w1] eqn:Hp.
    apply Process_keeps_halt in Hp. destruct Hp as [Hh1 Hr].
    assert (r = 0) by (apply Hr; exact Hh). subst r. simpl.
    apply IH. congruence.
Qed.

Lemma procthread_runs_until_halt_witness :
  PGD.halt Samples.idle = false
  /\ PGD.procthread 5 Samples.idle (Samples.world []) = None
  /\ PGD.procthread 5 (PGD.set_halt true Samples.idle) (Samples.world [])
     = Some (PGD.set_halt true Samples.idle, Samples.world []).
Proof.
  assert (H1 : PGD.halt Samples.idle = false) by reflexivity.
  assert (H2 : PGD.halt (PGD.set_halt true Samples.idle) = true) by reflexivity.
  split; [exact H1|]. split.
  - exact (proj2 (procthread_runs_until_halt 5 Samples.idle (Samples.world [])) H1).
  - exact (proj1 (procthread_runs_until_halt 4 (PGD.set_halt true Samples.idle)
                    (Samples.world [])) H2).
Defined.

(** ** Reading a file from the card *)

Lemma land255_testbit (x n : Z) :
  0 <= n -> Z.testbit (Z.land x 255) n = Z.testbit x n && (n <? 8).
Proof.
  intros Hn. rewrite Z.land_spec. change 255 with (Z.ones 8).
  rewrite Z.testbit_ones_nonneg by lia. reflexivity.
Qed.

Lemma be32_decode (fs : Z) :
  0 <= fs < 2 ^ 32 ->
  Z.lor (Z.lor (Z.lor (Z.shiftl (Z.land (Z.land (Z.shiftr fs 24) 255) 255) 24)
                      (Z.shiftl (Z.land (Z.land (Z.shiftr fs 16) 255) 255) 16))
               (Z.shiftl (Z.land (Z.land (Z.shiftr fs 8) 255) 255) 8))
        (Z.land (Z.land fs 255) 255) = fs.
Proof.
  intros Hfs. apply Z.bits_inj'. intros n Hn.
  rewrite !Z.lor_spec, !Z.shiftl_spec by lia.
  assert (Hhigh : 32 <= n -> Z.testbit fs n = false).
  { intros H32. destruct (Z.eq_dec fs 0) as [->|Hz]; [apply Z.bits_0|].
    apply Z.bits_above_log2; [lia|].
    assert (Z.log2 fs < 32) by (apply Z.log2_lt_pow2; lia). lia. }
  destruct (Z.lt_ge_cases n 8) as [H8|H8].
  { rewrite (Z.testbit_neg_r _ (n - 24)), (Z.testbit_neg_r _ (n - 16)),
      (Z.testbit_neg_r _ (n - 8)) by lia.
    rewrite !land255_testbit by lia.
    destruct (Z.ltb_spec n 8); [|lia]. simpl. now rewrite !andb_true_r. }
  rewrite (land255_testbit (Z.land fs 255)), (land255_testbit fs) by lia.
  destruct (Z.ltb_spec n 8) as [|_]; [lia|]. rewrite !andb_false_r, orb_false_r.
  destruct (Z.lt_ge_cases n 16) as [H16|H16].
  { rewrite (Z.testbit_neg_r _ (n - 24)), (Z.testbit_neg_r _ (n - 16)) by lia.
    rewrite !land255_testbit, Z.shiftr_spec by lia.
    destruct (Z.ltb_spec (n - 8) 8); [|lia]. simpl. rewrite !andb_true_r.
    f_equal. lia. }
  rewrite (land255_testbit (Z.land (Z.shiftr fs 8) 255)),
    (land255_testbit (Z.shiftr fs 8)) by lia.
  destruct (Z.ltb_spec (n - 8) 8) as [|_]; [lia|]. rewrite !andb_false_r, orb_false_r.
  destruct (Z.lt_ge_cases n 24) as [H24|H24].
  { rewrite (Z.testbit_neg_r _ (n - 24)) by lia.
    rewrite !land255_testbit, Z.shiftr_spec by lia.
    destruct (Z.ltb_spec (n - 16) 8); [|lia]. simpl. rewrite !andb_true_r.
    f_equal. lia. }
  rewrite (land255_testbit (Z.land (Z.shiftr fs 16) 255)),
    (land255_testbit (Z.shiftr fs 16)) by lia.
  destruct (Z.ltb_spec (n - 16) 8) as [|_]; [lia|]. rewrite !andb_false_r, orb_false_r.
  rewrite !land255_testbit, Z.shiftr_spec by lia.
  replace (n - 24 + 24) with n by lia.
  destruct (Z.ltb_spec (n - 24) 8) as [|Hge].
  - now rewrite !andb_true_r.
  - rewrite !andb_false_r. symmetry. apply Hhigh. lia.
Qed.

(** One block of the file when the device delivers at least that much
    within the 500 ms of the read: a single read takes it. *)
Lemma read_block_chunk (bs : Z) (pre zeros chunk : list Z) (s : PGD.t) (w : World)
      (dt : N) (r : list RxEvent) :
  COMPORT.fd (PGD.port s) <> -1 -> 0 < bs ->
  (Z.to_nat bs <= List.length chunk)%nat -> (Z.to_nat bs <= List.length zeros)%nat ->
  rx w = RxData dt chunk :: r -> Z.of_N dt < 500000 ->
  PGD.read_block (S (Z.to_nat bs)) (Z.of_nat (List.length pre)) bs (pre ++ zeros) s w
  = Some (None,
          (pre ++ firstn (Z.to_nat bs) chunk) ++ skipn (Z.to_nat bs) zeros,
          PGD.set_port (PGD.port s) s,
          usleep (Z.of_N dt) (set_rx (rx_after (Z.to_nat bs) chunk r) w)).
Proof.
  intros Hfd Hbs Hchunk Hzeros Hrx Hdt.
  destruct (Z.to_nat bs) as [|k] eqn:Hk; [lia|].
  cbn [PGD.read_block].
  destruct (Z.eqb_spec bs 0) as [|_]; [lia|].
  rewrite (Read_chunk (PGD.port s) w bs 500 dt chunk r Hfd Hbs Hrx) by lia.
  rewrite Hk.
  assert (Hlen : List.length (firstn (S k) chunk) = S k)
    by (rewrite length_firstn; lia).
  destruct (Z.eqb_spec bs (-1)) as [|_]; [lia|].
  destruct (Z.eqb_spec bs 0) as [|_]; [lia|].
  rewrite Z.sub_diag.
  cbn [Z.eqb]. f_equal. f_equal. f_equal. f_equal.
  unfold PGD.store_at. rewrite Nat2Z.id, Hlen.
  rewrite firstn_app, Nat.sub_diag, firstn_all. simpl firstn. rewrite app_nil_r.
  rewrite skipn_app, skipn_all2 by lia. simpl app.
  replace (List.length pre + S k - List.length pre)%nat with (S k) by lia.
  now rewrite app_assoc.
Qed.
Lemma skipn_repeat (A : Type) (x : A) (k n : nat) :
  skipn k (repeat x n) = repeat x (n - k).
Proof.
  revert n. induction k as [|k IH]; intros n; [now rewrite Nat.sub_0_r|].
  destruct n as [|n]; [reflexivity|]. simpl. apply IH.
Qed.

(** The blocks of a file whose bytes the device delivers as one chunk
    within the 500 ms of the first read: each block is acknowledged and
    taken with a single read. *)
Lemma read_blocks_payload (todo : nat) :
  forall (i fs : Z) (pre chunk : list Z) (s : PGD.t) (w : World) (dt : N)
         (r : list RxEvent),
  COMPORT.fd (PGD.port s) <> -1 -> wr w = [] ->
  0 <= i ->
  Z.of_nat todo
  = (if negb (Z.rem fs 50 =? 0) then Z.quot fs 50 + 1 else Z.quot fs 50) - i ->
  Z.of_nat (List.length pre) + Z.of_nat (List.length chunk) = fs ->
  Z.of_nat (List.length pre) = Z.min (50 * i) fs ->
  rx w = pending_chunk dt chunk r -> Z.of_N dt < 500000 ->
  exists s' w',
    PGD.read_blocks todo i
      (if negb (Z.rem fs 50 =? 0) then Z.quot fs 50 + 1 else Z.quot fs 50)
      (Z.rem fs 50) (pre ++ repeat 0 (List.length chunk)) s w
    = (None, pre ++ chunk, s', w')
    /\ same_ctl s s' /\ wr w' = [] /\ now_us w <= now_us w'
    /\ rx w' = r
    /\ sent w' = sent w ++ repeat ACK todo.
Proof.
  induction todo as [|todo IH];
    intros i fs pre chunk s w dt r Hfd Hwr Hi Htodo Hsum Hpre Hrx Hdt.
  - assert (Hfs : 0 <= fs) by lia.
    rewrite Z.rem_mod_nonneg, Z.quot_div_nonneg in Htodo by lia.
    assert (Hc : chunk = []).
    { destruct chunk as [|c chunk]; [reflexivity|]. exfalso.
      simpl List.length in Hsum.
      destruct (Z.eqb_spec (fs mod 50) 0); simpl negb in Htodo; cbv iota in Htodo;
        revert Htodo Hsum Hpre; Z.div_mod_to_equations; lia. }
    subst chunk. simpl in Hrx. exists s, w. simpl. rewrite !app_nil_r.
    repeat split; auto. lia.
  - assert (Hfs : 0 <= fs) by lia.
    set (nres := Z.rem fs 50) in *.
    set (nblk := if negb (nres =? 0) then Z.quot fs 50 + 1 else Z.quot fs 50) in *.
    assert (Hnres : nres = fs mod 50) by (unfold nres; apply Z.rem_mod_nonneg; lia).
    assert (Hnblk : nblk = if negb (nres =? 0) then fs / 50 + 1 else fs / 50)
      by (unfold nblk; rewrite Z.quot_div_nonneg by lia; reflexivity).
    set (bs := if (i =? nblk - 1) && negb (nres =? 0) then nres else 50).
    assert (Hbs : 0 < bs /\ Z.of_nat (List.length pre) = 50 * i
                  /\ bs <= Z.of_nat (List.length chunk)
                  /\ 50 * i + bs = Z.min (50 * (i + 1)) fs).
    { unfold bs. rewrite Hnblk in *. clear bs nblk Hnblk.
      destruct (Z.eqb_spec nres 0) as [Hz|Hz]; simpl negb in *; cbv iota in *;
        destruct (Z.eqb_spec i (fs / 50 + 1 - 1)); destruct (Z.eqb_spec i (fs / 50 - 1));
        simpl andb; cbv iota;
        revert Htodo Hsum Hpre Hnres Hz; Z.div_mod_to_equations; lia. }
    destruct Hbs as (Hbs0 & Hpre50 & Hbsle & Hnext).
    destruct chunk as [|c0 chunk0] eqn:Hchunk; [simpl in Hbsle; lia|].
    rewrite <- Hchunk in *. simpl pending_chunk in Hrx.
    assert (Hrx' : rx w = RxData dt chunk :: r) by (rewrite Hrx, Hchunk; reflexivity).
    clear Hrx.
    cbn [PGD.read_blocks].
    rewrite (Write_ok (PGD.port s) w [ACK; 0] 1 Hfd Hwr) by (simpl; lia).
    cbn [PGD.port PGD.set_port].
    fold bs.
    replace (i * 50) with (Z.of_nat (List.length pre)) by lia.
    rewrite (read_block_chunk bs pre (repeat 0 (List.length chunk)) chunk
               (PGD.set_port (PGD.port s) s)
               (emit (EvTx (firstn (Z.to_nat 1) [ACK; 0])) w) dt r Hfd Hbs0
               ltac:(lia) ltac:(rewrite repeat_length; lia) Hrx' Hdt).
    rewrite skipn_repeat.
    replace (List.length chunk - Z.to_nat bs)%nat
      with (List.length (skipn (Z.to_nat bs) chunk)) by (rewrite length_skipn; lia).
    destruct (IH (i + 1) fs (pre ++ firstn (Z.to_nat bs) chunk)
                (skipn (Z.to_nat bs) chunk)
                (PGD.set_port (PGD.port (PGD.set_port (PGD.port s) s))
                   (PGD.set_port (PGD.port s) s))
                (usleep (Z.of_N dt)
                   (set_rx (rx_after (Z.to_nat bs) chunk r)
                      (emit (EvTx (firstn (Z.to_nat 1) [ACK; 0])) w)))
                0%N r)
      as (s' & w' & Hrun & Hctl & Hwr' & Hnow & Hrxf & Hsent).
    + exact Hfd.
    + exact Hwr.
    + lia.
    + fold nres nblk. lia.
    + rewrite length_app, length_firstn, length_skipn. lia.
    + rewrite length_app, length_firstn. lia.
    + unfold rx_after, pending_chunk. simpl rx.
      destruct (skipn (Z.to_nat bs) chunk); reflexivity.
    + simpl; lia.
    + exists s', w'. fold nres nblk in Hrun. rewrite Hrun.
      rewrite <- app_assoc, firstn_skipn.
      split; [reflexivity|]. split; [|split; [exact Hwr'|split; [|split]]].
      * eapply same_ctl_trans; [|exact Hctl]. repeat split.
      * simpl in Hnow. lia.
      * exact Hrxf.
      * rewrite Hsent. unfold sent. simpl. rewrite tx_bytes_app. simpl.
        rewrite <- app_assoc. reflexivity.
Qed.
(** X21.  Reading a file whose content the device delivers in time.  On an
    open line that takes what it is handed, when the device answers the
    request with the four bytes of the size, high byte first, within the
    500 ms of the read, then with that many bytes in one piece within
    the 500 ms of the first block read, then with an ACK within the
    100 ms of the final wait and nothing else in the 10 ms after it,
    SDReadFileFAT returns 0 and hands the caller the size and exactly
    the bytes the device sent, in order.  It sent
    '@','a', the handshake byte 50 and the file name with the 0 that
    ends it, and then one ACK for every block of 50 bytes or part of
    it. *)
Theorem SDReadFileFAT_reads_file (d0 : option (list Z)) (n0 : Z) (f : list Z)
        (s : PGD.t) (w : World) (t0 t1 t2 : N) (payload more : list Z)
        (rest : list RxEvent) :
  PGD.state s = LCD_IDLE -> COMPORT.fd (PGD.port s) <> -1 -> wr w = [] ->
  realistic_clock w -> 1 <= PGD.strlen f <= 12 ->
  payload <> [] -> Z.of_nat (List.length payload) < 2 ^ 32 ->
  rx w = RxData t0 (be32 (Z.of_nat (List.length payload)))
         :: RxData t1 payload :: RxData t2 (ACK :: more) :: rest ->
  Z.of_N t0 < 500000 -> Z.of_N t1 < 500000 -> Z.of_N t2 <= 100000 ->
  quiet 10000 rest ->
  exists s' w',
    PGD.SDReadFileFAT (Some d0) (Some n0) (Some f) s w
    = (0, Some (Some payload), Some (Z.of_nat (List.length payload)), s', w')
    /\ sent w' = sent w ++ [ch "@"%char; ch "a"%char; 50] ++ PGD.cstr f ++ [0]
                 ++ repeat ACK (Z.to_nat ((Z.of_nat (List.length payload) + 49) / 50))
    /\ PGD.state s' = LCD_IDLE.
Proof.
  intros Hs Hfd Hwr Hc Hname Hne Hsize Hrx Ht0 Ht1 Ht2 Hq.
  set (fs := Z.of_nat (List.length payload)) in *.
  assert (Hfs : 0 < fs) by (destruct payload; [congruence|unfold fs; simpl; lia]).
  unfold PGD.SDReadFileFAT. rewrite Hs. cbv beta iota delta [LCDSTATE_eqb].
  destruct (Z.ltb_spec (PGD.strlen f) 1) as [|_]; [lia|].
  destruct (Z.ltb_spec 12 (PGD.strlen f)) as [|_]; [lia|].
  cbn [orb].
  destruct (COMPORT.Flush (PGD.port s) w) as [[rf pf] wf] eqn:Hfl.
  apply Flush_spec in Hfl. destruct Hfl as [-> ->].
  cbn [PGD.port PGD.set_port].
  destruct (name_frame [ch "@"%char; ch "a"%char; 50] 20 (PGD.cstr f)) as [Hlen Hfr].
  { unfold PGD.strlen in Hname. simpl. lia. }
  set (cmd := PGD.store_at
                (PGD.poke 2 50
                   (PGD.poke 1 (ch "a"%char) (PGD.poke 0 (ch "@"%char) (repeat 0 20))))
                3 (PGD.cstr f ++ [0])) in *.
  change (PGD.store_at
            ([ch "@"%char; ch "a"%char; 50]
               ++ repeat 0 (20 - List.length [ch "@"%char; ch "a"%char; 50]))
            (Z.of_nat (List.length [ch "@"%char; ch "a"%char; 50])) (PGD.cstr f ++ [0]))
    with cmd in Hlen, Hfr.
  rewrite (Write_ok (PGD.port s) w cmd (PGD.strlen f + 4) Hfd Hwr)
    by (rewrite Hlen; unfold PGD.strlen in *; lia).
  rewrite Z.eqb_refl. cbn [negb PGD.port PGD.set_port].
  replace (Z.to_nat (PGD.strlen f + 4))
    with (List.length [ch "@"%char; ch "a"%char; 50%Z] + (List.length (PGD.cstr f) + 1))%nat
    by (unfold PGD.strlen; simpl; lia).
  rewrite Hfr.
  set (w1 := emit (EvTx ([ch "@"%char; ch "a"%char; 50] ++ PGD.cstr f ++ [0])) w).
  rewrite (Read_chunk (PGD.port s) w1 4 500 t0 (be32 fs)
             (RxData t1 payload :: RxData t2 (ACK :: more) :: rest) Hfd ltac:(lia) Hrx)
    by (cbn [be32 List.length]; lia).
  change (firstn (Z.to_nat 4) (be32 fs)) with (be32 fs).
  change (rx_after (Z.to_nat 4) (be32 fs)
            (RxData t1 payload :: RxData t2 (ACK :: more) :: rest))
    with (RxData t1 payload :: RxData t2 (ACK :: more) :: rest).
  cbn [List.length be32 Z.of_nat Pos.of_succ_nat Pos.succ Z.eqb Pos.eqb negb andb
       PGD.port PGD.set_port].
  assert (Hcmd4 : exists tail, PGD.store_at cmd 0 (be32 fs) = be32 fs ++ tail).
  { unfold PGD.store_at. simpl firstn. eexists. reflexivity. }
  destruct Hcmd4 as [tail Hcmd4]. rewrite Hcmd4.
  change (nth 0 (be32 fs ++ tail) 0) with (Z.land (Z.shiftr fs 24) 255).
  change (nth 1 (be32 fs ++ tail) 0) with (Z.land (Z.shiftr fs 16) 255).
  change (nth 2 (be32 fs ++ tail) 0) with (Z.land (Z.shiftr fs 8) 255).
  change (nth 3 (be32 fs ++ tail) 0) with (Z.land fs 255).
  rewrite (be32_decode fs) by lia.
  destruct (Z.eqb_spec fs 0) as [|_]; [lia|].
  set (w2 := usleep (Z.of_N t0)
               (set_rx (RxData t1 payload :: RxData t2 (ACK :: more) :: rest) w1)).
  set (s2 := PGD.set_port (PGD.port s) (PGD.set_port (PGD.port s)
               (PGD.set_port (PGD.port s) s))).
  destruct (read_blocks_payload
              (Z.to_nat (if negb (Z.rem fs 50 =? 0) then Z.quot fs 50 + 1
                         else Z.quot fs 50))
              0 fs [] payload s2 w2 t1 (RxData t2 (ACK :: more) :: rest))
    as (s3 & w3 & Hrun & Hctl & Hwr3 & Hnow & Hrx3 & Hsent3).
  - exact Hfd.
  - exact Hwr.
  - lia.
  - rewrite Z.rem_mod_nonneg, Z.quot_div_nonneg by lia.
    destruct (negb (fs mod 50 =? 0)); Z.div_mod_to_equations; lia.
  - simpl. reflexivity.
  - simpl List.length. lia.
  - destruct payload; [congruence|reflexivity].
  - exact Ht1.
  - simpl app in Hrun.
    replace (Z.to_nat fs) with (List.length payload) by (unfold fs; lia).
    rewrite Hrun.
    destruct (waitACK_answer 100 s3 w3 t2 (ACK :: more) rest) as (s4 & w4 & Hw).
    + destruct Hctl as (_ & _ & _ & _ & _ & _ & _ & _ & _ & _ & Hfd3). rewrite Hfd3.
      exact Hfd.
    + unfold realistic_clock in *. simpl in Hnow. lia.
    + exact Hrx3.
    + lia.
    + reflexivity.
    + exact Hq.
    + destruct (waitACK_frame _ _ _ _ _ _ Hw) as (Hc4 & Hl4 & _).
      rewrite Hw. exists s4, w4. split; [reflexivity|]. split.
      * destruct Hl4 as (Htr4 & _). unfold sent in *. rewrite Htr4, Hsent3.
        simpl. rewrite tx_bytes_app. simpl. rewrite app_nil_r, <- !app_assoc.
        assert (Hn : Z.to_nat (if negb (Z.rem fs 50 =? 0) then Z.quot fs 50 + 1
                               else Z.quot fs 50)
                     = Z.to_nat ((fs + 49) / 50)).
        { rewrite Z.rem_mod_nonneg, Z.quot_div_nonneg by lia.
          destruct (Z.eqb_spec (fs mod 50) 0); simpl negb; cbv iota;
            Z.div_mod_to_equations; lia. }
        rewrite Hn. f_equal. simpl. now rewrite <- app_assoc.
      * destruct Hc4 as (_ & Hst4 & _). destruct Hctl as (_ & Hst3 & _).
        rewrite Hst4, Hst3. exact Hs.
Qed.
Lemma SDReadFileFAT_reads_file_witness :
  let payload := map Z.of_nat (seq 0 120) in
  let w := Samples.world [RxData 900 [0; 0; 0; 120]; RxData 4000 payload;
                          RxData 300 [ACK]] in
  PGD.state Samples.idle = LCD_IDLE
  /\ exists s' w',
       PGD.SDReadFileFAT (Some None) (Some 0) (Some (PGD.chars "A.TXT" ++ [0]))
         Samples.idle w
       = (0, Some (Some payload), Some 120, s', w')
       /\ sent w' = [ch "@"%char; ch "a"%char; 50] ++ PGD.chars "A.TXT" ++ [0]
                    ++ [ACK; ACK; ACK]
       /\ PGD.state s' = LCD_IDLE.
Proof.
  intros payload w.
  assert (H1 : PGD.state Samples.idle = LCD_IDLE) by reflexivity.
  assert (H2 : COMPORT.fd (PGD.port Samples.idle) <> -1) by (vm_compute; discriminate).
  assert (H3 : wr w = []) by reflexivity.
  assert (H4 : realistic_clock w) by (unfold realistic_clock; simpl; lia).
  assert (H5 : 1 <= PGD.strlen (PGD.chars "A.TXT" ++ [0]) <= 12)
    by (vm_compute; split; discriminate).
  assert (H6 : payload <> []) by discriminate.
  assert (H7 : Z.of_nat (List.length payload) < 2 ^ 32) by (vm_compute; reflexivity).
  assert (H8 : rx w = RxData 900 (be32 (Z.of_nat (List.length payload)))
                      :: RxData 4000 payload :: RxData 300 (ACK :: []) :: [])
    by reflexivity.
  assert (T0 : Z.of_N 900 < 500000) by (simpl; lia).
  assert (T1 : Z.of_N 4000 < 500000) by (simpl; lia).
  assert (T2 : Z.of_N 300 <= 100000) by (simpl; lia).
  split; [exact H1|].
  exact (SDReadFileFAT_reads_file None 0 (PGD.chars "A.TXT" ++ [0]) Samples.idle w
           900 4000 300 payload [] [] H1 H2 H3 H4 H5 H6 H7 H8 T0 T1 T2 I).
Defined.

Ltac readfile_request Hs Hfd Hwr Hname f s w :=
  unfold PGD.SDReadFileFAT; rewrite Hs; cbv beta iota delta [LCDSTATE_eqb];
  destruct (Z.ltb_spec (PGD.strlen f) 1) as [|_]; [lia|];
  destruct (Z.ltb_spec 12 (PGD.strlen f)) as [|_]; [lia|];
  cbn [orb];
  let rf := fresh "rf" in let pf := fresh "pf" in let wf := fresh "wf" in
  let Hfl := fresh "Hfl" in let Hlen := fresh "Hlen" in let Hfr := fresh "Hfr" in
  destruct (COMPORT.Flush (PGD.port s) w) as [[rf pf] wf] eqn:Hfl;
  apply Flush_spec in Hfl; destruct Hfl as [-> ->];
  cbn [PGD.port PGD.set_port];
  destruct (name_frame [ch "@"%char; ch "a"%char; 50] 20 (PGD.cstr f)) as [Hlen Hfr];
  [unfold PGD.strlen in Hname; simpl; lia|];
  change (PGD.store_at
            ([ch "@"%char; ch "a"%char; 50]
               ++ repeat 0 (20 - List.length [ch "@"%char; ch "a"%char; 50]))
            (Z.of_nat (List.length [ch "@"%char; ch "a"%char; 50])) (PGD.cstr f ++ [0]))
    with (PGD.store_at
            (PGD.poke 2 50
               (PGD.poke 1 (ch "a"%char) (PGD.poke 0 (ch "@"%char) (repeat 0 20))))
            3 (PGD.cstr f ++ [0])) in Hlen, Hfr;
  rewrite (Write_ok (PGD.port s) w _ (PGD.strlen f + 4) Hfd Hwr)
    by (rewrite Hlen; unfold PGD.strlen in *; lia);
  rewrite Z.eqb_refl; cbn [negb PGD.port PGD.set_port];
  replace (Z.to_nat (PGD.strlen f + 4))
    with (List.length [ch "@"%char; ch "a"%char; 50%Z] + (List.length (PGD.cstr f) + 1))%nat
    by (unfold PGD.strlen; simpl; lia);
  rewrite Hfr.

(** X22.  Requests that yield no content.  On an open line that takes what it
    is handed, after the request '@','a',50 and the file name, the
    answer is read with a budget of 500 ms: a single NACK within that
    time, with nothing after it for 500 ms, makes SDReadFileFAT return 1
    with the caller's handle and counter untouched and nothing more
    sent; a size of zero within that time makes it return 0 with the
    counter set to 0, the handle untouched, and one NACK sent to end the
    transaction; a line that stays quiet for the 500 ms makes it return
    -2, again after sending one NACK, with handle and counter
    untouched. *)
Theorem SDReadFileFAT_no_content (d0 : option (list Z)) (n0 : Z) (f : list Z)
        (s : PGD.t) (w : World) :
  PGD.state s = LCD_IDLE -> COMPORT.fd (PGD.port s) <> -1 -> wr w = [] ->
  1 <= PGD.strlen f <= 12 ->
  (forall dt rest, rx w = RxData dt [NACK] :: rest ->
     Z.of_N dt < 500000 -> quiet 500000 rest ->
     exists s' w',
       PGD.SDReadFileFAT (Some d0) (Some n0) (Some f) s w
       = (1, Some d0, Some n0, s', w')
       /\ sent w' = sent w ++ [ch "@"%char; ch "a"%char; 50] ++ PGD.cstr f ++ [0])
  /\ (forall dt more rest, rx w = RxData dt (0 :: 0 :: 0 :: 0 :: more) :: rest ->
     Z.of_N dt < 500000 ->
     exists s' w',
       PGD.SDReadFileFAT (Some d0) (Some n0) (Some f) s w
       = (0, Some d0, Some 0, s', w')
       /\ sent w' = sent w ++ [ch "@"%char; ch "a"%char; 50] ++ PGD.cstr f ++ [0]
                    ++ [NACK])
  /\ (quiet 500000 (rx w) ->
     exists s' w',
       PGD.SDReadFileFAT (Some d0) (Some n0) (Some f) s w
       = (-2, Some d0, Some n0, s', w')
       /\ sent w' = sent w ++ [ch "@"%char; ch "a"%char; 50] ++ PGD.cstr f ++ [0]
                    ++ [NACK]).
Proof.
  intros Hs Hfd Hwr Hname.
  assert (Hsent : forall (W : World) (tail : list Z),
            trace W = trace w ++ [EvTx ([ch "@"%char; ch "a"%char; 50]
                                          ++ PGD.cstr f ++ [0])] ->
            sent (emit (EvTx tail) W)
            = sent w ++ [ch "@"%char; ch "a"%char; 50] ++ PGD.cstr f ++ [0] ++ tail).
  { intros W tail HW. unfold sent. simpl. rewrite HW, !tx_bytes_app. simpl.
    rewrite !app_nil_r, <- !app_assoc. simpl. rewrite <- !app_assoc. reflexivity. }
  split; [|split].
  - intros dt rest Hrx Hdt Hq. readfile_request Hs Hfd Hwr Hname f s w.
    set (w1 := emit (EvTx ([ch "@"%char; ch "a"%char; 50] ++ PGD.cstr f ++ [0])) w).
    destruct (Read_short (PGD.port s) w1 4 500 dt [NACK] rest Hfd Hrx)
      as (us & -> & _); [lia|simpl; lia|exact Hq|].
    cbn [List.length Z.of_nat Pos.of_succ_nat Z.eqb Pos.eqb negb andb].
    assert (Hn : nth 0 (PGD.store_at
                          (PGD.store_at
                             (PGD.poke 2 50
                                (PGD.poke 1 (ch "a"%char)
                                   (PGD.poke 0 (ch "@"%char) (repeat 0 20))))
                             3 (PGD.cstr f ++ [0])) 0 [NACK]) 0 = NACK) by reflexivity.
    rewrite Hn. cbn [Z.eqb Pos.eqb NACK andb].
    eexists _, _. split; [reflexivity|].
    unfold sent. simpl. rewrite tx_bytes_app. simpl. now rewrite app_nil_r.
  - intros dt more rest Hrx Hdt. readfile_request Hs Hfd Hwr Hname f s w.
    set (w1 := emit (EvTx ([ch "@"%char; ch "a"%char; 50] ++ PGD.cstr f ++ [0])) w).
    rewrite (Read_chunk (PGD.port s) w1 4 500 dt (0 :: 0 :: 0 :: 0 :: more) rest Hfd
               ltac:(lia) Hrx) by (cbn [List.length]; lia).
    change (firstn (Z.to_nat 4) (0 :: 0 :: 0 :: 0 :: more)) with [0; 0; 0; 0].
    cbn [List.length Z.of_nat Pos.of_succ_nat Pos.succ Z.eqb Pos.eqb negb andb].
    assert (Hn : forall k, (k < 4)%nat ->
              nth k (PGD.store_at
                       (PGD.store_at
                          (PGD.poke 2 50
                             (PGD.poke 1 (ch "a"%char)
                                (PGD.poke 0 (ch "@"%char) (repeat 0 20))))
                          3 (PGD.cstr f ++ [0])) 0 [0; 0; 0; 0]) 0 = 0).
    { intros k Hk. destruct k as [|[|[|[|k]]]]; [reflexivity..|lia]. }
    rewrite !Hn by lia. cbn [Z.land Z.shiftl Z.lor Z.eqb].
    rewrite (Write_ok (PGD.port s) _ [NACK; 0] 1 Hfd) by (try exact Hwr; simpl; lia).
    eexists _, _. split; [reflexivity|].
    apply (Hsent _ [NACK]). reflexivity.
  - intros Hrx. readfile_request Hs Hfd Hwr Hname f s w.
    rewrite Read_quiet by (first [exact Hfd | exact Hrx | lia]).
    cbn [Z.ltb Z.compare Z.eqb negb andb].
    rewrite (Write_ok (PGD.port s) _ [NACK; 0] 1 Hfd) by (try exact Hwr; simpl; lia).
    eexists _, _. split; [reflexivity|].
    apply (Hsent _ [NACK]). reflexivity.
Qed.

Lemma SDReadFileFAT_no_content_witness :
  let w := Samples.world [RxData 900 [NACK]] in
  PGD.state Samples.idle = LCD_IDLE
  /\ fst (fst (fst (fst (PGD.SDReadFileFAT (Some None) (Some 7)
                           (Some (PGD.chars "A.TXT" ++ [0])) Samples.idle w)))) = 1.
Proof.
  intros w.
  assert (H1 : PGD.state Samples.idle = LCD_IDLE) by reflexivity.
  assert (H2 : COMPORT.fd (PGD.port Samples.idle) <> -1) by (vm_compute; discriminate).
  assert (H3 : wr w = []) by reflexivity.
  assert (H5 : 1 <= PGD.strlen (PGD.chars "A.TXT" ++ [0]) <= 12)
    by (vm_compute; split; discriminate).
  assert (H8 : rx w = RxData 900 [NACK] :: []) by reflexivity.
  assert (T : Z.of_N 900 < 500000) by (simpl; lia).
  split; [exact H1|].
  destruct (proj1 (SDReadFileFAT_no_content None 7 (PGD.chars "A.TXT" ++ [0])
                     Samples.idle w H1 H2 H3 H5) _ _ H8 T I) as (s' & w' & E & _).
  rewrite E. reflexivity.
Defined.

(** ** Text and icons *)

Lemma firstn_cstr (d : list Z) (n : nat) :
  (n <= List.length (PGD.cstr d))%nat -> firstn n d = firstn n (PGD.cstr d).
Proof.
  revert n. induction d as [|b d IH]; intros n Hn; [reflexivity|].
  simpl in *. destruct (b =? 0); [simpl in Hn; now replace n with O by lia|].
  destruct n as [|n]; [reflexivity|]. simpl in *. f_equal. apply IH. lia.
Qed.

(** X23.  The text commands send at most the first 256 characters of a text:
    a longer text is cut there without notice.  The frame is the
    command's header, then these characters and a 0, which are at most
    257 bytes. *)
Theorem text_is_cut_at_256 (d : list Z) (s : PGD.t) (w : World) :
  PGD.state s = LCD_IDLE -> 0 < PGD.strlen d ->
  let text := firstn 256 (PGD.cstr d) ++ [0] in
  (forall col row font color r s' w',
     PGD.ShowString col row font color (Some d) s w = (r, s', w') ->
     sends (ch "s"%char :: col :: row :: font :: be16 color ++ text) s w r w')
  /\ (forall x y font color width height r s' w',
     PGD.ScaleString x y font color width height (Some d) s w = (r, s', w') ->
     sends (ch "S"%char :: be16 x ++ be16 y ++ font :: be16 color
            ++ width :: height :: text) s w r w')
  /\ (forall pressed x y bcolor font tcolor xmul ymul r s' w',
     PGD.Button pressed x y bcolor font tcolor xmul ymul (Some d) s w = (r, s', w') ->
     sends (ch "b"%char :: (if pressed then 1 else 0) :: be16 x ++ be16 y ++ be16 bcolor
            ++ font :: be16 tcolor ++ xmul :: ymul :: text) s w r w')
  /\ (List.length text <= 257)%nat.
Proof.
  intros Hs Hlen text.
  set (dlen := if 256 <? PGD.strlen d then 256 else PGD.strlen d).
  assert (Hd : 0 < dlen <= 256 /\ dlen <= PGD.strlen d)
    by (unfold dlen; destruct (Z.ltb_spec 256 (PGD.strlen d)); lia).
  assert (Htext : firstn (Z.to_nat dlen) d = firstn 256 (PGD.cstr d)).
  { rewrite firstn_cstr by (unfold PGD.strlen in Hd; lia).
    unfold dlen. destruct (Z.ltb_spec 256 (PGD.strlen d)) as [Hl|Hl]; [reflexivity|].
    unfold PGD.strlen in *. rewrite Nat2Z.id.
    rewrite firstn_all, firstn_all2 by lia. reflexivity. }
  assert (Htl : List.length (firstn (Z.to_nat dlen) d) = Z.to_nat dlen).
  { rewrite firstn_cstr by (unfold PGD.strlen in Hd; lia).
    rewrite length_firstn. unfold PGD.strlen in Hd. lia. }
  assert (Hz : (PGD.strlen d =? 0) = false) by (apply Z.eqb_neq; lia).
  assert (Hframe : forall (head : list Z) (n : Z),
            n = dlen + Z.of_nat (List.length head) + 1 ->
            firstn (Z.to_nat n) (head ++ firstn (Z.to_nat dlen) d ++ [0])
            = head ++ text).
  { intros head n ->. rewrite Htext. fold text.
    apply firstn_all2. unfold text. rewrite <- Htext.
    rewrite !length_app, Htl. simpl. lia. }
  split; [|split; [|split]].
  - intros col row font color r s' w'. unfold PGD.ShowString. rewrite Hs, Hz.
    cbv beta iota zeta delta [LCDSTATE_eqb]. fold dlen.
    destruct (COMPORT.Flush (PGD.port s) w) as [[rf pf] wf] eqn:Hfl.
    apply Flush_spec in Hfl. destruct Hfl as [-> ->]. intros Hcall.
    apply (write_then_wait (PGD.set_port (PGD.port s) s) w _ (dlen + 7) 400) in Hcall.
    + destruct Hcall as [Hcall _].
      rewrite (Hframe [ch "s"%char; col; row; font;
                       Z.land (Z.shiftr color 8) 255; Z.land color 255] (dlen + 7))
        in Hcall by (simpl; lia).
      exact Hcall.
    + rewrite !length_app, Htl. simpl. lia.
  - intros x y font color width height r s' w'. unfold PGD.ScaleString. rewrite Hs, Hz.
    cbv beta iota zeta delta [LCDSTATE_eqb]. fold dlen.
    destruct (COMPORT.Flush (PGD.port s) w) as [[rf pf] wf] eqn:Hfl.
    apply Flush_spec in Hfl. destruct Hfl as [-> ->]. intros Hcall.
    apply (write_then_wait (PGD.set_port (PGD.port s) s) w _ (dlen + 11) 5000) in Hcall.
    + destruct Hcall as [Hcall _].
      rewrite (Hframe [ch "S"%char;
                       Z.land (Z.shiftr x 8) 255; Z.land x 255;
                       Z.land (Z.shiftr y 8) 255; Z.land y 255; font;
                       Z.land (Z.shiftr color 8) 255; Z.land color 255;
                       width; height] (dlen + 11)) in Hcall by (simpl; lia).
      exact Hcall.
    + rewrite !length_app, Htl. simpl. lia.
  - intros pressed x y bcolor font tcolor xmul ymul r s' w'. unfold PGD.Button.
    rewrite Hs, Hz. cbv beta iota zeta delta [LCDSTATE_eqb]. fold dlen.
    destruct (COMPORT.Flush (PGD.port s) w) as [[rf pf] wf] eqn:Hfl.
    apply Flush_spec in Hfl. destruct Hfl as [-> ->]. intros Hcall.
    apply (write_then_wait (PGD.set_port (PGD.port s) s) w _ (dlen + 14) 2000) in Hcall.
    + destruct Hcall as [Hcall _].
      rewrite (Hframe [ch "b"%char; if pressed then 1 else 0;
                       Z.land (Z.shiftr x 8) 255; Z.land x 255;
                       Z.land (Z.shiftr y 8) 255; Z.land y 255;
                       Z.land (Z.shiftr bcolor 8) 255; Z.land bcolor 255; font;
                       Z.land (Z.shiftr tcolor 8) 255; Z.land tcolor 255;
                       xmul; ymul] (dlen + 14)) in Hcall by (simpl; lia).
      exact Hcall.
    + rewrite !length_app, Htl. simpl. lia.
  - unfold text. rewrite length_app, length_firstn. cbn [List.length]. lia.
Qed.

Lemma text_is_cut_at_256_witness :
  let d := repeat (ch "x"%char) 300 ++ [0] in
  let w := Samples.world [RxData 900 [ACK]] in
  PGD.state Samples.idle = LCD_IDLE /\ 0 < PGD.strlen d
  /\ sends (ch "s"%char :: 1 :: 2 :: 3 :: be16 0xF800 ++ repeat (ch "x"%char) 256 ++ [0])
           Samples.idle w 0 (snd (PGD.ShowString 1 2 3 0xF800 (Some d) Samples.idle w)).
Proof.
  intros d w.
  assert (H1 : PGD.state Samples.idle = LCD_IDLE) by reflexivity.
  assert (H2 : 0 < PGD.strlen d) by (vm_compute; reflexivity).
  assert (E : PGD.ShowString 1 2 3 0xF800 (Some d) Samples.idle w
              = (0, snd (fst (PGD.ShowString 1 2 3 0xF800 (Some d) Samples.idle w)),
                 snd (PGD.ShowString 1 2 3 0xF800 (Some d) Samples.idle w)))
    by (vm_compute; reflexivity).
  split; [exact H1|]. split; [exact H2|].
  exact (proj1 (text_is_cut_at_256 d Samples.idle w H1 H2) 1 2 3 0xF800 _ _ _ E).
Defined.
Lemma wrap_int_small (z : Z) : -2147483648 <= z <= INT_MAX -> wrap_int z = z.
Proof.
  unfold wrap_int, INT_MAX. intros H.
  rewrite Z.mod_small by lia. lia.
Qed.

(** X24.  DrawIcon wants colour mode 0x08 or 0x10 and as many data bytes as
    the icon has pixels (twice as many in mode 0x10); the count is
    computed in int from the two ushort, so it is the true count as long
    as that is below 2^31 and its wrapped value beyond.  Anything else
    is refused with -1 and nothing is touched.  For a data length from
    0 to INT_MAX - 10 the call returns, and an accepted icon goes out as
    'I', position and size, the colour mode and the data.  When the
    write takes the whole frame the result is that of waitACKNACK; when
    it does not, the result is the number of bytes that went out (or -1
    when none did), which cannot be told from the results 0, 1 and 2 of
    the wait. *)
Theorem DrawIcon_outcome (x y width height colormode : Z) (data : list Z) (datalen : Z)
        (s : PGD.t) (w : World) :
  PGD.state s = LCD_IDLE -> 0 <= width < 65536 -> 0 <= height < 65536 ->
  0 <= datalen <= Z.of_nat (List.length data) -> datalen <= INT_MAX - 10 ->
  let ok := (colormode = 0x08 \/ colormode = 0x10)
            /\ datalen = icon_bytes width height colormode in
  let frame := icon_frame x y width height colormode (firstn (Z.to_nat datalen) data) in
  (width * height * (if colormode =? 0x10 then 2 else 1) <= INT_MAX ->
   icon_bytes width height colormode
   = width * height * (if colormode =? 0x10 then 2 else 1))
  /\ exists r s' w',
       PGD.DrawIcon x y width height colormode data datalen s w = Some (r, s', w')
       /\ (~ ok -> refused s w r s' w')
       /\ (ok ->
           (sent w' = sent w ++ frame /\ ack_code r)
           \/ (exists n, 0 <= n < Z.of_nat (List.length frame)
                 /\ sent w' = sent w ++ firstn (Z.to_nat n) frame
                 /\ (r = n \/ (r = -1 /\ n = 0)))).
Proof.
  intros Hs Hwd Hht Hlen Hmax ok frame. split.
  { assert (Hp : 0 <= width * height) by nia.
    unfold icon_bytes. destruct (colormode =? 16); intros Hsmall.
    - rewrite (wrap_int_small (width * height)) by (unfold INT_MAX in *; lia).
      apply wrap_int_small. unfold INT_MAX in *; lia.
    - rewrite Z.mul_1_r in *. apply wrap_int_small. unfold INT_MAX in *; lia. }
  unfold PGD.DrawIcon. rewrite Hs. cbv beta iota delta [LCDSTATE_eqb].
  assert (Hmain : forall dsize : Z, exists r s' w',
    (if negb (dsize =? datalen)
     then Some (-1, PGD.ERRMSG "DrawIcon" "invalid data length for color mode" s, w)
     else if (dsize <? 0) || (INT_MAX - 10 <? dsize) then None
     else
       let cmd :=
         [ch "I"%char; Z.land (Z.shiftr x 8) 255; Z.land x 255;
          Z.land (Z.shiftr y 8) 255; Z.land y 255;
          Z.land (Z.shiftr width 8) 255; Z.land width 255;
          Z.land (Z.shiftr height 8) 255; Z.land height 255; colormode]
         ++ firstn (Z.to_nat datalen) data in
       let dsize0 := dsize + 10 in
       let '(res, p, w0) := COMPORT.Write (PGD.port s) w cmd dsize0 in
       let s0 := PGD.set_port p s in
       Some (if negb (res =? dsize0) then (res, s0, w0) else PGD.waitACKNACK 400 s0 w0))
    = Some (r, s', w')
    /\ (dsize <> datalen -> refused s w r s' w')
    /\ (dsize = datalen ->
        (sent w' = sent w ++ frame /\ ack_code r)
        \/ (exists n, 0 <= n < Z.of_nat (List.length frame)
              /\ sent w' = sent w ++ firstn (Z.to_nat n) frame
              /\ (r = n \/ (r = -1 /\ n = 0))))).
  { intros dsize.
    destruct (Z.eqb_spec dsize datalen) as [Hd|Hd]; simpl negb; cbv iota.
    2:{ eexists _, _, _. split; [reflexivity|].
        split; [intros _; eapply refused_intro; eauto|contradiction]. }
    destruct (Z.ltb_spec dsize 0) as [|_]; [lia|].
    destruct (Z.ltb_spec (INT_MAX - 10) dsize) as [|_]; [lia|]. cbn [orb].
    cbv zeta. rewrite Hd.
    change ([ch "I"%char; Z.land (Z.shiftr x 8) 255; Z.land x 255;
             Z.land (Z.shiftr y 8) 255; Z.land y 255;
             Z.land (Z.shiftr width 8) 255; Z.land width 255;
             Z.land (Z.shiftr height 8) 255; Z.land height 255; colormode]
            ++ firstn (Z.to_nat datalen) data) with frame.
    assert (Hfl : Z.of_nat (List.length frame) = datalen + 10)
      by (unfold frame, icon_frame; simpl; rewrite length_firstn; lia).
    destruct (COMPORT.Write (PGD.port s) w frame (datalen + 10)) as [[res p] w1] eqn:Hwr.
    apply Write_count in Hwr. destruct Hwr as [_ Hwr].
    destruct (Z.eqb_spec res (datalen + 10)) as [Hres|Hres]; simpl negb; cbv iota.
    - destruct (PGD.waitACKNACK 400 (PGD.set_port p s) w1) as [[r s'] w'] eqn:Hw.
      exists r, s', w'. split; [reflexivity|].
      split; [contradiction|]. intros _. left.
      rewrite (sent_after_wait _ _ _ _ _ _ Hw).
      apply waitACKNACK_frame in Hw. destruct Hw as (_ & _ & Hr).
      split; [|exact Hr].
      destruct Hwr as [[Habs _]|[_ Hsent]]; [lia|].
      rewrite Hsent, Hres, firstn_all2 by lia. reflexivity.
    - eexists _, _, _. split; [reflexivity|]. split; [contradiction|]. intros _. right.
      destruct Hwr as [[-> Hsent]|[Hr Hsent]].
      + exists 0. split; [lia|]. split; [simpl; now rewrite app_nil_r|auto].
      + exists res. split; [lia|]. split; [exact Hsent|auto]. }
  unfold ok, icon_bytes.
  destruct (Z.eqb_spec colormode 8) as [H8|H8];
    destruct (Z.eqb_spec colormode 16) as [H16|H16]; simpl negb; simpl andb; cbv iota;
    try lia.
  - cbv zeta.
    destruct (Hmain (wrap_int (width * height))) as (r & s' & w' & Hcall & Hr & Ha).
    exists r, s', w'. split; [exact Hcall|].
    split; [intros Hn; apply Hr; intros E; apply Hn; split; [auto|exact (eq_sym E)]|].
    intros [_ E]. apply Ha. exact (eq_sym E).
  - cbv zeta.
    destruct (Hmain (wrap_int (wrap_int (width * height) * 2)))
      as (r & s' & w' & Hcall & Hr & Ha).
    exists r, s', w'. split; [exact Hcall|].
    split; [intros Hn; apply Hr; intros E; apply Hn; split; [auto|exact (eq_sym E)]|].
    intros [_ E]. apply Ha. exact (eq_sym E).
  - eexists _, _, _. split; [reflexivity|].
    split; [intros _; eapply refused_intro; eauto|lia].
Qed.

Lemma DrawIcon_outcome_witness :
  let w := set_wr [WrAccept 2; WrFault] (Samples.world [RxData 900 [ACK]]) in
  let frame := icon_frame 1 2 2 2 0x08 [9; 9; 9; 9] in
  PGD.state Samples.idle = LCD_IDLE
  /\ icon_bytes 2 2 0x08 = 4
  /\ exists s' w',
       PGD.DrawIcon 1 2 2 2 0x08 [9; 9; 9; 9] 4 Samples.idle w = Some (2, s', w')
       /\ ((sent w' = sent w ++ frame /\ ack_code 2)
           \/ (exists n, 0 <= n < Z.of_nat (List.length frame)
                 /\ sent w' = sent w ++ firstn (Z.to_nat n) frame
                 /\ (2 = n \/ (2 = -1 /\ n = 0)))).
Proof.
  intros w frame.
  assert (H1 : PGD.state Samples.idle = LCD_IDLE) by reflexivity.
  assert (H2 : 0 <= 4 <= Z.of_nat (List.length [9; 9; 9; 9])) by (simpl; lia).
  assert (H3 : 0 <= 2 < 65536) by lia.
  assert (H4 : 4 <= INT_MAX - 10) by (unfold INT_MAX; lia).
  assert (Hok : (0x08 = 0x08 \/ 0x08 = 0x10) /\ 4 = icon_bytes 2 2 0x08)
    by (split; [left|]; reflexivity).
  destruct (DrawIcon_outcome 1 2 2 2 0x08 [9; 9; 9; 9] 4 Samples.idle w H1 H3 H3 H2 H4)
    as (Hb & r & s' & w' & E & _ & Ha).
  assert (Hr : r = 2) by (vm_compute in E; congruence).
  subst r.
  split; [exact H1|]. split; [reflexivity|].
  exists s', w'. split; [exact E|]. exact (Ha Hok).
Defined.

(** The count wrapped: an icon of 65535 by 32769 pixels in mode 0x10
    has 4294901758 bytes, and DrawIcon asks for 65534. *)
Lemma icon_bytes_wraps : icon_bytes 65535 32769 0x10 = 65534.
Proof. reflexivity. Qed.

(** ** Pins and small settings *)

(** X25.  The general-purpose pins are 0..15.  WritePin refuses any other
    pin and any value but 0 and 1, ReadPin any other pin and a NULL
    status pointer: the result is -1 and nothing is touched.  An accepted
    WritePin sends 'y', pin, value.  On an open line that takes what it
    is handed, an accepted ReadPin sends 'i' and the pin, and when the
    device answers within the 100 ms of the read it returns 0 and stores
    the first byte of the answer; the bytes after it stay queued. *)
Theorem pin_io (pin : Z) (s : PGD.t) (w : World) :
  PGD.state s = LCD_IDLE ->
  (forall value r s' w', PGD.WritePin pin value s w = (r, s', w') ->
     (~ (0 <= pin <= 15 /\ (value = 0 \/ value = 1)) -> refused s w r s' w')
     /\ (0 <= pin <= 15 /\ (value = 0 \/ value = 1) ->
         sends [ch "y"%char; pin; value] s w r w'))
  /\ (forall status r v s' w', PGD.ReadPin pin status s w = (r, v, s', w') ->
      ~ (0 <= pin <= 15 /\ status <> None) -> v = None /\ refused s w r s' w')
  /\ (COMPORT.fd (PGD.port s) <> -1 -> wr w = [] -> 0 <= pin <= 15 ->
      forall sp dt b more rest, rx w = RxData dt (b :: more) :: rest ->
      Z.of_N dt < 100000 ->
      exists s' w',
        PGD.ReadPin pin (Some sp) s w = (0, Some b, s', w')
        /\ sent w' = sent w ++ [ch "i"%char; pin]
        /\ rx w' = rx_after 1 (b :: more) rest).
Proof.
  intros Hs. split; [|split].
  - intros value r s' w'. unfold PGD.WritePin. rewrite Hs.
    cbv beta iota delta [LCDSTATE_eqb].
    destruct (Z.ltb_spec pin 0) as [Hlo|Hlo]; simpl orb; cbv iota.
    { intros Hcall. split; [intros _; eapply refused_intro; eauto|lia]. }
    destruct (Z.ltb_spec 15 pin) as [Hhi|Hhi]; cbv iota.
    { intros Hcall. split; [intros _; eapply refused_intro; eauto|lia]. }
    destruct (Z.eqb_spec value 0) as [H0|H0]; destruct (Z.eqb_spec value 1) as [H1|H1];
      simpl negb; simpl andb; cbv iota;
      try (intros Hcall; split; [intros _; eapply refused_intro; exact Hcall|lia]).
    all: destruct (COMPORT.Flush (PGD.port s) w) as [[rf pf] wf] eqn:Hfl;
      apply Flush_spec in Hfl; destruct Hfl as [-> ->]; intros Hcall;
      apply (write_then_wait (PGD.set_port (PGD.port s) s) w _ 3 100) in Hcall;
      [|simpl; lia];
      split; [intros Hn; exfalso; apply Hn; lia|]; intros _; exact (proj1 Hcall).
  - intros status r v s' w' Hcall Hn. revert Hcall. unfold PGD.ReadPin. rewrite Hs.
    cbv beta iota delta [LCDSTATE_eqb].
    destruct (Z.ltb_spec pin 0) as [Hlo|Hlo]; simpl orb; cbv iota.
    { intros [= <- <- <- <-]. repeat split. }
    destruct (Z.ltb_spec 15 pin) as [Hhi|Hhi]; cbv iota.
    { intros [= <- <- <- <-]. repeat split. }
    destruct status as [sp|].
    { exfalso. apply Hn. split; [lia|discriminate]. }
    intros [= <- <- <- <-]. repeat split.
  - intros Hfd Hwr Hpin sp dt b more rest Hrx Hdt. unfold PGD.ReadPin. rewrite Hs.
    cbv beta iota delta [LCDSTATE_eqb].
    destruct (Z.ltb_spec pin 0) as [|_]; [lia|].
    destruct (Z.ltb_spec 15 pin) as [|_]; [lia|]. cbn [orb].
    destruct (COMPORT.Flush (PGD.port s) w) as [[rf pf] wf] eqn:Hfl.
    apply Flush_spec in Hfl. destruct Hfl as [-> ->].
    cbn [PGD.port PGD.set_port].
    rewrite (Write_ok (PGD.port s) w _ 2 Hfd Hwr) by (simpl; lia).
    cbn [negb Z.eqb Pos.eqb PGD.port PGD.set_port].
    rewrite (Read_chunk (PGD.port s) _ 1 100 dt (b :: more) rest Hfd)
      by (first [exact Hrx | lia | cbn [List.length]; lia]).
    change (firstn (Z.to_nat 1) (b :: more)) with [b].
    cbn [List.length Z.of_nat Pos.of_succ_nat Z.eqb Pos.eqb negb PGD.port PGD.set_port].
    eexists _, _. split; [reflexivity|]. split; [|reflexivity].
    unfold sent. simpl. rewrite tx_bytes_app. reflexivity.
Qed.

Lemma pin_io_witness :
  let w := Samples.world [RxData 700 [1]] in
  PGD.state Samples.idle = LCD_IDLE
  /\ PGD.ReadPin 7 (Some 8192) Samples.idle w
     = (0, Some 1, snd (fst (PGD.ReadPin 7 (Some 8192) Samples.idle w)),
        snd (PGD.ReadPin 7 (Some 8192) Samples.idle w)).
Proof.
  intros w.
  assert (H1 : PGD.state Samples.idle = LCD_IDLE) by reflexivity.
  assert (Hfd : COMPORT.fd (PGD.port Samples.idle) <> -1) by (vm_compute; discriminate).
  assert (Hwr : wr w = []) by reflexivity.
  assert (Hp : 0 <= 7 <= 15) by lia.
  assert (Hrx : rx w = RxData 700 (1 :: []) :: []) by reflexivity.
  assert (Hdt : Z.of_N 700 < 100000) by (simpl; lia).
  split; [exact H1|].
  destruct (proj2 (proj2 (pin_io 7 Samples.idle w H1)) Hfd Hwr Hp 8192 _ _ _ _ Hrx Hdt)
    as (s' & w' & E & _).
  rewrite E. reflexivity.
Defined.

(** X26.  PenSize and SetOpacity take 0 or 1, SetFont takes 0..3; any
    other value is refused with -1 and nothing is touched.  An accepted
    value is sent after the letter of the command: 'p', 'O' or 'F'. *)
Theorem small_settings (v : Z) (s : PGD.t) (w : World) :
  PGD.state s = LCD_IDLE ->
  (forall r s' w', PGD.PenSize v s w = (r, s', w') ->
     (~ (v = 0 \/ v = 1) -> refused s w r s' w')
     /\ (v = 0 \/ v = 1 -> sends [ch "p"%char; v] s w r w'))
  /\ (forall r s' w', PGD.SetOpacity v s w = (r, s', w') ->
     (~ (v = 0 \/ v = 1) -> refused s w r s' w')
     /\ (v = 0 \/ v = 1 -> sends [ch "O"%char; v] s w r w'))
  /\ (forall r s' w', PGD.SetFont v s w = (r, s', w') ->
     (~ 0 <= v <= 3 -> refused s w r s' w')
     /\ (0 <= v <= 3 -> sends [ch "F"%char; v] s w r w')).
Proof.
  intros Hs. split; [|split].
  - intros r s' w'. unfold PGD.PenSize. rewrite Hs. cbv beta iota delta [LCDSTATE_eqb].
    destruct (Z.eqb_spec v 0) as [H0|H0]; destruct (Z.eqb_spec v 1) as [H1|H1];
      simpl negb; simpl andb; cbv iota;
      try (intros Hcall; split; [intros _; eapply refused_intro; exact Hcall|lia]).
    all: destruct (COMPORT.Flush (PGD.port s) w) as [[rf pf] wf] eqn:Hfl;
      apply Flush_spec in Hfl; destruct Hfl as [-> ->]; intros Hcall;
      apply (write_then_wait (PGD.set_port (PGD.port s) s) w _ 2 100) in Hcall;
      [|simpl; lia];
      split; [intros Hn; exfalso; apply Hn; lia|]; intros _; subst v;
      exact (proj1 Hcall).
  - intros r s' w'. unfold PGD.SetOpacity. rewrite Hs. cbv beta iota delta [LCDSTATE_eqb].
    destruct (Z.eqb_spec v 0) as [H0|H0]; destruct (Z.eqb_spec v 1) as [H1|H1];
      simpl negb; simpl andb; cbv iota;
      try (intros Hcall; split; [intros _; eapply refused_intro; exact Hcall|lia]).
    all: destruct (COMPORT.Flush (PGD.port s) w) as [[rf pf] wf] eqn:Hfl;
      apply Flush_spec in Hfl; destruct Hfl as [-> ->]; intros Hcall;
      apply (write_then_wait (PGD.set_port (PGD.port s) s) w _ 2 100) in Hcall;
      [|simpl; lia];
      split; [intros Hn; exfalso; apply Hn; lia|]; intros _; subst v;
      exact (proj1 Hcall).
  - intros r s' w'. unfold PGD.SetFont. rewrite Hs. cbv beta iota delta [LCDSTATE_eqb].
    destruct (Z.ltb_spec v 0) as [Hlo|Hlo]; simpl orb; cbv iota.
    { intros Hcall. split; [intros _; eapply refused_intro; eauto|lia]. }
    destruct (Z.ltb_spec 3 v) as [Hhi|Hhi]; cbv iota.
    { intros Hcall. split; [intros _; eapply refused_intro; eauto|lia]. }
    destruct (COMPORT.Flush (PGD.port s) w) as [[rf pf] wf] eqn:Hfl.
    apply Flush_spec in Hfl. destruct Hfl as [-> ->]. intros Hcall.
    apply (write_then_wait (PGD.set_port (PGD.port s) s) w _ 2 100) in Hcall;
      [|simpl; lia].
    split; [intros Hn; exfalso; apply Hn; lia|]. intros _. exact (proj1 Hcall).
Qed.

Lemma small_settings_witness :
  let w := Samples.world [RxData 900 [ACK]] in
  PGD.state Samples.idle = LCD_IDLE
  /\ sends [ch "F"%char; 3] Samples.idle w 0 (snd (PGD.SetFont 3 Samples.idle w)).
Proof.
  intros w.
  assert (H1 : PGD.state Samples.idle = LCD_IDLE) by reflexivity.
  assert (Hv : 0 <= 3 <= 3) by lia.
  assert (E : PGD.SetFont 3 Samples.idle w
              = (0, snd (fst (PGD.SetFont 3 Samples.idle w)),
                 snd (PGD.SetFont 3 Samples.idle w)))
    by (vm_compute; reflexivity).
  split; [exact H1|].
  destruct (small_settings 3 Samples.idle w H1) as (_ & _ & H).
  exact (proj2 (H _ _ _ E) Hv).
Defined.
